(** * Task manager: the record store, the task lifecycle and the reports

    A shallow embedding of [task_manager.py].  The program keeps its users
    and its tasks in two text files, one record per line, the fields
    separated by a comma and a space.  Every operation reads a whole file,
    works on the list of records and, for a change, writes the whole file
    back.

    The embedding follows the source function by function:
    - Python strings are [string]; a character is one of the 256 code points
      of Latin-1;
    - a text file is the list of the lines its iterator yields, and an
      absent file is [None];
    - a task is the 7-tuple of strings the source builds with [tuple];
    - [input], [print], the log, the backup copy and the file writes are the
      operations of a small state-and-exception monad over a [world].

    What the embedding leaves out: a file can be absent and a backup copy
    can fail, but no other input or output error is modelled; the lines a
    rewrite of a file writes are taken to hold no line break of their own
    (a carriage return typed as the new user of an edit would cut its line
    in two), while a text appended to a file is cut into the lines it is
    read back as; where exactly the call that exceeds the recursion limit
    fails depends on the interpreter, and the room for nested calls is a
    component of the world; [display_statistics], which prints the two
    report files back, is a parameter of [main]; the layout of the report
    files and their percentages, [validate_role] and [display_menu], which
    nothing calls, are not embedded. *)

From Stdlib Require Import String Ascii List ZArith Bool Lia.
Import ListNotations.
Open Scope string_scope.
Open Scope Z_scope.

Set Implicit Arguments.

(** ** Python string primitives *)

Module PyStr.

(** [str.isspace] on one character: the code points below 256 that Python
    counts as white space. *)
Definition is_space (c : ascii) : bool :=
  let n := nat_of_ascii c in
  ((9 <=? n) && (n <=? 13))%nat || ((28 <=? n) && (n <=? 32))%nat
  || (n =? 133)%nat || (n =? 160)%nat.

Fixpoint lstrip (s : string) : string :=
  match s with
  | EmptyString => EmptyString
  | String c r => if is_space c then lstrip r else s
  end.

Fixpoint rstrip (s : string) : string :=
  match s with
  | EmptyString => EmptyString
  | String c r =>
      match rstrip r with
      | EmptyString => if is_space c then EmptyString else String c EmptyString
      | r' => String c r'
      end
  end.

(** [s.strip()] *)
Definition strip (s : string) : string := rstrip (lstrip s).

(** [s.split(", ")]: the text is cut at every occurrence of the two
    characters comma, space, scanning from the left; the result always has
    at least one field. *)
Fixpoint split_comma_space (s : string) : list string :=
  match s with
  | EmptyString => [EmptyString]
  | String "," (String " " r) => EmptyString :: split_comma_space r
  | String c r =>
      match split_comma_space r with
      | f :: fs => String c f :: fs
      | [] => [String c EmptyString]
      end
  end.

(** [", ".join(fields)] *)
Fixpoint join_comma_space (fields : list string) : string :=
  match fields with
  | [] => EmptyString
  | [f] => f
  | f :: fs => f ++ ", " ++ join_comma_space fs
  end.

(** [str.lower] and [str.upper] on one character.  The upper case of the
    sharp s (code point 223) is two letters; the upper case of the micro
    sign (181) and of the y with diaeresis (255) has no code point in
    Latin-1 and stands here as the two bytes of its UTF-8 form. *)
Definition lower_char (c : ascii) : ascii :=
  let n := nat_of_ascii c in
  if ((65 <=? n) && (n <=? 90))%nat
     || ((192 <=? n) && (n <=? 222) && negb (n =? 215))%nat
  then ascii_of_nat (n + 32) else c.

Definition upper_char (c : ascii) : string :=
  let n := nat_of_ascii c in
  if ((97 <=? n) && (n <=? 122))%nat
     || ((224 <=? n) && (n <=? 254) && negb (n =? 247))%nat
  then String (ascii_of_nat (n - 32)) EmptyString
  else if (n =? 223)%nat then "SS"
  else if (n =? 181)%nat
  then String (ascii_of_nat 206) (String (ascii_of_nat 156) EmptyString)
  else if (n =? 255)%nat
  then String (ascii_of_nat 197) (String (ascii_of_nat 184) EmptyString)
  else String c EmptyString.

Fixpoint lower (s : string) : string :=
  match s with
  | EmptyString => EmptyString
  | String c r => String (lower_char c) (lower r)
  end.

Fixpoint upper (s : string) : string :=
  match s with
  | EmptyString => EmptyString
  | String c r => upper_char c ++ upper r
  end.

Definition digit_value (c : ascii) : option Z :=
  let n := nat_of_ascii c in
  if ((48 <=? n) && (n <=? 57))%nat then Some (Z.of_nat (n - 48)) else None.

(** The digits of a decimal literal as [int] reads them: groups of digits
    separated by single underscores.  [seen] tells whether the previous
    character was a digit. *)
Fixpoint int_digits (s : string) (acc : Z) (seen : bool) : option Z :=
  match s with
  | EmptyString => if seen then Some acc else None
  | String c r =>
      match digit_value c with
      | Some d => int_digits r (10 * acc + d) true
      | None =>
          if (Ascii.eqb c "_" && seen)%bool then int_digits r acc false
          else None
      end
  end.

(** The white space [int] drops around a literal: in a text of Latin-1 it
    is the white space of [str.strip] without the four separators U+001C to
    U+001F. *)
Definition is_int_space (c : ascii) : bool :=
  let n := nat_of_ascii c in
  ((9 <=? n) && (n <=? 13))%nat || (n =? 32)%nat || (n =? 133)%nat
  || (n =? 160)%nat.

Fixpoint int_lstrip (s : string) : string :=
  match s with
  | EmptyString => EmptyString
  | String c r => if is_int_space c then int_lstrip r else s
  end.

Fixpoint int_rstrip (s : string) : string :=
  match s with
  | EmptyString => EmptyString
  | String c r =>
      match int_rstrip r with
      | EmptyString => if is_int_space c then EmptyString else String c EmptyString
      | r' => String c r'
      end
  end.

(** The interpreter's cap on the digits of a decimal literal and of the
    text of an integer: [sys.get_int_max_str_digits()], which is 4300 unless
    it is set otherwise. *)
Definition max_str_digits : Z := 4300.

(** The number of decimal digits in a text. *)
Fixpoint count_digits (s : string) : Z :=
  match s with
  | EmptyString => 0
  | String c r =>
      match digit_value c with
      | Some _ => 1 + count_digits r
      | None => count_digits r
      end
  end.

(** A literal without its sign: more than [max_str_digits] digits are
    refused, whether the literal is well formed or not. *)
Definition int_literal (r : string) : option Z :=
  if max_str_digits <? count_digits r then None else int_digits r 0 false.

(** [int(s)]: white space around the literal is dropped, one sign is
    allowed; [None] stands for [ValueError]. *)
Definition int (s : string) : option Z :=
  match int_rstrip (int_lstrip s) with
  | String "+" r => int_literal r
  | String "-" r => option_map Z.opp (int_literal r)
  | r => int_literal r
  end.

(** The decimal digits of an integer, after its sign. *)
Definition digit_char (d : Z) : ascii := ascii_of_nat (48 + Z.to_nat d).

Fixpoint str_pos (fuel : nat) (n : Z) (acc : string) : string :=
  match fuel with
  | O => acc
  | S k =>
      let acc' := String (digit_char (n mod 10)) acc in
      if n <? 10 then acc' else str_pos k (n / 10) acc'
  end.

Definition str_of_int (n : Z) : string :=
  if n <? 0 then String "-" (str_pos (S (Z.to_nat (Z.log2 (- n)))) (- n) EmptyString)
  else str_pos (S (Z.to_nat (Z.log2 n))) n EmptyString.

(** [str(n)] and [f"{n}"] for an integer: [None] stands for the [ValueError]
    of an integer of more than [max_str_digits] digits. *)
Definition str (n : Z) : option string :=
  if max_str_digits <? count_digits (str_of_int n) then None
  else Some (str_of_int n).

(** [s * n]: the text [s] repeated. *)
Fixpoint repeat_str (s : string) (n : nat) : string :=
  match n with
  | O => EmptyString
  | S k => s ++ repeat_str s k
  end.

End PyStr.


(** ** Calendar dates: [datetime.strptime(s, "%Y-%m-%d").date()] *)

Module PyDate.

Record date := Date { year : Z; month : Z; day : Z }.

(** [a < b] on dates. *)
Definition ltb (a b : date) : bool :=
  (year a <? year b)
  || ((year a =? year b)
      && ((month a <? month b)
          || ((month a =? month b) && (day a <? day b)))).

Definition is_leap (y : Z) : bool :=
  ((y mod 4 =? 0) && negb (y mod 100 =? 0)) || (y mod 400 =? 0).

Definition days_in_month (y m : Z) : Z :=
  if m =? 2 then (if is_leap y then 29 else 28)
  else if (m =? 4) || (m =? 6) || (m =? 9) || (m =? 11) then 30
  else 31.

(** The directive [%m]: [1[0-2]|0[1-9]|[1-9]]. *)
Definition month_token (s : string) : option Z :=
  match s with
  | String a (String b EmptyString) =>
      match PyStr.digit_value a, PyStr.digit_value b with
      | Some 1, Some d => if d <=? 2 then Some (10 + d) else None
      | Some 0, Some d => if 1 <=? d then Some d else None
      | _, _ => None
      end
  | String a EmptyString =>
      match PyStr.digit_value a with
      | Some d => if 1 <=? d then Some d else None
      | None => None
      end
  | _ => None
  end.

(** The directive [%d]: [3[0-1]|[1-2]\d|0[1-9]|[1-9]| [1-9]]. *)
Definition day_token (s : string) : option Z :=
  match s with
  | String a (String b EmptyString) =>
      match PyStr.digit_value a, PyStr.digit_value b with
      | Some 3, Some d => if d <=? 1 then Some (30 + d) else None
      | Some 0, Some d => if 1 <=? d then Some d else None
      | Some t, Some d => if t <=? 2 then Some (10 * t + d) else None
      | None, Some d =>
          if (Ascii.eqb a " " && (1 <=? d))%bool then Some d else None
      | _, None => None
      end
  | String a EmptyString =>
      match PyStr.digit_value a with
      | Some d => if 1 <=? d then Some d else None
      | None => None
      end
  | _ => None
  end.

(** The text up to the first dash, and the text after it. *)
Fixpoint cut_dash (s : string) : option (string * string) :=
  match s with
  | EmptyString => None
  | String "-" r => Some (EmptyString, r)
  | String c r =>
      match cut_dash r with
      | Some (a, b) => Some (String c a, b)
      | None => None
      end
  end.

(** [datetime.strptime(s, "%Y-%m-%d").date()]; [None] stands for
    [ValueError]: four digits, a dash, a month, a dash, a day, nothing
    else, and the day must exist in that month of that year. *)
Definition strptime (s : string) : option date :=
  match s with
  | String y1 (String y2 (String y3 (String y4 (String "-" rest)))) =>
      match PyStr.digit_value y1, PyStr.digit_value y2,
            PyStr.digit_value y3, PyStr.digit_value y4, cut_dash rest with
      | Some a, Some b, Some c, Some d, Some (ms, ds) =>
          let y := 1000 * a + 100 * b + 10 * c + d in
          match month_token ms, day_token ds with
          | Some m, Some dd =>
              if (1 <=? y) && (dd <=? days_in_month y m)
              then Some (Date y m dd) else None
          | _, _ => None
          end
      | _, _, _, _, _ => None
      end
  | _ => None
  end.

(** [n] written with at least [width] digits, as [%Y], [%m] and [%d] of
    [strftime] write the parts of a date. *)
Definition zero_pad (width : nat) (n : Z) : string :=
  let digits := PyStr.str_of_int n in
  PyStr.repeat_str "0" (width - String.length digits) ++ digits.

(** [d.strftime("%Y-%m-%d")], for a year of four digits. *)
Definition strftime (d : date) : string :=
  zero_pad 4 (year d) ++ "-" ++ zero_pad 2 (month d) ++ "-" ++ zero_pad 2 (day d).

End PyDate.


Definition nl : string := String (ascii_of_nat 10) EmptyString.

(** ** Text files *)

(** The lines a text file yields when it is read: a line ends with a line
    feed; a carriage return, alone or before a line feed, is read as a line
    feed; the last line may lack one. *)
Fixpoint text_lines (s : string) : list string :=
  match s with
  | EmptyString => []
  | String c r =>
      if Ascii.eqb c (ascii_of_nat 10) then nl :: text_lines r
      else if Ascii.eqb c (ascii_of_nat 13) then
        match r with
        | String d r' =>
            if Ascii.eqb d (ascii_of_nat 10) then nl :: text_lines r'
            else nl :: text_lines r
        | EmptyString => [nl]
        end
      else
        match text_lines r with
        | [] => [String c EmptyString]
        | l :: ls => String c l :: ls
        end
  end.

(** Whether a line ends with a line feed. *)
Fixpoint ends_with_nl (s : string) : bool :=
  match s with
  | EmptyString => false
  | String c EmptyString => Ascii.eqb c (ascii_of_nat 10)
  | String _ r => ends_with_nl r
  end.

(** The lines of a file after [text] has been written at its end: the text
    goes after the last character, so it continues a last line that has no
    line feed. *)
Fixpoint after_append (old : list string) (text : string) : list string :=
  match old with
  | [] => text_lines text
  | [last] =>
      if ends_with_nl last then last :: text_lines text
      else text_lines (last ++ text)
  | line :: rest => line :: after_append rest text
  end.

(** ** The world the program runs in *)

(** The two record files. *)
Inductive datafile := USER_FILE | TASK_FILE.

(** The exceptions the source raises or catches.  [RecursionError] is
    raised by the interpreter when calls are nested too deep, [SystemExit]
    by [exit()]. *)
Inductive exn :=
| FileNotFoundError | ValueError | EOFError | TypeError | RecursionError
| SystemExit.

Inductive level := INFO | WARNING | ERROR.

(** A task as [read_all_tasks] returns it: the 7-tuple
    [(task_id, username, title, description, due_date, assigned_date,
    complete)], every component a string. *)
Record task := Task {
  task_id : string;
  username : string;
  title : string;
  description : string;
  due_date : string;
  assigned_date : string;
  complete : string
}.

(** The numbers [generate_reports] writes to the task overview. *)
Record task_overview := TaskOverview {
  total_tasks : nat;
  completed_tasks : nat;
  incomplete_tasks : nat;
  overdue_tasks : nat
}.

(** The numbers [generate_reports] writes for one user. *)
Record user_stats := UserStats {
  stats_user : string;
  user_task_count : nat;
  user_completed : nat;
  user_incomplete : nat;
  user_overdue : nat
}.

(** What the program does to its surroundings, in the order it does it.
    [Header t] is a call of [print_header]; [Ask p] is the prompt of an
    [input]; [PrintError] and [LogError] carry the exception whose text
    [handle_file_error] prints and logs; [Backup f ok] is a call of
    [backup_file] and tells whether the copy was made; [Wrote f] is a
    rewrite of a record file and [Appended f] an append to it. *)
Inductive event :=
| Header (title : string)
| Print (text : string)
| Ask (prompt : string)
| PrintError (operation : string) (e : exn)
| Log (l : level) (msg : string)
| LogError (operation : string) (e : exn)
| Backup (f : datafile) (ok : bool)
| Wrote (f : datafile)
| Appended (f : datafile)
| WroteTaskOverview
| WroteUserOverview.

(** The surroundings of a run: the two record files, each as the list of
    the lines its iterator yields, or [None] when it is absent; the two
    reports; the snapshots made; whether a copy succeeds; the date; the
    lines still to be typed; what has happened so far; and the number of
    calls of [get_valid_task_number] that can still be nested inside the
    first one before the interpreter's recursion limit is reached (about 990
    with the default limit of 1000 frames: it depends on the interpreter and
    on how the program was started). *)
Record world := World {
  user_txt : option (list string);
  task_txt : option (list string);
  task_overview_txt : option task_overview;
  user_overview_txt : option (list user_stats);
  backups : list (datafile * list string);
  copy_ok : bool;
  today : PyDate.date;
  stdin : list string;
  trace : list event;
  recursion_room : nat
}.

Definition file_of (f : datafile) (w : world) : option (list string) :=
  match f with
  | USER_FILE => user_txt w
  | TASK_FILE => task_txt w
  end.

Definition set_file (f : datafile) (content : list string) (w : world) : world :=
  match f with
  | USER_FILE =>
      World (Some content) (task_txt w) (task_overview_txt w)
        (user_overview_txt w) (backups w) (copy_ok w) (today w) (stdin w)
        (trace w) (recursion_room w)
  | TASK_FILE =>
      World (user_txt w) (Some content) (task_overview_txt w)
        (user_overview_txt w) (backups w) (copy_ok w) (today w) (stdin w)
        (trace w) (recursion_room w)
  end.

Definition set_task_overview (r : task_overview) (w : world) : world :=
  World (user_txt w) (task_txt w) (Some r) (user_overview_txt w) (backups w)
    (copy_ok w) (today w) (stdin w) (trace w) (recursion_room w).

Definition set_user_overview (r : list user_stats) (w : world) : world :=
  World (user_txt w) (task_txt w) (task_overview_txt w) (Some r) (backups w)
    (copy_ok w) (today w) (stdin w) (trace w) (recursion_room w).

Definition add_backup (f : datafile) (content : list string) (w : world) : world :=
  World (user_txt w) (task_txt w) (task_overview_txt w) (user_overview_txt w)
    (backups w ++ [(f, content)]) (copy_ok w) (today w) (stdin w) (trace w)
    (recursion_room w).

Definition set_stdin (i : list string) (w : world) : world :=
  World (user_txt w) (task_txt w) (task_overview_txt w) (user_overview_txt w)
    (backups w) (copy_ok w) (today w) i (trace w) (recursion_room w).

Definition add_event (e : event) (w : world) : world :=
  World (user_txt w) (task_txt w) (task_overview_txt w) (user_overview_txt w)
    (backups w) (copy_ok w) (today w) (stdin w) (trace w ++ [e])
    (recursion_room w).

(** ** The monad: a state over [world] with exceptions *)

Inductive outcome (A : Type) :=
| Ok (a : A)
| Raise (e : exn).
Arguments Ok {A} a.
Arguments Raise {A} e.

Definition M (A : Type) : Type := world -> outcome A * world.

Definition ret {A} (a : A) : M A := fun w => (Ok a, w).

Definition bind {A B} (m : M A) (k : A -> M B) : M B :=
  fun w =>
    match m w with
    | (Ok a, w') => k a w'
    | (Raise e, w') => (Raise e, w')
    end.

Definition raise {A} (e : exn) : M A := fun w => (Raise e, w).

(** [try: m except ...]: the handler picks the exceptions it catches. *)
Definition try_except {A} (m : M A) (handler : exn -> option (M A)) : M A :=
  fun w =>
    match m w with
    | (Ok a, w') => (Ok a, w')
    | (Raise e, w') =>
        match handler e with
        | Some h => h w'
        | None => (Raise e, w')
        end
    end.

Declare Scope monad_scope.
Delimit Scope monad_scope with monad.
Notation "x <- m ;; k" := (bind m (fun x => k))
  (at level 61, m at next level, right associativity) : monad_scope.
Notation "m ;; k" := (bind m (fun _ => k))
  (at level 61, right associativity) : monad_scope.
Open Scope monad_scope.

Definition emit (e : event) : M unit := fun w => (Ok tt, add_event e w).

Definition print_header (t : string) : M unit := emit (Header t).
Definition print (text : string) : M unit := emit (Print text).
Definition logging (l : level) (msg : string) : M unit := emit (Log l msg).

(** [input(prompt)]: the next line of the standard input, [EOFError] when
    there is none. *)
Definition input (prompt : string) : M string :=
  fun w =>
    match stdin w with
    | [] => (Raise EOFError, add_event (Ask prompt) w)
    | x :: rest => (Ok x, set_stdin rest (add_event (Ask prompt) w))
    end.

(** [datetime.now().date()] *)
Definition now_date : M PyDate.date := fun w => (Ok (today w), w).

(** [open(f, "r")] read to its end: the lines, or [FileNotFoundError]. *)
Definition read_lines (f : datafile) : M (list string) :=
  fun w =>
    match file_of f w with
    | Some content => (Ok content, w)
    | None => (Raise FileNotFoundError, w)
    end.

(** [open(f, "w")] followed by the writes of [content]. *)
Definition write_lines (f : datafile) (content : list string) : M unit :=
  fun w => (Ok tt, add_event (Wrote f) (set_file f content w)).

(** [open(f, "a")] followed by the write of [text]: an absent file is
    created, and the text goes after the last character of the file.  (The
    texts the program appends begin with an id or a name, never with a line
    feed.) *)
Definition append_line (f : datafile) (text : string) : M unit :=
  fun w =>
    let old := match file_of f w with Some c => c | None => [] end in
    (Ok tt, add_event (Appended f) (set_file f (after_append old text) w)).

(** [for x in l: s = body(x, s)] *)
Fixpoint for_each {A St} (l : list A) (body : A -> St -> M St) (s : St) : M St :=
  match l with
  | [] => ret s
  | x :: r => s' <- body x s;; for_each r body s'
  end.

(** [while True:] over a body that either goes round again with a new
    state or leaves with a result.  Every loop of the source asks for a line
    of input on each round, so a loop started with more fuel than there are
    lines left ends by itself or by [EOFError]; see [while_true_fuel]. *)
Fixpoint while_fuel {St A} (fuel : nat) (body : St -> M (St + A)) (s : St) : M A :=
  match fuel with
  | O => raise EOFError
  | S k =>
      r <- body s;;
      match r with
      | inl s' => while_fuel k body s'
      | inr a => ret a
      end
  end.

Definition while_true {St A} (body : St -> M (St + A)) (s : St) : M A :=
  fun w => while_fuel (S (length (stdin w))) body s w.

(** ** The program *)

(** [f"{s:<n}"] *)
Definition ljust (s : string) (n : nat) : string :=
  s ++ PyStr.repeat_str " " (n - String.length s).

(** *** The [User] class *)

Record User := mkUser {
  User_username : string;
  User_password : string;
  User_role : string
}.

(** [User.__str__] *)
Definition User_str (u : User) : string :=
  User_username u ++ ", " ++ User_password u ++ ", " ++ User_role u.

(** *** Validation *)

Definition validate_non_empty (input_string field_name : string) : bool * string :=
  if (input_string =? "")%string || (PyStr.strip input_string =? "")%string
  then (false, field_name ++ " cannot be empty.")
  else (true, "").

Definition validate_date_format (date_string : string) : bool * string :=
  if (date_string =? "")%string then (false, "Date cannot be empty.")
  else
    match PyDate.strptime date_string with
    | Some _ => (true, "")
    | None => (false, "Invalid date format. Please use YYYY-MM-DD.")
    end.

Definition validate_due_date (date_string : string) : M (bool * string) :=
  let '(is_valid, error_msg) := validate_date_format date_string in
  if negb is_valid then ret (false, error_msg)
  else
    match PyDate.strptime date_string with
    | Some due =>
        current <- now_date;;
        if PyDate.ltb due current
        then ret (false, "Due date cannot be in the past.")
        else ret (true, "")
    | None => ret (false, "Invalid date format. Please use YYYY-MM-DD.")
    end.

(** [get_validated_input(prompt, validator_func, field_name)].  The
    validator comes already applied to its field name when it takes one. *)
Definition get_validated_input_round (prompt : string)
    (validator_func : string -> M (bool * string)) (_ : unit) : M (unit + string) :=
  raw <- input prompt;;
  let user_input := PyStr.strip raw in
  v <- validator_func user_input;;
  let '(is_valid, error_msg) := v in
  if negb is_valid
  then print ("Error: " ++ error_msg);; ret (inl tt)
  else ret (inr user_input).

Definition get_validated_input (prompt : string)
    (validator_func : string -> M (bool * string)) : M string :=
  while_true (get_validated_input_round prompt validator_func) tt.

(** The validators as [get_validated_input] calls them. *)
Definition non_empty (field_name : string) : string -> M (bool * string) :=
  fun x => ret (validate_non_empty x field_name).

Definition date_format : string -> M (bool * string) :=
  fun x => ret (validate_date_format x).

(** *** Helpers *)

Definition handle_file_error (operation : string) (error : exn) : M unit :=
  print_header "ERROR";;
  emit (PrintError operation error);;
  print "";;
  emit (LogError operation error).

(** [except FileNotFoundError: h] *)
Definition on_FileNotFoundError {A} (h : M A) : exn -> option (M A) :=
  fun e => match e with FileNotFoundError => Some h | _ => None end.

(** [except IOError as e: h(e)]; of the exceptions of this model only
    [FileNotFoundError] is an [IOError]. *)
Definition on_IOError {A} (h : exn -> M A) : exn -> option (M A) :=
  fun e => match e with FileNotFoundError => Some (h e) | _ => None end.

(** [except Exception as e: h(e)]; [SystemExit] is no [Exception]. *)
Definition on_Exception {A} (h : exn -> M A) : exn -> option (M A) :=
  fun e => match e with SystemExit => None | _ => Some (h e) end.

Fixpoint user_exists_scan (lines : list string) (username : string) : bool :=
  match lines with
  | [] => false
  | line :: rest =>
      let existing_user := hd "" (PyStr.split_comma_space (PyStr.strip line)) in
      if (existing_user =? username)%string then true
      else user_exists_scan rest username
  end.

Definition user_exists (username : string) : M bool :=
  try_except
    (lines <- read_lines USER_FILE;; ret (user_exists_scan lines username))
    (on_FileNotFoundError (ret false)).

(** [backup_file(filename)]: the copy fails when the file is absent or when
    the surroundings refuse it ([copy_ok] is false); the failure is logged
    and [False] is returned.  The name of the snapshot and the two log lines
    that carry it are left out. *)
Definition backup_file (filename : datafile) : M bool :=
  fun w =>
    match file_of filename w with
    | Some content =>
        if copy_ok w
        then (Ok true, add_event (Backup filename true) (add_backup filename content w))
        else (Ok false, add_event (Backup filename false) w)
    | None => (Ok false, add_event (Backup filename false) w)
    end.

(** *** Login *)

(** The loop of [login_user] over the lines of the user file: the first
    record of three fields whose name and password are both equal to the
    ones typed. *)
Fixpoint login_scan (lines : list string) (username password : string) : option User :=
  match lines with
  | [] => None
  | line :: rest =>
      match PyStr.split_comma_space (PyStr.strip line) with
      | [file_username; file_password; role] =>
          if ((file_username =? username) && (file_password =? password))%string
          then Some (mkUser file_username file_password role)
          else login_scan rest username password
      | _ => login_scan rest username password
      end
  end.

Definition login_user : M (option User) :=
  print_header "USER LOGIN";;
  raw <- input "Enter your username: ";;
  let username := PyStr.strip raw in
  password <- input "Enter your password: ";;
  try_except
    (lines <- read_lines USER_FILE;;
     match login_scan lines username password with
     | Some user =>
         print_header "SUCCESS";;
         print ("  Welcome, " ++ User_username user ++ "!");;
         print ("  Role: " ++ User_role user);;
         print "";;
         logging INFO ("User " ++ username ++ " logged in successfully");;
         ret (Some user)
     | None =>
         print_header "ERROR";;
         print "  Invalid username or password. Please try again.";;
         print "";;
         logging WARNING ("Failed login attempt for username: " ++ username);;
         ret None
     end)
    (on_FileNotFoundError
       (print_header "ERROR";;
        print "  No users found. Please register first.";;
        print "";;
        ret None)).

(** *** Reading and writing the task file *)

(** [tuple(task_data)] for a list of 7 fields. *)
Definition tuple7 (task_data : list string) : option task :=
  match task_data with
  | [a; b; c; d; e; f; g] => Some (Task a b c d e f g)
  | _ => None
  end.

Definition fields (t : task) : list string :=
  [task_id t; username t; title t; description t; due_date t;
   assigned_date t; complete t].

(** The loop of [get_next_task_id]. *)
Fixpoint max_id_scan (lines : list string) (max_id : Z) : Z :=
  match lines with
  | [] => max_id
  | line :: rest =>
      let task_data := PyStr.split_comma_space (PyStr.strip line) in
      if (length task_data =? 7)%nat then
        match PyStr.int (hd "" task_data) with
        | Some id => max_id_scan rest (Z.max max_id id)
        | None => max_id_scan rest max_id
        end
      else max_id_scan rest max_id
  end.

Definition get_next_task_id : M Z :=
  try_except
    (lines <- read_lines TASK_FILE;; ret (max_id_scan lines 0 + 1))
    (on_FileNotFoundError (ret 1)).

(** The loop of [read_all_tasks]: [tasks] is the list built so far. *)
Fixpoint read_tasks_loop (lines : list string) (tasks : list task) : list task :=
  match lines with
  | [] => tasks
  | line :: rest =>
      let task_data := PyStr.split_comma_space (PyStr.strip line) in
      match tuple7 task_data with
      | Some t => read_tasks_loop rest (tasks ++ [t])
      | None => read_tasks_loop rest tasks
      end
  end.

Definition read_all_tasks : M (list task) :=
  try_except
    (lines <- read_lines TASK_FILE;; ret (read_tasks_loop lines []))
    (on_FileNotFoundError (ret [])).

(** The line [write_all_tasks] writes for one task. *)
Definition task_line (t : task) : string :=
  PyStr.join_comma_space (fields t) ++ nl.

Definition write_all_tasks (tasks : list task) : M unit :=
  write_lines TASK_FILE (map task_line tasks).

Definition set_complete (t : task) (status : string) : task :=
  Task (task_id t) (username t) (title t) (description t) (due_date t)
    (assigned_date t) status.

(** *** Adding a task *)

Definition ask_task_username (_ : unit) : M (unit + string) :=
  name <- get_validated_input "Enter the username to assign the task to: "
            (non_empty "Username");;
  known <- user_exists name;;
  if negb known
  then print ("Error: User '" ++ name
              ++ "' does not exist. Please enter a valid username.");;
       ret (inl tt)
  else ret (inr name).

(** [f"{n}"] for an integer. *)
Definition format_int (n : Z) : M string :=
  match PyStr.str n with
  | Some text => ret text
  | None => raise ValueError
  end.

(** [add_task].  The text of the line is made after the file has been
    opened: when its id has too many digits, the [ValueError] leaves
    [add_task] with nothing written (the file is there then: the id of an
    absent file is 1).  The append does not fail here, so the
    [except IOError] of the source is never entered. *)
Definition add_task : M unit :=
  task_username <- while_true ask_task_username tt;;
  task_title <- get_validated_input "Enter the task title: "
                  (non_empty "Task title");;
  task_description <- get_validated_input "Enter the task description: "
                        (non_empty "Task description");;
  task_due_date <- get_validated_input "Enter the due date (YYYY-MM-DD): "
                     validate_due_date;;
  id <- get_next_task_id;;
  current <- now_date;;
  let current_date := PyDate.strftime current in
  let task_complete := "No" in
  id_text <- format_int id;;
  append_line TASK_FILE
    (id_text ++ ", " ++ task_username ++ ", " ++ task_title ++ ", "
     ++ task_description ++ ", " ++ task_due_date ++ ", " ++ current_date
     ++ ", " ++ task_complete ++ nl);;
  print_header "SUCCESS";;
  print ("  Task '" ++ task_title ++ "' successfully added!");;
  print ("  Task ID: " ++ id_text);;
  print ("  Assigned to: " ++ task_username);;
  print "";;
  logging INFO ("Task created - ID: " ++ id_text ++ ", Title: "
                ++ task_title ++ ", Assigned to: " ++ task_username).

(** *** Marking a task complete *)

(** The body of the loop of [update_task_complete]; the state is
    [(task_found, updated_tasks)]. *)
Definition mark_body (id : string) (t : task) (st : bool * list task)
    : M (bool * list task) :=
  let '(task_found, updated_tasks) := st in
  if (task_id t =? id)%string then
    print_header "SUCCESS";;
    print ("  Task ID " ++ id ++ " ('" ++ title t
           ++ "') has been marked as complete!");;
    print "";;
    logging INFO ("Task ID " ++ id ++ " marked as complete");;
    ret (true, (updated_tasks ++ [set_complete t "Yes"])%list)
  else ret (task_found, (updated_tasks ++ [t])%list).

Definition update_task_complete : M unit :=
  print_header "MARK TASK AS COMPLETE";;
  id <- get_validated_input "Enter the task ID to mark as complete: "
          (non_empty "Task ID");;
  try_except
    (tasks <- read_all_tasks;;
     r <- for_each tasks (mark_body id) (false, []);;
     let '(task_found, updated_tasks) := r in
     if task_found then write_all_tasks updated_tasks
     else
       print_header "ERROR";;
       print ("  Task ID '" ++ id ++ "' not found.");;
       print "")
    (on_IOError (handle_file_error "updating task")).

(** *** Resetting a task to incomplete *)

(** The body of the loop of [reset_task_incomplete]; the state is
    [(task_found, updated_tasks)]. *)
Definition reset_body (id : string) (t : task) (st : bool * list task)
    : M (bool * list task) :=
  let '(task_found, updated_tasks) := st in
  if (task_id t =? id)%string then
    if (PyStr.lower (PyStr.strip (complete t)) =? "yes")%string then
      print_header "SUCCESS";;
      print ("  Task ID " ++ id ++ " ('" ++ title t
             ++ "') has been reset to incomplete!");;
      print "";;
      logging INFO ("Task ID " ++ id ++ " reset to incomplete");;
      ret (true, (updated_tasks ++ [set_complete t "No"])%list)
    else
      print_header "INFO";;
      print ("  Task ID " ++ id ++ " ('" ++ title t
             ++ "') is already incomplete.");;
      print "";;
      ret (task_found, (updated_tasks ++ [t])%list)
  else ret (task_found, (updated_tasks ++ [t])%list).

Definition reset_task_incomplete : M unit :=
  print_header "RESET TASK TO INCOMPLETE";;
  id <- get_validated_input "Enter the task ID to reset to incomplete: "
          (non_empty "Task ID");;
  try_except
    (all_tasks <- read_all_tasks;;
     r <- for_each all_tasks (reset_body id) (false, []);;
     let '(task_found, updated_tasks) := r in
     (if task_found then write_all_tasks updated_tasks else ret tt);;
     if negb task_found then
       print_header "ERROR";;
       print ("  Task ID '" ++ id ++ "' not found.");;
       print "";;
       logging WARNING ("Attempt to reset non-existent task ID " ++ id)
     else ret tt)
    (on_FileNotFoundError
       (print_header "ERROR";;
        print "  No tasks found.";;
        print "";;
        logging ERROR "Task file not found when resetting incomplete")).
(* the later [except IOError] of the source catches nothing more here: the
   only [IOError] of this model is [FileNotFoundError]. *)

(** *** Deleting a task *)

(** The loop of [delete_task]: the state is [(found, deleted_task_info,
    updated_tasks)]. *)
Fixpoint delete_loop (tasks : list task) (task_identifier : string)
    (st : bool * string * list task) : bool * string * list task :=
  match tasks with
  | [] => st
  | t :: rest =>
      let '(found, deleted_task_info, updated_tasks) := st in
      if ((task_id t =? task_identifier) || (title t =? task_identifier))%string
      then delete_loop rest task_identifier
             (true, "Task ID " ++ task_id t ++ " ('" ++ title t ++ "')",
              updated_tasks)
      else delete_loop rest task_identifier
             (found, deleted_task_info, (updated_tasks ++ [t])%list)
  end.

Definition delete_task : M unit :=
  print_header "DELETE TASK";;
  raw <- input "Enter the task ID or task title to delete: ";;
  let task_identifier := PyStr.strip raw in
  try_except
    (backup_file TASK_FILE;;
     tasks <- read_all_tasks;;
     let '(found, deleted_task_info, updated_tasks) :=
       delete_loop tasks task_identifier (false, "", []) in
     if found then
       write_all_tasks updated_tasks;;
       print_header "SUCCESS";;
       print ("  " ++ deleted_task_info ++ " has been deleted.");;
       print "";;
       logging INFO ("Task deleted - " ++ deleted_task_info)
     else
       print_header "ERROR";;
       print ("  Task '" ++ task_identifier ++ "' not found.");;
       print "")
    (on_Exception (handle_file_error "deleting task")).

(** *** The tasks of one user: viewing, toggling, editing *)

Definition display_task_for_user (t : task) : M unit :=
  print ("  " ++ ljust "Task ID" 20 ++ " | " ++ task_id t);;
  print ("  " ++ ljust "Task Title" 20 ++ " | " ++ title t);;
  print ("  " ++ ljust "Description" 20 ++ " | " ++ description t);;
  print ("  " ++ ljust "Due Date" 20 ++ " | " ++ due_date t);;
  print ("  " ++ ljust "Assigned Date" 20 ++ " | " ++ assigned_date t);;
  print ("  " ++ ljust "Status" 20 ++ " | " ++ complete t);;
  print ("  " ++ PyStr.repeat_str "-" 76).

Definition select_prompt : string :=
  "  Enter a task ID to update its status/edit (or enter -1 to return): ".

(** The body of [get_valid_task_number(user_tasks)]; [again] is the call of
    the function by itself after a wrong entry. *)
Definition get_valid_task_number_body (again : M (option string))
    (user_tasks : list task) : M (option string) :=
  raw <- input select_prompt;;
  let task_id_input := PyStr.strip raw in
  if (task_id_input =? "-1")%string then ret None
  else if (task_id_input =? "")%string then ret None
  else
    match PyStr.int task_id_input with
    | None =>
        print ("  Error: '" ++ task_id_input
               ++ "' is not a valid integer. Please enter a task ID or -1 to return.");;
        again
    | Some _ =>
        if existsb (fun t => (task_id t =? task_id_input)%string) user_tasks
        then ret (Some task_id_input)
        else
          print ("  Error: Task ID '" ++ task_id_input
                 ++ "' not found in your tasks.");;
          again
    end.

(** [get_valid_task_number] when [room] more calls of it can be nested: the
    call that exceeds the recursion limit raises [RecursionError] before it
    asks for anything, and nothing in the program catches it. *)
Fixpoint get_valid_task_number_in (room : nat) (user_tasks : list task)
    : M (option string) :=
  get_valid_task_number_body
    (match room with
     | O => raise RecursionError
     | S deeper => get_valid_task_number_in deeper user_tasks
     end)
    user_tasks.

Definition get_valid_task_number (user_tasks : list task) : M (option string) :=
  fun w => get_valid_task_number_in (recursion_room w) user_tasks w.

(** The loop of the status update: every task whose id is [id] gets
    [new_status]. *)
Fixpoint status_loop (all_file_tasks : list task) (id new_status : string)
    (updated_tasks : list task) : list task :=
  match all_file_tasks with
  | [] => updated_tasks
  | t :: rest =>
      if (task_id t =? id)%string
      then status_loop rest id new_status (updated_tasks ++ [set_complete t new_status])
      else status_loop rest id new_status (updated_tasks ++ [t])
  end.

(** The loop of the edit: every task whose id is [id] gets the new user and
    the new due date; the state is [(updated_tasks, task_updated)]. *)
Fixpoint edit_loop (all_file_tasks : list task) (id new_username new_due_date : string)
    (st : list task * bool) : list task * bool :=
  match all_file_tasks with
  | [] => st
  | t :: rest =>
      let '(updated_tasks, task_updated) := st in
      if (task_id t =? id)%string
      then edit_loop rest id new_username new_due_date
             ((updated_tasks
               ++ [Task (task_id t) new_username (title t) (description t)
                     new_due_date (assigned_date t) (complete t)])%list, true)
      else edit_loop rest id new_username new_due_date
             ((updated_tasks ++ [t])%list, task_updated)
  end.

Definition action_prompt : string :=
  "  What would you like to do?" ++ nl
  ++ "    1 - Mark as complete/incomplete" ++ nl
  ++ "    2 - Edit task (reassign or change due date)" ++ nl
  ++ "    3 - Back to task list" ++ nl
  ++ "  Enter your choice: ".

Definition edit_prompt : string :=
  "  What would you like to edit?" ++ nl
  ++ "    1 - Change assigned user only" ++ nl
  ++ "    2 - Change due date only" ++ nl
  ++ "    3 - Change both assigned user and due date" ++ nl
  ++ "    4 - Cancel (back to task list)" ++ nl
  ++ "  Enter your choice: ".

(** [f"{len(l)}"]: the number of elements of a list is far below the cap
    of [str]. *)
Definition nat_str (n : nat) : string := PyStr.str_of_int (Z.of_nat n).

(** [new_status = "No" if complete == "Yes" else "Yes"] *)
Definition new_status (complete : string) : string :=
  if (complete =? "Yes")%string then "No" else "Yes".

(** Action 1 of the task menu, on the selected task: the new status is
    computed from the status the selected tuple holds. *)
Definition toggle_status (selected : task) : M unit :=
  let new_status := new_status (complete selected) in
  try_except
    (all_file_tasks <- read_all_tasks;;
     write_all_tasks (status_loop all_file_tasks (task_id selected) new_status []);;
     print_header "SUCCESS";;
     print ("  Task '" ++ title selected ++ "' has been marked as "
            ++ (if (new_status =? "Yes")%string then "complete" else "incomplete")
            ++ "!");;
     print "";;
     logging INFO ("Task ID " ++ task_id selected ++ " status updated to " ++ new_status))
    (on_IOError (handle_file_error "updating task status")).

(** Action 2 of the task menu, on the selected task; the result is the
    list [user_tasks] the menu goes on with. *)
Definition edit_task (my_username : string) (user_tasks : list task)
    (selected : task) : M (list task) :=
  if (PyStr.lower (PyStr.strip (complete selected)) =? "yes")%string then
    print_header "ERROR";;
    print "  Cannot edit a completed task. Please mark it as incomplete first.";;
    print "";;
    ret user_tasks
  else
    print_header "EDIT TASK";;
    print ("  Task: " ++ title selected);;
    print ("  Current Assigned User: " ++ username selected);;
    print ("  Current Due Date: " ++ due_date selected);;
    print "";;
    raw <- input edit_prompt;;
    let edit_options := PyStr.strip raw in
    new_username <-
      (if ((edit_options =? "1") || (edit_options =? "3"))%string
       then get_validated_input "  Enter new username to assign this task to: "
              (non_empty "Username")
       else ret (username selected));;
    new_due_date <-
      (if ((edit_options =? "2") || (edit_options =? "3"))%string
       then get_validated_input "  Enter new due date (YYYY-MM-DD): "
              date_format
       else ret (due_date selected));;
    if ((edit_options =? "1") || (edit_options =? "2") || (edit_options =? "3"))%string
    then
      try_except
        (all_file_tasks <- read_all_tasks;;
         let '(updated_tasks, task_updated) :=
           edit_loop all_file_tasks (task_id selected) new_username new_due_date
             ([], false) in
         if task_updated then
           write_all_tasks updated_tasks;;
           print_header "SUCCESS";;
           print ("  Task '" ++ title selected ++ "' has been updated!");;
           (if negb (new_username =? username selected)%string
            then print ("  New Assigned User: " ++ new_username) else ret tt);;
           (if negb (new_due_date =? due_date selected)%string
            then print ("  New Due Date: " ++ new_due_date) else ret tt);;
           print "";;
           logging INFO ("Task ID " ++ task_id selected ++ " updated - User: "
                         ++ new_username ++ ", Due: " ++ new_due_date);;
           all_tasks <- read_all_tasks;;
           let user_tasks' :=
             filter (fun t => (username t =? my_username)%string) all_tasks in
           print_header ("MY TASKS - " ++ PyStr.upper my_username);;
           (if (length user_tasks' =? 0)%nat
            then print ("  No tasks found for user '" ++ my_username ++ "'.")
            else
              for_each user_tasks' (fun t _ => display_task_for_user t) tt;;
              print ("  Total tasks assigned to you: " ++ nat_str (length user_tasks')));;
           print "";;
           ret user_tasks'
         else ret user_tasks)
        (on_IOError (fun e => handle_file_error "updating task" e;; ret user_tasks))
    else ret user_tasks.

(** One round of the menu loop of [view_my_tasks]: [inl user_tasks] goes
    round again, [inr tt] is [break]. *)
Definition task_menu_round (my_username : string) (user_tasks : list task)
    : M (list task + unit) :=
  task_id_selection <- get_valid_task_number user_tasks;;
  match task_id_selection with
  | None => ret (inr tt)
  | Some selection =>
      match find (fun t => (task_id t =? selection)%string) user_tasks with
      | None => raise TypeError
      | Some selected =>
          print_header ("TASK OPTIONS - " ++ title selected);;
          print ("  Current Status: " ++ complete selected);;
          print "";;
          raw <- input action_prompt;;
          let action_menu := PyStr.strip raw in
          r <- (if (action_menu =? "1")%string then
                  toggle_status selected;; ret (inl user_tasks)
                else if (action_menu =? "2")%string then
                  user_tasks' <- edit_task my_username user_tasks selected;;
                  ret (inl user_tasks')
                else if (action_menu =? "3")%string then ret (inr tt)
                else
                  print "  Error: Invalid choice. Please enter 1, 2, or 3.";;
                  ret (inl user_tasks));;
          match r with
          | inr _ => ret (inr tt)
          | inl user_tasks' =>
              raw' <- input "  Select another task? (y/n): ";;
              let another := PyStr.lower (PyStr.strip raw') in
              if negb (another =? "y")%string then ret (inr tt)
              else ret (inl user_tasks')
          end
      end
  end.

Definition view_my_tasks : M unit :=
  my_username <- get_validated_input "Enter your username: "
                   (non_empty "Username");;
  try_except
    (all_tasks <- read_all_tasks;;
     let user_tasks := filter (fun t => (username t =? my_username)%string) all_tasks in
     print_header ("MY TASKS - " ++ PyStr.upper my_username);;
     if (length user_tasks =? 0)%nat then
       print ("  No tasks found for user '" ++ my_username ++ "'.");;
       print ""
     else
       for_each user_tasks (fun t _ => display_task_for_user t) tt;;
       print ("  Total tasks assigned to you: " ++ nat_str (length user_tasks));;
       print "";;
       while_true (task_menu_round my_username) user_tasks)
    (on_IOError (fun e =>
       match e with
       | FileNotFoundError =>
           print_header ("MY TASKS - " ++ PyStr.upper my_username);;
           print "  No tasks found.";;
           print ""
       | _ => handle_file_error "reading tasks" e
       end)).

(** *** Reports *)

Definition status_is (t : task) (word : string) : bool :=
  (PyStr.lower (PyStr.strip (complete t)) =? word)%string.

(** [sum(1 for t in tasks if t[6].strip().lower() == "yes")] *)
Definition count_completed (tasks : list task) : nat :=
  length (filter (fun t => status_is t "yes") tasks).

(** The overdue loop of the task overview: a due date that does not parse
    is passed over ([except ValueError: continue]). *)
Fixpoint overdue_loop (tasks : list task) (current_date : PyDate.date)
    (overdue : nat) : nat :=
  match tasks with
  | [] => overdue
  | t :: rest =>
      if status_is t "no" then
        match PyDate.strptime (due_date t) with
        | Some due =>
            if PyDate.ltb due current_date
            then overdue_loop rest current_date (overdue + 1)
            else overdue_loop rest current_date overdue
        | None => overdue_loop rest current_date overdue
        end
      else overdue_loop rest current_date overdue
  end.

(** The overdue count of the user overview:
    [sum(1 for t in user_tasks if t[6].strip().lower() == "no" and
    datetime.strptime(t[4], "%Y-%m-%d").date() < current_date)].
    Nothing catches the [ValueError] of [strptime] here. *)
Fixpoint user_overdue_sum (user_tasks : list task) (current_date : PyDate.date)
    (acc : nat) : outcome nat :=
  match user_tasks with
  | [] => Ok acc
  | t :: rest =>
      if status_is t "no" then
        match PyDate.strptime (due_date t) with
        | Some due =>
            if PyDate.ltb due current_date
            then user_overdue_sum rest current_date (acc + 1)
            else user_overdue_sum rest current_date acc
        | None => Raise ValueError
        end
      else user_overdue_sum rest current_date acc
  end.

(** The loop over the users of the user overview: the entries written, and
    the exception that ended the loop, if any. *)
Fixpoint user_entries_loop (users : list string) (tasks : list task)
    (current_date : PyDate.date) (written : list user_stats)
    : list user_stats * option exn :=
  match users with
  | [] => (written, None)
  | user :: rest =>
      let user_tasks := filter (fun t => (username t =? user)%string) tasks in
      let count := length user_tasks in
      let completed := count_completed user_tasks in
      let incomplete := (count - completed)%nat in
      match user_overdue_sum user_tasks current_date 0 with
      | Ok overdue =>
          user_entries_loop rest tasks current_date
            (written ++ [UserStats user count completed incomplete overdue])
      | Raise e => (written, Some e)
      end
  end.

(** The users of the user overview: the first field of every line of three
    fields. *)
Fixpoint report_users (lines : list string) : list string :=
  match lines with
  | [] => []
  | line :: rest =>
      let user_data := PyStr.split_comma_space (PyStr.strip line) in
      if (length user_data =? 3)%nat then hd "" user_data :: report_users rest
      else report_users rest
  end.

(** [with open(TASK_OVERVIEW_FILE, "w")] and its writes. *)
Definition write_task_overview (r : task_overview) : M unit :=
  fun w => (Ok tt, add_event WroteTaskOverview (set_task_overview r w)).

(** [with open(USER_OVERVIEW_FILE, "w")] and its writes: what was written
    before an exception stays in the file. *)
Definition write_user_overview (users : list string) (tasks : list task)
    (current_date : PyDate.date) : M unit :=
  fun w =>
    let '(written, stopped) := user_entries_loop users tasks current_date [] in
    let w' := add_event WroteUserOverview (set_user_overview written w) in
    match stopped with
    | None => (Ok tt, w')
    | Some e => (Raise e, w')
    end.

(** [generate_reports].  The percentages the source prints are quotients of
    the counts kept here; the layout of the two files is left out. *)
Definition generate_reports : M unit :=
  try_except
    (tasks <- read_all_tasks;;
     let total := length tasks in
     let completed := count_completed tasks in
     let incomplete := (total - completed)%nat in
     current_date <- now_date;;
     let overdue := overdue_loop tasks current_date 0 in
     write_task_overview (TaskOverview total completed incomplete overdue);;
     lines <- read_lines USER_FILE;;
     let users := report_users lines in
     write_user_overview users tasks current_date;;
     print_header "SUCCESS";;
     print "  Reports generated successfully!";;
     print "  - task_overview.txt";;
     print "  - user_overview.txt";;
     print "";;
     logging INFO "Reports generated successfully")
    (fun e =>
       match e with
       | FileNotFoundError =>
           Some (print_header "ERROR";;
                 print "  No task file found.";;
                 print "";;
                 logging ERROR "Reports generation failed - task file not found")
       | SystemExit => None
       | _ => Some (handle_file_error "generating reports" e)
       end).

(** ** Views of the world used in the statements *)

(** What one line of the task file yields in [read_all_tasks]. *)
Definition parse_task (line : string) : option task :=
  tuple7 (PyStr.split_comma_space (PyStr.strip line)).

(** The records of the lines that have 7 fields, in the order of the file. *)
Fixpoint records (lines : list string) : list task :=
  match lines with
  | [] => []
  | line :: rest =>
      match parse_task line with
      | Some t => t :: records rest
      | None => records rest
      end
  end.

(** The task set the file of [w] holds: what [read_all_tasks] returns. *)
Definition stored_tasks (w : world) : list task :=
  match task_txt w with
  | Some lines => read_tasks_loop lines []
  | None => []
  end.

(** A text of decimal digits only, as [str] makes of a natural number. *)
Fixpoint digits_only (s : string) : bool :=
  match s with
  | EmptyString => true
  | String c r =>
      match PyStr.digit_value c with
      | Some _ => digits_only r
      | None => false
      end
  end.

(** The integer ids of the stored tasks, for the ids that are integers. *)
Fixpoint int_ids (tasks : list task) : list Z :=
  match tasks with
  | [] => []
  | t :: rest =>
      match PyStr.int (task_id t) with
      | Some id => id :: int_ids rest
      | None => int_ids rest
      end
  end.

Definition add_events (evs : list event) (w : world) : world :=
  World (user_txt w) (task_txt w) (task_overview_txt w) (user_overview_txt w)
    (backups w) (copy_ok w) (today w) (stdin w) (trace w ++ evs)
    (recursion_room w).

(** A line of input that [validate_non_empty] refuses. *)
Definition blank (s : string) : Prop := PyStr.strip s = "".

(** What [get_validated_input] shows for the blank lines it refuses. *)
Definition retry_events (prompt field_name : string) (blanks : list string)
    : list event :=
  flat_map
    (fun _ => [Ask prompt; Print ("Error: " ++ field_name ++ " cannot be empty.")])
    blanks.

(** Whether a text begins with the separator of the fields. *)
Definition starts_sep (s : string) : bool :=
  match s with
  | String c (String d _) => (Ascii.eqb c ",") && (Ascii.eqb d " ")
  | _ => false
  end.

(** Whether the separator of the fields occurs in a text. *)
Fixpoint has_sep (s : string) : bool :=
  match s with
  | EmptyString => false
  | String c r => starts_sep s || has_sep r
  end.

(** A text that does not end with white space. *)
Definition last_not_space (s : string) : Prop := PyStr.rstrip s = s.

(** A text that does not begin with white space. *)
Definition head_not_space (s : string) : Prop :=
  match s with
  | EmptyString => True
  | String c _ => PyStr.is_space c = false
  end.

(** A task that is read back from the line [write_all_tasks] writes for it. *)
Definition canonical (t : task) : Prop := parse_task (task_line t) = Some t.

(** The test of [delete_task] on one task. *)
Definition matches (task_identifier : string) (t : task) : bool :=
  ((task_id t =? task_identifier) || (title t =? task_identifier))%string.

(** What [backup_file] returns in [w], and the world it leaves apart from
    its event. *)
Definition backup_result (f : datafile) (w : world) : bool :=
  match file_of f w with
  | Some _ => copy_ok w
  | None => false
  end.

Definition backup_world (f : datafile) (w : world) : world :=
  match file_of f w with
  | Some content => if copy_ok w then add_backup f content w else w
  | None => w
  end.

Definition is_backup (e : event) : bool :=
  match e with
  | Backup _ _ => true
  | _ => false
  end.

(** A computation that keeps to a relation between the world it starts in
    and the world it leaves, whatever its outcome. *)
Definition respects (R : world -> world -> Prop) {A} (m : M A) : Prop :=
  forall w : world, R w (snd (m w)).

(** From [w] to [w'] no call of [backup_file]: the events added hold no
    [Backup] and the snapshots are as they were. *)
Definition no_backup (w w' : world) : Prop :=
  exists evs : list event,
    trace w' = (trace w ++ evs)%list
    /\ forallb (fun e => negb (is_backup e)) evs = true
    /\ backups w' = backups w.

(** A computation that never calls [backup_file]. *)
Definition never_backs_up {A} (m : M A) : Prop := respects no_backup m.

(** From [w] to [w'] no line was added to the input still to be read. *)
Definition no_new_input (w w' : world) : Prop :=
  (length (stdin w') <= length (stdin w))%nat.

(** A computation that has read at least one line of input when it
    returns. *)
Definition eats {A} (m : M A) : Prop :=
  forall (w : world) (a : A) (w' : world),
    m w = (Ok a, w') -> (length (stdin w') < length (stdin w))%nat.

(** Whether every rewrite of the task file in [evs] comes after a call of
    [backup_file] on the task file; [seen] tells whether such a call has
    been met already. *)
Fixpoint backup_before_write (seen : bool) (evs : list event) : bool :=
  match evs with
  | [] => true
  | Backup TASK_FILE _ :: rest => backup_before_write true rest
  | Wrote TASK_FILE :: rest => seen && backup_before_write seen rest
  | _ :: rest => backup_before_write seen rest
  end.

(** What one line of the user file yields in [login_user]: a record when
    the line has three fields. *)
Definition parse_user (line : string) : option User :=
  match PyStr.split_comma_space (PyStr.strip line) with
  | [file_username; file_password; role] =>
      Some (mkUser file_username file_password role)
  | _ => None
  end.

(** The complete records of the user file. *)
Fixpoint user_records (lines : list string) : list User :=
  match lines with
  | [] => []
  | line :: rest =>
      match parse_user line with
      | Some u => u :: user_records rest
      | None => user_records rest
      end
  end.

(** What a failed login shows on the screen. *)
Definition login_refused : list event :=
  [Header "USER LOGIN"; Ask "Enter your username: "; Ask "Enter your password: ";
   Header "ERROR"; Print "  Invalid username or password. Please try again.";
   Print ""].

(** What the loop of [reset_task_incomplete] shows for the tasks with the id
    [id] when none of them is complete. *)
Definition already_incomplete_events (id : string) (tasks : list task) : list event :=
  flat_map
    (fun t =>
       if (task_id t =? id)%string
       then [Header "INFO";
             Print ("  Task ID " ++ id ++ " ('" ++ title t
                    ++ "') is already incomplete.");
             Print ""]
       else [])
    tasks.

(** The status edit of the task menu on one stored task. *)
Definition with_status (id status : string) (t : task) : task :=
  if (task_id t =? id)%string then set_complete t status else t.

(** What [display_task_for_user] prints for one task. *)
Definition display_events (t : task) : list event :=
  [Print ("  " ++ ljust "Task ID" 20 ++ " | " ++ task_id t);
   Print ("  " ++ ljust "Task Title" 20 ++ " | " ++ title t);
   Print ("  " ++ ljust "Description" 20 ++ " | " ++ description t);
   Print ("  " ++ ljust "Due Date" 20 ++ " | " ++ due_date t);
   Print ("  " ++ ljust "Assigned Date" 20 ++ " | " ++ assigned_date t);
   Print ("  " ++ ljust "Status" 20 ++ " | " ++ complete t);
   Print ("  " ++ PyStr.repeat_str "-" 76)].

(** The edit of the task menu on one stored task. *)
Definition with_edit (id new_username new_due_date : string) (t : task) : task :=
  if (task_id t =? id)%string
  then Task (task_id t) new_username (title t) (description t) new_due_date
         (assigned_date t) (complete t)
  else t.

(** What the task menu shows when a task has been selected and action 1
    has been taken on it. *)
Definition toggle_round_events (selected : task) : list event :=
  let status := new_status (complete selected) in
  [Ask select_prompt; Header ("TASK OPTIONS - " ++ title selected);
   Print ("  Current Status: " ++ complete selected); Print ""; Ask action_prompt;
   Wrote TASK_FILE; Header "SUCCESS";
   Print ("  Task '" ++ title selected ++ "' has been marked as "
          ++ (if (status =? "Yes")%string then "complete" else "incomplete")
          ++ "!");
   Print "";
   Log INFO ("Task ID " ++ task_id selected ++ " status updated to " ++ status);
   Ask "  Select another task? (y/n): "].

(** What the task menu shows when a task has been selected, action 2 has
    been taken on it and a new due date has been given and written;
    [user_tasks'] are the tasks the menu then lists again. *)
Definition edit_round_events (my_username : string) (selected : task)
    (new_due_date : string) (user_tasks' : list task) : list event :=
  ([Ask select_prompt; Header ("TASK OPTIONS - " ++ title selected);
    Print ("  Current Status: " ++ complete selected); Print ""; Ask action_prompt;
    Header "EDIT TASK"; Print ("  Task: " ++ title selected);
    Print ("  Current Assigned User: " ++ username selected);
    Print ("  Current Due Date: " ++ due_date selected); Print "";
    Ask edit_prompt; Ask "  Enter new due date (YYYY-MM-DD): ";
    Wrote TASK_FILE; Header "SUCCESS";
    Print ("  Task '" ++ title selected ++ "' has been updated!")]
   ++ (if (new_due_date =? due_date selected)%string then []
       else [Print ("  New Due Date: " ++ new_due_date)])
   ++ [Print "";
       Log INFO ("Task ID " ++ task_id selected ++ " updated - User: "
                 ++ username selected ++ ", Due: " ++ new_due_date);
       Header ("MY TASKS - " ++ PyStr.upper my_username)]
   ++ (if (length user_tasks' =? 0)%nat
       then [Print ("  No tasks found for user '" ++ my_username ++ "'.")]
       else flat_map display_events user_tasks'
            ++ [Print ("  Total tasks assigned to you: "
                       ++ nat_str (length user_tasks'))])
   ++ [Print ""; Ask "  Select another task? (y/n): "])%list.

(** A world at the start of a run: nothing printed, no report, no backup,
    and the usual room for nested calls. *)
Definition start (users tasks : option (list string)) (keyboard : list string)
    (date : PyDate.date) : world :=
  World users tasks None None [] true date keyboard [] 990.

(** ** The claims of the specification that the code does not meet, as the
    specification words them *)

(** "IDs never reused": an id stored before a deletion stays below the id
    [get_next_task_id] returns after it. *)
Definition never_reuses_deleted_ids : Prop :=
  forall (w : world) (raw : string) (rest : list string) (id n : Z) (w' : world),
    In id (int_ids (stored_tasks w)) ->
    get_next_task_id (snd (delete_task (set_stdin (raw :: rest) w))) = (Ok n, w') ->
    id < n.

(** "Removes exactly that one matched task": [after] is [before] without
    one of its tasks. *)
Definition removes_exactly_one (before after : list task) : Prop :=
  exists (l1 : list task) (t : task) (l2 : list task),
    before = (l1 ++ t :: l2)%list /\ after = (l1 ++ l2)%list.

(** "Lines with an unparsable integer ID are skipped": the records of the
    lines that have 7 fields and an id field [int] accepts. *)
Fixpoint load_tasks_as_specified (lines : list string) : list task :=
  match lines with
  | [] => []
  | line :: rest =>
      match parse_task line with
      | Some t =>
          match PyStr.int (task_id t) with
          | Some _ => t :: load_tasks_as_specified rest
          | None => load_tasks_as_specified rest
          end
      | None => load_tasks_as_specified rest
      end
  end.

(** ** Worlds for the examples *)

Definition a_day : PyDate.date := PyDate.Date 2026 11 3.

Definition two_users : list string :=
  ["alice, secret1, Admin" ++ nl; "bob, hunter22, Non-Admin" ++ nl].

(** Three tasks, none complete; the third is overdue on [a_day]. *)
Definition three_tasks : list string :=
  ["1, alice, T1, D, 2030-01-01, 2025-01-01, No" ++ nl;
   "2, alice, T2, D, 2030-01-01, 2025-01-01, No" ++ nl;
   "3, bob, T3, D, 2020-01-01, 2025-01-01, No" ++ nl].

(** The title of task 1 is the id of task 2. *)
Definition clashing_tasks : list string :=
  ["1, alice, 2, D, 2030-01-01, 2025-01-01, No" ++ nl;
   "2, bob, Plan, D, 2030-01-01, 2025-01-01, No" ++ nl;
   "3, bob, T3, D, 2030-01-01, 2025-01-01, No" ++ nl].

(** Task 2 is complete. *)
Definition one_complete : list string :=
  ["1, alice, T1, D, 2030-01-01, 2025-01-01, No" ++ nl;
   "2, alice, T2, D, 2030-01-01, 2025-01-01, Yes" ++ nl].

(** The first line has 7 fields and an id that is no integer; the third has
    6 fields. *)
Definition odd_lines : list string :=
  ["abc, alice, T1, D, 2030-01-01, 2025-01-01, No" ++ nl;
   "2, alice, T2, D, 2030-01-01, 2025-01-01, No" ++ nl;
   "3, bob, T3, 2030-01-01, 2025-01-01, No" ++ nl].

(** The due date of the task of bob is no date. *)
Definition a_bad_due_date : list string :=
  ["1, alice, T1, D, 2020-01-01, 2025-01-01, No" ++ nl;
   "2, bob, T2, D, soon, 2025-01-01, No" ++ nl].

(** The [logging] calls among the events. *)
Definition logged (evs : list event) : list event :=
  filter (fun e => match e with Log _ _ => true | _ => false end) evs.

(** ** The rest of the program: registration, roles and listings *)

(** The lines of a record file; none when the file is absent. *)
Definition lines_of (f : datafile) (w : world) : list string :=
  match file_of f w with
  | Some content => content
  | None => []
  end.

(** *** Validation of a new user *)

(** A character of the class [[a-zA-Z0-9_]]. *)
Definition is_word_char (c : ascii) : bool :=
  let n := nat_of_ascii c in
  (((97 <=? n) && (n <=? 122)) || ((65 <=? n) && (n <=? 90))
   || ((48 <=? n) && (n <=? 57)) || (n =? 95))%nat.

(** [[a-zA-Z0-9_]*$]: characters of the class up to the end of the text, or
    up to a line feed that ends the text, which [$] lets through. *)
Fixpoint word_chars_to_end (s : string) : bool :=
  match s with
  | EmptyString => true
  | String c r =>
      if is_word_char c then word_chars_to_end r
      else (Ascii.eqb c (ascii_of_nat 10) && (r =? "")%string)
  end.

(** [re.match(r"^[a-zA-Z0-9_]+$", s)] *)
Definition re_match_username (s : string) : bool :=
  match s with
  | EmptyString => false
  | String c r => is_word_char c && word_chars_to_end r
  end.

Definition validate_username (username : string) : bool * string :=
  if (username =? "")%string then (false, "Username cannot be empty.")
  else if (String.length username <? 3)%nat
  then (false, "Username must be at least 3 characters long.")
  else if (20 <? String.length username)%nat
  then (false, "Username must be no more than 20 characters long.")
  else if negb (re_match_username username)
  then (false, "Username can only contain letters, numbers, and underscores.")
  else (true, "").

Definition validate_password (password : string) : bool * string :=
  if (password =? "")%string then (false, "Password cannot be empty.")
  else if (String.length password <? 6)%nat
  then (false, "Password must be at least 6 characters long.")
  else (true, "").

(** *** Registration *)

(** The first loop of [register_user]: a name that is well formed and is
    not the first field of a line of the user file. *)
Definition ask_new_username (_ : unit) : M (unit + string) :=
  raw <- input "Enter a username: ";;
  let username := PyStr.strip raw in
  let '(is_valid, error_msg) := validate_username username in
  if negb is_valid then print ("Error: " ++ error_msg);; ret (inl tt)
  else
    username_exists <-
      try_except
        (lines <- read_lines USER_FILE;; ret (user_exists_scan lines username))
        (on_FileNotFoundError (ret false));;
    if username_exists
    then print ("Error: Username '" ++ username
                ++ "' already exists. Please try a different username.");;
         ret (inl tt)
    else ret (inr username).

(** The password is taken as it is typed: it is not stripped. *)
Definition ask_password (_ : unit) : M (unit + string) :=
  password <- input "Enter a password: ";;
  let '(is_valid, error_msg) := validate_password password in
  if negb is_valid then print ("Error: " ++ error_msg);; ret (inl tt)
  else ret (inr password).

Definition ask_confirmation (password : string) (_ : unit) : M (unit + unit) :=
  confirm_password <- input "Confirm your password: ";;
  if (password =? confirm_password)%string then ret (inr tt)
  else print "Error: Passwords do not match. Please try again.";; ret (inl tt).

Definition ask_role (_ : unit) : M (unit + string) :=
  print (nl ++ "  Select user role:");;
  print "    1 - Admin";;
  print "    2 - Non-Admin";;
  raw <- input "  Enter your choice (1 or 2): ";;
  let role_choice := PyStr.strip raw in
  if (role_choice =? "1")%string then ret (inr "Admin")
  else if (role_choice =? "2")%string then ret (inr "Non-Admin")
  else print "Error: Invalid choice. Please enter 1 or 2.";; ret (inl tt).

(** [register_user]: the append to the user file does not fail here, so the
    [except IOError] of the source is never entered. *)
Definition register_user : M unit :=
  username <- while_true ask_new_username tt;;
  password <- while_true ask_password tt;;
  while_true (ask_confirmation password) tt;;
  role <- while_true ask_role tt;;
  let new_user := mkUser username password role in
  append_line USER_FILE (User_str new_user ++ nl);;
  print_header "SUCCESS";;
  print ("  User '" ++ User_username new_user ++ "' successfully created!");;
  print ("  Role: " ++ User_role new_user);;
  print "";;
  logging INFO ("New user registered: " ++ username ++ " with role " ++ role).

(** *** Roles for the records that have none *)

(** The check mark the source prints (U+2713): it has no code point in
    Latin-1 and stands here as the three bytes of its UTF-8 form. *)
Definition check_mark : string :=
  String (ascii_of_nat 226) (String (ascii_of_nat 156)
    (String (ascii_of_nat 147) EmptyString)).

Definition ask_role_for (username : string) (_ : unit) : M (unit + string) :=
  print ("  Assign role for '" ++ username ++ "':");;
  print "    1 - Admin";;
  print "    2 - Non-Admin";;
  raw <- input "  Enter your choice (1 or 2): ";;
  let role_choice := PyStr.strip raw in
  if (role_choice =? "1")%string then ret (inr "Admin")
  else if (role_choice =? "2")%string then ret (inr "Non-Admin")
  else print "  Error: Invalid choice. Please enter 1 or 2.";; ret (inl tt).

(** The body of the loop of [verify_and_update_user_roles] over the lines;
    the state is [(needs_update, updated_lines)].  A line of two fields
    gets a role, a line of three fields is kept as it is, any other line
    is left out of [updated_lines]. *)
Definition verify_body (line : string) (st : bool * list string)
    : M (bool * list string) :=
  let '(needs_update, updated_lines) := st in
  match PyStr.split_comma_space (PyStr.strip line) with
  | [username; password] =>
      print (nl ++ "  User '" ++ username ++ "' found without a role assignment.");;
      role <- while_true (ask_role_for username) tt;;
      let updated_user := mkUser username password role in
      print ("  " ++ check_mark ++ " Role '" ++ role ++ "' assigned to '"
             ++ username ++ "'.");;
      logging INFO ("Role '" ++ role ++ "' assigned to user '" ++ username ++ "'");;
      ret (true, (updated_lines ++ [(User_str updated_user ++ nl)%string])%list)
  | [_; _; _] => ret (needs_update, (updated_lines ++ [line])%list)
  | _ => ret (needs_update, updated_lines)
  end.

(** [verify_and_update_user_roles]; the later [except IOError] of the
    source catches nothing more here. *)
Definition verify_and_update_user_roles : M unit :=
  try_except
    (lines <- read_lines USER_FILE;;
     print_header "USER ROLE VERIFICATION";;
     r <- for_each lines verify_body (false, []);;
     let '(needs_update, updated_lines) := r in
     if needs_update then
       backup_file USER_FILE;;
       write_lines USER_FILE updated_lines;;
       print_header "SUCCESS";;
       print "  All users have been updated with roles!";;
       print ""
     else if negb (length lines =? 0)%nat then
       print "  All existing users already have roles assigned.";;
       print ""
     else ret tt)
    (on_FileNotFoundError (ret tt)).

(** *** Listings *)

Definition display_task (t : task) : M unit :=
  print ("  " ++ ljust "Task ID" 20 ++ " | " ++ task_id t);;
  print ("  " ++ ljust "Username" 20 ++ " | " ++ username t);;
  print ("  " ++ ljust "Task Title" 20 ++ " | " ++ title t);;
  print ("  " ++ ljust "Description" 20 ++ " | " ++ description t);;
  print ("  " ++ ljust "Due Date" 20 ++ " | " ++ due_date t);;
  print ("  " ++ ljust "Assigned Date" 20 ++ " | " ++ assigned_date t);;
  print ("  " ++ ljust "Status" 20 ++ " | " ++ complete t);;
  print ("  " ++ PyStr.repeat_str "-" 76).

(** [User.display_info] *)
Definition display_info (u : User) : M unit :=
  print ("  " ++ ljust "Username" 30 ++ " | " ++ User_username u);;
  print ("  " ++ ljust "Role" 30 ++ " | " ++ User_role u);;
  print ("  " ++ PyStr.repeat_str "-" 76).

(** [view_all_tasks]; [read_all_tasks] raises nothing, so the
    [except IOError] of the source is never entered. *)
Definition view_all_tasks : M unit :=
  tasks <- read_all_tasks;;
  if (length tasks =? 0)%nat then
    print_header "ALL TASKS";;
    print "  No tasks found.";;
    print ""
  else
    print_header "ALL TASKS";;
    for_each tasks (fun t _ => display_task t) tt;;
    print ("  Total tasks: " ++ nat_str (length tasks));;
    print "".

(** The loop of [view_all_users] over the lines: a [User] for every line of
    three fields. *)
Fixpoint users_loop (lines : list string) (users : list User) : list User :=
  match lines with
  | [] => users
  | line :: rest =>
      match PyStr.split_comma_space (PyStr.strip line) with
      | [username; password; role] =>
          users_loop rest (users ++ [mkUser username password role])
      | _ => users_loop rest users
      end
  end.

Definition view_all_users : M unit :=
  try_except
    (lines <- read_lines USER_FILE;;
     let users := users_loop lines [] in
     if (length users =? 0)%nat then
       print_header "ALL USERS";;
       print "  No users found.";;
       print ""
     else
       print_header "ALL USERS";;
       for_each users (fun u _ => display_info u) tt;;
       print ("  Total users: " ++ nat_str (length users));;
       print "")
    (on_FileNotFoundError
       (print_header "ALL USERS";;
        print "  No users found.";;
        print "")).

Definition view_completed_tasks : M unit :=
  tasks <- read_all_tasks;;
  let completed_tasks := filter (fun t => status_is t "yes") tasks in
  print_header "COMPLETED TASKS";;
  (if (length completed_tasks =? 0)%nat then print "  No completed tasks found."
   else
     for_each completed_tasks (fun t _ => display_task t) tt;;
     print ("  Total completed tasks: " ++ nat_str (length completed_tasks)));;
  print "".

(** *** The menus and the main loop *)

Definition admin_menu_prompt : string :=
  "  r - Register a user (Admin only)" ++ nl
  ++ "  a - Add task" ++ nl
  ++ "  va - View all tasks" ++ nl
  ++ "  vm - View my tasks" ++ nl
  ++ "  vu - View all users (Admin only)" ++ nl
  ++ "  vr - Verify and update user roles (Admin only)" ++ nl
  ++ "  dt - Delete task (Admin only)" ++ nl
  ++ "  vc - View completed tasks (Admin only)" ++ nl
  ++ "  uc - Update task completion status" ++ nl
  ++ "  rc - Reset completed task to incomplete (Admin only)" ++ nl
  ++ "  gr - Generate reports" ++ nl
  ++ "  ds - Display statistics" ++ nl
  ++ "  lo - Logout" ++ nl
  ++ "  e - Exit" ++ nl
  ++ nl
  ++ "  Enter your choice: ".

Definition non_admin_menu_prompt : string :=
  "  a - Add task" ++ nl
  ++ "  va - View all tasks" ++ nl
  ++ "  vm - View my tasks" ++ nl
  ++ "  uc - Update task completion status" ++ nl
  ++ "  gr - Generate reports" ++ nl
  ++ "  ds - Display statistics" ++ nl
  ++ "  lo - Logout" ++ nl
  ++ "  e - Exit" ++ nl
  ++ nl
  ++ "  Enter your choice: ".

(** The choice is put in lower case; it is not stripped. *)
Definition display_admin_menu : M string :=
  print_header "ADMIN MENU";;
  raw <- input admin_menu_prompt;;
  ret (PyStr.lower raw).

Definition display_non_admin_menu : M string :=
  print_header "USER MENU";;
  raw <- input non_admin_menu_prompt;;
  ret (PyStr.lower raw).

(** [current_user.role.lower() == "admin"] *)
Definition is_admin (current_user : User) : bool :=
  (PyStr.lower (User_role current_user) =? "admin")%string.

(** How the session loop of [main] is left: [lo] sets [user_logged_in] to
    [False], [e] calls [exit()]. *)
(** [exit()] *)
Definition exit {A} : M A := raise SystemExit.

Section Main.

(** [display_statistics] prints the text of the two report files, which
    the world does not hold; the main loop is embedded over any behaviour
    of it. *)
Variable display_statistics : M unit.

(** One round of the session loop of [main]: [inl tt] goes round again,
    [inr tt] is the logout. *)
Definition session_round (current_user : User) (_ : unit) : M (unit + unit) :=
  menu <- (if is_admin current_user then display_admin_menu
           else display_non_admin_menu);;
  if (menu =? "r")%string then
    (if is_admin current_user then
       print_header "REGISTER NEW USER";;
       register_user
     else print (nl ++ "  ERROR: Only Admin users can register new users." ++ nl));;
    ret (inl tt)
  else if (menu =? "a")%string then
    print_header "ADD NEW TASK";;
    add_task;;
    ret (inl tt)
  else if (menu =? "va")%string then
    view_all_tasks;;
    ret (inl tt)
  else if (menu =? "vm")%string then
    view_my_tasks;;
    ret (inl tt)
  else if (menu =? "vu")%string then
    (if is_admin current_user then view_all_users
     else print (nl ++ "  ERROR: Only Admin users can view all users." ++ nl));;
    ret (inl tt)
  else if (menu =? "vr")%string then
    (if is_admin current_user then verify_and_update_user_roles
     else print (nl ++ "  ERROR: Only Admin users can verify and update roles." ++ nl));;
    ret (inl tt)
  else if (menu =? "dt")%string then
    (if is_admin current_user then delete_task
     else print (nl ++ "  ERROR: Only Admin users can delete tasks." ++ nl));;
    ret (inl tt)
  else if (menu =? "vc")%string then
    (if is_admin current_user then view_completed_tasks
     else print (nl ++ "  ERROR: Only Admin users can view completed tasks." ++ nl));;
    ret (inl tt)
  else if (menu =? "uc")%string then
    print_header "UPDATE TASK COMPLETION STATUS";;
    update_task_complete;;
    ret (inl tt)
  else if (menu =? "rc")%string then
    (if is_admin current_user then
       print_header "RESET TASK TO INCOMPLETE";;
       reset_task_incomplete
     else print (nl ++ "  ERROR: Only Admin users can reset completed tasks to incomplete."
                 ++ nl));;
    ret (inl tt)
  else if (menu =? "gr")%string then
    (if is_admin current_user then
       print_header "GENERATING REPORTS";;
       generate_reports;;
       print "  Reports generated successfully!";;
       print "    - task_overview.txt";;
       print "    - user_overview.txt";;
       print ""
     else print (nl ++ "  ERROR: Only Admin users can generate reports." ++ nl));;
    ret (inl tt)
  else if (menu =? "ds")%string then
    (if is_admin current_user then
       print_header "TASK MANAGER STATISTICS";;
       display_statistics
     else print (nl ++ "  ERROR: Only Admin users can view statistics." ++ nl));;
    ret (inl tt)
  else if (menu =? "lo")%string then
    print_header "LOGOUT";;
    print ("  Goodbye, " ++ User_username current_user ++ "!");;
    print "";;
    ret (inr tt)
  else if (menu =? "e")%string then
    print_header "THANK YOU";;
    print "  Goodbye!!!";;
    print "";;
    exit
  else
    print (nl ++ "  ERROR: You have entered an invalid input. Please try again." ++ nl);;
    ret (inl tt).




End Main.

(** ** What a computation ensures *)

(** What the program shows, asks or logs. *)
Definition is_talk (e : event) : bool :=
  match e with
  | Header _ | Print _ | Ask _ | Log _ _ => true
  | _ => false
  end.

(** From [w] to [w'] some lines of input were read and things were shown,
    asked or logged; the files, the reports, the snapshots and the date are
    as they were. *)
Definition only_talks (w w' : world) : Prop :=
  exists (n : nat) (evs : list event),
    forallb is_talk evs = true
    /\ w' = set_stdin (skipn n (stdin w)) (add_events evs w).

(** Started in a world that meets [P], the computation [m] keeps to [F]
    whatever its outcome, returns only values that meet [G] in the world it
    leaves, and raises nothing but [EOFError]. *)
Definition ensures {A} (P : world -> Prop) (F : world -> world -> Prop)
    (G : A -> world -> Prop) (m : M A) : Prop :=
  forall w : world,
    P w ->
    match m w with
    | (Ok a, w') => F w w' /\ G a w'
    | (Raise e, w') => F w w' /\ e = EOFError
    end.

Definition anywhere : world -> Prop := fun _ => True.

(** ** More views of the world *)

(** A text in which no comma occurs. *)
Fixpoint no_comma (s : string) : bool :=
  match s with
  | EmptyString => true
  | String c r => negb (Ascii.eqb c ",") && no_comma r
  end.

(** The line [add_task] writes. *)
Definition new_task_line (id : Z)
    (task_username task_title task_description task_due_date : string)
    (current : PyDate.date) : string :=
  PyStr.str_of_int id ++ ", " ++ task_username ++ ", " ++ task_title ++ ", "
  ++ task_description ++ ", " ++ task_due_date ++ ", " ++ PyDate.strftime current
  ++ ", " ++ "No" ++ nl.

(** The task [add_task] means to add. *)
Definition new_task (id : Z)
    (task_username task_title task_description task_due_date : string)
    (current : PyDate.date) : task :=
  Task (PyStr.str_of_int id) task_username task_title task_description
    task_due_date (PyDate.strftime current) "No".

(** The line [register_user] writes. *)
Definition new_user_line (username password role : string) : string :=
  username ++ ", " ++ password ++ ", " ++ role ++ nl.

Definition is_role (role : string) : Prop := role = "Admin" \/ role = "Non-Admin".

(** A line of the user file that has a name and a password and no role. *)
Definition lacks_role (line : string) : bool :=
  (length (PyStr.split_comma_space (PyStr.strip line)) =? 2)%nat.

(** The lines [verify_and_update_user_roles] writes when [roles] are the
    roles chosen, in order, for the lines that lack one. *)
Fixpoint with_roles (lines roles : list string) : list string :=
  match lines with
  | [] => []
  | line :: rest =>
      match PyStr.split_comma_space (PyStr.strip line) with
      | [username; password] =>
          match roles with
          | role :: roles' =>
              new_user_line username password role :: with_roles rest roles'
          | [] => with_roles rest []
          end
      | [_; _; _] => line :: with_roles rest roles
      | _ => with_roles rest roles
      end
  end.

(** What the loop of [update_task_complete] shows for one task. *)
Definition mark_events (id : string) (t : task) : list event :=
  if (task_id t =? id)%string
  then [Header "SUCCESS";
        Print ("  Task ID " ++ id ++ " ('" ++ title t
               ++ "') has been marked as complete!");
        Print "";
        Log INFO ("Task ID " ++ id ++ " marked as complete")]
  else [].

(** What the loop of [reset_task_incomplete] makes of one task, and what it
    shows for it. *)
Definition reset_one (id : string) (t : task) : task :=
  if ((task_id t =? id)%string && status_is t "yes")%bool
  then set_complete t "No" else t.

Definition reset_events (id : string) (t : task) : list event :=
  if (task_id t =? id)%string then
    if status_is t "yes"
    then [Header "SUCCESS";
          Print ("  Task ID " ++ id ++ " ('" ++ title t
                 ++ "') has been reset to incomplete!");
          Print "";
          Log INFO ("Task ID " ++ id ++ " reset to incomplete")]
    else [Header "INFO";
          Print ("  Task ID " ++ id ++ " ('" ++ title t
                 ++ "') is already incomplete.");
          Print ""]
  else [].

(** The entry of one user in the user overview when every due date that is
    looked at is a date. *)
Definition user_entry (tasks : list task) (current_date : PyDate.date)
    (user : string) : user_stats :=
  let user_tasks := filter (fun t => (username t =? user)%string) tasks in
  UserStats user (length user_tasks) (count_completed user_tasks)
    (length user_tasks - count_completed user_tasks)
    (overdue_loop user_tasks current_date 0).

(** What [display_task] and [User.display_info] print. *)
Definition display_task_events (t : task) : list event :=
  [Print ("  " ++ ljust "Task ID" 20 ++ " | " ++ task_id t);
   Print ("  " ++ ljust "Username" 20 ++ " | " ++ username t);
   Print ("  " ++ ljust "Task Title" 20 ++ " | " ++ title t);
   Print ("  " ++ ljust "Description" 20 ++ " | " ++ description t);
   Print ("  " ++ ljust "Due Date" 20 ++ " | " ++ due_date t);
   Print ("  " ++ ljust "Assigned Date" 20 ++ " | " ++ assigned_date t);
   Print ("  " ++ ljust "Status" 20 ++ " | " ++ complete t);
   Print ("  " ++ PyStr.repeat_str "-" 76)].

Definition display_info_events (u : User) : list event :=
  [Print ("  " ++ ljust "Username" 30 ++ " | " ++ User_username u);
   Print ("  " ++ ljust "Role" 30 ++ " | " ++ User_role u);
   Print ("  " ++ PyStr.repeat_str "-" 76)].

(** ** Views used in the statements on the other operations *)

(** The id [get_next_task_id] gives the next task: one more than the largest
    id of the task file, and 1 when no line of it counts. *)
Definition next_task_id (w : world) : Z := max_id_scan (lines_of TASK_FILE w) 0 + 1.

(** What [add_task] shows once the line is written. *)
Definition added_events (id : Z) (task_username task_title : string) : list event :=
  [Appended TASK_FILE; Header "SUCCESS";
   Print ("  Task '" ++ task_title ++ "' successfully added!");
   Print ("  Task ID: " ++ PyStr.str_of_int id);
   Print ("  Assigned to: " ++ task_username);
   Print "";
   Log INFO ("Task created - ID: " ++ PyStr.str_of_int id ++ ", Title: "
             ++ task_title ++ ", Assigned to: " ++ task_username)].

(** What a successful login shows. *)
Definition login_accepted (username : string) (user : User) : list event :=
  [Header "USER LOGIN"; Ask "Enter your username: "; Ask "Enter your password: ";
   Header "SUCCESS"; Print ("  Welcome, " ++ User_username user ++ "!");
   Print ("  Role: " ++ User_role user); Print "";
   Log INFO ("User " ++ username ++ " logged in successfully")].

(** A text of characters of the class [[a-zA-Z0-9_]] only. *)
Fixpoint word_only (s : string) : bool :=
  match s with
  | EmptyString => true
  | String c r => is_word_char c && word_only r
  end.

(** What [register_user] shows once the line is written. *)
Definition registered_events (username role : string) : list event :=
  [Appended USER_FILE; Header "SUCCESS";
   Print ("  User '" ++ username ++ "' successfully created!");
   Print ("  Role: " ++ role); Print "";
   Log INFO ("New user registered: " ++ username ++ " with role " ++ role)].

(** What [verify_and_update_user_roles] does after its loop when a line
    lacked a role. *)
Definition roles_written_events (ok : bool) : list event :=
  [Backup USER_FILE ok; Wrote USER_FILE; Header "SUCCESS";
   Print "  All users have been updated with roles!"; Print ""].

(** What a run that finds every record with its role shows. *)
Definition roles_checked_events (lines : list string) : list event :=
  Header "USER ROLE VERIFICATION"
  :: if (length lines =? 0)%nat then []
     else [Print "  All existing users already have roles assigned."; Print ""].

(** What [generate_reports] shows when both reports are written. *)
Definition reports_written_events : list event :=
  [WroteTaskOverview; WroteUserOverview; Header "SUCCESS";
   Print "  Reports generated successfully!"; Print "  - task_overview.txt";
   Print "  - user_overview.txt"; Print "";
   Log INFO "Reports generated successfully"].

(** The numbers of the task overview. *)
Definition task_counts (tasks : list task) (current_date : PyDate.date)
    : task_overview :=
  TaskOverview (length tasks) (count_completed tasks)
    (length tasks - count_completed tasks) (overdue_loop tasks current_date 0).

(** The exceptions a computation may end with. *)
Definition raises_only (allowed : exn -> bool) {A} (m : M A) : Prop :=
  forall w : world,
    match fst (m w) with
    | Ok _ => True
    | Raise e => allowed e = true
    end.

Definition end_of_input (e : exn) : bool :=
  match e with
  | EOFError => true
  | _ => false
  end.

Definition missing_file_or_end_of_input (e : exn) : bool :=
  match e with
  | EOFError | FileNotFoundError => true
  | _ => false
  end.

Definition missing_file (e : exn) : bool :=
  match e with
  | FileNotFoundError => true
  | _ => false
  end.

Definition no_exception (e : exn) : bool := false.

Definition any_exception (e : exn) : bool := true.

(** What the three listings show. *)
Definition all_tasks_events (tasks : list task) : list event :=
  Header "ALL TASKS"
  :: if (length tasks =? 0)%nat then [Print "  No tasks found."; Print ""]
     else (flat_map display_task_events tasks
           ++ [Print ("  Total tasks: " ++ nat_str (length tasks)); Print ""])%list.

Definition completed_tasks_events (completed : list task) : list event :=
  (Header "COMPLETED TASKS"
   :: (if (length completed =? 0)%nat then [Print "  No completed tasks found."]
       else (flat_map display_task_events completed
             ++ [Print ("  Total completed tasks: " ++ nat_str (length completed))])%list)
   ++ [Print ""])%list.

Definition all_users_events (users : list User) : list event :=
  Header "ALL USERS"
  :: if (length users =? 0)%nat then [Print "  No users found."; Print ""]
     else (flat_map display_info_events users
           ++ [Print ("  Total users: " ++ nat_str (length users)); Print ""])%list.

(** What [view_my_tasks] shows before its menu when the user has tasks. *)
Definition my_tasks_events (my_username : string) (user_tasks : list task)
    : list event :=
  (Ask "Enter your username: " :: Header ("MY TASKS - " ++ PyStr.upper my_username)
   :: flat_map display_events user_tasks
   ++ [Print ("  Total tasks assigned to you: " ++ nat_str (length user_tasks));
       Print ""])%list.

(** The test of the overdue counts on one task whose due date is a date or
    is passed over. *)
Definition is_overdue (current_date : PyDate.date) (t : task) : bool :=
  status_is t "no"
  && match PyDate.strptime (due_date t) with
     | Some due => PyDate.ltb due current_date
     | None => false
     end.

(** [sum] of a list of numbers. *)
Definition sum_of (l : list nat) : nat := fold_right Nat.add 0%nat l.


(** ** Views used in the statements on appended lines *)

(** A text in which the character [x] does not occur. *)
Fixpoint lacks (x : ascii) (s : string) : bool :=
  match s with
  | EmptyString => true
  | String c r => negb (Ascii.eqb c x) && lacks x r
  end.

(** A text without a line feed and without a carriage return. *)
Definition no_break (s : string) : bool :=
  lacks (ascii_of_nat 10) s && lacks (ascii_of_nat 13) s.

(** A file that is empty, or whose last line ends with a line feed. *)
Fixpoint ends_with_newline (lines : list string) : bool :=
  match lines with
  | [] => true
  | [last] => ends_with_nl last
  | _ :: rest => ends_with_newline rest
  end.

(** More sets of exceptions. *)
Definition end_of_input_or_value_error (e : exn) : bool :=
  match e with
  | EOFError | ValueError => true
  | _ => false
  end.

Definition end_of_input_or_recursion (e : exn) : bool :=
  match e with
  | EOFError | RecursionError => true
  | _ => false
  end.

Definition missing_file_or_value_error (e : exn) : bool :=
  match e with
  | FileNotFoundError | ValueError => true
  | _ => false
  end.

(** The exceptions that end [main]. *)
Definition ends_of_main (e : exn) : bool :=
  match e with
  | EOFError | ValueError | RecursionError | SystemExit => true
  | _ => false
  end.

(** A world in which no more lines are left to read than calls of
    [get_valid_task_number] can be nested. *)
Definition room_enough (w : world) : Prop :=
  (length (stdin w) <= recursion_room w)%nat.

(** A computation that, started where [I] holds, ends where [I] holds and
    raises only what is allowed. *)
Definition raises_only_from (I : world -> Prop) (allowed : exn -> bool) {A}
    (m : M A) : Prop :=
  forall w : world,
    I w ->
    I (snd (m w))
    /\ match fst (m w) with
       | Ok _ => True
       | Raise e => allowed e = true
       end.



(** From [w] to [w'] the room for nested calls is the same and no line was
    added to the input still to be read. *)
Definition keeps_room (w w' : world) : Prop :=
  recursion_room w' = recursion_room w
  /\ (length (stdin w') <= length (stdin w))%nat.

(** Every exception but [SystemExit]. *)
Definition not_exit (e : exn) : bool :=
  match e with
  | SystemExit => false
  | _ => true
  end.

(** * Facts *)

Unset Implicit Arguments.

(** ** The primitives on examples *)

Example strip_ex : PyStr.strip "  1, a b ,  c
" = "1, a b ,  c".
Proof. reflexivity. Qed.

Example strptime_ex1 : PyDate.strptime "2024-02-29" = Some (PyDate.Date 2024 2 29).
Proof. reflexivity. Qed.

Example strptime_ex2 : PyDate.strptime "2025-02-29" = None.
Proof. reflexivity. Qed.

Example strptime_ex3 : PyDate.strptime "2025-1-5" = Some (PyDate.Date 2025 1 5).
Proof. reflexivity. Qed.

Example strptime_ex4 : PyDate.strptime "2025-01-05 " = None.
Proof. reflexivity. Qed.

Example strptime_ex5 : PyDate.strptime "25-01-05" = None.
Proof. reflexivity. Qed.

Example strptime_ex6 : PyDate.strptime "2025-01-45" = None.
Proof. reflexivity. Qed.

Example split_ex :
  PyStr.split_comma_space "1, a,, b, ,c, " = ["1"; "a,"; "b"; ",c"; ""].
Proof. reflexivity. Qed.

Example int_ex :
  map PyStr.int [" +1_000 "; "-007"; "12 "; "1__0"; "_1"; "1_"; ""; "abc"; "- 5"]
  = [Some 1000; Some (-7); Some 12; None; None; None; None; None; None].
Proof. reflexivity. Qed.

(** ** Splitting, joining and stripping *)

Section StringFacts.

Import PyStr.

Lemma split_sep (r : string) :
  split_comma_space (String "," (String " " r)) = EmptyString :: split_comma_space r.
Proof. reflexivity. Qed.

Lemma split_other (c : ascii) (r : string) :
  starts_sep (String c r) = false ->
  split_comma_space (String c r) =
    match split_comma_space r with
    | f :: fs => String c f :: fs
    | [] => [String c EmptyString]
    end.
Proof.
  intros H.
  destruct (Ascii.eqb_spec c ",") as [-> | Hc].
  - destruct r as [| d r]; [reflexivity |].
    destruct (Ascii.eqb_spec d " ") as [-> | Hd]; [discriminate |].
    destruct d as [[] [] [] [] [] [] [] []]; try reflexivity; congruence.
  - destruct c as [[] [] [] [] [] [] [] []]; try reflexivity; congruence.
Qed.

Lemma split_not_nil (s : string) : split_comma_space s <> [].
Proof.
  assert (H : forall s, split_comma_space s <> [] /\
                        forall c, split_comma_space (String c s) <> []).
  { clear s. intros s. induction s as [| d r [IH1 IH2]].
    - split; [discriminate |]. intros c.
      rewrite split_other by reflexivity. discriminate.
    - split; [apply IH2 |]. intros c.
      destruct (starts_sep (String c (String d r))) eqn:E.
      + simpl in E. apply andb_prop in E as [E1 E2].
        apply Ascii.eqb_eq in E1, E2. subst. discriminate.
      + rewrite split_other by exact E.
        destruct (split_comma_space (String d r)); discriminate. }
  apply H.
Qed.

Lemma join_cons_char (c : ascii) (f : string) (fs : list string) :
  join_comma_space (String c f :: fs) = String c (join_comma_space (f :: fs)).
Proof. destruct fs; reflexivity. Qed.

Lemma join_split (s : string) : join_comma_space (split_comma_space s) = s.
Proof.
  assert (H : forall s, join_comma_space (split_comma_space s) = s /\
                        forall c, join_comma_space (split_comma_space (String c s))
                                  = String c s).
  { clear s. intros s. induction s as [| d r [IH1 IH2]].
    - split; [reflexivity |]. intros c.
      rewrite split_other by reflexivity. reflexivity.
    - split; [apply IH2 |]. intros c.
      destruct (starts_sep (String c (String d r))) eqn:E.
      + simpl in E. apply andb_prop in E as [E1 E2].
        apply Ascii.eqb_eq in E1, E2. subst. rewrite split_sep.
        pose proof (split_not_nil r) as Hn.
        destruct (split_comma_space r) as [| f fs] eqn:Er; [congruence |].
        rewrite <- IH1. reflexivity.
      + rewrite split_other by exact E.
        pose proof (split_not_nil (String d r)) as Hn.
        destruct (split_comma_space (String d r)) as [| f fs] eqn:Er; [congruence |].
        pose proof (IH2 d) as Hd. rewrite Er in Hd.
        rewrite join_cons_char. now rewrite Hd. }
  apply H.
Qed.

Lemma lstrip_head (s : string) : head_not_space (lstrip s).
Proof.
  induction s as [| c r IH]; simpl; [exact I |].
  destruct (is_space c) eqn:E; [exact IH | exact E].
Qed.

Lemma rstrip_head (s : string) : head_not_space s -> head_not_space (rstrip s).
Proof.
  destruct s as [| c r]; simpl; [trivial |]. intros H.
  destruct (rstrip r); [rewrite H |]; exact H.
Qed.

Lemma strip_head (s : string) : head_not_space (strip s).
Proof. apply rstrip_head, lstrip_head. Qed.

Lemma lstrip_fixed (s : string) : head_not_space s -> lstrip s = s.
Proof. destruct s as [| c r]; simpl; [trivial |]. now intros ->. Qed.

Lemma rstrip_app_space (s : string) (c : ascii) :
  is_space c = true -> rstrip (s ++ String c EmptyString) = rstrip s.
Proof.
  intros H. induction s as [| d r IH]; simpl.
  - now rewrite H.
  - now rewrite IH.
Qed.

Lemma rstrip_idem (s : string) : rstrip (rstrip s) = rstrip s.
Proof.
  induction s as [| c r IH]; simpl; [reflexivity |].
  destruct (rstrip r) as [| d r'] eqn:E.
  - destruct (is_space c) eqn:Ec; simpl; [reflexivity | now rewrite Ec].
  - simpl in IH |- *. now rewrite IH.
Qed.

Lemma strip_line (s : string) : strip (strip s ++ nl) = strip s.
Proof.
  pose proof (strip_head s) as Hh.
  unfold strip at 1.
  destruct (strip s) as [| c r] eqn:E; [reflexivity |].
  rewrite lstrip_fixed by exact Hh.
  unfold nl. rewrite rstrip_app_space by reflexivity.
  rewrite <- E. unfold strip. apply rstrip_idem.
Qed.


End StringFacts.

(** ** [str] and [int] on integers *)

Lemma digit_value_digit_char (d : Z) :
  0 <= d < 10 -> PyStr.digit_value (PyStr.digit_char d) = Some d.
Proof.
  intros H.
  assert (E : d = 0 \/ d = 1 \/ d = 2 \/ d = 3 \/ d = 4 \/ d = 5 \/ d = 6 \/ d = 7
              \/ d = 8 \/ d = 9) by lia.
  repeat (destruct E as [-> | E]; [reflexivity |]). now subst.
Qed.

Lemma digit_not_space (c : ascii) (d : Z) :
  PyStr.digit_value c = Some d -> PyStr.is_space c = false.
Proof.
  unfold PyStr.digit_value, PyStr.is_space.
  destruct (48 <=? nat_of_ascii c)%nat eqn:E1; [| discriminate].
  destruct (nat_of_ascii c <=? 57)%nat eqn:E2; [| discriminate].
  intros _. apply Nat.leb_le in E1, E2.
  repeat match goal with
         | |- context [(?a <=? ?b)%nat] => destruct (Nat.leb_spec a b); try lia
         | |- context [(?a =? ?b)%nat] => destruct (Nat.eqb_spec a b); try lia
         end; reflexivity.
Qed.

Lemma digit_not_sign (c : ascii) (d : Z) (r : string) :
  PyStr.digit_value c = Some d ->
  match String c r with
  | String "+" r' => PyStr.int_digits r' 0 false
  | String "-" r' => option_map Z.opp (PyStr.int_digits r' 0 false)
  | s => PyStr.int_digits s 0 false
  end = PyStr.int_digits (String c r) 0 false.
Proof.
  destruct c as [[] [] [] [] [] [] [] []]; try reflexivity; discriminate.
Qed.

Lemma rstrip_digits (s : string) : digits_only s = true -> PyStr.rstrip s = s.
Proof.
  induction s as [| c r IH]; [reflexivity |]. simpl.
  destruct (PyStr.digit_value c) as [d |] eqn:E; [| discriminate].
  intros H. rewrite (IH H). destruct r; [| reflexivity].
  now rewrite (digit_not_space c d E).
Qed.

Lemma strip_digits (s : string) : digits_only s = true -> PyStr.strip s = s.
Proof.
  intros H. unfold PyStr.strip.
  destruct s as [| c r]; [reflexivity |]. simpl in H |- *.
  destruct (PyStr.digit_value c) as [d |] eqn:E; [| discriminate].
  rewrite (digit_not_space c d E).
  change (PyStr.rstrip (String c r) = String c r). apply rstrip_digits.
  simpl. now rewrite E.
Qed.

Lemma str_pos_digits (fuel : nat) (n : Z) (acc : string) :
  0 <= n -> digits_only acc = true -> digits_only (PyStr.str_pos fuel n acc) = true.
Proof.
  revert n acc. induction fuel as [| k IH]; intros n acc Hn Hacc; [exact Hacc |].
  cbn [PyStr.str_pos].
  assert (Hd : digits_only (String (PyStr.digit_char (n mod 10)) acc) = true).
  { cbn [digits_only]. rewrite digit_value_digit_char by (apply Z.mod_pos_bound; lia).
    exact Hacc. }
  destruct (n <? 10); [exact Hd |]. apply IH; [| exact Hd].
  apply Z.div_pos; lia.
Qed.

Lemma int_digits_str_pos (f : nat) (n : Z) :
  0 <= n < 10 ^ Z.of_nat (S f) ->
  exists k : Z,
    0 <= k /\
    forall (acc : string) (a : Z) (seen : bool),
      PyStr.int_digits (PyStr.str_pos (S f) n acc) a seen
      = PyStr.int_digits acc (a * 10 ^ k + n) true.
Proof.
  revert n. induction f as [| f IH]; intros n Hn.
  - exists 1. split; [lia |]. intros acc a seen.
    change (10 ^ Z.of_nat 1) with 10 in Hn.
    cbn [PyStr.str_pos]. destruct (Z.ltb_spec n 10) as [_ | Hge]; [| lia].
    cbn [PyStr.int_digits].
    rewrite digit_value_digit_char by (apply Z.mod_pos_bound; lia).
    rewrite Z.mod_small by lia. f_equal. lia.
  - remember (S f) as f' eqn:Ef. cbn [PyStr.str_pos].
    destruct (Z.ltb_spec n 10) as [Hlt | Hge].
    + exists 1. split; [lia |]. intros acc a seen. cbn [PyStr.int_digits].
      rewrite digit_value_digit_char by (apply Z.mod_pos_bound; lia).
      rewrite Z.mod_small by lia. f_equal. lia.
    + destruct (IH (n / 10)) as (k & Hk0 & Hk).
      { split; [apply Z.div_pos; lia |].
        apply Z.div_lt_upper_bound; [lia |].
        rewrite Nat2Z.inj_succ, Z.pow_succ_r in Hn by lia. lia. }
      exists (k + 1). split; [lia |]. intros acc a seen.
      rewrite Hk. cbn [PyStr.int_digits].
      rewrite digit_value_digit_char by (apply Z.mod_pos_bound; lia).
      f_equal. rewrite Z.pow_add_r by lia.
      pose proof (Z.div_mod n 10 ltac:(lia)). lia.
Qed.

Lemma str_pos_fuel (n : Z) :
  0 <= n -> n < 10 ^ Z.of_nat (S (Z.to_nat (Z.log2 n))).
Proof.
  intros Hn. rewrite Nat2Z.inj_succ, Z2Nat.id by apply Z.log2_nonneg.
  destruct (Z.eq_dec n 0) as [-> | Hz]; [reflexivity |].
  pose proof (Z.log2_spec n ltac:(lia)) as [_ Hup].
  pose proof (Z.log2_nonneg n).
  eapply Z.lt_le_trans; [exact Hup |].
  apply Z.pow_le_mono_l. lia.
Qed.

Lemma int_str_pos (n : Z) :
  0 <= n ->
  PyStr.int_digits (PyStr.str_pos (S (Z.to_nat (Z.log2 n))) n "") 0 false = Some n.
Proof.
  intros Hn.
  destruct (int_digits_str_pos (Z.to_nat (Z.log2 n)) n) as (k & _ & Hk).
  { split; [exact Hn | now apply str_pos_fuel]. }
  rewrite Hk. reflexivity.
Qed.

Lemma str_pos_not_empty (f : nat) (n : Z) (acc : string) :
  PyStr.str_pos (S f) n acc <> "".
Proof.
  revert n acc. induction f as [| f IH]; intros n acc.
  - cbn [PyStr.str_pos]. destruct (n <? 10); discriminate.
  - remember (S f) as f'. cbn [PyStr.str_pos]. subst f'.
    destruct (n <? 10); [discriminate | apply IH].
Qed.

Lemma digit_not_int_space (c : ascii) (d : Z) :
  PyStr.digit_value c = Some d -> PyStr.is_int_space c = false.
Proof.
  unfold PyStr.digit_value, PyStr.is_int_space.
  destruct (48 <=? nat_of_ascii c)%nat eqn:E1; [| discriminate].
  destruct (nat_of_ascii c <=? 57)%nat eqn:E2; [| discriminate].
  intros _. apply Nat.leb_le in E1, E2.
  repeat match goal with
         | |- context [(?a <=? ?b)%nat] => destruct (Nat.leb_spec a b); try lia
         | |- context [(?a =? ?b)%nat] => destruct (Nat.eqb_spec a b); try lia
         end; reflexivity.
Qed.

Lemma int_rstrip_digits (s : string) : digits_only s = true -> PyStr.int_rstrip s = s.
Proof.
  induction s as [| c r IH]; [reflexivity |]. simpl.
  destruct (PyStr.digit_value c) as [d |] eqn:E; [| discriminate].
  intros H. rewrite (IH H). destruct r; [| reflexivity].
  now rewrite (digit_not_int_space c d E).
Qed.

Lemma int_strip_digits (s : string) :
  digits_only s = true -> PyStr.int_rstrip (PyStr.int_lstrip s) = s.
Proof.
  intros H. destruct s as [| c r]; [reflexivity |]. simpl in H.
  cbn [PyStr.int_lstrip].
  destruct (PyStr.digit_value c) as [d |] eqn:E; [| discriminate].
  rewrite (digit_not_int_space c d E). apply int_rstrip_digits.
  simpl. now rewrite E.
Qed.

(** [int(str(n))] is [n]: a task ID written by [add_task] is read back as
    the number it was made from.  An integer [str] writes is within the cap
    of [int]. *)
Lemma int_str_of_int (n : Z) :
  PyStr.count_digits (PyStr.str_of_int n) <= PyStr.max_str_digits ->
  PyStr.int (PyStr.str_of_int n) = Some n.
Proof.
  unfold PyStr.str_of_int. destruct (Z.ltb_spec n 0) as [Hneg | Hpos].
  - set (s := PyStr.str_pos (S (Z.to_nat (Z.log2 (- n)))) (- n) "").
    intros Hcap. change (PyStr.count_digits (String "-" s)) with (PyStr.count_digits s) in Hcap.
    assert (Hd : digits_only s = true) by (apply str_pos_digits; [lia | reflexivity]).
    assert (Hs : PyStr.int_rstrip (PyStr.int_lstrip (String "-" s)) = String "-" s).
    { change (PyStr.int_lstrip (String "-" s)) with (String "-" s).
      cbn [PyStr.int_rstrip]. rewrite (int_rstrip_digits s Hd).
      destruct s eqn:Es; [| reflexivity].
      exfalso. exact (str_pos_not_empty _ _ _ Es). }
    unfold PyStr.int. rewrite Hs. unfold PyStr.int_literal.
    destruct (Z.ltb_spec PyStr.max_str_digits (PyStr.count_digits s)); [lia |].
    subst s. rewrite int_str_pos by lia.
    cbn [option_map]. f_equal. lia.
  - set (s := PyStr.str_pos (S (Z.to_nat (Z.log2 n))) n "").
    intros Hcap.
    assert (Hd : digits_only s = true) by (apply str_pos_digits; [lia | reflexivity]).
    unfold PyStr.int. rewrite (int_strip_digits s Hd).
    assert (Hlit : PyStr.int_literal s = Some n).
    { unfold PyStr.int_literal.
      destruct (Z.ltb_spec PyStr.max_str_digits (PyStr.count_digits s)); [lia |].
      subst s. now apply int_str_pos. }
    destruct s as [| c r] eqn:Es.
    { exfalso. exact (str_pos_not_empty _ _ _ Es). }
    cbn [digits_only] in Hd.
    destruct (PyStr.digit_value c) as [d |] eqn:Ec; [| discriminate].
    rewrite <- Hlit. clear - Ec.
    destruct c as [[] [] [] [] [] [] [] []]; try reflexivity; discriminate.
Qed.

Lemma int_of_str (n : Z) (text : string) :
  PyStr.str n = Some text -> text = PyStr.str_of_int n /\ PyStr.int text = Some n.
Proof.
  unfold PyStr.str.
  destruct (Z.ltb_spec PyStr.max_str_digits (PyStr.count_digits (PyStr.str_of_int n)));
    [discriminate |].
  intros [= <-]. split; [reflexivity |]. now apply int_str_of_int.
Qed.

(** ** Running the monad *)

Lemma bind_ok {A B} {m : M A} (k : A -> M B) {w w' : world} {a : A} :
  m w = (Ok a, w') -> bind m k w = k a w'.
Proof. intros H. unfold bind. now rewrite H. Qed.

Lemma bind_raise {A B} {m : M A} (k : A -> M B) {w w' : world} {e : exn} :
  m w = (Raise e, w') -> bind m k w = (Raise e, w').
Proof. intros H. unfold bind. now rewrite H. Qed.

Lemma try_ok {A} {m : M A} (h : exn -> option (M A)) {w w' : world} {a : A} :
  m w = (Ok a, w') -> try_except m h w = (Ok a, w').
Proof. intros H. unfold try_except. now rewrite H. Qed.

Lemma while_fuel_again {St A} {body : St -> M (St + A)} (k : nat) {s s' : St}
    {w w' : world} :
  body s w = (Ok (inl s'), w') ->
  while_fuel (S k) body s w = while_fuel k body s' w'.
Proof. intros H. simpl. now rewrite (bind_ok _ H). Qed.

Lemma while_fuel_leave {St A} {body : St -> M (St + A)} (k : nat) {s : St} {a : A}
    {w w' : world} :
  body s w = (Ok (inr a), w') ->
  while_fuel (S k) body s w = (Ok a, w').
Proof. intros H. simpl. now rewrite (bind_ok _ H). Qed.

Lemma while_fuel_raise {St A} {body : St -> M (St + A)} (k : nat) {s : St} {e : exn}
    {w w' : world} :
  body s w = (Raise e, w') ->
  while_fuel (S k) body s w = (@Raise A e, w').
Proof. intros H. simpl. now rewrite (bind_raise _ H). Qed.

Lemma input_run (prompt : string) {x : string} {rest : list string} {w : world} :
  stdin w = x :: rest ->
  input prompt w = (Ok x, set_stdin rest (add_event (Ask prompt) w)).
Proof. intros H. unfold input. now rewrite H. Qed.

Lemma add_event_events (e : event) (evs : list event) (w : world) :
  add_event e (add_events evs w) = add_events (evs ++ [e]) w.
Proof. unfold add_event, add_events; simpl. now rewrite app_assoc. Qed.

Lemma add_events_events (evs evs' : list event) (w : world) :
  add_events evs' (add_events evs w) = add_events (evs ++ evs') w.
Proof. unfold add_events; simpl. now rewrite app_assoc. Qed.

Lemma add_event_one (e : event) (w : world) : add_event e w = add_events [e] w.
Proof. reflexivity. Qed.

Lemma set_stdin_events (evs : list event) (i : list string) (w : world) :
  add_events evs (set_stdin i w) = set_stdin i (add_events evs w).
Proof. reflexivity. Qed.

(** ** [get_validated_input] on a field that must not be empty *)

Lemma strip_idem (s : string) : PyStr.strip (PyStr.strip s) = PyStr.strip s.
Proof.
  unfold PyStr.strip at 1. rewrite lstrip_fixed by apply strip_head.
  unfold PyStr.strip. apply rstrip_idem.
Qed.

Lemma validate_non_empty_ok (x field_name : string) :
  PyStr.strip x <> "" -> validate_non_empty (PyStr.strip x) field_name = (true, "").
Proof.
  intros H. unfold validate_non_empty. rewrite strip_idem.
  destruct (String.eqb_spec (PyStr.strip x) "") as [E | E]; [contradiction |].
  reflexivity.
Qed.

Lemma validate_non_empty_blank (x field_name : string) :
  blank x ->
  validate_non_empty (PyStr.strip x) field_name
  = (false, field_name ++ " cannot be empty.").
Proof. unfold blank. intros H. unfold validate_non_empty. rewrite H. reflexivity. Qed.

Lemma round_non_empty_ok (prompt field_name : string) {raw : string}
    {rest : list string} {w : world} :
  stdin w = raw :: rest -> PyStr.strip raw <> "" ->
  get_validated_input_round prompt (non_empty field_name) tt w
  = (Ok (inr (PyStr.strip raw)), set_stdin rest (add_events [Ask prompt] w)).
Proof.
  intros Hin Hraw. unfold get_validated_input_round.
  rewrite (bind_ok _ (input_run prompt Hin)).
  unfold non_empty, bind, ret. rewrite validate_non_empty_ok by exact Hraw.
  reflexivity.
Qed.

Lemma round_non_empty_blank (prompt field_name : string) {raw : string}
    {rest : list string} {w : world} :
  stdin w = raw :: rest -> blank raw ->
  get_validated_input_round prompt (non_empty field_name) tt w
  = (Ok (inl tt),
     set_stdin rest
       (add_events [Ask prompt; Print ("Error: " ++ field_name ++ " cannot be empty.")] w)).
Proof.
  intros Hin Hraw. unfold get_validated_input_round.
  rewrite (bind_ok _ (input_run prompt Hin)).
  unfold non_empty, bind, ret. rewrite validate_non_empty_blank by exact Hraw.
  unfold print, emit, add_event, add_events, set_stdin. simpl.
  rewrite <- app_assoc. reflexivity.
Qed.

Lemma get_validated_input_fuel (prompt field_name : string) (blanks : list string)
    (raw : string) (rest : list string) :
  Forall blank blanks -> PyStr.strip raw <> "" ->
  forall (fuel : nat) (w : world),
    (length blanks < fuel)%nat ->
    stdin w = (blanks ++ raw :: rest)%list ->
    while_fuel fuel (get_validated_input_round prompt (non_empty field_name)) tt w
    = (Ok (PyStr.strip raw),
       set_stdin rest
         (add_events (retry_events prompt field_name blanks ++ [Ask prompt])%list w)).
Proof.
  intros Hb Hraw. induction Hb as [| b bs Hb1 Hb2 IH]; intros fuel w Hf Hin.
  - destruct fuel as [| k]; [simpl in Hf; lia |].
    apply while_fuel_leave. now apply round_non_empty_ok.
  - destruct fuel as [| k]; [simpl in Hf; lia |].
    rewrite (while_fuel_again _ (round_non_empty_blank prompt field_name Hin Hb1)).
    rewrite IH; [| simpl in Hf; lia | reflexivity].
    rewrite set_stdin_events, add_events_events. reflexivity.
Qed.

Lemma get_validated_input_non_empty (prompt field_name : string)
    (blanks : list string) (raw : string) (rest : list string) (w : world) :
  Forall blank blanks -> PyStr.strip raw <> "" ->
  stdin w = (blanks ++ raw :: rest)%list ->
  get_validated_input prompt (non_empty field_name) w
  = (Ok (PyStr.strip raw),
     set_stdin rest
       (add_events (retry_events prompt field_name blanks ++ [Ask prompt])%list w)).
Proof.
  intros Hb Hraw Hin. unfold get_validated_input, while_true.
  apply get_validated_input_fuel; trivial.
  rewrite Hin, length_app. simpl. lia.
Qed.

(** ** The task file: what is read, and what is read back after a write *)

Lemma tuple7_fields (l : list string) (t : task) :
  tuple7 l = Some t <-> l = fields t.
Proof.
  split.
  - destruct l as [| a [| b [| c [| d [| e [| f [| g [| h l]]]]]]]]; try discriminate.
    intros [= <-]. reflexivity.
  - intros ->. destruct t. reflexivity.
Qed.

Lemma tuple7_length (l : list string) :
  (length l =? 7)%nat = true <-> exists t, tuple7 l = Some t.
Proof.
  split.
  - destruct l as [| a [| b [| c [| d [| e [| f [| g [| h l]]]]]]]]; try discriminate.
    intros _. eexists. reflexivity.
  - intros [t H]. apply tuple7_fields in H. subst. reflexivity.
Qed.

Lemma read_tasks_loop_records (lines : list string) (acc : list task) :
  read_tasks_loop lines acc = (acc ++ records lines)%list.
Proof.
  revert acc. induction lines as [| line rest IH]; intros acc; simpl.
  - now rewrite app_nil_r.
  - unfold parse_task. destruct (tuple7 _) as [t |].
    + rewrite IH, <- app_assoc. reflexivity.
    + apply IH.
Qed.

Lemma stored_tasks_records (w : world) :
  stored_tasks w = match task_txt w with Some lines => records lines | None => [] end.
Proof.
  unfold stored_tasks. destruct (task_txt w); [| reflexivity].
  apply read_tasks_loop_records.
Qed.

Lemma read_all_tasks_run (w : world) : read_all_tasks w = (Ok (stored_tasks w), w).
Proof.
  unfold read_all_tasks, try_except, bind, read_lines, stored_tasks. simpl.
  destruct (task_txt w); reflexivity.
Qed.

Lemma In_records (lines : list string) (t : task) :
  In t (records lines) <->
  exists line, In line lines /\ PyStr.split_comma_space (PyStr.strip line) = fields t.
Proof.
  induction lines as [| line rest IH]; simpl.
  - split; [contradiction | intros (l & [] & _)].
  - unfold parse_task at 1.
    destruct (tuple7 (PyStr.split_comma_space (PyStr.strip line))) as [u |] eqn:E.
    + simpl. rewrite IH. split.
      * intros [<- | (l & Hl & Hf)].
        -- exists line. split; [now left | now apply tuple7_fields].
        -- exists l. split; [now right | exact Hf].
      * intros (l & [<- | Hl] & Hf).
        -- left. apply tuple7_fields in Hf. congruence.
        -- right. now exists l.
    + rewrite IH. split.
      * intros (l & Hl & Hf). exists l. split; [now right | exact Hf].
      * intros (l & [<- | Hl] & Hf).
        -- apply tuple7_fields in Hf. congruence.
        -- now exists l.
Qed.


Lemma parsed_canonical (line : string) (t : task) :
  parse_task line = Some t -> canonical t.
Proof.
  unfold canonical, parse_task, task_line. intros H.
  apply tuple7_fields in H. rewrite <- H, join_split, strip_line, H.
  now apply tuple7_fields.
Qed.

Lemma records_canonical (lines : list string) : Forall canonical (records lines).
Proof.
  induction lines as [| line rest IH]; simpl; [constructor |].
  destruct (parse_task line) as [t |] eqn:E; [| exact IH].
  constructor; [now apply (parsed_canonical line) | exact IH].
Qed.

Lemma stored_canonical (w : world) : Forall canonical (stored_tasks w).
Proof.
  rewrite stored_tasks_records. destruct (task_txt w); [| constructor].
  apply records_canonical.
Qed.

Lemma records_written (tasks : list task) :
  Forall canonical tasks -> records (map task_line tasks) = tasks.
Proof.
  induction 1 as [| t ts Ht Hts IH]; simpl; [reflexivity |].
  unfold canonical in Ht. rewrite Ht, IH. reflexivity.
Qed.

Lemma write_all_tasks_run (tasks : list task) (w : world) :
  write_all_tasks tasks w
  = (Ok tt, add_events [Wrote TASK_FILE] (set_file TASK_FILE (map task_line tasks) w)).
Proof. reflexivity. Qed.

Lemma stored_after_write (tasks : list task) (evs : list event) (i : list string)
    (w : world) :
  Forall canonical tasks ->
  stored_tasks (set_stdin i (add_events evs (set_file TASK_FILE (map task_line tasks) w)))
  = tasks.
Proof.
  intros H. rewrite stored_tasks_records. simpl. now apply records_written.
Qed.

(** ** [get_next_task_id] *)

Lemma max_id_scan_cons (line : string) (rest : list string) (m : Z) :
  max_id_scan (line :: rest) m
  = match parse_task line with
    | Some t =>
        match PyStr.int (task_id t) with
        | Some id => max_id_scan rest (Z.max m id)
        | None => max_id_scan rest m
        end
    | None => max_id_scan rest m
    end.
Proof.
  unfold parse_task. simpl.
  destruct (tuple7 (PyStr.split_comma_space (PyStr.strip line))) as [t |] eqn:E.
  - apply tuple7_fields in E. rewrite E. reflexivity.
  - destruct (length _ =? 7)%nat eqn:L; [| reflexivity].
    apply tuple7_length in L as [t Ht]. congruence.
Qed.

Lemma max_id_scan_ge (lines : list string) (m : Z) : m <= max_id_scan lines m.
Proof.
  revert m. induction lines as [| line rest IH]; intros m; [simpl; lia |].
  rewrite max_id_scan_cons.
  destruct (parse_task line) as [t |]; [| apply IH].
  destruct (PyStr.int (task_id t)) as [id |]; [| apply IH].
  specialize (IH (Z.max m id)). lia.
Qed.

Lemma max_id_scan_bound (lines : list string) (m id : Z) :
  In id (int_ids (records lines)) -> id <= max_id_scan lines m.
Proof.
  revert m. induction lines as [| line rest IH]; intros m; simpl records;
    [contradiction |].
  rewrite max_id_scan_cons.
  destruct (parse_task line) as [t |]; [| apply IH].
  simpl. destruct (PyStr.int (task_id t)) as [id' |]; [| apply IH].
  intros [<- | H]; [| now apply IH].
  pose proof (max_id_scan_ge rest (Z.max m id')). lia.
Qed.

Lemma max_id_scan_tight (lines : list string) (m : Z) :
  max_id_scan lines m = m \/ In (max_id_scan lines m) (int_ids (records lines)).
Proof.
  revert m. induction lines as [| line rest IH]; intros m; [now left |].
  rewrite max_id_scan_cons. simpl records.
  destruct (parse_task line) as [t |]; [| apply IH].
  simpl. destruct (PyStr.int (task_id t)) as [id |]; [| apply IH].
  destruct (IH (Z.max m id)) as [E | H].
  - rewrite E. destruct (Z.max_spec m id) as [[_ ->] | [_ ->]]; [right | left]; auto.
    now left.
  - right. now right.
Qed.

Lemma get_next_task_id_run (w : world) :
  get_next_task_id w
  = (Ok (match task_txt w with
         | Some lines => max_id_scan lines 0 + 1
         | None => 1
         end), w).
Proof.
  unfold get_next_task_id, try_except, bind, read_lines. simpl.
  destruct (task_txt w); reflexivity.
Qed.

(** What [get_next_task_id] returns, in terms of the stored tasks. *)
Lemma get_next_task_id_stored (w : world) :
  exists n : Z,
    get_next_task_id w = (Ok n, w)
    /\ 1 <= n
    /\ (forall id, In id (int_ids (stored_tasks w)) -> id < n)
    /\ (n = 1 \/ In (n - 1) (int_ids (stored_tasks w))).
Proof.
  rewrite get_next_task_id_run, stored_tasks_records.
  destruct (task_txt w) as [lines |].
  - exists (max_id_scan lines 0 + 1). split; [reflexivity |].
    pose proof (max_id_scan_ge lines 0) as Hge. split; [lia |]. split.
    + intros id H. pose proof (max_id_scan_bound lines 0 id H). lia.
    + destruct (max_id_scan_tight lines 0) as [E | H].
      * left. lia.
      * right. now replace (max_id_scan lines 0 + 1 - 1) with (max_id_scan lines 0) by lia.
  - exists 1. split; [reflexivity |]. split; [lia |]. split.
    + intros id [].
    + now left.
Qed.

(** C5 (as amended).  [read_all_tasks] never raises and leaves the world as
    it is; it returns, in the order of the file, the record of every line
    whose stripped text splits into 7 fields, whatever the id field holds,
    and nothing for an absent file. *)
Theorem read_all_tasks_seven_fields (w : world) :
  let lines := match task_txt w with Some l => l | None => [] end in
  read_all_tasks w = (Ok (records lines), w)
  /\ forall t : task,
       In t (records lines) <->
       exists line, In line lines
                    /\ PyStr.split_comma_space (PyStr.strip line) = fields t.
Proof.
  simpl. split.
  - rewrite read_all_tasks_run, stored_tasks_records.
    destruct (task_txt w); reflexivity.
  - intros t. apply In_records.
Qed.

(** ** [delete_task] *)

Lemma backup_file_run (f : datafile) (w : world) :
  backup_file f w
  = (Ok (backup_result f w),
     add_events [Backup f (backup_result f w)] (backup_world f w)).
Proof.
  unfold backup_file, backup_result, backup_world.
  destruct (file_of f w); [destruct (copy_ok w) |]; reflexivity.
Qed.

Lemma delete_loop_cons (t : task) (rest : list task) (ident : string)
    (found : bool) (info : string) (upd : list task) :
  delete_loop (t :: rest) ident (found, info, upd)
  = if matches ident t
    then delete_loop rest ident
           (true, "Task ID " ++ task_id t ++ " ('" ++ title t ++ "')", upd)
    else delete_loop rest ident (found, info, (upd ++ [t])%list).
Proof. reflexivity. Qed.

Lemma delete_loop_spec (tasks : list task) (ident : string) (found : bool)
    (info : string) (upd : list task) :
  exists info',
    delete_loop tasks ident (found, info, upd)
    = (found || existsb (matches ident) tasks, info',
       (upd ++ filter (fun t => negb (matches ident t)) tasks)%list).
Proof.
  revert found info upd. induction tasks as [| t rest IH]; intros found info upd.
  - exists info. simpl. now rewrite orb_false_r, app_nil_r.
  - rewrite delete_loop_cons. cbn [existsb filter].
    destruct (matches ident t); cbn [negb].
    + destruct (IH true ("Task ID " ++ task_id t ++ " ('" ++ title t ++ "')") upd)
        as [info' ->].
      exists info'. now rewrite orb_true_r.
    + destruct (IH found info (upd ++ [t])%list) as [info' ->].
      exists info'. now rewrite <- app_assoc.
Qed.

(** *** The algebra of world updates *)

Lemma emit_run (e : event) (w : world) : emit e w = (Ok tt, add_events [e] w).
Proof. reflexivity. Qed.

Lemma bind_assoc {A B C} (m : M A) (f : A -> M B) (g : B -> M C) (w : world) :
  bind (bind m f) g w = bind m (fun x => bind (f x) g) w.
Proof. unfold bind. destruct (m w) as [[a | e] w']; reflexivity. Qed.

Lemma bind_ret {A B} (a : A) (k : A -> M B) (w : world) : bind (ret a) k w = k a w.
Proof. reflexivity. Qed.

Lemma bind_emit {B} (e : event) (k : unit -> M B) (w : world) :
  bind (emit e) k w = k tt (add_events [e] w).
Proof. reflexivity. Qed.

Lemma bind_print_header {B} (t : string) (k : unit -> M B) (w : world) :
  bind (print_header t) k w = k tt (add_events [Header t] w).
Proof. reflexivity. Qed.

Lemma bind_print {B} (t : string) (k : unit -> M B) (w : world) :
  bind (print t) k w = k tt (add_events [Print t] w).
Proof. reflexivity. Qed.

Lemma bind_logging {B} (l : level) (t : string) (k : unit -> M B) (w : world) :
  bind (logging l t) k w = k tt (add_events [Log l t] w).
Proof. reflexivity. Qed.

Lemma print_header_run (t : string) (w : world) :
  print_header t w = (Ok tt, add_events [Header t] w).
Proof. reflexivity. Qed.

Lemma print_run (t : string) (w : world) : print t w = (Ok tt, add_events [Print t] w).
Proof. reflexivity. Qed.

Lemma logging_run (l : level) (t : string) (w : world) :
  logging l t w = (Ok tt, add_events [Log l t] w).
Proof. reflexivity. Qed.

Lemma bind_input {B} (prompt x : string) (rest : list string) (k : string -> M B)
    (w : world) :
  bind (input prompt) k (set_stdin (x :: rest) w)
  = k x (set_stdin rest (add_events [Ask prompt] w)).
Proof. reflexivity. Qed.

Lemma bind_read_all_tasks {B} (k : list task -> M B) (w : world) :
  bind read_all_tasks k w = k (stored_tasks w) w.
Proof. unfold bind. now rewrite read_all_tasks_run. Qed.

Lemma bind_write_all_tasks {B} (tasks : list task) (k : unit -> M B) (w : world) :
  bind (write_all_tasks tasks) k w
  = k tt (add_events [Wrote TASK_FILE] (set_file TASK_FILE (map task_line tasks) w)).
Proof. reflexivity. Qed.

Lemma bind_backup_file {B} (f : datafile) (k : bool -> M B) (w : world) :
  bind (backup_file f) k w
  = k (backup_result f w) (add_events [Backup f (backup_result f w)] (backup_world f w)).
Proof. unfold bind. now rewrite backup_file_run. Qed.

Lemma add_events_nil (w : world) : add_events [] w = w.
Proof. destruct w. unfold add_events. simpl. now rewrite app_nil_r. Qed.

Lemma events_stdin (evs : list event) (i : list string) (w : world) :
  add_events evs (set_stdin i w) = set_stdin i (add_events evs w).
Proof. reflexivity. Qed.

Lemma stdin_stdin (i j : list string) (w : world) :
  set_stdin i (set_stdin j w) = set_stdin i w.
Proof. reflexivity. Qed.

Lemma file_events (f : datafile) (c : list string) (evs : list event) (w : world) :
  set_file f c (add_events evs w) = add_events evs (set_file f c w).
Proof. destruct f; reflexivity. Qed.

Lemma file_stdin (f : datafile) (c : list string) (i : list string) (w : world) :
  set_file f c (set_stdin i w) = set_stdin i (set_file f c w).
Proof. destruct f; reflexivity. Qed.

Lemma backup_world_events (f : datafile) (evs : list event) (w : world) :
  backup_world f (add_events evs w) = add_events evs (backup_world f w).
Proof.
  unfold backup_world. destruct f; simpl;
    [destruct (user_txt w) | destruct (task_txt w)];
    try destruct (copy_ok w); reflexivity.
Qed.

Lemma backup_world_stdin (f : datafile) (i : list string) (w : world) :
  backup_world f (set_stdin i w) = set_stdin i (backup_world f w).
Proof.
  unfold backup_world. destruct f; simpl;
    [destruct (user_txt w) | destruct (task_txt w)];
    try destruct (copy_ok w); reflexivity.
Qed.

Lemma backup_result_events (f : datafile) (evs : list event) (w : world) :
  backup_result f (add_events evs w) = backup_result f w.
Proof. destruct f; reflexivity. Qed.

Lemma backup_result_stdin (f : datafile) (i : list string) (w : world) :
  backup_result f (set_stdin i w) = backup_result f w.
Proof. destruct f; reflexivity. Qed.

Lemma stored_tasks_events (evs : list event) (w : world) :
  stored_tasks (add_events evs w) = stored_tasks w.
Proof. reflexivity. Qed.

Lemma stored_tasks_stdin (i : list string) (w : world) :
  stored_tasks (set_stdin i w) = stored_tasks w.
Proof. reflexivity. Qed.

Lemma stored_tasks_backup (f : datafile) (w : world) :
  stored_tasks (backup_world f w) = stored_tasks w.
Proof.
  unfold backup_world.
  destruct (file_of f w); [destruct (copy_ok w) |]; reflexivity.
Qed.

Lemma task_txt_backup (f : datafile) (w : world) :
  task_txt (backup_world f w) = task_txt w.
Proof.
  unfold backup_world.
  destruct (file_of f w); [destruct (copy_ok w) |]; reflexivity.
Qed.

Lemma user_txt_backup (f : datafile) (w : world) :
  user_txt (backup_world f w) = user_txt w.
Proof.
  unfold backup_world.
  destruct (file_of f w); [destruct (copy_ok w) |]; reflexivity.
Qed.

Lemma trace_backup (f : datafile) (w : world) : trace (backup_world f w) = trace w.
Proof.
  unfold backup_world.
  destruct (file_of f w); [destruct (copy_ok w) |]; reflexivity.
Qed.

Lemma file_of_events (f : datafile) (evs : list event) (w : world) :
  file_of f (add_events evs w) = file_of f w.
Proof. destruct f; reflexivity. Qed.

Lemma file_of_stdin (f : datafile) (i : list string) (w : world) :
  file_of f (set_stdin i w) = file_of f w.
Proof. destruct f; reflexivity. Qed.

Lemma bind_read_lines {B} (f : datafile) (c : list string) (k : list string -> M B)
    (w : world) :
  file_of f w = Some c -> bind (read_lines f) k w = k c w.
Proof. intros H. unfold bind, read_lines. now rewrite H. Qed.

Lemma bind_read_lines_absent {B} (f : datafile) (k : list string -> M B) (w : world) :
  file_of f w = None -> bind (read_lines f) k w = (Raise FileNotFoundError, w).
Proof. intros H. unfold bind, read_lines. now rewrite H. Qed.

Create Rewrite HintDb run.

#[local] Hint Rewrite @bind_ret @bind_emit @bind_print_header @bind_print
  @bind_logging @bind_input @bind_read_all_tasks @bind_write_all_tasks
  @bind_backup_file print_header_run print_run logging_run emit_run
  add_event_one add_events_events events_stdin stdin_stdin file_events
  file_stdin backup_world_events backup_world_stdin backup_result_events
  backup_result_stdin stored_tasks_events stored_tasks_stdin
  stored_tasks_backup file_of_events file_of_stdin : run.

Ltac run :=
  repeat (rewrite ?bind_assoc; autorewrite with run);
  repeat first [rewrite <- app_assoc | progress (cbn [app])].

Lemma delete_task_run (w : world) (raw : string) (rest : list string) :
  let ident := PyStr.strip raw in
  let w1 :=
    set_stdin rest
      (add_events
         [Header "DELETE TASK"; Ask "Enter the task ID or task title to delete: ";
          Backup TASK_FILE (backup_result TASK_FILE w)]
         (backup_world TASK_FILE w)) in
  delete_task (set_stdin (raw :: rest) w)
  = match delete_loop (stored_tasks w) ident (false, "", []) with
    | (true, info, upd) =>
        (Ok tt,
         add_events
           [Wrote TASK_FILE; Header "SUCCESS";
            Print ("  " ++ info ++ " has been deleted."); Print "";
            Log INFO ("Task deleted - " ++ info)]
           (set_file TASK_FILE (map task_line upd) w1))
    | (false, _, _) =>
        (Ok tt,
         add_events
           [Header "ERROR"; Print ("  Task '" ++ ident ++ "' not found."); Print ""]
           w1)
    end.
Proof.
  intros ident w1. subst w1. unfold delete_task. run.
  unfold try_except. run. fold ident.
  destruct (delete_loop (stored_tasks w) ident (false, "", [])) as [[found info] upd].
  destruct found; run; reflexivity.
Qed.

(** ** Operations on an identifier that matches nothing *)

Lemma bind_get_validated_input_non_empty {B} (prompt field_name : string)
    (blanks : list string) (raw : string) (rest : list string)
    (k : string -> M B) (w : world) :
  Forall blank blanks -> PyStr.strip raw <> "" ->
  bind (get_validated_input prompt (non_empty field_name)) k
    (set_stdin (blanks ++ raw :: rest) w)
  = k (PyStr.strip raw)
      (set_stdin rest
         (add_events (retry_events prompt field_name blanks ++ [Ask prompt])%list w)).
Proof.
  intros Hb Hraw.
  rewrite (bind_ok k (get_validated_input_non_empty prompt field_name blanks raw rest
                        (set_stdin (blanks ++ raw :: rest) w) Hb Hraw eq_refl)).
  now rewrite events_stdin, stdin_stdin.
Qed.

Lemma for_each_mark_no_match (id : string) (tasks : list task) (found : bool)
    (upd : list task) (w : world) :
  (forall t, In t tasks -> task_id t <> id) ->
  for_each tasks (mark_body id) (found, upd) w = (Ok (found, (upd ++ tasks)%list), w).
Proof.
  revert upd. induction tasks as [| t rest IH]; intros upd H; simpl.
  - now rewrite app_nil_r.
  - unfold mark_body at 1.
    destruct (String.eqb_spec (task_id t) id) as [E | E].
    + exfalso. apply (H t); [now left | exact E].
    + rewrite bind_ret, IH by (intros u Hu; apply H; now right).
      now rewrite <- app_assoc.
Qed.

Lemma for_each_reset_no_match (id : string) (tasks : list task) (found : bool)
    (upd : list task) (w : world) :
  (forall t, In t tasks -> task_id t <> id) ->
  for_each tasks (reset_body id) (found, upd) w = (Ok (found, (upd ++ tasks)%list), w).
Proof.
  revert upd. induction tasks as [| t rest IH]; intros upd H; simpl.
  - now rewrite app_nil_r.
  - unfold reset_body at 1.
    destruct (String.eqb_spec (task_id t) id) as [E | E].
    + exfalso. apply (H t); [now left | exact E].
    + rewrite bind_ret, IH by (intros u Hu; apply H; now right).
      now rewrite <- app_assoc.
Qed.

Lemma delete_loop_no_match (ident : string) (tasks : list task) (found : bool)
    (info : string) (upd : list task) :
  (forall t, In t tasks -> matches ident t = false) ->
  delete_loop tasks ident (found, info, upd) = (found, info, (upd ++ tasks)%list).
Proof.
  revert upd. induction tasks as [| t rest IH]; intros upd H.
  - simpl. now rewrite app_nil_r.
  - rewrite delete_loop_cons, (H t) by now left.
    rewrite IH by (intros u Hu; apply H; now right).
    now rewrite <- app_assoc.
Qed.

(** C10.  An identifier that matches no stored task: marking complete,
    resetting and deleting each report that the task was not found, never
    write the task file, and leave the stored record set as it was.  Marking
    and resetting look for the id only, and never take a blank text for an
    identifier: they ask again until the text is not blank.  Deleting looks
    for the id or the title, takes any text for an identifier, also a blank
    one, and has called [backup_file] before it looks. *)
Theorem not_found_writes_nothing (w : world) (blanks : list string) (raw : string)
    (rest : list string) :
  Forall blank blanks ->
  (forall t, In t (stored_tasks w) -> task_id t <> PyStr.strip raw) ->
  let id := PyStr.strip raw in
  let mark := update_task_complete (set_stdin (blanks ++ raw :: rest) w) in
  let reset := reset_task_incomplete (set_stdin (blanks ++ raw :: rest) w) in
  let delete := delete_task (set_stdin (raw :: rest) w) in
  (id <> "" ->
   mark
   = (Ok tt,
      set_stdin rest
        (add_events
           (Header "MARK TASK AS COMPLETE"
            :: retry_events "Enter the task ID to mark as complete: " "Task ID" blanks
            ++ [Ask "Enter the task ID to mark as complete: "; Header "ERROR";
                Print ("  Task ID '" ++ id ++ "' not found."); Print ""])%list
           w))
   /\ stored_tasks (snd mark) = stored_tasks w)
  /\ (id <> "" ->
      reset
      = (Ok tt,
         set_stdin rest
           (add_events
              (Header "RESET TASK TO INCOMPLETE"
               :: retry_events "Enter the task ID to reset to incomplete: " "Task ID"
                    blanks
               ++ [Ask "Enter the task ID to reset to incomplete: "; Header "ERROR";
                   Print ("  Task ID '" ++ id ++ "' not found."); Print "";
                   Log WARNING ("Attempt to reset non-existent task ID " ++ id)])%list
              w))
      /\ stored_tasks (snd reset) = stored_tasks w)
  /\ ((forall t, In t (stored_tasks w) -> title t <> id) ->
      delete
      = (Ok tt,
         set_stdin rest
           (add_events
              [Header "DELETE TASK"; Ask "Enter the task ID or task title to delete: ";
               Backup TASK_FILE (backup_result TASK_FILE w); Header "ERROR";
               Print ("  Task '" ++ id ++ "' not found."); Print ""]
              (backup_world TASK_FILE w)))
      /\ task_txt (snd delete) = task_txt w
      /\ stored_tasks (snd delete) = stored_tasks w).
Proof.
  intros Hb Hid id mark reset delete. subst mark reset delete.
  assert (Hmark :
    PyStr.strip raw <> "" ->
    update_task_complete (set_stdin (blanks ++ raw :: rest) w)
    = (Ok tt,
       set_stdin rest
         (add_events
            (Header "MARK TASK AS COMPLETE"
             :: retry_events "Enter the task ID to mark as complete: " "Task ID" blanks
             ++ [Ask "Enter the task ID to mark as complete: "; Header "ERROR";
                 Print ("  Task ID '" ++ id ++ "' not found."); Print ""])%list
            w))).
  { intros Hraw. unfold update_task_complete. run.
    rewrite bind_get_validated_input_non_empty by assumption.
    unfold try_except. run. fold id.
    rewrite (bind_ok _ (for_each_mark_no_match id (stored_tasks w) false [] _ Hid)).
    run. reflexivity. }
  assert (Hreset :
    PyStr.strip raw <> "" ->
    reset_task_incomplete (set_stdin (blanks ++ raw :: rest) w)
    = (Ok tt,
       set_stdin rest
         (add_events
            (Header "RESET TASK TO INCOMPLETE"
             :: retry_events "Enter the task ID to reset to incomplete: " "Task ID"
                  blanks
             ++ [Ask "Enter the task ID to reset to incomplete: "; Header "ERROR";
                 Print ("  Task ID '" ++ id ++ "' not found."); Print "";
                 Log WARNING ("Attempt to reset non-existent task ID " ++ id)])%list
            w))).
  { intros Hraw. unfold reset_task_incomplete. run.
    rewrite bind_get_validated_input_non_empty by assumption.
    unfold try_except. run. fold id.
    rewrite (bind_ok _ (for_each_reset_no_match id (stored_tasks w) false [] _ Hid)).
    run. cbn [negb]. run. reflexivity. }
  split; [| split].
  - intros Hraw. rewrite (Hmark Hraw). split; reflexivity.
  - intros Hraw. rewrite (Hreset Hraw). split; reflexivity.
  - intros Htitle.
    assert (Hdel :
      delete_task (set_stdin (raw :: rest) w)
      = (Ok tt,
         set_stdin rest
           (add_events
              [Header "DELETE TASK"; Ask "Enter the task ID or task title to delete: ";
               Backup TASK_FILE (backup_result TASK_FILE w); Header "ERROR";
               Print ("  Task '" ++ id ++ "' not found."); Print ""]
              (backup_world TASK_FILE w)))).
    { rewrite delete_task_run. fold id.
      rewrite delete_loop_no_match.
      - run. reflexivity.
      - intros t Ht. unfold matches.
        destruct (String.eqb_spec (task_id t) id) as [E | _];
          [now apply Hid in Ht |].
        destruct (String.eqb_spec (title t) id) as [E | _];
          [now apply Htitle in Ht | reflexivity]. }
    rewrite Hdel. split; [reflexivity |]. simpl. split.
    + apply task_txt_backup.
    + rewrite stored_tasks_stdin, stored_tasks_events. apply stored_tasks_backup.
Qed.

(** ** Deleting the one task that matches *)

Lemma filter_unique_match (ident : string) (before after : list task) (t : task) :
  matches ident t = true ->
  (forall u, In u (before ++ after)%list -> matches ident u = false) ->
  filter (fun u => negb (matches ident u)) (before ++ t :: after)%list
  = (before ++ after)%list.
Proof.
  intros Ht Hothers.
  assert (Hkeep : forall l, (forall u, In u l -> matches ident u = false) ->
                            filter (fun u => negb (matches ident u)) l = l).
  { induction l as [| u l IH]; intros H; simpl; [reflexivity |].
    rewrite (H u) by now left. simpl. f_equal. apply IH.
    intros v Hv. apply H. now right. }
  rewrite filter_app. simpl. rewrite Ht. simpl.
  rewrite !Hkeep; [reflexivity | |];
    intros u Hu; apply Hothers, in_or_app; auto.
Qed.

(** C2 (as amended).  When exactly one stored task has its id or its title
    equal to the identifier typed, [delete_task] removes that task and no
    other: the task file is rewritten with the other tasks, in their order,
    and the stored task set is then the old one without that task. *)
Theorem delete_task_removes_the_only_match (w : world) (raw : string)
    (rest : list string) (before after : list task) (t : task) :
  stored_tasks w = (before ++ t :: after)%list ->
  matches (PyStr.strip raw) t = true ->
  (forall u, In u (before ++ after)%list -> matches (PyStr.strip raw) u = false) ->
  let result := delete_task (set_stdin (raw :: rest) w) in
  fst result = Ok tt
  /\ task_txt (snd result) = Some (map task_line (before ++ after))
  /\ stored_tasks (snd result) = (before ++ after)%list.
Proof.
  intros Hstored Ht Hothers result. subst result.
  rewrite delete_task_run.
  destruct (delete_loop_spec (stored_tasks w) (PyStr.strip raw) false "" [])
    as [info ->].
  rewrite Hstored, existsb_app. simpl existsb. rewrite Ht, orb_true_r. simpl orb.
  cbn [app]. rewrite (filter_unique_match _ _ _ _ Ht Hothers).
  split; [reflexivity |]. split; [reflexivity |].
  rewrite file_stdin, file_events, events_stdin, add_events_events.
  apply stored_after_write.
  pose proof (stored_canonical w) as Hc. rewrite Hstored in Hc.
  apply Forall_app in Hc as [Hb Ha]. apply Forall_app. split; [exact Hb |].
  now inversion Ha.
Qed.

(** ** Relations every step of a computation keeps to *)

Section Respects.

Variable R : world -> world -> Prop.
Hypothesis R_refl : forall w, R w w.
Hypothesis R_trans : forall a b c, R a b -> R b c -> R a c.

Lemma respects_ret {A} (a : A) : respects R (ret a).
Proof. intros w. apply R_refl. Qed.

Lemma respects_raise {A} (e : exn) : respects R (@raise A e).
Proof. intros w. apply R_refl. Qed.

Lemma respects_bind {A B} (m : M A) (k : A -> M B) :
  respects R m -> (forall a, respects R (k a)) -> respects R (bind m k).
Proof.
  intros Hm Hk w. unfold bind. specialize (Hm w).
  destruct (m w) as [[a | e] w1]; simpl in *; [| exact Hm].
  apply (R_trans _ _ _ Hm), Hk.
Qed.

Lemma respects_try_except {A} (m : M A) (h : exn -> option (M A)) :
  respects R m ->
  (forall e k, h e = Some k -> respects R k) ->
  respects R (try_except m h).
Proof.
  intros Hm Hh w. unfold try_except. specialize (Hm w).
  destruct (m w) as [[a | e] w1]; simpl in *; [exact Hm |].
  destruct (h e) as [k |] eqn:E; [| exact Hm].
  apply (R_trans _ _ _ Hm), (Hh e k E).
Qed.

Lemma respects_for_each {A St} (l : list A) (body : A -> St -> M St) (s : St) :
  (forall x s', respects R (body x s')) -> respects R (for_each l body s).
Proof.
  intros Hbody. revert s. induction l as [| x r IH]; intros s; simpl.
  - apply respects_ret.
  - apply respects_bind; [apply Hbody | exact IH].
Qed.

Lemma respects_while_fuel {St A} (fuel : nat) (body : St -> M (St + A)) (s : St) :
  (forall s', respects R (body s')) -> respects R (while_fuel fuel body s).
Proof.
  intros Hbody. revert s. induction fuel as [| k IH]; intros s; simpl.
  - apply respects_raise.
  - apply respects_bind; [apply Hbody |].
    intros [s' | a]; [apply IH | apply respects_ret].
Qed.

Lemma respects_while_true {St A} (body : St -> M (St + A)) (s : St) :
  (forall s', respects R (body s')) -> respects R (while_true body s).
Proof. intros Hbody w. unfold while_true. now apply respects_while_fuel. Qed.

Lemma respects_read_lines (f : datafile) : respects R (read_lines f).
Proof. intros w. unfold read_lines. destruct (file_of f w); apply R_refl. Qed.

Lemma respects_now_date : respects R now_date.
Proof. intros w. apply R_refl. Qed.

End Respects.

(** *** No call of [backup_file] *)

Lemma no_backup_refl (w : world) : no_backup w w.
Proof. exists []. now rewrite app_nil_r. Qed.

Lemma no_backup_trans (a b c : world) : no_backup a b -> no_backup b c -> no_backup a c.
Proof.
  intros (evs & Ht & Hf & Hb) (evs' & Ht' & Hf' & Hb').
  exists (evs ++ evs')%list. rewrite Ht', Ht, Hb', Hb, forallb_app, Hf, Hf'.
  now rewrite app_assoc.
Qed.

Lemma no_backup_emit (e : event) : is_backup e = false -> respects no_backup (emit e).
Proof. intros H w. exists [e]. simpl. now rewrite H. Qed.

Lemma no_backup_input (prompt : string) : respects no_backup (input prompt).
Proof.
  intros w. exists [Ask prompt]. unfold input. destruct (stdin w); simpl; auto.
Qed.

Lemma no_backup_write_lines (f : datafile) (c : list string) :
  respects no_backup (write_lines f c).
Proof. intros w. exists [Wrote f]. destruct f; simpl; auto. Qed.

(** *** No new input, and input read *)

Lemma no_new_input_refl (w : world) : no_new_input w w.
Proof. unfold no_new_input. lia. Qed.

Lemma no_new_input_trans (a b c : world) :
  no_new_input a b -> no_new_input b c -> no_new_input a c.
Proof. unfold no_new_input. lia. Qed.

Lemma no_new_input_emit (e : event) : respects no_new_input (emit e).
Proof. intros w. unfold no_new_input. simpl. lia. Qed.

Lemma no_new_input_input (prompt : string) : respects no_new_input (input prompt).
Proof.
  intros w. unfold input, no_new_input.
  destruct (stdin w) eqn:E; simpl; rewrite ?E; simpl; lia.
Qed.

Lemma no_new_input_write_lines (f : datafile) (c : list string) :
  respects no_new_input (write_lines f c).
Proof. intros w. unfold no_new_input. destruct f; simpl; lia. Qed.

Lemma eats_input (prompt : string) : eats (input prompt).
Proof.
  intros w a w'. unfold input.
  destruct (stdin w) eqn:E; intros [= <- <-]; simpl. lia.
Qed.

Lemma eats_bind {A B} (m : M A) (k : A -> M B) :
  eats m -> (forall a, respects no_new_input (k a)) -> eats (bind m k).
Proof.
  intros Hm Hk w b w'. unfold bind.
  destruct (m w) as [[a | e] w1] eqn:E; [| discriminate].
  intros H. specialize (Hm w a w1 E). specialize (Hk a w1).
  rewrite H in Hk. unfold no_new_input in Hk. simpl in Hk. lia.
Qed.

Lemma eats_while_fuel {St A} (fuel : nat) (body : St -> M (St + A)) (s : St) :
  (forall s', eats (body s')) -> eats (while_fuel fuel body s).
Proof.
  intros Hbody. revert s. induction fuel as [| k IH]; intros s w a w'; simpl.
  - discriminate.
  - unfold bind. destruct (body s w) as [[[s' | a'] | e] w1] eqn:E.
    + intros H. specialize (Hbody s w (inl s') w1 E). specialize (IH s' w1 a w' H). lia.
    + intros [= <- <-]. exact (Hbody s w (inr a') w1 E).
    + discriminate.
Qed.

Lemma eats_while_true {St A} (body : St -> M (St + A)) (s : St) :
  (forall s', eats (body s')) -> eats (while_true body s).
Proof. intros Hbody w. unfold while_true. now apply eats_while_fuel. Qed.

(** The fuel of a loop whose every round reads a line of input is never
    used up: with any two amounts of fuel above the number of lines left the
    loop runs the same way, so the branch of [while_fuel] for no fuel is
    never taken by [while_true]. *)
Lemma while_fuel_enough {St A} (body : St -> M (St + A)) :
  (forall s, eats (body s)) ->
  forall (k1 k2 : nat) (s : St) (w : world),
    (length (stdin w) < k1)%nat -> (length (stdin w) < k2)%nat ->
    while_fuel k1 body s w = while_fuel k2 body s w.
Proof.
  intros Hbody. induction k1 as [| k1 IH]; intros k2 s w H1 H2; [lia |].
  destruct k2 as [| k2]; [lia |]. simpl. unfold bind.
  destruct (body s w) as [[[s' | a] | e] w1] eqn:E; try reflexivity.
  specialize (Hbody s w (inl s') w1 E). apply IH; lia.
Qed.

Lemma while_true_fuel {St A} (body : St -> M (St + A)) (s : St) (w : world) (k : nat) :
  (forall s', eats (body s')) ->
  (length (stdin w) < k)%nat ->
  while_fuel k body s w = while_true body s w.
Proof.
  intros Hbody Hk. unfold while_true. apply while_fuel_enough; trivial. lia.
Qed.

(** *** The computations of the program *)

Create HintDb respects.

#[local] Hint Resolve respects_ret respects_raise respects_read_lines
  respects_now_date no_backup_refl no_backup_trans no_backup_input
  no_backup_write_lines no_new_input_refl no_new_input_trans no_new_input_emit
  no_new_input_input no_new_input_write_lines : respects.

#[local] Hint Extern 1 (respects no_backup (emit _)) =>
  apply no_backup_emit; reflexivity : respects.
#[local] Hint Extern 1 (respects no_backup (print_header _)) =>
  apply no_backup_emit; reflexivity : respects.
#[local] Hint Extern 1 (respects no_backup (print _)) =>
  apply no_backup_emit; reflexivity : respects.
#[local] Hint Extern 1 (respects no_backup (logging _ _)) =>
  apply no_backup_emit; reflexivity : respects.
#[local] Hint Extern 1 (respects no_new_input (print_header _)) =>
  apply no_new_input_emit : respects.
#[local] Hint Extern 1 (respects no_new_input (print _)) =>
  apply no_new_input_emit : respects.
#[local] Hint Extern 1 (respects no_new_input (logging _ _)) =>
  apply no_new_input_emit : respects.
#[local] Hint Extern 1 (respects no_new_input (write_all_tasks _)) =>
  apply no_new_input_write_lines : respects.
#[local] Hint Extern 1 (respects no_backup (write_all_tasks _)) =>
  apply no_backup_write_lines : respects.

(** One step of a proof that a computation keeps to a relation: the
    combinators of the monad are taken apart, the tests are split into their
    cases, and what is left is looked up among the hints. *)
Ltac respects_side :=
  try exact no_backup_trans;
  try exact no_new_input_trans;
  try solve [auto with respects];
  try match goal with
      | |- forall _, respects _ _ => intros ?
      | |- forall _ _, respects _ _ => intros ? ?
      | |- forall _ _, _ = Some _ -> respects _ _ => intros ? ? ?
      end.

Ltac respects_step :=
  match goal with
  | |- never_backs_up _ => unfold never_backs_up
  | |- respects _ (bind _ _) => apply respects_bind; respects_side
  | |- respects _ (try_except _ _) => apply respects_try_except; respects_side
  | |- respects _ (for_each _ _ _) => apply respects_for_each; respects_side
  | |- respects _ (while_true _ _) => apply respects_while_true; respects_side
  | |- respects _ (if ?b then _ else _) => destruct b
  | |- respects _ (match ?x with _ => _ end) => destruct x
  | H : on_IOError _ ?e = Some _ |- _ => destruct e; inversion H; subst; clear H
  | H : on_FileNotFoundError _ ?e = Some _ |- _ =>
      destruct e; inversion H; subst; clear H
  | H : on_Exception _ ?e = Some _ |- _ => inversion H; subst; clear H
  | |- respects _ _ => solve [auto with respects]
  end.

Ltac respects_all := repeat respects_step.

Section Program.

Variable R : world -> world -> Prop.
Hypothesis R_refl : forall w, R w w.
Hypothesis R_trans : forall a b c, R a b -> R b c -> R a c.
Hypothesis R_emit : forall e, is_backup e = false -> respects R (emit e).
Hypothesis R_input : forall prompt, respects R (input prompt).
Hypothesis R_write : forall f c, respects R (write_lines f c).

#[local] Hint Resolve R_refl R_trans R_input R_write : respects.
#[local] Hint Extern 1 (respects R (emit _)) => apply R_emit; reflexivity : respects.
#[local] Hint Extern 1 (respects R (print_header _)) =>
  apply R_emit; reflexivity : respects.
#[local] Hint Extern 1 (respects R (print _)) => apply R_emit; reflexivity : respects.
#[local] Hint Extern 1 (respects R (logging _ _)) =>
  apply R_emit; reflexivity : respects.
#[local] Hint Extern 1 (respects R (write_all_tasks _)) => apply R_write : respects.

Lemma respects_read_all_tasks : respects R read_all_tasks.
Proof. unfold read_all_tasks. respects_all. Qed.

Lemma respects_handle_file_error (operation : string) (e : exn) :
  respects R (handle_file_error operation e).
Proof. unfold handle_file_error. respects_all. Qed.

Lemma respects_get_validated_input (prompt : string)
    (validator_func : string -> M (bool * string)) :
  (forall x, respects R (validator_func x)) ->
  respects R (get_validated_input prompt validator_func).
Proof.
  intros Hv. unfold get_validated_input, get_validated_input_round. respects_all.
Qed.

Lemma respects_non_empty (field_name x : string) : respects R (non_empty field_name x).
Proof. apply respects_ret, R_refl. Qed.

Lemma respects_date_format (x : string) : respects R (date_format x).
Proof. apply respects_ret, R_refl. Qed.

#[local] Hint Resolve respects_read_all_tasks respects_handle_file_error
  respects_get_validated_input respects_non_empty respects_date_format : respects.

Lemma respects_update_task_complete : respects R update_task_complete.
Proof. unfold update_task_complete, mark_body. respects_all. Qed.

Lemma respects_reset_task_incomplete : respects R reset_task_incomplete.
Proof. unfold reset_task_incomplete, reset_body. respects_all. Qed.

Lemma respects_toggle_status (selected : task) : respects R (toggle_status selected).
Proof. unfold toggle_status. respects_all. Qed.

Lemma respects_display_task_for_user (t : task) :
  respects R (display_task_for_user t).
Proof. unfold display_task_for_user. respects_all. Qed.

#[local] Hint Resolve respects_display_task_for_user respects_toggle_status : respects.

Lemma respects_edit_task (my_username : string) (user_tasks : list task)
    (selected : task) :
  respects R (edit_task my_username user_tasks selected).
Proof. unfold edit_task. respects_all. Qed.

Lemma respects_get_valid_task_number_in (room : nat) (user_tasks : list task) :
  respects R (get_valid_task_number_in room user_tasks).
Proof.
  induction room as [| deeper IH]; cbn [get_valid_task_number_in];
    unfold get_valid_task_number_body; respects_all.
Qed.

Lemma respects_get_valid_task_number (user_tasks : list task) :
  respects R (get_valid_task_number user_tasks).
Proof.
  intros w. unfold get_valid_task_number. apply respects_get_valid_task_number_in.
Qed.

#[local] Hint Resolve respects_edit_task respects_get_valid_task_number : respects.

Lemma respects_task_menu_round (my_username : string) (user_tasks : list task) :
  respects R (task_menu_round my_username user_tasks).
Proof. unfold task_menu_round. respects_all. Qed.

#[local] Hint Resolve respects_task_menu_round : respects.

Lemma respects_view_my_tasks : respects R view_my_tasks.
Proof. unfold view_my_tasks. respects_all. Qed.

End Program.

(** The two relations meet what the section asks for. *)
Ltac no_backup_frame :=
  first [ exact no_backup_refl | exact no_backup_trans | exact no_backup_emit
        | exact no_backup_input | exact no_backup_write_lines ].

Ltac no_new_input_frame :=
  first [ exact no_new_input_refl | exact no_new_input_trans
        | exact (fun e _ => no_new_input_emit e) | exact no_new_input_input
        | exact no_new_input_write_lines ].

Lemma update_task_complete_never_backs_up : never_backs_up update_task_complete.
Proof.
  unfold never_backs_up. apply respects_update_task_complete; no_backup_frame.
Qed.

Lemma reset_task_incomplete_never_backs_up : never_backs_up reset_task_incomplete.
Proof.
  unfold never_backs_up. apply respects_reset_task_incomplete; no_backup_frame.
Qed.

Lemma toggle_status_never_backs_up (selected : task) :
  never_backs_up (toggle_status selected).
Proof.
  unfold never_backs_up. apply respects_toggle_status; no_backup_frame.
Qed.

(** The whole task menu, with its toggles and its edits, never calls
    [backup_file]. *)
Lemma view_my_tasks_never_backs_up : never_backs_up view_my_tasks.
Proof.
  unfold never_backs_up. apply respects_view_my_tasks; no_backup_frame.
Qed.

(** *** The loops of the program never run out of fuel *)

Lemma get_validated_input_round_eats (prompt : string)
    (validator_func : string -> M (bool * string)) (s : unit) :
  (forall x, respects no_new_input (validator_func x)) ->
  eats (get_validated_input_round prompt validator_func s).
Proof.
  intros Hv. unfold get_validated_input_round.
  apply eats_bind; [apply eats_input |]. intros raw. respects_all.
Qed.

Lemma get_validated_input_eats (prompt : string)
    (validator_func : string -> M (bool * string)) :
  (forall x, respects no_new_input (validator_func x)) ->
  eats (get_validated_input prompt validator_func).
Proof.
  intros Hv. apply eats_while_true. intros s.
  now apply get_validated_input_round_eats.
Qed.

Lemma get_valid_task_number_in_eats (room : nat) (user_tasks : list task) :
  eats (get_valid_task_number_in room user_tasks).
Proof.
  assert (H : forall r, respects no_new_input (get_valid_task_number_in r user_tasks))
    by (intros r; apply respects_get_valid_task_number_in; no_new_input_frame).
  destruct room; cbn [get_valid_task_number_in]; unfold get_valid_task_number_body;
    (apply eats_bind; [apply eats_input |]); intros raw; respects_all.
Qed.

Lemma get_valid_task_number_eats (user_tasks : list task) :
  eats (get_valid_task_number user_tasks).
Proof.
  intros w a w'. unfold get_valid_task_number. apply get_valid_task_number_in_eats.
Qed.

Lemma user_exists_no_new_input (name : string) : respects no_new_input (user_exists name).
Proof. unfold user_exists. respects_all. Qed.

Lemma ask_task_username_eats (s : unit) : eats (ask_task_username s).
Proof.
  unfold ask_task_username. apply eats_bind.
  - apply get_validated_input_eats. intros x.
    apply respects_non_empty, no_new_input_refl.
  - intros name. pose proof (user_exists_no_new_input name). respects_all.
Qed.

Lemma task_menu_round_eats (my_username : string) (user_tasks : list task) :
  eats (task_menu_round my_username user_tasks).
Proof.
  unfold task_menu_round. apply eats_bind; [apply get_valid_task_number_eats |].
  intros selection.
  assert (Htoggle : forall t, respects no_new_input (toggle_status t))
    by (intros t; apply respects_toggle_status; no_new_input_frame).
  assert (Hedit : forall ts t, respects no_new_input (edit_task my_username ts t))
    by (intros ts t; apply respects_edit_task; no_new_input_frame).
  respects_all.
Qed.

(** Every [while True] of the program runs the same way with any fuel
    above the number of lines of input left. *)
Theorem loops_never_run_out_of_fuel (w : world) (k : nat) :
  (length (stdin w) < k)%nat ->
  (forall prompt validator_func,
     (forall x, respects no_new_input (validator_func x)) ->
     while_fuel k (get_validated_input_round prompt validator_func) tt w
     = get_validated_input prompt validator_func w)
  /\ while_fuel k ask_task_username tt w = while_true ask_task_username tt w
  /\ (forall my_username user_tasks,
        while_fuel k (task_menu_round my_username) user_tasks w
        = while_true (task_menu_round my_username) user_tasks w).
Proof.
  intros Hk. repeat split; intros; apply while_true_fuel; trivial; intros.
  - now apply get_validated_input_round_eats.
  - apply ask_task_username_eats.
  - apply task_menu_round_eats.
Qed.

Lemma world_stdin (w : world) : set_stdin (stdin w) w = w.
Proof. now destruct w. Qed.

Lemma delete_task_eof (w : world) :
  stdin w = [] ->
  delete_task w
  = (Raise EOFError,
     add_events
       [Header "DELETE TASK"; Ask "Enter the task ID or task title to delete: "] w).
Proof.
  intros H. unfold delete_task. run.
  unfold bind, input. simpl. rewrite H. run. reflexivity.
Qed.

(** C4 (as amended).  Task deletion calls [backup_file] on the task file
    before it rewrites it, and the rewrite takes place whether the copy
    succeeded or not.  The status edits (marking complete, resetting to
    incomplete, the toggle of the task menu, and the task menu as a whole)
    never call [backup_file]: they rewrite the task file with no snapshot
    taken. *)
Theorem backup_precedes_deletion_only :
  (forall w : world,
     exists evs : list event,
       trace (snd (delete_task w)) = (trace w ++ evs)%list
       /\ backup_before_write false evs = true
       /\ forall raw rest,
            stdin w = raw :: rest ->
            In (Backup TASK_FILE (backup_result TASK_FILE w)) evs
            /\ (existsb (matches (PyStr.strip raw)) (stored_tasks w) = true ->
                In (Wrote TASK_FILE) evs
                /\ task_txt (snd (delete_task w))
                   = Some (map task_line
                             (filter (fun t => negb (matches (PyStr.strip raw) t))
                                (stored_tasks w)))))
  /\ never_backs_up update_task_complete
  /\ never_backs_up reset_task_incomplete
  /\ (forall selected : task, never_backs_up (toggle_status selected))
  /\ never_backs_up view_my_tasks.
Proof.
  split; [| split; [| split; [| split]]].
  - intros w. destruct (stdin w) as [| raw rest] eqn:Hin.
    + rewrite (delete_task_eof w Hin). eexists. split; [reflexivity |].
      split; [reflexivity |]. intros raw rest [=].
    + pose proof (delete_task_run w raw rest) as R. cbv zeta in R.
      rewrite <- Hin, world_stdin in R. rewrite R. clear R.
      destruct (delete_loop_spec (stored_tasks w) (PyStr.strip raw) false "" [])
        as [info ->].
      cbn [orb app].
      destruct (existsb (matches (PyStr.strip raw)) (stored_tasks w)) eqn:Ex.
      * eexists. split; [| split].
        -- cbn [snd]. rewrite file_stdin, file_events, events_stdin, add_events_events.
           cbn [app]. simpl trace. rewrite trace_backup. reflexivity.
        -- reflexivity.
        -- intros raw' rest' [= <- <-]. split; [simpl; auto |].
           intros _. split; [simpl; auto 10 | reflexivity].
      * eexists. split; [| split].
        -- cbn [snd]. rewrite events_stdin, add_events_events.
           cbn [app]. simpl trace. rewrite trace_backup. reflexivity.
        -- reflexivity.
        -- intros raw' rest' [= <- <-]. split; [simpl; auto | congruence].
  - exact update_task_complete_never_backs_up.
  - exact reset_task_incomplete_never_backs_up.
  - exact toggle_status_never_backs_up.
  - exact view_my_tasks_never_backs_up.
Qed.

(** ** Login *)

Lemma login_scan_cons (line : string) (rest : list string) (username password : string) :
  login_scan (line :: rest) username password
  = match parse_user line with
    | Some u =>
        if ((User_username u =? username) && (User_password u =? password))%string
        then Some u
        else login_scan rest username password
    | None => login_scan rest username password
    end.
Proof.
  unfold parse_user. simpl.
  destruct (PyStr.split_comma_space (PyStr.strip line))
    as [| a [| b [| c [| d l]]]]; reflexivity.
Qed.

Lemma login_scan_refused (lines : list string) (username password : string) :
  (forall u, In u (user_records lines) ->
             User_username u = username -> User_password u <> password) ->
  login_scan lines username password = None.
Proof.
  induction lines as [| line rest IH]; intros H; [reflexivity |].
  rewrite login_scan_cons. simpl in H.
  destruct (parse_user line) as [u |]; [| now apply IH].
  destruct (String.eqb_spec (User_username u) username) as [En | En];
    destruct (String.eqb_spec (User_password u) password) as [Ep | Ep]; simpl;
    try (apply IH; intros v Hv; apply H; now right).
  exfalso. apply (H u); [now left | exact En | exact Ep].
Qed.

Lemma login_user_refused (w : world) (lines : list string) (name pass : string)
    (rest : list string) :
  user_txt w = Some lines ->
  login_scan lines (PyStr.strip name) pass = None ->
  login_user (set_stdin (name :: pass :: rest) w)
  = (Ok None,
     set_stdin rest
       (add_events
          (login_refused
           ++ [Log WARNING ("Failed login attempt for username: " ++ PyStr.strip name)])
          w)).
Proof.
  intros Hfile Hscan. unfold login_user. run. unfold try_except.
  rewrite (bind_read_lines USER_FILE lines) by (autorewrite with run; exact Hfile).
  rewrite Hscan. run. reflexivity.
Qed.

(** C9.  With a user file that holds the record of a known user, a login
    under a name that is in no record and a login under the known name with
    a wrong password end the same way: both return [None], both show the
    same lines on the screen, and neither changes a file.  The one
    difference is in the log, which repeats the name that was typed. *)
Theorem login_failures_look_alike (w : world) (lines : list string)
    (name1 pass1 name2 pass2 : string) (rest : list string) :
  user_txt w = Some lines ->
  (forall u, In u (user_records lines) -> User_username u <> PyStr.strip name1) ->
  (exists u, In u (user_records lines) /\ User_username u = PyStr.strip name2) ->
  (forall u, In u (user_records lines) ->
             User_username u = PyStr.strip name2 -> User_password u <> pass2) ->
  login_user (set_stdin (name1 :: pass1 :: rest) w)
  = (Ok None,
     set_stdin rest
       (add_events
          (login_refused
           ++ [Log WARNING ("Failed login attempt for username: " ++ PyStr.strip name1)])
          w))
  /\ login_user (set_stdin (name2 :: pass2 :: rest) w)
     = (Ok None,
        set_stdin rest
          (add_events
             (login_refused
              ++ [Log WARNING ("Failed login attempt for username: "
                               ++ PyStr.strip name2)])
             w)).
Proof.
  intros Hfile Hunknown _ Hwrong. split.
  - apply (login_user_refused w lines name1 pass1 rest Hfile).
    apply login_scan_refused. intros u Hu Hn. now apply Hunknown in Hu.
  - apply (login_user_refused w lines name2 pass2 rest Hfile).
    now apply login_scan_refused.
Qed.

(** ** Fields that are read back as they were written *)

Lemma split_no_sep (a : string) :
  has_sep a = false -> PyStr.split_comma_space a = [a].
Proof.
  induction a as [| c a IH]; [reflexivity |].
  intros H. cbn [has_sep] in H. apply orb_false_elim in H as [Hs Ha].
  rewrite split_other by exact Hs. now rewrite IH.
Qed.

Lemma split_field_sep (a s : string) :
  has_sep a = false ->
  PyStr.split_comma_space (a ++ ", " ++ s) = a :: PyStr.split_comma_space s.
Proof.
  induction a as [| c a IH]; [reflexivity |].
  intros H. cbn [has_sep] in H. apply orb_false_elim in H as [Hs Ha].
  change (String c a ++ ", " ++ s) with (String c (a ++ ", " ++ s)).
  rewrite split_other.
  - now rewrite IH.
  - destruct a as [| d a]; simpl in Hs |- *; [| exact Hs].
    destruct (Ascii.eqb c ","); reflexivity.
Qed.

Lemma split_fields_no_sep (s : string) :
  Forall (fun f => has_sep f = false) (PyStr.split_comma_space s).
Proof.
  assert (H : forall s,
             Forall (fun f => has_sep f = false) (PyStr.split_comma_space s)
             /\ forall c, Forall (fun f => has_sep f = false)
                            (PyStr.split_comma_space (String c s))).
  { clear s. intros s. induction s as [| d r [IH1 IH2]].
    - split; [repeat constructor |]. intros c.
      rewrite split_other by reflexivity. repeat constructor.
    - split; [apply IH2 |]. intros c.
      destruct (starts_sep (String c (String d r))) eqn:E.
      + simpl in E. apply andb_prop in E as [E1 E2].
        apply Ascii.eqb_eq in E1, E2. subst. rewrite split_sep.
        constructor; [reflexivity | exact IH1].
      + rewrite split_other by exact E.
        pose proof (IH2 d) as Hd.
        destruct (PyStr.split_comma_space (String d r)) as [| f fs] eqn:Er;
          [repeat constructor |].
        inversion Hd as [| ? ? Hf Hfs]; subst.
        constructor; [| exact Hfs].
        cbn [has_sep]. rewrite Hf, orb_false_r.
        (* the field [String c f] begins as the text does *)
        destruct f as [| e f'].
        * reflexivity.
        * assert (Hde : d = e).
          { destruct (starts_sep (String d r)) eqn:Es.
            - destruct r as [| d2 r2]; [discriminate |].
              simpl in Es. apply andb_prop in Es as [Es1 Es2].
              apply Ascii.eqb_eq in Es1, Es2. subst.
              rewrite split_sep in Er. discriminate.
            - rewrite split_other in Er by exact Es.
              destruct (PyStr.split_comma_space r); now inversion Er. }
          subst e. simpl in E |- *. exact E. }
  apply H.
Qed.

Lemma split_join (l : list string) :
  l <> [] -> Forall (fun f => has_sep f = false) l ->
  PyStr.split_comma_space (PyStr.join_comma_space l) = l.
Proof.
  induction l as [| a l IH]; [congruence |]. intros _ H.
  inversion H as [| ? ? Ha Hl]; subst.
  destruct l as [| b l].
  - now apply split_no_sep.
  - change (PyStr.join_comma_space (a :: b :: l))
      with (a ++ ", " ++ PyStr.join_comma_space (b :: l)).
    rewrite split_field_sep by exact Ha. f_equal. apply IH; [discriminate | exact Hl].
Qed.

Lemma rstrip_app_kept (y z : string) :
  z <> "" -> last_not_space z -> last_not_space (y ++ z).
Proof.
  unfold last_not_space. intros Hz Hr. induction y as [| c y IH]; [exact Hr |].
  simpl. rewrite IH. destruct (y ++ z) eqn:E; [| reflexivity].
  destruct y; [simpl in E; congruence | discriminate].
Qed.

Lemma strip_written (x : string) :
  head_not_space x -> last_not_space x -> PyStr.strip (x ++ nl) = x.
Proof.
  intros Hh Hl. unfold PyStr.strip.
  destruct x as [| c r]; [reflexivity |].
  rewrite lstrip_fixed by exact Hh.
  unfold nl. rewrite rstrip_app_space by reflexivity. exact Hl.
Qed.

Lemma head_not_space_field (a x y : string) :
  head_not_space (a ++ ", " ++ x) -> head_not_space (a ++ ", " ++ y).
Proof. destruct a; trivial. Qed.

(** A stored task stays readable when its status is set to a word without
    separator and without white space at its end. *)
Lemma canonical_set_complete (t : task) (status : string) :
  canonical t -> status <> "" -> has_sep status = false -> last_not_space status ->
  canonical (set_complete t status).
Proof.
  unfold canonical, parse_task, task_line. intros Ht Hne Hsep Hlast.
  apply tuple7_fields in Ht.
  assert (Hjoin : PyStr.join_comma_space (fields t)
                  = PyStr.strip (PyStr.join_comma_space (fields t) ++ nl)).
  { rewrite <- Ht at 1. apply join_split. }
  assert (Hhead : head_not_space (PyStr.join_comma_space (fields t)))
    by (rewrite Hjoin; apply strip_head).
  assert (Hfields : Forall (fun f => has_sep f = false) (fields t))
    by (rewrite <- Ht; apply split_fields_no_sep).
  destruct t as [a b c d e f g]. apply tuple7_fields.
  unfold set_complete, fields in *.
  cbn [task_id username title description due_date assigned_date complete] in *.
  rewrite strip_written.
  - apply split_join; [discriminate |].
    rewrite !Forall_cons_iff in Hfields |- *.
    decompose [and] Hfields. repeat split; assumption || constructor.
  - cbn [PyStr.join_comma_space] in Hhead |- *.
    exact (head_not_space_field a _ _ Hhead).
  - cbn [PyStr.join_comma_space].
    repeat (apply rstrip_app_kept;
            [first [ exact Hne
                   | discriminate
                   | match goal with
                     | |- (?x ++ _)%string <> "" => destruct x; discriminate
                     end ] |]).
    exact Hlast.
Qed.

(** ** The status toggle of the task menu *)

Lemma new_status_yes_or_no (status : string) :
  new_status status = "Yes" \/ new_status status = "No".
Proof. unfold new_status. destruct (status =? "Yes")%string; auto. Qed.

(** The rule of the toggle undoes itself on the two status words of the
    program and on no other text. *)
Lemma new_status_twice (status : string) :
  new_status (new_status status) = status <-> status = "Yes" \/ status = "No".
Proof.
  unfold new_status. destruct (String.eqb_spec status "Yes") as [-> | Hy].
  - simpl. tauto.
  - simpl. split; [intros <-; now right | intros [-> | ->]; congruence].
Qed.

Lemma status_loop_map (tasks : list task) (id status : string) (acc : list task) :
  status_loop tasks id status acc
  = (acc ++ map (with_status id status) tasks)%list.
Proof.
  revert acc. induction tasks as [| t rest IH]; intros acc.
  - simpl. now rewrite app_nil_r.
  - cbn [status_loop map]. unfold with_status at 1.
    destruct (task_id t =? id)%string; rewrite IH, <- app_assoc; reflexivity.
Qed.

Lemma canonical_with_status (id status : string) (t : task) :
  canonical t -> status = "Yes" \/ status = "No" -> canonical (with_status id status t).
Proof.
  intros Ht Hs. unfold with_status. destruct (task_id t =? id)%string; [| exact Ht].
  apply canonical_set_complete; trivial; destruct Hs as [-> | ->];
    reflexivity || discriminate.
Qed.

(** What the toggle shows and logs. *)
Lemma toggle_status_run (selected : task) (w : world) :
  let status := new_status (complete selected) in
  toggle_status selected w
  = (Ok tt,
     add_events
       [Wrote TASK_FILE; Header "SUCCESS";
        Print ("  Task '" ++ title selected ++ "' has been marked as "
               ++ (if (status =? "Yes")%string then "complete" else "incomplete")
               ++ "!");
        Print "";
        Log INFO ("Task ID " ++ task_id selected ++ " status updated to " ++ status)]
       (set_file TASK_FILE
          (map task_line (map (with_status (task_id selected) status) (stored_tasks w)))
          w)).
Proof.
  intros status. unfold toggle_status, try_except. fold status. run.
  rewrite status_loop_map. reflexivity.
Qed.

(** The toggle gives every stored task with the id of the selected tuple
    the status opposite to the status of that tuple, whatever status is
    stored. *)
Lemma stored_after_toggle (selected : task) (w : world) :
  stored_tasks (snd (toggle_status selected w))
  = map (with_status (task_id selected) (new_status (complete selected)))
      (stored_tasks w).
Proof.
  rewrite toggle_status_run. cbn [snd].
  rewrite <- (world_stdin (add_events _ _)).
  apply stored_after_write.
  apply Forall_forall. intros t Ht. apply in_map_iff in Ht as (u & <- & Hu).
  apply canonical_with_status; [| apply new_status_yes_or_no].
  pose proof (stored_canonical w) as Hc. rewrite Forall_forall in Hc. now apply Hc.
Qed.

(** ** One visit of the task menu *)

Lemma find_existsb {A} (f : A -> bool) (l : list A) (x : A) :
  find f l = Some x -> existsb f l = true.
Proof.
  intros H. apply find_some in H as [Hin Hf]. apply existsb_exists. now exists x.
Qed.

Lemma find_id (id : string) (l : list task) (x : task) :
  find (fun t => (task_id t =? id)%string) l = Some x -> task_id x = id.
Proof. intros H. apply find_some in H as [_ Hf]. now apply String.eqb_eq. Qed.

Lemma bind_get_valid_task_number {B} (user_tasks : list task) (raw : string)
    (rest : list string) (k : option string -> M B) (w : world) (selected : task)
    (n : Z) :
  PyStr.strip raw <> "-1" ->
  PyStr.strip raw <> "" ->
  PyStr.int (PyStr.strip raw) = Some n ->
  find (fun t => (task_id t =? PyStr.strip raw)%string) user_tasks = Some selected ->
  bind (get_valid_task_number user_tasks) k (set_stdin (raw :: rest) w)
  = k (Some (PyStr.strip raw)) (set_stdin rest (add_events [Ask select_prompt] w)).
Proof.
  intros H1 H2 Hint Hfind.
  assert (Hrun :
    get_valid_task_number user_tasks (set_stdin (raw :: rest) w)
    = (Ok (Some (PyStr.strip raw)),
       set_stdin rest (add_events [Ask select_prompt] w))).
  { unfold get_valid_task_number.
    destruct (recursion_room (set_stdin (raw :: rest) w));
      cbn [get_valid_task_number_in]; unfold get_valid_task_number_body;
      rewrite bind_input; apply String.eqb_neq in H1, H2;
      rewrite H1, H2, Hint; now rewrite (find_existsb _ _ _ Hfind). }
  now rewrite (bind_ok k Hrun).
Qed.

Lemma bind_toggle_status {B} (selected : task) (k : unit -> M B) (w : world) :
  bind (toggle_status selected) k w = k tt (snd (toggle_status selected w)).
Proof. unfold bind. now rewrite toggle_status_run. Qed.

(** A round of the menu in which a listed task is selected and toggled:
    the menu goes on with the list it had. *)
Lemma task_menu_round_toggle (my_username : string) (user_tasks : list task)
    (raw another : string) (rest : list string) (w : world) (selected : task) (n : Z) :
  PyStr.strip raw <> "-1" ->
  PyStr.strip raw <> "" ->
  PyStr.int (PyStr.strip raw) = Some n ->
  find (fun t => (task_id t =? PyStr.strip raw)%string) user_tasks = Some selected ->
  task_menu_round my_username user_tasks (set_stdin (raw :: "1" :: another :: rest) w)
  = (if (PyStr.lower (PyStr.strip another) =? "y")%string
     then Ok (inl user_tasks) else Ok (inr tt),
     set_stdin rest
       (add_events (toggle_round_events selected)
          (set_file TASK_FILE
             (map task_line
                (map (with_status (task_id selected) (new_status (complete selected)))
                   (stored_tasks w)))
             w))).
Proof.
  intros H1 H2 Hint Hfind. unfold task_menu_round.
  rewrite (bind_get_valid_task_number user_tasks raw _ _ w selected n) by assumption.
  rewrite Hfind. run.
  change (PyStr.strip "1") with "1". change ("1" =? "1")%string with true. cbv iota.
  rewrite !bind_assoc, bind_toggle_status, toggle_status_run. cbn [snd]. run.
  unfold toggle_round_events.
  destruct (PyStr.lower (PyStr.strip another) =? "y")%string; reflexivity.
Qed.

Lemma with_status_idem (id status : string) (t : task) :
  with_status id status (with_status id status t) = with_status id status t.
Proof.
  unfold with_status. destruct (task_id t =? id)%string eqn:E; simpl; now rewrite E.
Qed.

Lemma stored_after_status_edit (id status : string) (evs : list event)
    (i : list string) (w : world) :
  status = "Yes" \/ status = "No" ->
  stored_tasks
    (set_stdin i
       (add_events evs
          (set_file TASK_FILE
             (map task_line (map (with_status id status) (stored_tasks w))) w)))
  = map (with_status id status) (stored_tasks w).
Proof.
  intros Hs. apply stored_after_write.
  apply Forall_forall. intros t Ht. apply in_map_iff in Ht as (u & <- & Hu).
  apply canonical_with_status; [| exact Hs].
  pose proof (stored_canonical w) as Hc. rewrite Forall_forall in Hc. now apply Hc.
Qed.

(** C8, what the code does.  In one visit of the task menu a listed task is
    selected and toggled, and then selected and toggled again.  The menu
    goes on with the list of tasks it read at the start, so the second
    toggle computes the same new status as the first and leaves the stored
    tasks as the first toggle left them: the task does not return to the
    status it had. *)
Theorem toggle_twice_in_same_menu_is_not_identity (my_username : string)
    (user_tasks : list task) (selected : task) (raw1 raw2 : string)
    (rest : list string) (w : world) (n : Z) :
  PyStr.strip raw1 <> "-1" ->
  PyStr.strip raw1 <> "" ->
  PyStr.int (PyStr.strip raw1) = Some n ->
  PyStr.strip raw2 = PyStr.strip raw1 ->
  find (fun t => (task_id t =? PyStr.strip raw1)%string) user_tasks = Some selected ->
  let toggled :=
    map (with_status (PyStr.strip raw1) (new_status (complete selected)))
      (stored_tasks w) in
  let round1 :=
    task_menu_round my_username user_tasks
      (set_stdin (raw1 :: "1" :: "y" :: raw2 :: "1" :: "n" :: rest) w) in
  let round2 := task_menu_round my_username user_tasks (snd round1) in
  fst round1 = Ok (inl user_tasks)
  /\ stored_tasks (snd round1) = toggled
  /\ fst round2 = Ok (inr tt)
  /\ stored_tasks (snd round2) = toggled.
Proof.
  intros H1 H2 Hint Hraw2 Hfind toggled round1 round2.
  pose proof (find_id _ _ _ Hfind) as Hid.
  assert (E1 : round1 = _)
    by exact (task_menu_round_toggle my_username user_tasks raw1 "y"
                (raw2 :: "1" :: "n" :: rest) w selected n H1 H2 Hint Hfind).
  change (PyStr.lower (PyStr.strip "y") =? "y")%string with true in E1.
  cbv iota in E1.
  assert (S1 : stored_tasks (snd round1) = toggled).
  { rewrite E1. cbn [snd]. subst toggled. rewrite Hid.
    apply stored_after_status_edit, new_status_yes_or_no. }
  set (w1 := add_events (toggle_round_events selected) _) in E1.
  assert (Hw1 : stored_tasks w1 = toggled).
  { rewrite E1 in S1. cbn [snd] in S1. now rewrite stored_tasks_stdin in S1. }
  assert (E2 : round2
               = task_menu_round my_username user_tasks
                   (set_stdin (raw2 :: "1" :: "n" :: rest) w1))
    by (subst round2; now rewrite E1).
  rewrite <- Hraw2 in H1, H2, Hint, Hfind.
  rewrite (task_menu_round_toggle my_username user_tasks raw2 "n" rest w1 selected n
             H1 H2 Hint Hfind) in E2.
  change (PyStr.lower (PyStr.strip "n") =? "y")%string with false in E2.
  cbv iota in E2.
  split; [now rewrite E1 |]. split; [exact S1 |]. split; [now rewrite E2 |].
  rewrite E2. cbn [snd].
  rewrite stored_after_status_edit by apply new_status_yes_or_no.
  rewrite Hw1. subst toggled.
  rewrite map_map, Hid. apply map_ext. intros t. apply with_status_idem.
Qed.

(** ** The edit of the task menu *)

Lemma edit_loop_map (tasks : list task) (id new_username new_due_date : string)
    (acc : list task) (updated : bool) :
  edit_loop tasks id new_username new_due_date (acc, updated)
  = ((acc ++ map (with_edit id new_username new_due_date) tasks)%list,
     updated || existsb (fun t => (task_id t =? id)%string) tasks).
Proof.
  revert acc updated. induction tasks as [| t rest IH]; intros acc updated.
  - simpl. now rewrite app_nil_r, orb_false_r.
  - cbn [edit_loop map existsb]. unfold with_edit at 1.
    destruct (task_id t =? id)%string; rewrite IH, <- app_assoc; cbn [orb app];
      [now rewrite orb_true_r | reflexivity].
Qed.

Lemma for_each_display (tasks : list task) (w : world) :
  for_each tasks (fun t _ => display_task_for_user t) tt w
  = (Ok tt, add_events (flat_map display_events tasks) w).
Proof.
  revert w. induction tasks as [| t rest IH]; intros w.
  - simpl. now rewrite add_events_nil.
  - cbn [for_each flat_map]. unfold display_task_for_user at 1. run.
    rewrite IH. run. reflexivity.
Qed.

(** A line that a validator without effect accepts at once. *)
Lemma bind_get_validated_input_first {B} (prompt : string)
    (validator : string -> bool * string) (raw : string) (rest : list string)
    (k : string -> M B) (w : world) (msg : string) :
  validator (PyStr.strip raw) = (true, msg) ->
  bind (get_validated_input prompt (fun x => ret (validator x))) k
    (set_stdin (raw :: rest) w)
  = k (PyStr.strip raw) (set_stdin rest (add_events [Ask prompt] w)).
Proof.
  intros Hv.
  assert (Hround :
    get_validated_input_round prompt (fun x => ret (validator x)) tt
      (set_stdin (raw :: rest) w)
    = (Ok (inr (PyStr.strip raw)), set_stdin rest (add_events [Ask prompt] w))).
  { unfold get_validated_input_round. rewrite bind_input, bind_ret, Hv. reflexivity. }
  assert (Hrun :
    get_validated_input prompt (fun x => ret (validator x)) (set_stdin (raw :: rest) w)
    = (Ok (PyStr.strip raw), set_stdin rest (add_events [Ask prompt] w)))
    by (unfold get_validated_input, while_true; now apply while_fuel_leave).
  now rewrite (bind_ok k Hrun).
Qed.

Lemma ret_run {A} (a : A) (w : world) : ret a w = (Ok a, w).
Proof. reflexivity. Qed.

Lemma bind_try_except {A B} (m : M A) (h : exn -> option (M A)) (k : A -> M B)
    (w : world) :
  bind (try_except m h) k w
  = match m w with
    | (Ok a, w') => k a w'
    | (Raise e, w') =>
        match h e with
        | Some h' => bind h' k w'
        | None => (Raise e, w')
        end
    end.
Proof.
  unfold bind, try_except. destruct (m w) as [[a | e] w']; [reflexivity |].
  destruct (h e); reflexivity.
Qed.

(** A round of the menu in which a listed task that the menu holds as not
    complete is selected and given a new due date. *)
Lemma task_menu_round_edit_due_date (my_username : string) (user_tasks : list task)
    (raw raw_date another : string) (rest : list string) (w : world)
    (selected : task) (n : Z) :
  PyStr.strip raw <> "-1" ->
  PyStr.strip raw <> "" ->
  PyStr.int (PyStr.strip raw) = Some n ->
  find (fun t => (task_id t =? PyStr.strip raw)%string) user_tasks = Some selected ->
  PyStr.lower (PyStr.strip (complete selected)) <> "yes" ->
  validate_date_format (PyStr.strip raw_date) = (true, "") ->
  existsb (fun t => (task_id t =? task_id selected)%string) (stored_tasks w) = true ->
  let new_due_date := PyStr.strip raw_date in
  let w' :=
    set_file TASK_FILE
      (map task_line
         (map (with_edit (task_id selected) (username selected) new_due_date)
            (stored_tasks w)))
      w in
  let user_tasks' :=
    filter (fun t => (username t =? my_username)%string) (stored_tasks w') in
  task_menu_round my_username user_tasks
    (set_stdin (raw :: "2" :: "2" :: raw_date :: another :: rest) w)
  = (if (PyStr.lower (PyStr.strip another) =? "y")%string
     then Ok (inl user_tasks') else Ok (inr tt),
     set_stdin rest
       (add_events (edit_round_events my_username selected new_due_date user_tasks')
          w')).
Proof.
  intros H1 H2 Hint Hfind Hopen Hdate Hthere new_due_date w' user_tasks'.
  unfold task_menu_round.
  rewrite (bind_get_valid_task_number user_tasks raw _ _ w selected n) by assumption.
  rewrite Hfind. run.
  change (PyStr.strip "2") with "2". change ("2" =? "1")%string with false.
  change ("2" =? "2")%string with true. cbv iota.
  rewrite !bind_assoc. unfold edit_task.
  apply String.eqb_neq in Hopen. rewrite Hopen. run.
  change (PyStr.strip "2") with "2". change ("2" =? "1")%string with false.
  change ("2" =? "2")%string with true. change ("2" =? "3")%string with false.
  cbn [orb]. cbv iota. run.
  unfold date_format.
  rewrite (bind_get_validated_input_first _ validate_date_format raw_date _ _ _ "" Hdate).
  fold new_due_date. rewrite bind_try_except. run.
  rewrite edit_loop_map, Hthere. cbn [orb app]. run.
  rewrite String.eqb_refl. cbn [negb]. run.
  fold w'. unfold edit_round_events.
  destruct (new_due_date =? due_date selected)%string; cbn [negb]; run;
    fold user_tasks'; destruct (length user_tasks' =? 0)%nat; run;
    try (rewrite (bind_ok _ (for_each_display user_tasks' _)); run);
    rewrite ret_run; cbv beta iota; run;
    destruct (PyStr.lower (PyStr.strip another) =? "y")%string; cbn [negb];
    reflexivity.
Qed.

Lemma with_status_id (id status : string) (t : task) :
  task_id (with_status id status t) = task_id t.
Proof. unfold with_status. now destruct (task_id t =? id)%string. Qed.

Lemma existsb_with_status (id id' status : string) (tasks : list task) :
  existsb (fun t => (task_id t =? id')%string) (map (with_status id status) tasks)
  = existsb (fun t => (task_id t =? id')%string) tasks.
Proof.
  induction tasks as [| t rest IH]; [reflexivity |].
  simpl. now rewrite with_status_id, IH.
Qed.

(** C7, what the code does.  In one visit of the task menu a listed task
    that is not complete is selected and toggled, which stores it as
    complete, and is then selected again and given a new due date.  The menu
    goes on with the list of tasks it read at the start, the lock on
    complete tasks tests the status in that list, and the edit is written:
    the stored task is complete and has the new due date. *)
Theorem edit_of_task_completed_in_same_menu_goes_through (my_username : string)
    (user_tasks : list task) (selected : task) (raw1 raw2 raw_date : string)
    (rest : list string) (w : world) (n : Z) :
  PyStr.strip raw1 <> "-1" ->
  PyStr.strip raw1 <> "" ->
  PyStr.int (PyStr.strip raw1) = Some n ->
  PyStr.strip raw2 = PyStr.strip raw1 ->
  find (fun t => (task_id t =? PyStr.strip raw1)%string) user_tasks = Some selected ->
  complete selected = "No" ->
  validate_date_format (PyStr.strip raw_date) = (true, "") ->
  existsb (fun t => (task_id t =? PyStr.strip raw1)%string) (stored_tasks w) = true ->
  let id := PyStr.strip raw1 in
  let completed := map (with_status id "Yes") (stored_tasks w) in
  let edited := map (with_edit id (username selected) (PyStr.strip raw_date)) completed in
  let round1 :=
    task_menu_round my_username user_tasks
      (set_stdin (raw1 :: "1" :: "y" :: raw2 :: "2" :: "2" :: raw_date :: "n" :: rest) w) in
  let round2 := task_menu_round my_username user_tasks (snd round1) in
  fst round1 = Ok (inl user_tasks)
  /\ stored_tasks (snd round1) = completed
  /\ fst round2 = Ok (inr tt)
  /\ task_txt (snd round2) = Some (map task_line edited)
  /\ trace (snd round2)
     = (trace w ++ toggle_round_events selected
        ++ edit_round_events my_username selected (PyStr.strip raw_date)
             (filter (fun t => (username t =? my_username)%string)
                (stored_tasks (snd round2))))%list.
Proof.
  intros H1 H2 Hint Hraw2 Hfind Hno Hdate Hthere id completed edited round1 round2.
  pose proof (find_id _ _ _ Hfind) as Hid. fold id in Hid.
  assert (E1 : round1 = _)
    by exact (task_menu_round_toggle my_username user_tasks raw1 "y"
                (raw2 :: "2" :: "2" :: raw_date :: "n" :: rest) w selected n
                H1 H2 Hint Hfind).
  change (PyStr.lower (PyStr.strip "y") =? "y")%string with true in E1.
  cbv iota in E1. rewrite Hno, Hid in E1.
  change (new_status "No") with "Yes" in E1. fold completed in E1.
  set (w1 := add_events (toggle_round_events selected) _) in E1.
  assert (Hw1 : stored_tasks w1 = completed)
    by (subst w1 completed;
        rewrite <- (world_stdin (add_events _ _));
        apply stored_after_status_edit; now left).
  assert (E2 : round2
               = task_menu_round my_username user_tasks
                   (set_stdin (raw2 :: "2" :: "2" :: raw_date :: "n" :: rest) w1))
    by (subst round2; now rewrite E1).
  assert (Hopen : PyStr.lower (PyStr.strip (complete selected)) <> "yes")
    by (rewrite Hno; discriminate).
  assert (Hthere1 :
            existsb (fun t => (task_id t =? task_id selected)%string) (stored_tasks w1)
            = true)
    by (rewrite Hw1, Hid; subst completed; now rewrite existsb_with_status).
  rewrite <- Hraw2 in H1, H2, Hint, Hfind.
  rewrite (task_menu_round_edit_due_date my_username user_tasks raw2 raw_date "n" rest
             w1 selected n H1 H2 Hint Hfind Hopen Hdate Hthere1) in E2.
  change (PyStr.lower (PyStr.strip "n") =? "y")%string with false in E2.
  cbv iota in E2. rewrite Hw1, Hid in E2. fold edited in E2.
  split; [now rewrite E1 |].
  split; [rewrite E1; cbn [snd]; now rewrite stored_tasks_stdin |].
  split; [now rewrite E2 |].
  rewrite E2. cbn [snd]. split; [reflexivity |].
  subst w1. rewrite stored_tasks_stdin, stored_tasks_events.
  cbn [trace set_stdin add_events set_file]. now rewrite <- app_assoc.
Qed.

Lemma toggle_twice_in_same_menu_is_not_identity_witness :
  let w := start (Some two_users) (Some three_tasks) [] a_day in
  let user_tasks := filter (fun t => (username t =? "alice")%string) (stored_tasks w) in
  let round1 :=
    task_menu_round "alice" user_tasks (set_stdin ["1"; "1"; "y"; "1"; "1"; "n"] w) in
  let round2 := task_menu_round "alice" user_tasks (snd round1) in
  map complete (stored_tasks w) = ["No"; "No"; "No"]
  /\ fst round1 = Ok (inl user_tasks)
  /\ map complete (stored_tasks (snd round1)) = ["Yes"; "No"; "No"]
  /\ fst round2 = Ok (inr tt)
  /\ map complete (stored_tasks (snd round2)) = ["Yes"; "No"; "No"].
Proof.
  intros w user_tasks.
  assert (Hfind : find (fun t => (task_id t =? PyStr.strip "1")%string) user_tasks
                  = Some (Task "1" "alice" "T1" "D" "2030-01-01" "2025-01-01" "No"))
    by (vm_compute; reflexivity).
  destruct (toggle_twice_in_same_menu_is_not_identity "alice" user_tasks _ "1" "1" []
              w 1 ltac:(discriminate) ltac:(discriminate) eq_refl eq_refl Hfind)
    as (R1 & S1 & R2 & S2).
  cbv zeta. split; [vm_compute; reflexivity |]. split; [exact R1 |].
  split; [rewrite S1; vm_compute; reflexivity |]. split; [exact R2 |].
  rewrite S2. vm_compute. reflexivity.
Defined.

Lemma edit_of_task_completed_in_same_menu_goes_through_witness :
  let w := start (Some two_users) (Some three_tasks) [] a_day in
  let user_tasks := filter (fun t => (username t =? "alice")%string) (stored_tasks w) in
  let round1 :=
    task_menu_round "alice" user_tasks
      (set_stdin ["1"; "1"; "y"; "1"; "2"; "2"; "2031-05-05"; "n"] w) in
  let round2 := task_menu_round "alice" user_tasks (snd round1) in
  fst round1 = Ok (inl user_tasks)
  /\ map complete (stored_tasks (snd round1)) = ["Yes"; "No"; "No"]
  /\ fst round2 = Ok (inr tt)
  /\ task_txt (snd round2)
     = Some ["1, alice, T1, D, 2031-05-05, 2025-01-01, Yes" ++ nl;
             "2, alice, T2, D, 2030-01-01, 2025-01-01, No" ++ nl;
             "3, bob, T3, D, 2020-01-01, 2025-01-01, No" ++ nl].
Proof.
  intros w user_tasks.
  assert (Hfind : find (fun t => (task_id t =? PyStr.strip "1")%string) user_tasks
                  = Some (Task "1" "alice" "T1" "D" "2030-01-01" "2025-01-01" "No"))
    by (vm_compute; reflexivity).
  assert (Hdate : validate_date_format (PyStr.strip "2031-05-05") = (true, ""))
    by (vm_compute; reflexivity).
  assert (Hthere : existsb (fun t => (task_id t =? PyStr.strip "1")%string)
                     (stored_tasks w) = true)
    by (vm_compute; reflexivity).
  destruct (edit_of_task_completed_in_same_menu_goes_through "alice" user_tasks _
              "1" "1" "2031-05-05" [] w 1 ltac:(discriminate) ltac:(discriminate)
              eq_refl eq_refl Hfind eq_refl Hdate Hthere)
    as (R1 & S1 & R2 & F2 & _).
  cbv zeta. split; [exact R1 |]. split; [rewrite S1; vm_compute; reflexivity |].
  split; [exact R2 |]. rewrite F2. vm_compute. reflexivity.
Defined.

(** ** The claims on examples *)

(** C1, a counterexample to the claim as stated.  With tasks 1, 2 and 3
    stored, task 3 is deleted; the next id is then 3 again, an id that was
    stored before the deletion. *)
Lemma get_next_task_id_reuses_deleted_id : ~ never_reuses_deleted_ids.
Proof.
  intros H.
  pose (w := start (Some two_users) (Some three_tasks) [] a_day).
  pose (w1 := snd (delete_task (set_stdin ["3"] w))).
  assert (Hin : In 3 (int_ids (stored_tasks w))) by (vm_compute; auto).
  assert (Hrun : get_next_task_id w1 = (Ok 3, snd (get_next_task_id w1)))
    by (vm_compute; reflexivity).
  specialize (H w "3" [] 3 3 _ Hin Hrun). lia.
Qed.

(** After that deletion [add_task] gives the new task the id 3. *)
Example add_task_after_delete_reuses_id :
  let w := start (Some two_users) (Some three_tasks) ["3"] a_day in
  let w1 := snd (delete_task w) in
  let w2 :=
    snd (add_task (set_stdin ["bob"; "New"; "Soon due"; "2027-01-01"] w1)) in
  map task_id (stored_tasks w) = ["1"; "2"; "3"]
  /\ map task_id (stored_tasks w1) = ["1"; "2"]
  /\ map task_id (stored_tasks w2) = ["1"; "2"; "3"]
  /\ map title (stored_tasks w2) = ["T1"; "T2"; "New"].
Proof. vm_compute. repeat split. Qed.

(** C2, a counterexample to the claim as stated.  The identifier "2" is the
    id of task 2 and the title of task 1: both tasks are removed, and only
    task 3 is left. *)
Lemma delete_task_removes_two_tasks :
  let w := start (Some two_users) (Some clashing_tasks) ["2"] a_day in
  map task_id (stored_tasks (snd (delete_task w))) = ["3"]
  /\ ~ removes_exactly_one (stored_tasks w) (stored_tasks (snd (delete_task w))).
Proof.
  intros w. split; [vm_compute; reflexivity |].
  assert (Eb : length (stored_tasks w) = 3%nat) by (vm_compute; reflexivity).
  assert (Ea : length (stored_tasks (snd (delete_task w))) = 1%nat)
    by (vm_compute; reflexivity).
  intros (l1 & t & l2 & Hb & Ha).
  rewrite Hb in Eb. rewrite Ha in Ea.
  rewrite length_app in Eb, Ea. simpl in Eb. lia.
Qed.

Lemma delete_task_removes_the_only_match_witness :
  let w := start (Some two_users) (Some three_tasks) [] a_day in
  let t1 := Task "1" "alice" "T1" "D" "2030-01-01" "2025-01-01" "No" in
  let t3 := Task "3" "bob" "T3" "D" "2020-01-01" "2025-01-01" "No" in
  let result := delete_task (set_stdin [" T2 "] w) in
  fst result = Ok tt
  /\ task_txt (snd result) = Some (map task_line [t1; t3])
  /\ stored_tasks (snd result) = [t1; t3].
Proof.
  intros w t1 t3.
  apply (delete_task_removes_the_only_match w " T2 " [] [t1] [t3]
           (Task "2" "alice" "T2" "D" "2030-01-01" "2025-01-01" "No")).
  - vm_compute; reflexivity.
  - vm_compute; reflexivity.
  - intros u [<- | [<- | []]]; vm_compute; reflexivity.
Defined.

(** C4, a counterexample to the claim as stated.  Marking a task complete,
    resetting one and toggling one in the task menu each rewrite the task
    file, and none of the three has called [backup_file] before. *)
Lemma status_edits_write_without_backup :
  let mark :=
    update_task_complete (start (Some two_users) (Some three_tasks) ["2"] a_day) in
  let reset :=
    reset_task_incomplete (start (Some two_users) (Some one_complete) ["2"] a_day) in
  let toggle :=
    view_my_tasks (start (Some two_users) (Some three_tasks) ["alice"; "1"; "1"; "n"] a_day) in
  (In (Wrote TASK_FILE) (trace (snd mark))
   /\ backup_before_write false (trace (snd mark)) = false)
  /\ (In (Wrote TASK_FILE) (trace (snd reset))
      /\ backup_before_write false (trace (snd reset)) = false)
  /\ (In (Wrote TASK_FILE) (trace (snd toggle))
      /\ backup_before_write false (trace (snd toggle)) = false).
Proof. vm_compute. auto 40. Qed.

(** The deletion of a task when the copy fails: the backup is attempted,
    fails, and the task file is rewritten all the same. *)
Lemma backup_precedes_deletion_only_witness :
  let w :=
    World (Some two_users) (Some three_tasks) None None [] false a_day ["3"] [] 990 in
  exists evs : list event,
    trace (snd (delete_task w)) = evs
    /\ backup_before_write false evs = true
    /\ In (Backup TASK_FILE false) evs
    /\ In (Wrote TASK_FILE) evs
    /\ map task_id (stored_tasks (snd (delete_task w))) = ["1"; "2"].
Proof.
  intros w.
  destruct (proj1 backup_precedes_deletion_only w) as (evs & Ht & Hb & Hrest).
  destruct (Hrest "3" [] eq_refl) as (Hbackup & Hwrite).
  assert (Hmatch : existsb (matches (PyStr.strip "3")) (stored_tasks w) = true)
    by (vm_compute; reflexivity).
  destruct (Hwrite Hmatch) as (Hw & Hfile).
  exists evs. split; [exact Ht |]. split; [exact Hb |].
  split; [exact Hbackup |]. split; [exact Hw |].
  unfold stored_tasks. rewrite Hfile. vm_compute; reflexivity.
Defined.

(** C5, a counterexample to the claim as stated.  The first line has 7
    fields and the id "abc": [read_all_tasks] returns its record, where the
    specification has it skipped. *)
Lemma read_all_tasks_keeps_unparsable_id :
  let w := start (Some two_users) (Some odd_lines) [] a_day in
  fst (read_all_tasks w) <> Ok (load_tasks_as_specified odd_lines)
  /\ exists tasks, fst (read_all_tasks w) = Ok tasks
                   /\ map task_id tasks = ["abc"; "2"]
                   /\ map task_id (load_tasks_as_specified odd_lines) = ["2"].
Proof.
  split.
  - vm_compute. discriminate.
  - eexists. split; [reflexivity |]. split; vm_compute; reflexivity.
Qed.

Lemma login_failures_look_alike_witness :
  let w := start (Some two_users) (Some three_tasks) [] a_day in
  login_user (set_stdin ["mallory"; "secret1"] w)
  = (Ok None,
     add_events
       (login_refused
        ++ [Log WARNING "Failed login attempt for username: mallory"]) w)
  /\ login_user (set_stdin ["alice"; "letmein"] w)
     = (Ok None,
        add_events
          (login_refused
           ++ [Log WARNING "Failed login attempt for username: alice"]) w).
Proof.
  intros w.
  apply (login_failures_look_alike w two_users "mallory" "secret1" "alice" "letmein" []).
  - reflexivity.
  - intros u [<- | [<- | []]]; vm_compute; discriminate.
  - exists (mkUser "alice" "secret1" "Admin"). split; [now left | reflexivity].
  - intros u [<- | [<- | []]]; vm_compute; discriminate.
Defined.

Lemma not_found_writes_nothing_witness :
  let w := start (Some two_users) (Some three_tasks) [] a_day in
  let mark := update_task_complete (set_stdin ["  "; "7"] w) in
  let reset := reset_task_incomplete (set_stdin ["  "; "7"] w) in
  let delete := delete_task (set_stdin ["7"] w) in
  (trace (snd mark)
   = [Header "MARK TASK AS COMPLETE"; Ask "Enter the task ID to mark as complete: ";
      Print "Error: Task ID cannot be empty.";
      Ask "Enter the task ID to mark as complete: "; Header "ERROR";
      Print "  Task ID '7' not found."; Print ""]
   /\ stored_tasks (snd mark) = stored_tasks w)
  /\ (trace (snd reset)
      = [Header "RESET TASK TO INCOMPLETE";
         Ask "Enter the task ID to reset to incomplete: ";
         Print "Error: Task ID cannot be empty.";
         Ask "Enter the task ID to reset to incomplete: "; Header "ERROR";
         Print "  Task ID '7' not found."; Print "";
         Log WARNING "Attempt to reset non-existent task ID 7"]
      /\ stored_tasks (snd reset) = stored_tasks w)
  /\ (trace (snd delete)
      = [Header "DELETE TASK"; Ask "Enter the task ID or task title to delete: ";
         Backup TASK_FILE true; Header "ERROR"; Print "  Task '7' not found.";
         Print ""]
      /\ task_txt (snd delete) = task_txt w
      /\ stored_tasks (snd delete) = stored_tasks w)
  /\ (trace (snd (delete_task (set_stdin ["  "] w)))
      = [Header "DELETE TASK"; Ask "Enter the task ID or task title to delete: ";
         Backup TASK_FILE true; Header "ERROR"; Print "  Task '' not found.";
         Print ""]
      /\ task_txt (snd (delete_task (set_stdin ["  "] w))) = task_txt w
      /\ stored_tasks (snd (delete_task (set_stdin ["  "] w))) = stored_tasks w).
Proof.
  intros w.
  assert (Hblank : Forall blank ["  "]) by (constructor; [reflexivity | constructor]).
  assert (Hraw : PyStr.strip "7" <> "") by discriminate.
  assert (Hid : forall t, In t (stored_tasks w) -> task_id t <> PyStr.strip "7")
    by (intros t [<- | [<- | [<- | []]]]; vm_compute; discriminate).
  assert (Htitle : forall t, In t (stored_tasks w) -> title t <> PyStr.strip "7")
    by (intros t [<- | [<- | [<- | []]]]; vm_compute; discriminate).
  assert (Hid0 : forall t, In t (stored_tasks w) -> task_id t <> PyStr.strip "  ")
    by (intros t [<- | [<- | [<- | []]]]; vm_compute; discriminate).
  assert (Htitle0 : forall t, In t (stored_tasks w) -> title t <> PyStr.strip "  ")
    by (intros t [<- | [<- | [<- | []]]]; vm_compute; discriminate).
  destruct (not_found_writes_nothing w ["  "] "7" [] Hblank Hid)
    as (Hm & Hr & Hdel).
  destruct (Hm Hraw) as (Em & Sm). destruct (Hr Hraw) as (Er & Sr).
  destruct (Hdel Htitle) as (Ed & Fd & Sd).
  destruct (not_found_writes_nothing w [] "  " [] (Forall_nil _) Hid0)
    as (_ & _ & Hdel0).
  destruct (Hdel0 Htitle0) as (Ed0 & Fd0 & Sd0).
  cbv zeta. split; [| split; [| split]].
  - split; [| exact Sm]. cbn [app] in Em. rewrite Em. vm_compute; reflexivity.
  - split; [| exact Sr]. cbn [app] in Er. rewrite Er. vm_compute; reflexivity.
  - split; [| split; [exact Fd | exact Sd]]. rewrite Ed. vm_compute; reflexivity.
  - split; [| split; [exact Fd0 | exact Sd0]]. rewrite Ed0. vm_compute; reflexivity.
Defined.

Lemma for_each_reset_incomplete (id : string) (tasks : list task) (found : bool)
    (upd : list task) (w : world) :
  (forall t, In t tasks -> task_id t = id ->
             PyStr.lower (PyStr.strip (complete t)) <> "yes") ->
  for_each tasks (reset_body id) (found, upd) w
  = (Ok (found, (upd ++ tasks)%list),
     add_events (already_incomplete_events id tasks) w).
Proof.
  revert upd w. induction tasks as [| t rest IH]; intros upd w H.
  - simpl. unfold already_incomplete_events. simpl.
    now rewrite app_nil_r, add_events_nil.
  - cbn [for_each]. unfold reset_body at 1.
    unfold already_incomplete_events. cbn [flat_map].
    fold (already_incomplete_events id rest).
    destruct (String.eqb_spec (task_id t) id) as [E | E].
    + destruct (String.eqb_spec (PyStr.lower (PyStr.strip (complete t))) "yes")
        as [Ey | Ey]; [exfalso; apply (H t); auto; now left |].
      run. rewrite IH by (intros u Hu; apply H; now right).
      run. reflexivity.
    + rewrite bind_ret, IH by (intros u Hu; apply H; now right).
      run. reflexivity.
Qed.

(** C3, what the code does.  A task that is stored and not complete is
    reset: for every such task the code shows that the task is already
    incomplete and then, as an error, that the task was not found, and it
    logs a warning about a task that does not exist.  [task_found] is set
    only where a task is reset.  The file is not written. *)
Theorem reset_of_incomplete_task_reports_not_found (w : world)
    (blanks : list string) (raw : string) (rest : list string) :
  Forall blank blanks ->
  PyStr.strip raw <> "" ->
  (exists t, In t (stored_tasks w) /\ task_id t = PyStr.strip raw) ->
  (forall t, In t (stored_tasks w) -> task_id t = PyStr.strip raw ->
             PyStr.lower (PyStr.strip (complete t)) <> "yes") ->
  let id := PyStr.strip raw in
  reset_task_incomplete (set_stdin (blanks ++ raw :: rest) w)
  = (Ok tt,
     set_stdin rest
       (add_events
          (Header "RESET TASK TO INCOMPLETE"
           :: retry_events "Enter the task ID to reset to incomplete: " "Task ID" blanks
           ++ Ask "Enter the task ID to reset to incomplete: "
           :: already_incomplete_events id (stored_tasks w)
           ++ [Header "ERROR"; Print ("  Task ID '" ++ id ++ "' not found."); Print "";
               Log WARNING ("Attempt to reset non-existent task ID " ++ id)])%list
          w))
  /\ In (Header "INFO") (already_incomplete_events id (stored_tasks w)).
Proof.
  intros Hb Hraw (t & Ht & Hid) Hincomplete id. split.
  - unfold reset_task_incomplete. run.
    rewrite bind_get_validated_input_non_empty by assumption.
    unfold try_except. run. fold id.
    rewrite (bind_ok _ (for_each_reset_incomplete id (stored_tasks w) false [] _
                          Hincomplete)).
    run. cbn [negb]. run. reflexivity.
  - unfold already_incomplete_events. apply in_flat_map. exists t.
    split; [exact Ht |]. fold id in Hid. rewrite Hid, String.eqb_refl. now left.
Qed.

Lemma reset_of_incomplete_task_reports_not_found_witness :
  let w := start (Some two_users) (Some three_tasks) [] a_day in
  reset_task_incomplete (set_stdin ["1"] w)
  = (Ok tt,
     add_events
       [Header "RESET TASK TO INCOMPLETE";
        Ask "Enter the task ID to reset to incomplete: ";
        Header "INFO"; Print "  Task ID 1 ('T1') is already incomplete."; Print "";
        Header "ERROR"; Print "  Task ID '1' not found."; Print "";
        Log WARNING "Attempt to reset non-existent task ID 1"]
       w).
Proof.
  intros w.
  assert (Hraw : PyStr.strip "1" <> "") by discriminate.
  assert (Hthere : exists t, In t (stored_tasks w) /\ task_id t = PyStr.strip "1")
    by (eexists; split; [left; reflexivity | reflexivity]).
  assert (Hincomplete :
            forall t, In t (stored_tasks w) -> task_id t = PyStr.strip "1" ->
                      PyStr.lower (PyStr.strip (complete t)) <> "yes")
    by (intros t [<- | [<- | [<- | []]]] _; vm_compute; discriminate).
  destruct (reset_of_incomplete_task_reports_not_found w [] "1" []
              (Forall_nil _) Hraw Hthere Hincomplete) as [E _].
  cbn [app] in E. rewrite E. vm_compute. reflexivity.
Defined.

(** ** The overdue counts of the two reports *)

(** Where every due date parses, the two reports count the same way. *)
Lemma user_overdue_sum_agrees (tasks : list task) (d : PyDate.date) (acc : nat) :
  (forall t, In t tasks -> status_is t "no" = true ->
             PyDate.strptime (due_date t) <> None) ->
  user_overdue_sum tasks d acc = Ok (overdue_loop tasks d acc).
Proof.
  revert acc. induction tasks as [| t rest IH]; intros acc H; [reflexivity |].
  simpl. destruct (status_is t "no") eqn:Es.
  - destruct (PyDate.strptime (due_date t)) as [due |] eqn:Ed.
    + destruct (PyDate.ltb due d); apply IH; intros u Hu; apply H; now right.
    + exfalso. apply (H t); auto. now left.
  - apply IH. intros u Hu. apply H. now right.
Qed.

(** An incomplete task whose due date does not parse: the task overview
    passes over it, the count of the user overview raises [ValueError]. *)
Lemma user_overdue_sum_raises (tasks : list task) (d : PyDate.date) (acc : nat)
    (t : task) :
  In t tasks -> status_is t "no" = true -> PyDate.strptime (due_date t) = None ->
  user_overdue_sum tasks d acc = Raise ValueError.
Proof.
  intros Hin Hs Hd. revert acc. induction tasks as [| u rest IH]; intros acc;
    [contradiction |].
  simpl. destruct Hin as [-> | Hin].
  - now rewrite Hs, Hd.
  - destruct (status_is u "no"); [| now apply IH].
    destruct (PyDate.strptime (due_date u)) as [due |]; [| reflexivity].
    destruct (PyDate.ltb due d); now apply IH.
Qed.

Lemma user_entries_loop_stops (users : list string) (tasks : list task)
    (d : PyDate.date) (written : list user_stats) (u : string) (t : task) :
  In u users -> In t tasks -> username t = u ->
  status_is t "no" = true -> PyDate.strptime (due_date t) = None ->
  ~ In u (map stats_user written) ->
  exists written',
    user_entries_loop users tasks d written = (written', Some ValueError)
    /\ ~ In u (map stats_user written').
Proof.
  intros Hu Ht Hname Hs Hd. revert written.
  induction users as [| v rest IH]; intros written Hw; [contradiction |].
  simpl.
  destruct (user_overdue_sum (filter (fun t0 => (username t0 =? v)%string) tasks) d 0)
    as [n | e] eqn:E.
  - assert (Hv : v <> u).
    { intros ->.
      rewrite (user_overdue_sum_raises _ d 0 t) in E; try assumption; [discriminate |].
      apply filter_In. split; [exact Ht |]. now apply String.eqb_eq. }
    destruct Hu as [-> | Hu]; [contradiction |].
    apply IH; [exact Hu |].
    rewrite map_app, in_app_iff. simpl. intros [H | [H | []]]; auto.
  - exists written. split; [| exact Hw].
    f_equal. f_equal.
    clear - E. revert E. generalize 0%nat.
    induction (filter (fun t0 => (username t0 =? v)%string) tasks) as [| x l IHl];
      intros acc; simpl; [discriminate |].
    destruct (status_is x "no"); [| apply IHl].
    destruct (PyDate.strptime (due_date x)) as [due |]; [| now intros [= <-]].
    destruct (PyDate.ltb due d); apply IHl.
Qed.

Lemma user_overview_events (r : list user_stats) (evs : list event) (w : world) :
  set_user_overview r (add_events evs w) = add_events evs (set_user_overview r w).
Proof. reflexivity. Qed.

Lemma bind_now_date {B} (k : PyDate.date -> M B) (w : world) :
  bind now_date k w = k (today w) w.
Proof. reflexivity. Qed.

Lemma bind_write_task_overview {B} (r : task_overview) (k : unit -> M B) (w : world) :
  bind (write_task_overview r) k w
  = k tt (add_events [WroteTaskOverview] (set_task_overview r w)).
Proof. reflexivity. Qed.

(** C6, what the code does.  A user of the user file owns an incomplete
    task whose due date does not parse.  The task overview passes over that
    task and is written.  The user overview is opened, the [ValueError] of
    that due date ends it before the entry of that user is written, and the
    exception is reported as a failure of [generate_reports]: the per-user
    count does not skip the task, and the report does not complete. *)
Theorem user_overview_fails_on_unparsable_due_date (w : world)
    (lines : list string) (u : string) (t : task) :
  user_txt w = Some lines ->
  In u (report_users lines) ->
  In t (stored_tasks w) ->
  username t = u ->
  status_is t "no" = true ->
  PyDate.strptime (due_date t) = None ->
  let tasks := stored_tasks w in
  exists written : list user_stats,
    generate_reports w
    = (Ok tt,
       add_events
         [WroteTaskOverview; WroteUserOverview; Header "ERROR";
          PrintError "generating reports" ValueError; Print "";
          LogError "generating reports" ValueError]
         (set_user_overview written
            (set_task_overview
               (TaskOverview (length tasks) (count_completed tasks)
                  (length tasks - count_completed tasks)
                  (overdue_loop tasks (today w) 0))
               w)))
    /\ ~ In u (map stats_user written).
Proof.
  intros Hfile Hu Ht Hname Hs Hd tasks.
  destruct (user_entries_loop_stops (report_users lines) tasks (today w) [] u t
              Hu Ht Hname Hs Hd (fun H => H))
    as (written & Hloop & Hnot).
  exists written. split; [| exact Hnot].
  unfold generate_reports, try_except.
  rewrite bind_read_all_tasks. fold tasks.
  rewrite bind_now_date, bind_write_task_overview.
  rewrite (bind_read_lines USER_FILE lines) by exact Hfile.
  unfold bind at 1. unfold write_user_overview. cbn [today set_task_overview add_events].
  rewrite Hloop. unfold handle_file_error. run.
  rewrite user_overview_events. run. reflexivity.
Qed.

Lemma user_overview_fails_on_unparsable_due_date_witness :
  let w := start (Some two_users) (Some a_bad_due_date) [] a_day in
  exists written : list user_stats,
    generate_reports w
    = (Ok tt,
       add_events
         [WroteTaskOverview; WroteUserOverview; Header "ERROR";
          PrintError "generating reports" ValueError; Print "";
          LogError "generating reports" ValueError]
         (set_user_overview written (set_task_overview (TaskOverview 2 0 2 1) w)))
    /\ ~ In "bob" (map stats_user written).
Proof.
  intros w.
  destruct (user_overview_fails_on_unparsable_due_date w two_users "bob"
              (Task "2" "bob" "T2" "D" "soon" "2025-01-01" "No"))
    as (written & E & Hnot); try (vm_compute; reflexivity).
  - vm_compute. auto.
  - vm_compute. auto.
  - exists written. split; [| exact Hnot]. rewrite E. vm_compute. reflexivity.
Defined.

(** The same run in full: the task overview counts the overdue task of
    alice, the user overview holds the entry of alice and nothing for bob. *)
Example generate_reports_on_a_bad_due_date :
  let result := generate_reports (start (Some two_users) (Some a_bad_due_date) [] a_day) in
  fst result = Ok tt
  /\ task_overview_txt (snd result) = Some (TaskOverview 2 0 2 1)
  /\ user_overview_txt (snd result) = Some [UserStats "alice" 1 0 1 1]
  /\ trace (snd result)
     = [WroteTaskOverview; WroteUserOverview; Header "ERROR";
        PrintError "generating reports" ValueError; Print "";
        LogError "generating reports" ValueError].
Proof. vm_compute. repeat split. Qed.

(** The whole visit of alice to the task menu, from [view_my_tasks].
    alice toggles task 1, which is then stored as complete, selects it again
    and edits its due date: the menu still holds the task as it was read at
    the start, with the status "No", and the edit is carried out on the
    complete task. *)
Example view_my_tasks_toggle_then_edit :
  let w :=
    start (Some two_users) (Some three_tasks)
      ["alice"; "1"; "1"; "y"; "1"; "2"; "2"; "2031-05-05"; "n"] a_day in
  let result := view_my_tasks w in
  fst result = Ok tt
  /\ stored_tasks (snd result)
     = [Task "1" "alice" "T1" "D" "2031-05-05" "2025-01-01" "Yes";
        Task "2" "alice" "T2" "D" "2030-01-01" "2025-01-01" "No";
        Task "3" "bob" "T3" "D" "2020-01-01" "2025-01-01" "No"]
  /\ logged (trace (snd result))
     = [Log INFO "Task ID 1 status updated to Yes";
        Log INFO "Task ID 1 updated - User: alice, Due: 2031-05-05"]
  /\ ~ In (Print "  Cannot edit a completed task. Please mark it as incomplete first.")
         (trace (snd result)).
Proof.
  intros w result. split; [vm_compute; reflexivity |].
  split; [vm_compute; reflexivity |]. split; [vm_compute; reflexivity |].
  intros H. vm_compute in H.
  repeat (destruct H as [H | H]; [discriminate H |]). exact H.
Qed.

(** The whole visit of alice to the task menu, from [view_my_tasks]: alice
    toggles task 1, stored with the status "No", selects it again and
    toggles it again: the second toggle computes the new status from the
    status the menu read at the start, writes "Yes" again, and the task does
    not return to "No". *)
Example view_my_tasks_toggle_twice :
  let w :=
    start (Some two_users) (Some three_tasks)
      ["alice"; "1"; "1"; "y"; "1"; "1"; "n"] a_day in
  let result := view_my_tasks w in
  fst result = Ok tt
  /\ map complete (stored_tasks w) = ["No"; "No"; "No"]
  /\ map complete (stored_tasks (snd result)) = ["Yes"; "No"; "No"]
  /\ logged (trace (snd result))
     = [Log INFO "Task ID 1 status updated to Yes";
        Log INFO "Task ID 1 status updated to Yes"].
Proof. vm_compute. repeat split. Qed.

(** * The other operations: registration, roles, listings and the session loop *)

(** ** What a computation ensures *)

Lemma only_talks_refl (w : world) : only_talks w w.
Proof.
  exists 0%nat, []. split; [reflexivity |].
  cbn [skipn]. now rewrite add_events_nil, world_stdin.
Qed.

Lemma only_talks_trans (a b c : world) :
  only_talks a b -> only_talks b c -> only_talks a c.
Proof.
  intros (n1 & e1 & H1 & ->) (n2 & e2 & H2 & ->).
  exists (n1 + n2)%nat, (e1 ++ e2)%list.
  split; [now rewrite forallb_app, H1, H2 |].
  change (stdin (set_stdin (skipn n1 (stdin a)) (add_events e1 a)))
    with (skipn n1 (stdin a)).
  rewrite skipn_skipn, events_stdin, stdin_stdin, add_events_events.
  now rewrite (Nat.add_comm n1 n2).
Qed.

Lemma only_talks_events (evs : list event) (w : world) :
  forallb is_talk evs = true -> only_talks w (add_events evs w).
Proof. intros H. exists 0%nat, evs. split; [exact H | now destruct w]. Qed.

Lemma only_talks_input (prompt : string) : respects only_talks (input prompt).
Proof.
  intros w. unfold input. destruct (stdin w) as [| x rest] eqn:E; cbn [snd].
  - now apply (only_talks_events [Ask prompt]).
  - exists 1%nat, [Ask prompt]. rewrite E. split; reflexivity.
Qed.

Lemma only_talks_emit (e : event) :
  is_talk e = true -> respects only_talks (emit e).
Proof. intros H w. apply (only_talks_events [e]). cbn. now rewrite H. Qed.

(** What a computation that only talks leaves as it was. *)
Lemma only_talks_keeps (w w' : world) :
  only_talks w w' ->
  user_txt w' = user_txt w /\ task_txt w' = task_txt w
  /\ task_overview_txt w' = task_overview_txt w
  /\ user_overview_txt w' = user_overview_txt w
  /\ backups w' = backups w /\ copy_ok w' = copy_ok w /\ today w' = today w.
Proof. intros (n & evs & _ & ->). repeat split. Qed.

Lemma only_talks_stdin (w w' : world) :
  only_talks w w' -> exists n, stdin w' = skipn n (stdin w).
Proof. intros (n & evs & _ & ->). now exists n. Qed.

Section Ensures.

Variable F : world -> world -> Prop.
Hypothesis F_refl : forall w, F w w.
Hypothesis F_trans : forall a b c, F a b -> F b c -> F a c.

Lemma ensures_ret {A} (P : world -> Prop) (G : A -> world -> Prop) (a : A) :
  (forall w, P w -> G a w) -> ensures P F G (ret a).
Proof. intros H w Hw. cbn. auto. Qed.

Lemma ensures_bind {A B} (P : world -> Prop) (G1 : A -> world -> Prop)
    (G2 : B -> world -> Prop) (m : M A) (k : A -> M B) :
  ensures P F G1 m -> (forall a, ensures (G1 a) F G2 (k a)) ->
  ensures P F G2 (bind m k).
Proof.
  intros Hm Hk w Hw. unfold bind. specialize (Hm w Hw).
  destruct (m w) as [[a | e] w1]; [| exact Hm].
  destruct Hm as [HF HG]. specialize (Hk a w1 HG).
  destruct (k a w1) as [[b | e] w2]; destruct Hk as [HF2 H2]; split; eauto.
Qed.

Lemma ensures_weaken {A} (P P' : world -> Prop) (G G' : A -> world -> Prop)
    (m : M A) :
  ensures P F G m -> (forall w, P' w -> P w) -> (forall a w, G a w -> G' a w) ->
  ensures P' F G' m.
Proof.
  intros Hm HP HG w Hw. specialize (Hm w (HP w Hw)).
  destruct (m w) as [[a | e] w1]; destruct Hm; auto.
Qed.

(** A loop: [I] holds of the state whenever the body is entered. *)
Lemma ensures_while_fuel {St A} (I : St -> world -> Prop) (G : A -> world -> Prop)
    (body : St -> M (St + A)) :
  (forall s,
     ensures (I s) F
       (fun r w' => match r with inl s' => I s' w' | inr a => G a w' end)
       (body s)) ->
  forall (fuel : nat) (s : St), ensures (I s) F G (while_fuel fuel body s).
Proof.
  intros Hbody fuel. induction fuel as [| k IH]; intros s w Hw.
  - cbn. auto.
  - cbn [while_fuel]. unfold bind. specialize (Hbody s w Hw).
    destruct (body s w) as [[[s' | a] | e] w1]; destruct Hbody as [HF H].
    + specialize (IH s' w1 H).
      destruct (while_fuel k body s' w1) as [[a | e] w2]; destruct IH; split; eauto.
    + cbn. auto.
    + auto.
Qed.

Lemma ensures_while_true {St A} (I : St -> world -> Prop) (G : A -> world -> Prop)
    (body : St -> M (St + A)) (s : St) :
  (forall s',
     ensures (I s') F
       (fun r w' => match r with inl s'' => I s'' w' | inr a => G a w' end)
       (body s')) ->
  ensures (I s) F G (while_true body s).
Proof.
  intros Hbody w Hw. unfold while_true.
  now apply (ensures_while_fuel I G body Hbody).
Qed.

(** A computation that keeps to [F] and never raises. *)
Lemma ensures_respects {A} (P : world -> Prop) (G : A -> world -> Prop) (m : M A) :
  respects F m ->
  (forall w, P w -> exists a, fst (m w) = Ok a /\ G a (snd (m w))) ->
  ensures P F G m.
Proof.
  intros HF HG w Hw. specialize (HF w). destruct (HG w Hw) as (a & E & H).
  destruct (m w) as [r w1]; cbn in *. subst r. auto.
Qed.

End Ensures.

Lemma ensures_input (P : world -> Prop) (prompt : string) :
  ensures P only_talks (fun _ w' => exists w, P w /\ only_talks w w') (input prompt).
Proof.
  intros w Hw. pose proof (only_talks_input prompt w) as H.
  destruct (input prompt w) as [[x | e] w1] eqn:E; cbn in H; split; eauto.
  unfold input in E. destruct (stdin w); now inversion E.
Qed.

(** ** [get_validated_input], whatever is typed *)

Lemma get_validated_input_ensures (prompt : string)
    (validator_func : string -> M (bool * string)) (V : string -> world -> Prop) :
  (forall x w, exists ok msg,
     validator_func x w = (Ok (ok, msg), w) /\ (ok = true -> V x w)) ->
  ensures anywhere only_talks (fun v w' => V v w' /\ PyStr.strip v = v)
    (get_validated_input prompt validator_func).
Proof.
  intros Hv. unfold get_validated_input.
  apply (ensures_while_true only_talks only_talks_refl only_talks_trans
           (fun _ => anywhere)).
  intros [] w _. unfold get_validated_input_round, bind.
  pose proof (only_talks_input prompt w) as Hin.
  destruct (input prompt w) as [[raw | e] w1] eqn:E; cbn [snd] in Hin.
  - destruct (Hv (PyStr.strip raw) w1) as (ok & msg & Ev & HV). rewrite Ev.
    destruct ok; cbn.
    + split; [exact Hin |]. split; [now apply HV | apply strip_idem].
    + split; [| exact I].
      apply (only_talks_trans _ _ _ Hin), (only_talks_events [Print _] _ eq_refl).
  - split; [exact Hin |]. unfold input in E. destruct (stdin w); now inversion E.
Qed.

Lemma validate_non_empty_true (x field_name : string) :
  fst (validate_non_empty x field_name) = true -> PyStr.strip x <> "".
Proof.
  unfold validate_non_empty.
  destruct (x =? "")%string; [discriminate |]. cbn [orb].
  destruct (PyStr.strip x =? "")%string eqn:E; [discriminate |].
  intros _. now apply String.eqb_neq.
Qed.

Lemma get_validated_input_non_empty_ensures (prompt field_name : string) :
  ensures anywhere only_talks (fun v _ => v <> "" /\ PyStr.strip v = v)
    (get_validated_input prompt (non_empty field_name)).
Proof.
  eapply (ensures_weaken only_talks).
  - apply (get_validated_input_ensures prompt (non_empty field_name)
             (fun x _ => PyStr.strip x <> "")).
    intros x w. unfold non_empty.
    destruct (validate_non_empty x field_name) as [ok msg] eqn:E.
    exists ok, msg. split; [reflexivity |]. intros ->.
    apply (validate_non_empty_true x field_name). now rewrite E.
  - trivial.
  - intros v w [H1 H2]. split; [congruence | exact H2].
Qed.


Lemma validate_due_date_run (x : string) (w : world) :
  exists ok msg,
    validate_due_date x w = (Ok (ok, msg), w)
    /\ (ok = true ->
        exists d, PyDate.strptime x = Some d /\ PyDate.ltb d (today w) = false).
Proof.
  unfold validate_due_date.
  destruct (validate_date_format x) as [valid msg] eqn:E.
  destruct valid; cbn [negb].
  - destruct (PyDate.strptime x) as [d |] eqn:Ed.
    + unfold bind, now_date. destruct (PyDate.ltb d (today w)) eqn:El.
      * do 2 eexists. split; [reflexivity | discriminate].
      * do 2 eexists. split; [reflexivity |]. intros _. eauto.
    + do 2 eexists. split; [reflexivity | discriminate].
  - do 2 eexists. split; [reflexivity | discriminate].
Qed.

Lemma get_validated_input_due_date_ensures (prompt : string) :
  ensures anywhere only_talks
    (fun v w' =>
       exists d, PyDate.strptime v = Some d /\ PyDate.ltb d (today w') = false)
    (get_validated_input prompt validate_due_date).
Proof.
  eapply (ensures_weaken only_talks).
  - apply (get_validated_input_ensures prompt validate_due_date
             (fun x w =>
                exists d, PyDate.strptime x = Some d
                          /\ PyDate.ltb d (today w) = false)).
    apply validate_due_date_run.
  - trivial.
  - intros v w [H _]. exact H.
Qed.

Lemma user_exists_run (name : string) (w : world) :
  user_exists name w = (Ok (user_exists_scan (lines_of USER_FILE w) name), w).
Proof.
  unfold user_exists, try_except, bind, read_lines, lines_of.
  destruct (file_of USER_FILE w); reflexivity.
Qed.

Lemma ask_task_username_ensures :
  ensures anywhere only_talks
    (fun name w' =>
       user_exists_scan (lines_of USER_FILE w') name = true
       /\ name <> "" /\ PyStr.strip name = name)
    (while_true ask_task_username tt).
Proof.
  apply (ensures_while_true only_talks only_talks_refl only_talks_trans
           (fun _ => anywhere)).
  intros [] w _. unfold ask_task_username, bind.
  pose proof (get_validated_input_non_empty_ensures
                "Enter the username to assign the task to: " "Username" w I) as H.
  destruct (get_validated_input _ _ w) as [[name | e] w1]; [| exact H].
  destruct H as (Ht & Hn & Hs). rewrite user_exists_run.
  destruct (user_exists_scan (lines_of USER_FILE w1) name) eqn:E; cbn.
  - auto.
  - split; [| exact I].
    apply (only_talks_trans _ _ _ Ht), (only_talks_events [Print _] _ eq_refl).
Qed.

(** ** Texts without comma, and lines of more fields than were meant *)

Lemma no_comma_has_sep (s : string) : no_comma s = true -> has_sep s = false.
Proof.
  induction s as [| c r IH]; [reflexivity |]. cbn [no_comma has_sep].
  intros H. apply andb_prop in H as [Hc Hr]. rewrite (IH Hr), orb_false_r.
  apply negb_true_iff in Hc. unfold starts_sep. destruct r; [reflexivity |].
  now rewrite Hc.
Qed.

Lemma no_comma_app (a b : string) :
  no_comma (a ++ b) = no_comma a && no_comma b.
Proof.
  induction a as [| c a IH]; [reflexivity |]. cbn [append no_comma].
  now rewrite IH, andb_assoc.
Qed.

Lemma digit_not_comma (c : ascii) (d : Z) :
  PyStr.digit_value c = Some d -> Ascii.eqb c "," = false.
Proof.
  intros H. destruct (Ascii.eqb_spec c ","); [| reflexivity]. subst. discriminate.
Qed.

Lemma digits_no_comma (s : string) : digits_only s = true -> no_comma s = true.
Proof.
  induction s as [| c r IH]; [reflexivity |]. cbn [digits_only no_comma].
  destruct (PyStr.digit_value c) as [d |] eqn:E; [| discriminate].
  intros H. now rewrite (digit_not_comma c d E), (IH H).
Qed.

Lemma str_pos_no_comma (fuel : nat) (n : Z) (acc : string) :
  no_comma acc = true -> no_comma (PyStr.str_pos fuel n acc) = true.
Proof.
  revert n acc. induction fuel as [| k IH]; intros n acc Hacc; [exact Hacc |].
  cbn [PyStr.str_pos].
  assert (Hd : no_comma (String (PyStr.digit_char (n mod 10)) acc) = true).
  { cbn [no_comma]. rewrite Hacc, andb_true_r.
    rewrite (digit_not_comma _ (n mod 10)); [reflexivity |].
    apply digit_value_digit_char, Z.mod_pos_bound. lia. }
  destruct (n <? 10); [exact Hd | now apply IH].
Qed.

Lemma str_of_int_no_comma (n : Z) : no_comma (PyStr.str_of_int n) = true.
Proof.
  unfold PyStr.str_of_int. destruct (n <? 0).
  - cbn [no_comma]. now rewrite str_pos_no_comma.
  - now apply str_pos_no_comma.
Qed.

Lemma zero_pad_no_comma (width : nat) (n : Z) :
  no_comma (PyDate.zero_pad width n) = true.
Proof.
  unfold PyDate.zero_pad. rewrite no_comma_app, str_of_int_no_comma, andb_true_r.
  induction (width - String.length (PyStr.str_of_int n))%nat as [| k IH];
    [reflexivity | exact IH].
Qed.

Lemma strftime_no_comma (d : PyDate.date) : no_comma (PyDate.strftime d) = true.
Proof.
  unfold PyDate.strftime.
  now rewrite !no_comma_app, !zero_pad_no_comma.
Qed.

Lemma cut_dash_app (s a b : string) :
  PyDate.cut_dash s = Some (a, b) -> s = a ++ "-" ++ b.
Proof.
  revert a b. induction s as [| c r IH]; intros a b H; [discriminate |].
  cbn [PyDate.cut_dash] in H.
  destruct (Ascii.eqb_spec c "-") as [-> | Hc].
  - inversion H. reflexivity.
  - assert (E : PyDate.cut_dash (String c r)
                = match PyDate.cut_dash r with
                  | Some (a, b) => Some (String c a, b)
                  | None => None
                  end).
    { destruct c as [[] [] [] [] [] [] [] []]; try reflexivity. now elim Hc. }
    cbn [PyDate.cut_dash] in E. rewrite E in H.
    destruct (PyDate.cut_dash r) as [[a' b'] |]; [| discriminate].
    inversion H; subst. now rewrite (IH a' b eq_refl).
Qed.

Lemma month_token_no_comma (s : string) (m : Z) :
  PyDate.month_token s = Some m -> no_comma s = true.
Proof.
  destruct s as [| a [| b [| c r]]]; try discriminate; cbn [PyDate.month_token].
  - destruct (PyStr.digit_value a) as [d |] eqn:Ea; [| discriminate].
    intros _. cbn [no_comma]. now rewrite (digit_not_comma a d Ea).
  - destruct (PyStr.digit_value a) as [d |] eqn:Ea.
    + destruct (PyStr.digit_value b) as [e |] eqn:Eb.
      * intros _. cbn [no_comma].
        now rewrite (digit_not_comma a d Ea), (digit_not_comma b e Eb).
      * destruct d as [| [] |]; discriminate.
    + discriminate.
Qed.

Lemma day_token_no_comma (s : string) (m : Z) :
  PyDate.day_token s = Some m -> no_comma s = true.
Proof.
  destruct s as [| a [| b [| c r]]]; try discriminate; cbn [PyDate.day_token].
  - destruct (PyStr.digit_value a) as [d |] eqn:Ea; [| discriminate].
    intros _. cbn [no_comma]. now rewrite (digit_not_comma a d Ea).
  - destruct (PyStr.digit_value b) as [e |] eqn:Eb.
    + destruct (PyStr.digit_value a) as [d |] eqn:Ea.
      * intros _. cbn [no_comma].
        now rewrite (digit_not_comma a d Ea), (digit_not_comma b e Eb).
      * destruct (Ascii.eqb_spec a " ") as [-> | Ha].
        -- intros _. cbn [no_comma]. now rewrite (digit_not_comma b e Eb).
        -- cbn [andb]. discriminate.
    + destruct (PyStr.digit_value a) as [d |]; [| discriminate].
      destruct d as [| [[] | [] |] |]; discriminate.
Qed.

Lemma strptime_no_comma (s : string) (d : PyDate.date) :
  PyDate.strptime s = Some d -> no_comma s = true.
Proof.
  unfold PyDate.strptime.
  destruct s as [| y1 [| y2 [| y3 [| y4 [| dash rest]]]]]; try discriminate.
  destruct (Ascii.eqb_spec dash "-") as [-> | Hd].
  - destruct (PyStr.digit_value y1) as [a |] eqn:E1; [| discriminate].
    destruct (PyStr.digit_value y2) as [b |] eqn:E2; [| discriminate].
    destruct (PyStr.digit_value y3) as [c |] eqn:E3; [| discriminate].
    destruct (PyStr.digit_value y4) as [e |] eqn:E4; [| discriminate].
    destruct (PyDate.cut_dash rest) as [[ms ds] |] eqn:Ec; [| discriminate].
    destruct (PyDate.month_token ms) as [m |] eqn:Em; [| discriminate].
    destruct (PyDate.day_token ds) as [dd |] eqn:Edd; [| discriminate].
    intros _. apply cut_dash_app in Ec. subst rest.
    cbn [no_comma].
    rewrite (digit_not_comma _ _ E1), (digit_not_comma _ _ E2),
      (digit_not_comma _ _ E3), (digit_not_comma _ _ E4).
    rewrite !no_comma_app, (month_token_no_comma _ _ Em),
      (day_token_no_comma _ _ Edd).
    reflexivity.
  - destruct dash as [[] [] [] [] [] [] [] []]; try discriminate. now elim Hd.
Qed.

(** The separator cuts a text into the fields of what stands before it and
    the fields of what stands after it. *)
Lemma split_app_sep (a s : string) :
  PyStr.split_comma_space (a ++ ", " ++ s)
  = (PyStr.split_comma_space a ++ PyStr.split_comma_space s)%list.
Proof.
  assert (H : forall a,
             PyStr.split_comma_space (a ++ ", " ++ s)
             = (PyStr.split_comma_space a ++ PyStr.split_comma_space s)%list
             /\ forall c,
                  PyStr.split_comma_space (String c a ++ ", " ++ s)
                  = (PyStr.split_comma_space (String c a)
                     ++ PyStr.split_comma_space s)%list).
  { clear a. induction a as [| d r [IH1 IH2]].
    - split; [reflexivity |]. intros c.
      change (String c "" ++ ", " ++ s) with (String c (String "," (String " " s))).
      rewrite split_other.
      + rewrite split_sep. now rewrite (split_other c "") by reflexivity.
      + cbn. now rewrite andb_false_r.
    - split; [apply IH2 |]. intros c.
      change (String c (String d r) ++ ", " ++ s)
        with (String c (String d (r ++ ", " ++ s))).
      destruct (starts_sep (String c (String d r))) eqn:E.
      + cbn in E. apply andb_prop in E as [E1 E2].
        apply Ascii.eqb_eq in E1, E2. subst.
        rewrite !split_sep. cbn [app]. f_equal. exact IH1.
      + rewrite (split_other c (String d r)) by exact E.
        rewrite split_other by exact E.
        change (String d (r ++ ", " ++ s)) with (String d r ++ ", " ++ s).
        rewrite (IH2 d).
        pose proof (split_not_nil (String d r)) as Hn.
        destruct (PyStr.split_comma_space (String d r)); [congruence |].
        reflexivity. }
  apply H.
Qed.

Lemma split_join_fields (l : list string) :
  l <> [] ->
  PyStr.split_comma_space (PyStr.join_comma_space l)
  = flat_map PyStr.split_comma_space l.
Proof.
  induction l as [| a l IH]; [congruence |]. intros _.
  destruct l as [| b l].
  - cbn. now rewrite app_nil_r.
  - change (PyStr.join_comma_space (a :: b :: l))
      with (a ++ ", " ++ PyStr.join_comma_space (b :: l)).
    rewrite split_app_sep, IH by discriminate. reflexivity.
Qed.

Lemma split_length_sep (s : string) :
  has_sep s = true -> (2 <= length (PyStr.split_comma_space s))%nat.
Proof.
  assert (H : forall s,
             (has_sep s = true -> (2 <= length (PyStr.split_comma_space s))%nat)
             /\ (1 <= length (PyStr.split_comma_space s))%nat).
  { clear s. induction s as [| c r [IH1 IH2]]; [split; [discriminate | cbn; lia] |].
    destruct (starts_sep (String c r)) eqn:E.
    - destruct r as [| d r]; [discriminate |].
      cbn in E. apply andb_prop in E as [E1 E2]. apply Ascii.eqb_eq in E1, E2. subst.
      rewrite split_sep. cbn [length].
      pose proof (split_not_nil r).
      destruct (PyStr.split_comma_space r); [congruence |]. cbn. split; lia.
    - rewrite split_other by exact E. cbn [has_sep]. rewrite E. cbn [orb].
      destruct (PyStr.split_comma_space r) as [| f fs]; [cbn in IH2; lia |].
      cbn [length] in *. split; [exact IH1 | lia]. }
  apply H.
Qed.

Lemma tuple7_other_length (l : list string) :
  length l <> 7%nat -> tuple7 l = None.
Proof.
  intros H. destruct (tuple7 l) as [t |] eqn:E; [| reflexivity].
  apply tuple7_fields in E. subst. now elim H.
Qed.

Lemma head_not_space_app (a x : string) :
  head_not_space a -> a <> "" -> head_not_space (a ++ x).
Proof. destruct a; [congruence | trivial]. Qed.

(** A task is read back from its line when no field holds the separator,
    the id does not begin with white space and the status does not end
    with it. *)
Lemma canonical_of_fields (t : task) :
  Forall (fun f => has_sep f = false) (fields t) ->
  head_not_space (task_id t) -> task_id t <> "" ->
  complete t <> "" -> last_not_space (complete t) ->
  canonical t.
Proof.
  unfold canonical, parse_task, task_line. intros Hf Hh Hid Hne Hl.
  destruct t as [a b c d e f g]. apply tuple7_fields.
  unfold fields in *.
  cbn [task_id username title description due_date assigned_date complete] in *.
  rewrite strip_written.
  - apply split_join; [discriminate | exact Hf].
  - cbn [PyStr.join_comma_space]. now apply head_not_space_app.
  - cbn [PyStr.join_comma_space].
    repeat (apply rstrip_app_kept;
            [first [ exact Hne
                   | discriminate
                   | match goal with
                     | |- (?x ++ _)%string <> "" => destruct x; discriminate
                     end ] |]).
    exact Hl.
Qed.

(** A line of which one field holds the separator has more than seven
    fields and gives no task. *)
Lemma parse_task_line_sep (t : task) :
  head_not_space (task_id t) -> task_id t <> "" ->
  complete t <> "" -> last_not_space (complete t) ->
  Exists (fun f => has_sep f = true) (fields t) ->
  parse_task (task_line t) = None.
Proof.
  unfold parse_task, task_line. intros Hh Hid Hne Hl Hex.
  rewrite strip_written.
  - rewrite split_join_fields by (destruct t; discriminate).
    apply tuple7_other_length.
    assert (Hlen : forall l,
               Exists (fun f => has_sep f = true) l ->
               (length l < length (flat_map PyStr.split_comma_space l))%nat).
    { clear. induction l as [| f l IH]; intros H; [inversion H |].
      cbn [flat_map]. rewrite length_app. cbn [length].
      assert (Hall : forall l', (length l' <= length (flat_map PyStr.split_comma_space l'))%nat).
      { clear. induction l' as [| f l' IH]; [cbn; lia |].
        cbn [flat_map]. rewrite length_app. cbn [length].
        pose proof (split_not_nil f).
        destruct (PyStr.split_comma_space f); [congruence | cbn; lia]. }
      inversion H as [? ? Hf | ? ? Hl']; subst.
      - pose proof (split_length_sep f Hf). pose proof (Hall l). lia.
      - pose proof (IH Hl'). pose proof (split_not_nil f).
        destruct (PyStr.split_comma_space f); [congruence | cbn; lia]. }
    apply Hlen in Hex. destruct t. cbn [fields length] in Hex. lia.
  - destruct t as [a b c d e f g]. cbn [fields PyStr.join_comma_space task_id] in *.
    now apply head_not_space_app.
  - destruct t as [a b c d e f g].
    cbn [fields PyStr.join_comma_space complete] in *.
    repeat (apply rstrip_app_kept;
            [first [ exact Hne
                   | discriminate
                   | match goal with
                     | |- (?x ++ _)%string <> "" => destruct x; discriminate
                     end ] |]).
    exact Hl.
Qed.

(** ** Lines appended to a file *)

Lemma lacks_app (x : ascii) (a b : string) :
  lacks x (a ++ b) = lacks x a && lacks x b.
Proof.
  induction a as [| c a IH]; [reflexivity |]. cbn [append lacks].
  now rewrite IH, andb_assoc.
Qed.

Lemma no_break_app (a b : string) : no_break (a ++ b) = no_break a && no_break b.
Proof.
  unfold no_break. rewrite !lacks_app.
  destruct (lacks _ a), (lacks _ b), (lacks _ a), (lacks _ b); reflexivity.
Qed.

Lemma digit_lacks (x c : ascii) (d : Z) :
  PyStr.digit_value x = None -> PyStr.digit_value c = Some d -> Ascii.eqb c x = false.
Proof.
  intros Hx Hc. destruct (Ascii.eqb_spec c x); [| reflexivity]. subst. congruence.
Qed.

Lemma str_pos_lacks (x : ascii) (fuel : nat) (n : Z) (acc : string) :
  PyStr.digit_value x = None -> lacks x acc = true ->
  lacks x (PyStr.str_pos fuel n acc) = true.
Proof.
  intros Hx. revert n acc. induction fuel as [| k IH]; intros n acc Hacc; [exact Hacc |].
  cbn [PyStr.str_pos].
  assert (Hd : lacks x (String (PyStr.digit_char (n mod 10)) acc) = true).
  { cbn [lacks]. rewrite Hacc, andb_true_r.
    rewrite (digit_lacks x _ (n mod 10) Hx); [reflexivity |].
    apply digit_value_digit_char, Z.mod_pos_bound. lia. }
  destruct (n <? 10); [exact Hd | now apply IH].
Qed.

Lemma str_of_int_lacks (x : ascii) (n : Z) :
  PyStr.digit_value x = None -> Ascii.eqb "-" x = false ->
  lacks x (PyStr.str_of_int n) = true.
Proof.
  intros Hx Hm. unfold PyStr.str_of_int. destruct (n <? 0).
  - cbn [lacks]. rewrite Hm. now rewrite str_pos_lacks.
  - now apply str_pos_lacks.
Qed.

Lemma zero_pad_lacks (x : ascii) (width : nat) (n : Z) :
  PyStr.digit_value x = None -> Ascii.eqb "-" x = false ->
  lacks x (PyDate.zero_pad width n) = true.
Proof.
  intros Hx Hm. unfold PyDate.zero_pad.
  rewrite lacks_app, (str_of_int_lacks x n Hx Hm), andb_true_r.
  induction (width - String.length (PyStr.str_of_int n))%nat as [| k IH];
    [reflexivity |].
  cbn [PyStr.repeat_str append lacks]. rewrite IH, andb_true_r.
  now rewrite (digit_lacks x "0" 0 Hx eq_refl).
Qed.

Lemma strftime_lacks (x : ascii) (d : PyDate.date) :
  PyStr.digit_value x = None -> Ascii.eqb "-" x = false ->
  lacks x (PyDate.strftime d) = true.
Proof.
  intros Hx Hm. unfold PyDate.strftime.
  rewrite !lacks_app, !(zero_pad_lacks x _ _ Hx Hm). cbn [lacks]. now rewrite Hm.
Qed.

Lemma month_token_lacks (x : ascii) (s : string) (m : Z) :
  PyStr.digit_value x = None ->
  PyDate.month_token s = Some m -> lacks x s = true.
Proof.
  intros Hx.
  destruct s as [| a [| b [| c r]]]; try discriminate; cbn [PyDate.month_token].
  - destruct (PyStr.digit_value a) as [d |] eqn:Ea; [| discriminate].
    intros _. cbn [lacks]. now rewrite (digit_lacks x a d Hx Ea).
  - destruct (PyStr.digit_value a) as [d |] eqn:Ea.
    + destruct (PyStr.digit_value b) as [e |] eqn:Eb.
      * intros _. cbn [lacks].
        now rewrite (digit_lacks x a d Hx Ea), (digit_lacks x b e Hx Eb).
      * destruct d as [| [] |]; discriminate.
    + discriminate.
Qed.

Lemma day_token_lacks (x : ascii) (s : string) (m : Z) :
  PyStr.digit_value x = None -> Ascii.eqb " " x = false ->
  PyDate.day_token s = Some m -> lacks x s = true.
Proof.
  intros Hx Hsp.
  destruct s as [| a [| b [| c r]]]; try discriminate; cbn [PyDate.day_token].
  - destruct (PyStr.digit_value a) as [d |] eqn:Ea; [| discriminate].
    intros _. cbn [lacks]. now rewrite (digit_lacks x a d Hx Ea).
  - destruct (PyStr.digit_value b) as [e |] eqn:Eb.
    + destruct (PyStr.digit_value a) as [d |] eqn:Ea.
      * intros _. cbn [lacks].
        now rewrite (digit_lacks x a d Hx Ea), (digit_lacks x b e Hx Eb).
      * destruct (Ascii.eqb_spec a " ") as [-> | Ha].
        -- intros _. cbn [lacks]. now rewrite Hsp, (digit_lacks x b e Hx Eb).
        -- cbn [andb]. discriminate.
    + destruct (PyStr.digit_value a) as [d |]; [| discriminate].
      destruct d as [| [[] | [] |] |]; discriminate.
Qed.

Lemma strptime_lacks (x : ascii) (s : string) (d : PyDate.date) :
  PyStr.digit_value x = None -> Ascii.eqb "-" x = false -> Ascii.eqb " " x = false ->
  PyDate.strptime s = Some d -> lacks x s = true.
Proof.
  intros Hx Hm Hsp. unfold PyDate.strptime.
  destruct s as [| y1 [| y2 [| y3 [| y4 [| dash rest]]]]]; try discriminate.
  destruct (Ascii.eqb_spec dash "-") as [-> | Hd].
  - destruct (PyStr.digit_value y1) as [a |] eqn:E1; [| discriminate].
    destruct (PyStr.digit_value y2) as [b |] eqn:E2; [| discriminate].
    destruct (PyStr.digit_value y3) as [c |] eqn:E3; [| discriminate].
    destruct (PyStr.digit_value y4) as [e |] eqn:E4; [| discriminate].
    destruct (PyDate.cut_dash rest) as [[ms ds] |] eqn:Ec; [| discriminate].
    destruct (PyDate.month_token ms) as [m |] eqn:Em; [| discriminate].
    destruct (PyDate.day_token ds) as [dd |] eqn:Edd; [| discriminate].
    intros _. apply cut_dash_app in Ec. subst rest.
    cbn [lacks].
    rewrite (digit_lacks x _ _ Hx E1), (digit_lacks x _ _ Hx E2),
      (digit_lacks x _ _ Hx E3), (digit_lacks x _ _ Hx E4), Hm.
    rewrite !lacks_app, (month_token_lacks x _ _ Hx Em),
      (day_token_lacks x _ _ Hx Hsp Edd).
    cbn [lacks]. now rewrite Hm.
  - destruct dash as [[] [] [] [] [] [] [] []]; try discriminate. now elim Hd.
Qed.

Lemma str_of_int_no_break (n : Z) : no_break (PyStr.str_of_int n) = true.
Proof. unfold no_break. now rewrite !str_of_int_lacks. Qed.

Lemma strftime_no_break (d : PyDate.date) : no_break (PyDate.strftime d) = true.
Proof. unfold no_break. now rewrite !strftime_lacks. Qed.

Lemma strptime_no_break (s : string) (d : PyDate.date) :
  PyDate.strptime s = Some d -> no_break s = true.
Proof.
  intros H. unfold no_break.
  now rewrite !(fun x a b c => strptime_lacks x s d a b c H).
Qed.

(** A text without a line break, followed by a line feed, is one line. *)
Lemma text_lines_line (s : string) :
  no_break s = true -> text_lines (s ++ nl) = [s ++ nl].
Proof.
  unfold no_break. induction s as [| c r IH]; [reflexivity |].
  cbn [lacks append]. intros H.
  apply andb_prop in H as [H10 H13].
  apply andb_prop in H10 as [Hc10 Hr10]. apply andb_prop in H13 as [Hc13 Hr13].
  apply negb_true_iff in Hc10, Hc13.
  cbn [text_lines]. rewrite Hc10, Hc13, IH; [reflexivity |].
  now rewrite Hr10, Hr13.
Qed.

(** After a file that ends with a line feed the text appended starts a new
    line. *)
Lemma after_append_newline (old : list string) (text : string) :
  ends_with_newline old = true -> after_append old text = (old ++ text_lines text)%list.
Proof.
  induction old as [| line rest IH]; [reflexivity |].
  destruct rest as [| line2 rest].
  - cbn [ends_with_newline after_append app]. now intros ->.
  - intros H. change (after_append (line :: line2 :: rest) text)
      with (line :: after_append (line2 :: rest) text).
    rewrite IH by exact H. reflexivity.
Qed.

Lemma after_append_line (old : list string) (s : string) :
  ends_with_newline old = true -> no_break s = true ->
  after_append old (s ++ nl) = (old ++ [(s ++ nl)%string])%list.
Proof. intros Ho Hs. now rewrite after_append_newline, text_lines_line. Qed.

(** ** [add_task], whatever is typed *)

Lemma get_next_task_id_next (w : world) :
  get_next_task_id w = (Ok (next_task_id w), w).
Proof.
  rewrite get_next_task_id_run. unfold next_task_id, lines_of. cbn [file_of].
  now destruct (task_txt w).
Qed.

Lemma bind_get_next_task_id {B} (k : Z -> M B) (w : world) :
  bind get_next_task_id k w = k (next_task_id w) w.
Proof. unfold bind. now rewrite get_next_task_id_next. Qed.

Lemma bind_append_line {B} (f : datafile) (text : string) (k : unit -> M B)
    (w : world) :
  bind (append_line f text) k w
  = k tt (add_events [Appended f]
            (set_file f (after_append (lines_of f w) text) w)).
Proof. reflexivity. Qed.

Lemma add_task_outcome (w : world) :
  match add_task w with
  | (Ok _, w') =>
      exists (task_username task_title task_description task_due_date : string)
             (due : PyDate.date) (w0 : world),
        only_talks w w0
        /\ user_exists_scan (lines_of USER_FILE w) task_username = true
        /\ (task_username <> "" /\ PyStr.strip task_username = task_username)
        /\ (task_title <> "" /\ PyStr.strip task_title = task_title)
        /\ (task_description <> ""
            /\ PyStr.strip task_description = task_description)
        /\ (PyDate.strptime task_due_date = Some due
            /\ PyDate.ltb due (today w) = false)
        /\ PyStr.str (next_task_id w) = Some (PyStr.str_of_int (next_task_id w))
        /\ w' = add_events (added_events (next_task_id w) task_username task_title)
                  (set_file TASK_FILE
                     (after_append (lines_of TASK_FILE w)
                        (new_task_line (next_task_id w) task_username task_title
                           task_description task_due_date (today w)))
                     w0)
  | (Raise e, w') =>
      (e = EOFError \/ (e = ValueError /\ PyStr.str (next_task_id w) = None))
      /\ only_talks w w'
  end.
Proof.
  unfold add_task. unfold bind at 1.
  pose proof (ask_task_username_ensures w I) as H1.
  destruct (while_true ask_task_username tt w) as [[u | e] w1];
    [| destruct H1 as [T1 ->]; auto].
  destruct H1 as (T1 & Hu & Hu').
  unfold bind at 1.
  pose proof (get_validated_input_non_empty_ensures
                "Enter the task title: " "Task title" w1 I) as H2.
  destruct (get_validated_input _ _ w1) as [[t | e] w2];
    [| destruct H2 as [T2 ->]; split; [now left |];
       exact (only_talks_trans _ _ _ T1 T2)].
  destruct H2 as (T2 & Ht). pose proof (only_talks_trans _ _ _ T1 T2) as T12.
  unfold bind at 1.
  pose proof (get_validated_input_non_empty_ensures
                "Enter the task description: " "Task description" w2 I) as H3.
  destruct (get_validated_input _ _ w2) as [[d | e] w3];
    [| destruct H3 as [T3 ->]; split; [now left |];
       exact (only_talks_trans _ _ _ T12 T3)].
  destruct H3 as (T3 & Hd). pose proof (only_talks_trans _ _ _ T12 T3) as T13.
  unfold bind at 1.
  pose proof (get_validated_input_due_date_ensures
                "Enter the due date (YYYY-MM-DD): " w3 I) as H4.
  destruct (get_validated_input _ _ w3) as [[due_s | e] w4];
    [| destruct H4 as [T4 ->]; split; [now left |];
       exact (only_talks_trans _ _ _ T13 T4)].
  destruct H4 as (T4 & due & Hdue & Hpast).
  pose proof (only_talks_trans _ _ _ T13 T4) as T14.
  pose proof (only_talks_keeps _ _ T14) as (Ku & Kt & _ & _ & _ & _ & Kd).
  pose proof (only_talks_keeps _ _ T1) as (Ku1 & _).
  rewrite bind_get_next_task_id, bind_now_date.
  assert (En : next_task_id w4 = next_task_id w)
    by (unfold next_task_id, lines_of; cbn [file_of]; now rewrite Kt).
  assert (El : lines_of TASK_FILE w4 = lines_of TASK_FILE w)
    by (unfold lines_of; cbn [file_of]; now rewrite Kt).
  assert (Eu : lines_of USER_FILE w1 = lines_of USER_FILE w)
    by (unfold lines_of; cbn [file_of]; now rewrite Ku1).
  unfold format_int. rewrite En.
  destruct (PyStr.str (next_task_id w)) as [text |] eqn:Es.
  - destruct (int_of_str _ _ Es) as [-> _].
    rewrite bind_ret, bind_append_line. run.
    exists u, t, d, due_s, due, w4.
    rewrite El, Kd in *. rewrite Eu in Hu.
    repeat split; try assumption; try tauto.
  - cbn. split; [| exact T14]. right. now split.
Qed.

Lemma records_app (l1 l2 : list string) :
  records (l1 ++ l2) = (records l1 ++ records l2)%list.
Proof.
  induction l1 as [| line l1 IH]; [reflexivity |]. cbn [app records].
  destruct (parse_task line); cbn [app]; now rewrite IH.
Qed.

Lemma stored_tasks_lines (w : world) :
  stored_tasks w = records (lines_of TASK_FILE w).
Proof.
  rewrite stored_tasks_records. unfold lines_of. cbn [file_of].
  now destruct (task_txt w).
Qed.

Lemma max_id_scan_app (l1 l2 : list string) (m : Z) :
  max_id_scan (l1 ++ l2) m = max_id_scan l2 (max_id_scan l1 m).
Proof.
  revert m. induction l1 as [| line l1 IH]; intros m; [reflexivity |].
  change ((line :: l1) ++ l2)%list with (line :: (l1 ++ l2))%list.
  rewrite !max_id_scan_cons.
  destruct (parse_task line) as [t |]; [| apply IH].
  destruct (PyStr.int (task_id t)); apply IH.
Qed.

Lemma user_exists_scan_field (lines : list string) (name : string) :
  user_exists_scan lines name = true -> has_sep name = false.
Proof.
  induction lines as [| line rest IH]; [discriminate |]. cbn [user_exists_scan].
  destruct (String.eqb_spec (hd "" (PyStr.split_comma_space (PyStr.strip line))) name)
    as [E | _]; [| exact IH].
  intros _. pose proof (split_fields_no_sep (PyStr.strip line)) as H.
  pose proof (split_not_nil (PyStr.strip line)) as Hn.
  destruct (PyStr.split_comma_space (PyStr.strip line)) as [| f fs]; [congruence |].
  cbn [hd] in E. subst. now inversion H.
Qed.

Lemma string_app_assoc (a b c : string) : ((a ++ b) ++ c)%string = (a ++ b ++ c)%string.
Proof. induction a as [| x a IH]; [reflexivity |]. cbn [append]. now rewrite IH. Qed.

Lemma new_task_line_task_line (id : Z) (u t d due_s : string) (current : PyDate.date) :
  new_task_line id u t d due_s current = task_line (new_task id u t d due_s current).
Proof.
  unfold new_task_line, task_line, new_task, fields.
  cbn [task_id username title description due_date assigned_date complete
       PyStr.join_comma_space].
  now rewrite !string_app_assoc.
Qed.

Lemma str_of_int_head (n : Z) :
  0 <= n -> head_not_space (PyStr.str_of_int n) /\ PyStr.str_of_int n <> "".
Proof.
  intros Hn. unfold PyStr.str_of_int. destruct (Z.ltb_spec n 0); [lia |].
  pose proof (str_pos_digits (S (Z.to_nat (Z.log2 n))) n "" Hn eq_refl) as Hd.
  pose proof (str_pos_not_empty (Z.to_nat (Z.log2 n)) n "") as Hne.
  split; [| exact Hne].
  destruct (PyStr.str_pos (S (Z.to_nat (Z.log2 n))) n "") as [| c r];
    [congruence |].
  cbn [digits_only] in Hd. cbn [head_not_space].
  destruct (PyStr.digit_value c) as [v |] eqn:E; [| discriminate].
  exact (digit_not_space c v E).
Qed.

Lemma next_task_id_positive (w : world) : 1 <= next_task_id w.
Proof. unfold next_task_id. pose proof (max_id_scan_ge (lines_of TASK_FILE w) 0). lia. Qed.

(** What the new line is read as, by [read_all_tasks] and by
    [get_next_task_id]. *)
Lemma new_task_line_read (id : Z) (u t d due_s : string) (due : PyDate.date)
    (current : PyDate.date) :
  1 <= id -> has_sep u = false -> PyDate.strptime due_s = Some due ->
  parse_task (new_task_line id u t d due_s current)
  = if has_sep t || has_sep d then None
    else Some (new_task id u t d due_s current).
Proof.
  intros Hid Hu Hdue. rewrite new_task_line_task_line.
  destruct (str_of_int_head id ltac:(lia)) as [Hh Hne].
  destruct (has_sep t || has_sep d) eqn:E.
  - apply parse_task_line_sep; try assumption; try discriminate; try reflexivity.
    unfold new_task, fields.
    cbn [task_id username title description due_date assigned_date complete].
    apply orb_prop in E as [E | E].
    + do 2 apply Exists_cons_tl. now apply Exists_cons_hd.
    + do 3 apply Exists_cons_tl. now apply Exists_cons_hd.
  - apply orb_false_elim in E as [Et Ed].
    apply canonical_of_fields; try assumption; try discriminate; try reflexivity.
    unfold new_task, fields.
    cbn [task_id username title description due_date assigned_date complete].
    repeat constructor; try assumption.
    + apply no_comma_has_sep, str_of_int_no_comma.
    + apply no_comma_has_sep, (strptime_no_comma _ _ Hdue).
    + apply no_comma_has_sep, strftime_no_comma.
Qed.

Lemma no_break_join (fs : list string) :
  Forall (fun f => no_break f = true) fs ->
  no_break (PyStr.join_comma_space fs) = true.
Proof.
  induction fs as [| f fs IH]; [reflexivity |]. intros H.
  inversion H as [| ? ? Hf Hfs]; subst.
  destruct fs as [| g fs]; [exact Hf |].
  change (PyStr.join_comma_space (f :: g :: fs))
    with (f ++ ", " ++ PyStr.join_comma_space (g :: fs)).
  rewrite !no_break_app, Hf, (IH Hfs). reflexivity.
Qed.

(** The line of a task whose texts hold no line break is one line of the
    file. *)
Lemma new_task_line_lines (id : Z) (u t d due_s : string) (due current : PyDate.date) :
  no_break u = true -> no_break t = true -> no_break d = true ->
  PyDate.strptime due_s = Some due ->
  text_lines (new_task_line id u t d due_s current)
  = [new_task_line id u t d due_s current].
Proof.
  intros Hu Ht Hd Hdue. rewrite new_task_line_task_line. unfold task_line.
  apply text_lines_line, no_break_join. unfold new_task, fields.
  cbn [task_id username title description due_date assigned_date complete].
  repeat constructor; try assumption.
  - apply str_of_int_no_break.
  - exact (strptime_no_break _ _ Hdue).
  - apply strftime_no_break.
Qed.

(** X4.  Whatever is typed, [add_task] ends in one of three ways.  It
    runs out of input, or its next id has more digits than [str] writes
    ([ValueError]): both files are then as they were.  Or it writes one text
    at the end of the task file: the line of a task whose id is the one
    [get_next_task_id] gives, whose user is the first field of a line of the
    user file, whose title and description are not empty, whose due date is
    a date that is not before today, whose assigned date is today and whose
    status is [No].  When the file ended with a line feed, or held nothing,
    and none of the texts holds a line break, this is exactly one new line
    after the lines that were there. *)
Theorem add_task_appends_one_checked_task (w : world) :
  match add_task w with
  | (Ok _, w') =>
      exists (id : Z) (task_username task_title task_description task_due_date : string)
             (due : PyDate.date),
        get_next_task_id w = (Ok id, w)
        /\ PyStr.str id = Some (PyStr.str_of_int id)
        /\ user_exists_scan (lines_of USER_FILE w) task_username = true
        /\ task_title <> "" /\ task_description <> ""
        /\ PyDate.strptime task_due_date = Some due
        /\ PyDate.ltb due (today w) = false
        /\ task_txt w'
           = Some (after_append (lines_of TASK_FILE w)
                     (new_task_line id task_username task_title task_description
                        task_due_date (today w)))
        /\ (ends_with_newline (lines_of TASK_FILE w) = true ->
            no_break task_username = true -> no_break task_title = true ->
            no_break task_description = true ->
            task_txt w'
            = Some (lines_of TASK_FILE w
                    ++ [new_task_line id task_username task_title task_description
                          task_due_date (today w)])%list)
        /\ user_txt w' = user_txt w
        /\ backups w' = backups w
  | (Raise e, w') =>
      (e = EOFError
       \/ (e = ValueError
           /\ exists id : Z, get_next_task_id w = (Ok id, w) /\ PyStr.str id = None))
      /\ task_txt w' = task_txt w /\ user_txt w' = user_txt w
  end.
Proof.
  pose proof (add_task_outcome w) as H.
  destruct (add_task w) as [[[] | e] w'].
  - destruct H as (u & t & d & due_s & due & w0 & T & Hu & _ & [Ht _] & [Hd _]
                   & [Hdue Hpast] & Hstr & ->).
    pose proof (only_talks_keeps _ _ T) as (Ku & _ & _ & _ & Kb & _).
    exists (next_task_id w), u, t, d, due_s, due.
    split; [apply get_next_task_id_next |].
    repeat split; try assumption.
    intros Hnl Hbu Hbt Hbd. cbn [task_txt add_events set_file]. f_equal.
    rewrite after_append_newline by exact Hnl.
    now rewrite (new_task_line_lines _ _ _ _ _ due).
  - destruct H as [He T].
    pose proof (only_talks_keeps _ _ T) as (Ku & Kt & _).
    split; [| now split].
    destruct He as [-> | [-> Hstr]]; [now left | right].
    split; [reflexivity |]. exists (next_task_id w).
    split; [apply get_next_task_id_next | exact Hstr].
Qed.

(** X5.  After a task file that ends with a line feed, or holds nothing,
    and when no text of the task holds a line break, the task [add_task]
    reports as added is stored, and pushes the next id up by one, exactly
    when neither its title nor its description holds the separator of the
    fields: a line with a comma and a space in one of the two has more than
    seven fields, no reader of the task file takes it, and the next task
    gets the same id. *)
Theorem add_task_stores_the_task_unless_a_text_holds_the_separator (w w' : world) :
  add_task w = (Ok tt, w') ->
  ends_with_newline (lines_of TASK_FILE w) = true ->
  exists (id : Z) (task_username task_title task_description task_due_date : string),
    get_next_task_id w = (Ok id, w)
    /\ task_txt w'
       = Some (after_append (lines_of TASK_FILE w)
                 (new_task_line id task_username task_title task_description
                    task_due_date (today w)))
    /\ In (Print ("  Task '" ++ task_title ++ "' successfully added!")) (trace w')
    /\ (no_break task_username = true -> no_break task_title = true ->
        no_break task_description = true ->
        task_txt w'
        = Some (lines_of TASK_FILE w
                ++ [new_task_line id task_username task_title task_description
                      task_due_date (today w)])%list
        /\ (has_sep task_title = false -> has_sep task_description = false ->
            stored_tasks w'
            = (stored_tasks w
               ++ [new_task id task_username task_title task_description
                     task_due_date (today w)])%list
            /\ get_next_task_id w' = (Ok (id + 1), w'))
        /\ (has_sep task_title = true \/ has_sep task_description = true ->
            stored_tasks w' = stored_tasks w
            /\ get_next_task_id w' = (Ok id, w'))).
Proof.
  intros E Hnl. pose proof (add_task_outcome w) as H. rewrite E in H.
  destruct H as (u & t & d & due_s & due & w0 & T & Hu & _ & _ & _ & [Hdue _]
                 & Hstr & ->).
  exists (next_task_id w), u, t, d, due_s.
  set (line := new_task_line (next_task_id w) u t d due_s (today w)).
  set (w1 := add_events _ _).
  split; [apply get_next_task_id_next |].
  split; [reflexivity |].
  split.
  { subst w1. cbn [trace add_events]. apply in_or_app. right.
    unfold added_events. cbn. auto. }
  intros Hbu Hbt Hbd.
  assert (Hlines : lines_of TASK_FILE w1 = (lines_of TASK_FILE w ++ [line])%list).
  { subst w1. unfold lines_of at 1. cbn [file_of task_txt add_events set_file].
    rewrite after_append_newline by exact Hnl.
    subst line. now rewrite (new_task_line_lines _ _ _ _ _ due). }
  assert (Hread : parse_task line
                  = if has_sep t || has_sep d then None
                    else Some (new_task (next_task_id w) u t d due_s (today w))).
  { apply (new_task_line_read _ _ _ _ _ due).
    - apply next_task_id_positive.
    - exact (user_exists_scan_field _ _ Hu).
    - exact Hdue. }
  assert (Hstored : stored_tasks w1
                    = (stored_tasks w
                       ++ match parse_task line with
                          | Some task => [task]
                          | None => []
                          end)%list).
  { rewrite !stored_tasks_lines, Hlines, records_app. cbn [records].
    now destruct (parse_task line). }
  assert (Hnext : next_task_id w1
                  = match parse_task line with
                    | Some _ => next_task_id w + 1
                    | None => next_task_id w
                    end).
  { unfold next_task_id at 1. rewrite Hlines, max_id_scan_app.
    rewrite max_id_scan_cons. cbn [max_id_scan]. rewrite Hread.
    destruct (has_sep t || has_sep d); [reflexivity |].
    unfold new_task. cbn [task_id].
    destruct (int_of_str _ _ Hstr) as [_ ->].
    unfold next_task_id. lia. }
  split.
  { change (task_txt w1) with (file_of TASK_FILE w1).
    pose proof Hlines as Hl. unfold lines_of at 1 in Hl.
    subst w1. cbn [file_of task_txt add_events set_file] in Hl |- *. now rewrite Hl. }
  split.
  - intros Ht Hd. rewrite get_next_task_id_next, Hstored, Hnext, Hread, Ht, Hd.
    auto.
  - intros Hsep. rewrite get_next_task_id_next, Hstored, Hnext, Hread.
    assert (Eor : has_sep t || has_sep d = true)
      by (destruct Hsep as [-> | ->]; [reflexivity | apply orb_true_r]).
    rewrite Eor. now rewrite app_nil_r.
Qed.

Lemma add_task_stores_the_task_unless_a_text_holds_the_separator_witness :
  let w :=
    start (Some two_users) (Some three_tasks)
      ["bob"; "Plan, then do"; "Soon due"; "2027-01-01"] a_day in
  let w' := snd (add_task w) in
  (map task_id (stored_tasks w') = ["1"; "2"; "3"]
   /\ In (Print "  Task 'Plan, then do' successfully added!") (trace w'))
  /\ exists (id : Z) (task_username task_title task_description task_due_date : string),
       get_next_task_id w = (Ok id, w)
       /\ task_txt w'
          = Some (after_append (lines_of TASK_FILE w)
                    (new_task_line id task_username task_title task_description
                       task_due_date (today w)))
       /\ In (Print ("  Task '" ++ task_title ++ "' successfully added!")) (trace w')
       /\ (no_break task_username = true -> no_break task_title = true ->
           no_break task_description = true ->
           task_txt w'
           = Some (lines_of TASK_FILE w
                   ++ [new_task_line id task_username task_title task_description
                         task_due_date (today w)])%list
           /\ (has_sep task_title = false -> has_sep task_description = false ->
               stored_tasks w'
               = (stored_tasks w
                  ++ [new_task id task_username task_title task_description
                        task_due_date (today w)])%list
               /\ get_next_task_id w' = (Ok (id + 1), w'))
           /\ (has_sep task_title = true \/ has_sep task_description = true ->
               stored_tasks w' = stored_tasks w
               /\ get_next_task_id w' = (Ok id, w'))).
Proof.
  intros w w'. split.
  - vm_compute. auto 10.
  - apply (add_task_stores_the_task_unless_a_text_holds_the_separator w w').
    + vm_compute. reflexivity.
    + vm_compute. reflexivity.
Defined.

(** After a task file whose last line has no line feed the new record is
    written on that line: the line then has thirteen fields, and neither the
    task that was there nor the new one is stored.  A carriage return in a
    title cuts the record in two lines, and the task is not stored either. *)
Example add_task_after_a_line_without_line_feed :
  let unfinished := ["1, alice, T1, D, 2030-01-01, 2025-01-01, No"] in
  let w :=
    start (Some two_users) (Some unfinished)
      ["bob"; "New"; "Soon due"; "2027-01-01"] a_day in
  let cr := String (ascii_of_nat 13) "" in
  let w2 :=
    start (Some two_users) (Some three_tasks)
      ["bob"; "New" ++ cr ++ "er"; "Soon due"; "2027-01-01"] a_day in
  (map task_id (stored_tasks w) = ["1"]
   /\ fst (add_task w) = Ok tt
   /\ task_txt (snd (add_task w))
      = Some ["1, alice, T1, D, 2030-01-01, 2025-01-01, No2, bob, New, Soon due, 2027-01-01, 2026-11-03, No"
              ++ nl]
   /\ stored_tasks (snd (add_task w)) = [])
  /\ (fst (add_task w2) = Ok tt
      /\ map task_id (stored_tasks (snd (add_task w2))) = ["1"; "2"; "3"]
      /\ length (lines_of TASK_FILE (snd (add_task w2))) = 5%nat).
Proof. vm_compute. repeat split. Qed.

(** ** Login, whatever the file holds *)

Lemma login_scan_find (lines : list string) (username password : string) :
  login_scan lines username password
  = find (fun u => ((User_username u =? username) && (User_password u =? password))%string)
      (user_records lines).
Proof.
  induction lines as [| line rest IH]; [reflexivity |].
  rewrite login_scan_cons. cbn [user_records].
  destruct (parse_user line) as [u |]; [| exact IH].
  cbn [find]. now destruct ((User_username u =? username) && (User_password u =? password))%string.
Qed.

Lemma login_user_accepted (w : world) (lines : list string) (name pass : string)
    (rest : list string) (user : User) :
  user_txt w = Some lines ->
  login_scan lines (PyStr.strip name) pass = Some user ->
  login_user (set_stdin (name :: pass :: rest) w)
  = (Ok (Some user),
     set_stdin rest (add_events (login_accepted (PyStr.strip name) user) w)).
Proof.
  intros Hf Hs. unfold login_user. run.
  unfold try_except. rewrite (bind_read_lines USER_FILE lines) by exact Hf.
  rewrite Hs. run. reflexivity.
Qed.

Lemma login_user_no_file (w : world) (name pass : string) (rest : list string) :
  user_txt w = None ->
  login_user (set_stdin (name :: pass :: rest) w)
  = (Ok None,
     set_stdin rest
       (add_events
          [Header "USER LOGIN"; Ask "Enter your username: ";
           Ask "Enter your password: "; Header "ERROR";
           Print "  No users found. Please register first."; Print ""]
          w)).
Proof.
  intros Hf. unfold login_user. run.
  unfold try_except. rewrite (bind_read_lines_absent USER_FILE) by exact Hf.
  cbn [on_FileNotFoundError]. run. reflexivity.
Qed.

(** X3.  [login_user] returns the first record of three fields whose name
    is the name typed, stripped, and whose password is the password as it
    was typed; it returns [None] when there is none.  A success is logged
    at level [INFO], a refusal at level [WARNING]; without a user file
    nothing is logged.  No file is changed. *)
Theorem login_user_returns_the_first_matching_record (w : world)
    (name pass : string) (rest : list string) :
  let result := login_user (set_stdin (name :: pass :: rest) w) in
  let typed := PyStr.strip name in
  let found lines :=
    find (fun u => ((User_username u =? typed) && (User_password u =? pass))%string)
      (user_records lines) in
  exists evs : list event,
    snd result = set_stdin rest (add_events evs w)
    /\ match user_txt w with
       | Some lines =>
           fst result = Ok (found lines)
           /\ logged evs
              = [match found lines with
                 | Some _ => Log INFO ("User " ++ typed ++ " logged in successfully")
                 | None => Log WARNING ("Failed login attempt for username: " ++ typed)
                 end]
       | None => fst result = Ok None /\ logged evs = []
       end.
Proof.
  intros result typed found. subst result.
  destruct (user_txt w) as [lines |] eqn:Hf.
  - destruct (found lines) as [user |] eqn:E; unfold found in E;
      rewrite <- login_scan_find in E.
    + rewrite (login_user_accepted w lines name pass rest user Hf E).
      eexists. split; [reflexivity |]. split; reflexivity.
    + rewrite (login_user_refused w lines name pass rest Hf E).
      eexists. split; [reflexivity |]. split; reflexivity.
  - rewrite (login_user_no_file w name pass rest Hf).
    eexists. split; [reflexivity |]. split; reflexivity.
Qed.

(** ** Registration *)

Lemma validate_username_true (u : string) :
  fst (validate_username u) = true ->
  validate_username u = (true, "")
  /\ re_match_username u = true
  /\ (3 <= String.length u <= 20)%nat.
Proof.
  unfold validate_username.
  destruct (u =? "")%string; [discriminate |].
  destruct (Nat.ltb_spec (String.length u) 3); [discriminate |].
  destruct (Nat.ltb_spec 20 (String.length u)); [discriminate |].
  destruct (re_match_username u); [| discriminate].
  intros _. repeat split; lia.
Qed.

Lemma word_char_not_space (c : ascii) : is_word_char c = true -> PyStr.is_space c = false.
Proof.
  unfold is_word_char, PyStr.is_space. set (n := nat_of_ascii c). clearbody n.
  intros H. rewrite !orb_true_iff, !andb_true_iff, !Nat.leb_le, Nat.eqb_eq in H.
  apply not_true_is_false.
  rewrite !orb_true_iff, !andb_true_iff, !Nat.leb_le, !Nat.eqb_eq. lia.
Qed.

Lemma word_char_not_comma (c : ascii) : is_word_char c = true -> Ascii.eqb c "," = false.
Proof.
  intros H. destruct (Ascii.eqb_spec c ","); [| reflexivity]. subst. discriminate.
Qed.

Lemma last_not_space_tail (c : ascii) (r : string) :
  last_not_space (String c r) -> r <> "" -> last_not_space r.
Proof.
  unfold last_not_space. cbn [PyStr.rstrip]. intros H Hr.
  destruct (PyStr.rstrip r) eqn:E.
  - destruct (PyStr.is_space c); [discriminate |]. inversion H. congruence.
  - now inversion H.
Qed.

Lemma word_chars_to_end_word_only (s : string) :
  word_chars_to_end s = true -> last_not_space s -> word_only s = true.
Proof.
  induction s as [| c r IH]; [reflexivity |]. cbn [word_chars_to_end word_only].
  destruct (is_word_char c) eqn:Ec.
  - intros H Hl. destruct r as [| d r']; [reflexivity |].
    apply IH; [exact H |]. apply (last_not_space_tail c); [exact Hl | discriminate].
  - intros H Hl. apply andb_prop in H as [H1 H2].
    apply Ascii.eqb_eq in H1. apply String.eqb_eq in H2. subst.
    discriminate Hl.
Qed.

Lemma re_match_username_word_only (s : string) :
  re_match_username s = true -> last_not_space s -> word_only s = true /\ s <> "".
Proof.
  destruct s as [| c r]; [discriminate |]. cbn [re_match_username word_only].
  intros H Hl. apply andb_prop in H as [Hc Hr]. rewrite Hc. split; [| discriminate].
  destruct r as [| d r']; [reflexivity |].
  apply word_chars_to_end_word_only; [exact Hr |].
  apply (last_not_space_tail c); [exact Hl | discriminate].
Qed.

Lemma word_only_no_comma (s : string) : word_only s = true -> no_comma s = true.
Proof.
  induction s as [| c r IH]; [reflexivity |]. cbn [word_only no_comma].
  intros H. apply andb_prop in H as [Hc Hr].
  now rewrite (word_char_not_comma c Hc), (IH Hr).
Qed.

Lemma word_only_head (s : string) : word_only s = true -> head_not_space s.
Proof.
  destruct s as [| c r]; [intros _; exact I |]. cbn [word_only head_not_space].
  intros H. apply andb_prop in H as [Hc _]. now apply word_char_not_space.
Qed.

Lemma strip_last_not_space (s : string) : last_not_space (PyStr.strip s).
Proof. unfold last_not_space, PyStr.strip. apply rstrip_idem. Qed.

(** A name [register_user] takes holds word characters only. *)
Lemma checked_username_word_only (u : string) :
  fst (validate_username u) = true -> PyStr.strip u = u ->
  word_only u = true /\ u <> "".
Proof.
  intros Hv Hs. apply validate_username_true in Hv as (_ & Hre & _).
  apply re_match_username_word_only; [exact Hre |].
  rewrite <- Hs. apply strip_last_not_space.
Qed.

Lemma ask_new_username_ensures :
  ensures anywhere only_talks
    (fun u w' =>
       fst (validate_username u) = true /\ PyStr.strip u = u
       /\ user_exists_scan (lines_of USER_FILE w') u = false)
    (while_true ask_new_username tt).
Proof.
  apply (ensures_while_true only_talks only_talks_refl only_talks_trans
           (fun _ => anywhere)).
  intros [] w _. unfold ask_new_username. unfold bind at 1.
  pose proof (only_talks_input "Enter a username: " w) as Hin.
  destruct (input "Enter a username: " w) as [[raw | e] w1] eqn:E; cbn [snd] in Hin.
  - destruct (validate_username (PyStr.strip raw)) as [valid msg] eqn:Ev.
    destruct valid; cbn [negb].
    + assert (Eu : try_except
                     (lines <- read_lines USER_FILE;;
                      ret (user_exists_scan lines (PyStr.strip raw)))
                     (on_FileNotFoundError (ret false)) w1
                   = (Ok (user_exists_scan (lines_of USER_FILE w1) (PyStr.strip raw)),
                      w1))
        by apply (user_exists_run (PyStr.strip raw) w1).
      unfold bind at 1. rewrite Eu.
      destruct (user_exists_scan (lines_of USER_FILE w1) (PyStr.strip raw)) eqn:Ex.
      * cbn. split; [| exact I].
        apply (only_talks_trans _ _ _ Hin), (only_talks_events [Print _] _ eq_refl).
      * cbn. split; [exact Hin |]. rewrite Ev. repeat split; trivial.
        apply strip_idem.
    + cbn. split; [| exact I].
      apply (only_talks_trans _ _ _ Hin), (only_talks_events [Print _] _ eq_refl).
  - split; [exact Hin |]. unfold input in E. destruct (stdin w); now inversion E.
Qed.

Lemma input_raises_eof (prompt : string) (w w' : world) (e : exn) :
  input prompt w = (Raise e, w') -> e = EOFError.
Proof. unfold input. destruct (stdin w); now inversion 1. Qed.

Lemma ask_password_ensures :
  ensures anywhere only_talks (fun p _ => fst (validate_password p) = true)
    (while_true ask_password tt).
Proof.
  apply (ensures_while_true only_talks only_talks_refl only_talks_trans
           (fun _ => anywhere)).
  intros [] w _. unfold ask_password. unfold bind at 1.
  pose proof (only_talks_input "Enter a password: " w) as Hin.
  destruct (input "Enter a password: " w) as [[raw | e] w1] eqn:E; cbn [snd] in Hin.
  - destruct (validate_password raw) as [valid msg] eqn:Ev.
    destruct valid; cbn.
    + split; [exact Hin |]. now rewrite Ev.
    + split; [| exact I].
      apply (only_talks_trans _ _ _ Hin), (only_talks_events [Print _] _ eq_refl).
  - split; [exact Hin | exact (input_raises_eof _ _ _ _ E)].
Qed.

Lemma ask_confirmation_ensures (password : string) :
  ensures anywhere only_talks (fun _ _ => True)
    (while_true (ask_confirmation password) tt).
Proof.
  apply (ensures_while_true only_talks only_talks_refl only_talks_trans
           (fun _ => anywhere)).
  intros [] w _. unfold ask_confirmation. unfold bind at 1.
  pose proof (only_talks_input "Confirm your password: " w) as Hin.
  destruct (input "Confirm your password: " w) as [[raw | e] w1] eqn:E;
    cbn [snd] in Hin.
  - destruct (password =? raw)%string; cbn.
    + auto.
    + split; [| exact I].
      apply (only_talks_trans _ _ _ Hin), (only_talks_events [Print _] _ eq_refl).
  - split; [exact Hin | exact (input_raises_eof _ _ _ _ E)].
Qed.

Lemma ask_role_ensures :
  ensures anywhere only_talks (fun role _ => is_role role) (while_true ask_role tt).
Proof.
  apply (ensures_while_true only_talks only_talks_refl only_talks_trans
           (fun _ => anywhere)).
  intros [] w _. unfold ask_role. rewrite !bind_print.
  set (w0 := add_events _ (add_events _ (add_events _ w))).
  assert (T0 : only_talks w w0).
  { subst w0. rewrite !add_events_events. apply only_talks_events; reflexivity. }
  unfold bind at 1.
  pose proof (only_talks_input "  Enter your choice (1 or 2): " w0) as Hin.
  destruct (input "  Enter your choice (1 or 2): " w0) as [[raw | e] w1] eqn:E;
    cbn [snd] in Hin.
  - pose proof (only_talks_trans _ _ _ T0 Hin) as T1.
    destruct (PyStr.strip raw =? "1")%string; [cbn; split; [exact T1 | now left] |].
    destruct (PyStr.strip raw =? "2")%string; [cbn; split; [exact T1 | now right] |].
    cbn. split; [| exact I].
    apply (only_talks_trans _ _ _ T1), (only_talks_events [Print _] _ eq_refl).
  - split; [exact (only_talks_trans _ _ _ T0 Hin) | exact (input_raises_eof _ _ _ _ E)].
Qed.

Lemma register_user_outcome (w : world) :
  match register_user w with
  | (Ok _, w') =>
      exists (username password role : string) (w0 : world),
        only_talks w w0
        /\ (fst (validate_username username) = true
            /\ PyStr.strip username = username)
        /\ user_exists_scan (lines_of USER_FILE w) username = false
        /\ fst (validate_password password) = true
        /\ is_role role
        /\ w' = add_events (registered_events username role)
                  (set_file USER_FILE
                     (after_append (lines_of USER_FILE w)
                        (new_user_line username password role))
                     w0)
  | (Raise e, w') => e = EOFError /\ only_talks w w'
  end.
Proof.
  unfold register_user. unfold bind at 1.
  pose proof (ask_new_username_ensures w I) as H1.
  destruct (while_true ask_new_username tt w) as [[u | e] w1];
    [| destruct H1; auto].
  destruct H1 as (T1 & Hv & Hs & Hx).
  unfold bind at 1.
  pose proof (ask_password_ensures w1 I) as H2.
  destruct (while_true ask_password tt w1) as [[p | e] w2];
    [| destruct H2 as [T2 ->]; split; [reflexivity |];
       exact (only_talks_trans _ _ _ T1 T2)].
  destruct H2 as (T2 & Hp). pose proof (only_talks_trans _ _ _ T1 T2) as T12.
  unfold bind at 1.
  pose proof (ask_confirmation_ensures p w2 I) as H3.
  destruct (while_true (ask_confirmation p) tt w2) as [[[] | e] w3];
    [| destruct H3 as [T3 ->]; split; [reflexivity |];
       exact (only_talks_trans _ _ _ T12 T3)].
  destruct H3 as (T3 & _). pose proof (only_talks_trans _ _ _ T12 T3) as T13.
  unfold bind at 1.
  pose proof (ask_role_ensures w3 I) as H4.
  destruct (while_true ask_role tt w3) as [[role | e] w4];
    [| destruct H4 as [T4 ->]; split; [reflexivity |];
       exact (only_talks_trans _ _ _ T13 T4)].
  destruct H4 as (T4 & Hr). pose proof (only_talks_trans _ _ _ T13 T4) as T14.
  pose proof (only_talks_keeps _ _ T14) as (Ku & _).
  pose proof (only_talks_keeps _ _ T1) as (Ku1 & _).
  rewrite bind_append_line. run.
  exists u, p, role, w4.
  assert (El : lines_of USER_FILE w4 = lines_of USER_FILE w)
    by (unfold lines_of; cbn [file_of]; now rewrite Ku).
  assert (Eu : lines_of USER_FILE w1 = lines_of USER_FILE w)
    by (unfold lines_of; cbn [file_of]; now rewrite Ku1).
  rewrite El. rewrite Eu in Hx.
  repeat split; try assumption.
  unfold User_str, new_user_line, registered_events.
  cbn [User_username User_password User_role].
  now rewrite !string_app_assoc.
Qed.

Lemma validate_password_true (p : string) :
  fst (validate_password p) = true -> (6 <= String.length p)%nat.
Proof.
  unfold validate_password. destruct (p =? "")%string; [discriminate |].
  destruct (Nat.ltb_spec (String.length p) 6); [discriminate | trivial].
Qed.

Lemma word_only_lacks (x : ascii) (s : string) :
  is_word_char x = false -> word_only s = true -> lacks x s = true.
Proof.
  intros Hx. induction s as [| c r IH]; [reflexivity |]. cbn [word_only lacks].
  intros H. apply andb_prop in H as [Hc Hr]. rewrite (IH Hr), andb_true_r.
  destruct (Ascii.eqb_spec c x); [| reflexivity]. subst. congruence.
Qed.

(** The line of a user whose password holds no line break is one line of
    the file. *)
Lemma new_user_line_lines (u p role : string) :
  word_only u = true -> no_break p = true -> is_role role ->
  text_lines (new_user_line u p role) = [new_user_line u p role].
Proof.
  intros Hu Hp Hr. unfold new_user_line.
  replace (u ++ ", " ++ p ++ ", " ++ role ++ nl)
    with ((u ++ ", " ++ p ++ ", " ++ role) ++ nl)
    by (now rewrite !string_app_assoc).
  apply text_lines_line. rewrite !no_break_app, Hp.
  assert (Hbu : no_break u = true)
    by (unfold no_break; now rewrite !word_only_lacks).
  rewrite Hbu. destruct Hr as [-> | ->]; reflexivity.
Qed.

(** X6.  Whatever is typed, [register_user] either runs out of input and
    leaves both files as they were, or writes one text at the end of the
    user file and changes nothing else: the line of a name that
    [validate_username] accepts and that is the first field of no line
    already there, of a password of six characters or more, and of the role
    [Admin] or [Non-Admin].  When the file ended with a line feed, or held
    nothing, and the password holds no line break, this is exactly one new
    line after the lines that were there. *)
Theorem register_user_appends_one_new_user (w : world) :
  match register_user w with
  | (Ok _, w') =>
      exists username password role : string,
        validate_username username = (true, "")
        /\ PyStr.strip username = username
        /\ user_exists_scan (lines_of USER_FILE w) username = false
        /\ (6 <= String.length password)%nat
        /\ is_role role
        /\ user_txt w'
           = Some (after_append (lines_of USER_FILE w)
                     (new_user_line username password role))
        /\ (ends_with_newline (lines_of USER_FILE w) = true ->
            no_break password = true ->
            user_txt w'
            = Some (lines_of USER_FILE w
                    ++ [new_user_line username password role])%list)
        /\ task_txt w' = task_txt w
        /\ backups w' = backups w
  | (Raise e, w') =>
      e = EOFError /\ user_txt w' = user_txt w /\ task_txt w' = task_txt w
  end.
Proof.
  pose proof (register_user_outcome w) as H.
  destruct (register_user w) as [[[] | e] w'].
  - destruct H as (u & p & role & w0 & T & [Hv Hs] & Hx & Hp & Hr & ->).
    pose proof (only_talks_keeps _ _ T) as (_ & Kt & _ & _ & Kb & _).
    destruct (checked_username_word_only u Hv Hs) as [Hw _].
    exists u, p, role. repeat split; try assumption.
    + now apply validate_username_true.
    + now apply validate_password_true.
    + intros Hnl Hbp. cbn [user_txt add_events set_file]. f_equal.
      rewrite after_append_newline by exact Hnl.
      now rewrite new_user_line_lines.
  - destruct H as [-> T].
    pose proof (only_talks_keeps _ _ T) as (Ku & Kt & _). auto.
Qed.

(** ** A registered user at the login *)

Lemma user_exists_scan_records (lines : list string) (name : string) (u : User) :
  In u (user_records lines) -> User_username u = name ->
  user_exists_scan lines name = true.
Proof.
  induction lines as [| line rest IH]; [contradiction |].
  cbn [user_records user_exists_scan]. unfold parse_user.
  destruct (PyStr.split_comma_space (PyStr.strip line))
    as [| a [| b [| c [| d l]]]] eqn:E; cbn [hd]; intros Hin Hn;
    try (destruct (_ =? name)%string; [reflexivity | now apply IH]).
  destruct Hin as [<- | Hin].
  - cbn [User_username] in Hn. subst. now rewrite String.eqb_refl.
  - destruct (a =? name)%string; [reflexivity | now apply IH].
Qed.

Lemma login_scan_unknown (lines : list string) (name pass : string) :
  user_exists_scan lines name = false -> login_scan lines name pass = None.
Proof.
  intros Hx. apply login_scan_refused. intros u Hin Hn.
  rewrite (user_exists_scan_records lines name u Hin Hn) in Hx. discriminate.
Qed.

Lemma login_scan_app (l1 l2 : list string) (name pass : string) :
  login_scan l1 name pass = None ->
  login_scan (l1 ++ l2) name pass = login_scan l2 name pass.
Proof.
  induction l1 as [| line l1 IH]; [reflexivity |].
  change ((line :: l1) ++ l2)%list with (line :: (l1 ++ l2))%list.
  rewrite !login_scan_cons. destruct (parse_user line) as [u |]; [| exact IH].
  destruct ((User_username u =? name) && (User_password u =? pass))%string;
    [discriminate | exact IH].
Qed.

Lemma is_role_text (role : string) :
  is_role role -> role <> "" /\ last_not_space role /\ has_sep role = false.
Proof. intros [-> | ->]; repeat split; discriminate. Qed.

(** What the line [register_user] writes is read as. *)
Lemma new_user_line_read (u p role : string) :
  word_only u = true -> u <> "" -> is_role role ->
  parse_user (new_user_line u p role)
  = if has_sep p then None else Some (mkUser u p role).
Proof.
  intros Hu Hne Hr. destruct (is_role_text role Hr) as (Hrne & Hrl & Hrs).
  unfold parse_user, new_user_line.
  assert (Es : PyStr.strip (u ++ ", " ++ p ++ ", " ++ role ++ nl)
               = u ++ ", " ++ p ++ ", " ++ role).
  { rewrite <- (strip_written (u ++ ", " ++ p ++ ", " ++ role)).
    - now rewrite !string_app_assoc.
    - apply head_not_space_app; [now apply word_only_head | exact Hne].
    - repeat (apply rstrip_app_kept;
              [first [ exact Hrne | discriminate
                     | match goal with
                       | |- (?x ++ _)%string <> "" => destruct x; discriminate
                       end ] |]).
      exact Hrl. }
  rewrite Es, !split_app_sep.
  rewrite (split_no_sep u) by (now apply no_comma_has_sep, word_only_no_comma).
  rewrite (split_no_sep role) by exact Hrs.
  destruct (has_sep p) eqn:Ep.
  - pose proof (split_length_sep p Ep) as Hl.
    destruct (PyStr.split_comma_space p) as [| a [| b l]]; cbn in Hl; try lia.
    cbn [app]. destruct l; reflexivity.
  - now rewrite (split_no_sep p Ep).
Qed.

(** X7.  After a user file that ends with a line feed, or holds nothing,
    and when the password holds no line break: once [register_user] has
    returned, the name and the password it took open a session, with the
    role it took, exactly when the password does not hold the separator of
    the fields.  A password with a comma and a space in it gives a line of
    more than three fields, which [login_user] passes over: no password then
    opens a session under that name. *)
Theorem registered_user_logs_in_unless_the_password_holds_the_separator
    (w w' : world) :
  register_user w = (Ok tt, w') ->
  ends_with_newline (lines_of USER_FILE w) = true ->
  exists username password role : string,
    user_txt w'
    = Some (after_append (lines_of USER_FILE w)
              (new_user_line username password role))
    /\ (no_break password = true ->
        user_txt w'
        = Some (lines_of USER_FILE w ++ [new_user_line username password role])%list
        /\ (has_sep password = false ->
            forall rest : list string,
              login_user (set_stdin (username :: password :: rest) w')
              = (Ok (Some (mkUser username password role)),
                 set_stdin rest
                   (add_events
                      (login_accepted username (mkUser username password role)) w')))
        /\ (has_sep password = true ->
            forall (name pass : string) (rest : list string),
              PyStr.strip name = username ->
              fst (login_user (set_stdin (name :: pass :: rest) w')) = Ok None)).
Proof.
  intros E Hnl. pose proof (register_user_outcome w) as H. rewrite E in H.
  destruct H as (u & p & role & w0 & T & [Hv Hs] & Hx & _ & Hr & ->).
  destruct (checked_username_word_only u Hv Hs) as [Hw Hne].
  exists u, p, role.
  set (w1 := add_events _ _).
  split; [reflexivity |]. intros Hbp.
  set (lines := (lines_of USER_FILE w ++ [new_user_line u p role])%list).
  assert (Hf : user_txt w1 = Some lines).
  { subst w1 lines. cbn [user_txt add_events set_file]. f_equal.
    rewrite after_append_newline by exact Hnl.
    now rewrite new_user_line_lines. }
  assert (Hscan : forall pass,
             login_scan lines u pass
             = if has_sep p then None
               else if (p =? pass)%string then Some (mkUser u p role) else None).
  { intros pass. subst lines.
    rewrite login_scan_app by (now apply login_scan_unknown).
    rewrite login_scan_cons, (new_user_line_read u p role Hw Hne Hr).
    destruct (has_sep p); [reflexivity |].
    cbn [User_username User_password login_scan]. now rewrite String.eqb_refl. }
  split; [exact Hf |]. split.
  - intros Hp rest.
    pose proof (login_user_accepted w1 lines u p rest (mkUser u p role) Hf) as L.
    rewrite Hs in L. apply L. rewrite Hscan, Hp. now rewrite String.eqb_refl.
  - intros Hp name pass rest Hn.
    rewrite (login_user_refused w1 lines name pass rest Hf); [reflexivity |].
    rewrite Hn, Hscan, Hp. reflexivity.
Qed.

Lemma registered_user_logs_in_unless_the_password_holds_the_separator_witness :
  let w :=
    start (Some two_users) (Some three_tasks)
      ["carol"; "pass, word"; "pass, word"; "2"] a_day in
  let w' := snd (register_user w) in
  fst (login_user (set_stdin ["carol"; "pass, word"] w')) = Ok None
  /\ exists username password role : string,
       user_txt w'
       = Some (after_append (lines_of USER_FILE w)
                 (new_user_line username password role))
       /\ (no_break password = true ->
           user_txt w'
           = Some (lines_of USER_FILE w
                   ++ [new_user_line username password role])%list
           /\ (has_sep password = false ->
               forall rest : list string,
                 login_user (set_stdin (username :: password :: rest) w')
                 = (Ok (Some (mkUser username password role)),
                    set_stdin rest
                      (add_events
                         (login_accepted username (mkUser username password role))
                         w')))
           /\ (has_sep password = true ->
               forall (name pass : string) (rest : list string),
                 PyStr.strip name = username ->
                 fst (login_user (set_stdin (name :: pass :: rest) w')) = Ok None)).
Proof.
  intros w w'. split.
  - vm_compute. reflexivity.
  - apply (registered_user_logs_in_unless_the_password_holds_the_separator w w').
    + vm_compute. reflexivity.
    + vm_compute. reflexivity.
Defined.

(** After a user file whose last line has no line feed the new record is
    written on that line: the line then has five fields, and neither the
    user that was there nor the new one can log in.  A carriage return in
    the password cuts the record in two lines, and the new user cannot log
    in either. *)
Example register_user_after_a_line_without_line_feed :
  let w :=
    start (Some ["alice, secret1, Admin"]) (Some three_tasks)
      ["carol"; "password"; "password"; "2"] a_day in
  let w' := snd (register_user w) in
  let cr := String (ascii_of_nat 13) "" in
  let w2 :=
    start (Some two_users) (Some three_tasks)
      ["carol"; "longpass" ++ cr; "longpass" ++ cr; "2"] a_day in
  (fst (login_user (set_stdin ["alice"; "secret1"] w))
   = Ok (Some (mkUser "alice" "secret1" "Admin"))
   /\ fst (register_user w) = Ok tt
   /\ user_txt w' = Some ["alice, secret1, Admincarol, password, Non-Admin" ++ nl]
   /\ fst (login_user (set_stdin ["alice"; "secret1"] w')) = Ok None
   /\ fst (login_user (set_stdin ["carol"; "password"] w')) = Ok None)
  /\ (fst (register_user w2) = Ok tt
      /\ length (lines_of USER_FILE (snd (register_user w2))) = 4%nat
      /\ fst (login_user
                (set_stdin ["carol"; "longpass" ++ cr] (snd (register_user w2))))
         = Ok None).
Proof. vm_compute. repeat split. Qed.

(** ** Roles for the records that have none *)

Lemma ask_role_for_ensures (username : string) :
  ensures anywhere only_talks (fun role _ => is_role role)
    (while_true (ask_role_for username) tt).
Proof.
  apply (ensures_while_true only_talks only_talks_refl only_talks_trans
           (fun _ => anywhere)).
  intros [] w _. unfold ask_role_for. rewrite !bind_print.
  set (w0 := add_events _ (add_events _ (add_events _ w))).
  assert (T0 : only_talks w w0).
  { subst w0. rewrite !add_events_events. apply only_talks_events; reflexivity. }
  unfold bind at 1.
  pose proof (only_talks_input "  Enter your choice (1 or 2): " w0) as Hin.
  destruct (input "  Enter your choice (1 or 2): " w0) as [[raw | e] w1] eqn:E;
    cbn [snd] in Hin.
  - pose proof (only_talks_trans _ _ _ T0 Hin) as T1.
    destruct (PyStr.strip raw =? "1")%string; [cbn; split; [exact T1 | now left] |].
    destruct (PyStr.strip raw =? "2")%string; [cbn; split; [exact T1 | now right] |].
    cbn. split; [| exact I].
    apply (only_talks_trans _ _ _ T1), (only_talks_events [Print _] _ eq_refl).
  - split; [exact (only_talks_trans _ _ _ T0 Hin) | exact (input_raises_eof _ _ _ _ E)].
Qed.

Lemma verify_loop_outcome (lines : list string) :
  forall (needs_update : bool) (updated_lines : list string) (w : world),
    match for_each lines verify_body (needs_update, updated_lines) w with
    | (Ok (needs_update', updated_lines'), w') =>
        only_talks w w'
        /\ needs_update' = needs_update || existsb lacks_role lines
        /\ exists roles : list string,
             Forall is_role roles
             /\ length roles = length (filter lacks_role lines)
             /\ updated_lines' = (updated_lines ++ with_roles lines roles)%list
    | (Raise e, w') => e = EOFError /\ only_talks w w'
    end.
Proof.
  induction lines as [| line rest IH]; intros nu upd w.
  - cbn. split; [apply only_talks_refl |]. split; [now rewrite orb_false_r |].
    exists []. cbn. now rewrite app_nil_r.
  - cbn [for_each]. unfold verify_body at 1.
    cbn [existsb filter with_roles].
    assert (El : lacks_role line
                 = (length (PyStr.split_comma_space (PyStr.strip line)) =? 2)%nat)
      by reflexivity.
    destruct (PyStr.split_comma_space (PyStr.strip line))
      as [| a [| b [| c [| d l]]]] eqn:E; cbn [length Nat.eqb] in El; rewrite El;
      cbn [orb].
    + rewrite bind_ret. specialize (IH nu upd w).
      destruct (for_each rest verify_body (nu, upd) w) as [[[nu' upd'] | e] w'];
        exact IH.
    + rewrite bind_ret. specialize (IH nu upd w).
      destruct (for_each rest verify_body (nu, upd) w) as [[[nu' upd'] | e] w'];
        exact IH.
    + (* a name and a password *)
      run. set (w0 := add_events _ w).
      assert (T0 : only_talks w w0) by (apply only_talks_events; reflexivity).
      unfold bind at 1.
      pose proof (ask_role_for_ensures a w0 I) as Hr.
      destruct (while_true (ask_role_for a) tt w0) as [[role | e] w1].
      * destruct Hr as [T1 Hrole]. run.
        set (w2 := add_events _ w1).
        assert (T2 : only_talks w w2).
        { apply (only_talks_trans _ _ _ T0), (only_talks_trans _ _ _ T1).
          apply only_talks_events; reflexivity. }
        specialize (IH true (upd ++ [(User_str (mkUser a b role) ++ nl)%string])%list w2).
        destruct (for_each rest verify_body _ w2) as [[[nu' upd'] | e] w'].
        -- destruct IH as (T & -> & roles & Hroles & Hlen & ->).
           split; [exact (only_talks_trans _ _ _ T2 T) |].
           split; [now rewrite orb_true_r |].
           exists (role :: roles). split; [now constructor |].
           split; [cbn [length]; now rewrite Hlen |].
           rewrite <- app_assoc. cbn [app]. do 2 f_equal.
           unfold User_str, new_user_line.
           cbn [User_username User_password User_role].
           now rewrite !string_app_assoc.
        -- destruct IH as [-> T]. split; [reflexivity |].
           exact (only_talks_trans _ _ _ T2 T).
      * destruct Hr as [T1 ->]. split; [reflexivity |].
        exact (only_talks_trans _ _ _ T0 T1).
    + (* a complete record *)
      rewrite bind_ret. specialize (IH nu (upd ++ [line])%list w).
      destruct (for_each rest verify_body _ w) as [[[nu' upd'] | e] w']; [| exact IH].
      destruct IH as (T & -> & roles & Hroles & Hlen & ->).
      split; [exact T |]. split; [reflexivity |].
      exists roles. split; [exact Hroles |]. split; [exact Hlen |].
      now rewrite <- app_assoc.
    + rewrite bind_ret. specialize (IH nu upd w).
      destruct (for_each rest verify_body (nu, upd) w) as [[[nu' upd'] | e] w'];
        exact IH.
Qed.

Lemma bind_write_lines {B} (f : datafile) (c : list string) (k : unit -> M B)
    (w : world) :
  bind (write_lines f c) k w = k tt (add_events [Wrote f] (set_file f c w)).
Proof. reflexivity. Qed.

Lemma verify_outcome (w : world) (lines : list string) :
  user_txt w = Some lines ->
  match verify_and_update_user_roles w with
  | (Ok _, w') =>
      exists w0 : world,
        only_talks w w0
        /\ if existsb lacks_role lines
           then exists roles : list string,
                  Forall is_role roles
                  /\ length roles = length (filter lacks_role lines)
                  /\ w' = add_events (roles_written_events (copy_ok w))
                            (set_file USER_FILE (with_roles lines roles)
                               (backup_world USER_FILE w0))
           else w' = w0
  | (Raise e, w') => e = EOFError /\ only_talks w w'
  end.
Proof.
  intros Hf. unfold verify_and_update_user_roles, try_except.
  rewrite (bind_read_lines USER_FILE lines) by exact Hf.
  rewrite bind_print_header. set (w0 := add_events _ w).
  assert (T0 : only_talks w w0) by (apply only_talks_events; reflexivity).
  unfold bind at 1.
  pose proof (verify_loop_outcome lines false [] w0) as H.
  destruct (for_each lines verify_body (false, []) w0) as [[[nu upd] | e] w1].
  - destruct H as (T1 & -> & roles & Hroles & Hlen & ->).
    pose proof (only_talks_trans _ _ _ T0 T1) as T.
    cbn [orb app]. destruct (existsb lacks_role lines) eqn:Ex.
    + rewrite bind_backup_file, bind_write_lines. run.
      exists w1. split; [exact T |]. exists roles.
      split; [exact Hroles |]. split; [exact Hlen |].
      pose proof (only_talks_keeps _ _ T) as (Ku & _ & _ & _ & _ & Kc & _).
      unfold roles_written_events, backup_result. cbn [file_of].
      rewrite Ku, Hf, Kc. reflexivity.
    + destruct (length lines =? 0)%nat; cbn [negb].
      * cbn. exists w1. auto.
      * run. eexists. split; [| reflexivity].
        apply (only_talks_trans _ _ _ T), only_talks_events; reflexivity.
  - destruct H as [-> T1]. cbn [on_FileNotFoundError]. split; [reflexivity |].
    exact (only_talks_trans _ _ _ T0 T1).
Qed.

Lemma verify_no_file (w : world) :
  user_txt w = None -> verify_and_update_user_roles w = (Ok tt, w).
Proof.
  intros Hf. unfold verify_and_update_user_roles, try_except.
  now rewrite (bind_read_lines_absent USER_FILE) by exact Hf.
Qed.

Lemma backups_backup_world (f : datafile) (w : world) :
  backups (backup_world f w)
  = match file_of f w with
    | Some content => if copy_ok w then (backups w ++ [(f, content)])%list else backups w
    | None => backups w
    end.
Proof. unfold backup_world. destruct (file_of f w); [destruct (copy_ok w) |]; reflexivity. Qed.

Lemma talk_is_no_write (evs : list event) (f : datafile) :
  forallb is_talk evs = true -> ~ In (Wrote f) evs.
Proof.
  intros H Hin. rewrite forallb_forall in H. specialize (H _ Hin). discriminate.
Qed.

(** X8.  [verify_and_update_user_roles] rewrites the user file only when
    a line of it has exactly two fields.  It then asks for one role per
    such line, snapshots the file, and writes back the lines of three
    fields as they were and the lines of two fields with their role; every
    other line (a blank line, a line of four fields) is left out of the
    file.  When no line has two fields, when the input runs out, and when
    there is no user file, the file stays as it was and no snapshot is
    made.  The task file is never touched. *)
Theorem verify_and_update_user_roles_rewrites_for_missing_roles (w : world) :
  match verify_and_update_user_roles w with
  | (Ok _, w') =>
      task_txt w' = task_txt w
      /\ match user_txt w with
         | None => w' = w
         | Some lines =>
             if existsb lacks_role lines
             then exists (roles : list string) (evs : list event),
                    Forall is_role roles
                    /\ length roles = length (filter lacks_role lines)
                    /\ user_txt w' = Some (with_roles lines roles)
                    /\ backups w'
                       = (if copy_ok w then (backups w ++ [(USER_FILE, lines)])%list
                          else backups w)
                    /\ trace w'
                       = (trace w ++ evs ++ roles_written_events (copy_ok w))%list
                    /\ ~ In (Wrote USER_FILE) evs
             else user_txt w' = user_txt w /\ backups w' = backups w
         end
  | (Raise e, w') =>
      e = EOFError /\ user_txt w' = user_txt w /\ task_txt w' = task_txt w
      /\ backups w' = backups w
  end.
Proof.
  destruct (user_txt w) as [lines |] eqn:Hf.
  - pose proof (verify_outcome w lines Hf) as H.
    destruct (verify_and_update_user_roles w) as [[[] | e] w'].
    + destruct H as (w0 & T & H).
      pose proof (only_talks_keeps _ _ T) as (Ku & Kt & _ & _ & Kb & Kc & _).
      destruct (existsb lacks_role lines).
      * destruct H as (roles & Hroles & Hlen & ->).
        split.
        { cbn [task_txt add_events set_file]. now rewrite task_txt_backup. }
        destruct T as (n & evs & Hev & ->).
        exists roles, evs.
        split; [exact Hroles |]. split; [exact Hlen |]. split; [reflexivity |].
        split.
        { cbn [backups add_events set_file]. rewrite backups_backup_world.
          cbn [file_of user_txt set_stdin add_events copy_ok backups].
          now rewrite Hf. }
        split.
        { cbn [trace add_events set_file]. rewrite trace_backup.
          cbn [trace set_stdin add_events]. now rewrite app_assoc. }
        now apply talk_is_no_write.
      * subst w0. rewrite Hf in Ku. auto.
    + destruct H as [-> T].
      pose proof (only_talks_keeps _ _ T) as (Ku & Kt & _ & _ & Kb & _).
      rewrite Hf in Ku. auto.
  - rewrite (verify_no_file w Hf). auto.
Qed.

(** The fields of the line written for a name and a password that were two
    fields of a stripped line. *)
Lemma new_user_line_fields (line u p role : string) :
  PyStr.split_comma_space (PyStr.strip line) = [u; p] -> is_role role ->
  PyStr.split_comma_space (PyStr.strip (new_user_line u p role)) = [u; p; role].
Proof.
  intros E Hr. destruct (is_role_text role Hr) as (Hrne & Hrl & Hrs).
  pose proof (split_fields_no_sep (PyStr.strip line)) as Hsep. rewrite E in Hsep.
  inversion Hsep as [| ? ? Hu Hsep']; subst. inversion Hsep' as [| ? ? Hp _]; subst.
  assert (Hj : PyStr.strip line = u ++ ", " ++ p).
  { rewrite <- (join_split (PyStr.strip line)), E. reflexivity. }
  pose proof (strip_head line) as Hh. rewrite Hj in Hh.
  unfold new_user_line.
  assert (Es : PyStr.strip (u ++ ", " ++ p ++ ", " ++ role ++ nl)
               = u ++ ", " ++ p ++ ", " ++ role).
  { rewrite <- (strip_written (u ++ ", " ++ p ++ ", " ++ role)).
    - now rewrite !string_app_assoc.
    - exact (head_not_space_field u _ _ Hh).
    - repeat (apply rstrip_app_kept;
              [first [ exact Hrne | discriminate
                     | match goal with
                       | |- (?x ++ _)%string <> "" => destruct x; discriminate
                       end ] |]).
      exact Hrl. }
  rewrite Es, !split_app_sep.
  now rewrite (split_no_sep u Hu), (split_no_sep p Hp), (split_no_sep role Hrs).
Qed.

Lemma with_roles_complete (lines roles : list string) :
  Forall is_role roles ->
  Forall (fun line => exists u, parse_user line = Some u) (with_roles lines roles).
Proof.
  revert roles. induction lines as [| line rest IH]; intros roles Hr; [constructor |].
  cbn [with_roles].
  destruct (PyStr.split_comma_space (PyStr.strip line))
    as [| a [| b [| c [| d l]]]] eqn:E; try (now apply IH).
  - destruct roles as [| role roles]; [now apply IH |].
    inversion Hr as [| ? ? Hrole Hroles]; subst.
    constructor; [| now apply IH].
    unfold parse_user. rewrite (new_user_line_fields line a b role E Hrole). eauto.
  - constructor; [| now apply IH]. unfold parse_user. rewrite E. eauto.
Qed.

Lemma complete_has_role (line : string) (u : User) :
  parse_user line = Some u -> lacks_role line = false.
Proof.
  unfold parse_user, lacks_role.
  destruct (PyStr.split_comma_space (PyStr.strip line))
    as [| a [| b [| c [| d l]]]]; try discriminate. reflexivity.
Qed.

Lemma verify_loop_nothing (lines : list string) :
  existsb lacks_role lines = false ->
  forall (needs_update : bool) (updated_lines : list string) (w : world),
    exists kept : list string,
      for_each lines verify_body (needs_update, updated_lines) w
      = (Ok (needs_update, kept), w).
Proof.
  induction lines as [| line rest IH]; intros Hx nu upd w; [now exists upd |].
  cbn [existsb] in Hx. apply orb_false_elim in Hx as [Hl Hx].
  cbn [for_each]. unfold verify_body at 1. unfold lacks_role in Hl.
  destruct (PyStr.split_comma_space (PyStr.strip line))
    as [| a [| b [| c [| d l]]]]; try discriminate; rewrite bind_ret;
    now apply IH.
Qed.

Lemma verify_nothing_to_do (w : world) (lines : list string) :
  user_txt w = Some lines -> existsb lacks_role lines = false ->
  verify_and_update_user_roles w = (Ok tt, add_events (roles_checked_events lines) w).
Proof.
  intros Hf Hx. unfold verify_and_update_user_roles, try_except.
  rewrite (bind_read_lines USER_FILE lines) by exact Hf.
  rewrite bind_print_header. unfold bind at 1.
  destruct (verify_loop_nothing lines Hx false [] (add_events [Header "USER ROLE VERIFICATION"] w))
    as [kept ->].
  unfold roles_checked_events.
  destruct (length lines =? 0)%nat; cbn [negb]; run; reflexivity.
Qed.

(** X9.  After [verify_and_update_user_roles] has returned, every line
    of the user file it has rewritten is a record of three fields, and in
    any case no line is left with two fields: a second run asks nothing,
    makes no snapshot and writes nothing. *)
Theorem verify_and_update_user_roles_leaves_nothing_to_do (w w' : world) :
  verify_and_update_user_roles w = (Ok tt, w') ->
  (existsb lacks_role (lines_of USER_FILE w) = true ->
   Forall (fun line => exists u, parse_user line = Some u) (lines_of USER_FILE w'))
  /\ existsb lacks_role (lines_of USER_FILE w') = false
  /\ verify_and_update_user_roles w'
     = (Ok tt,
        match user_txt w' with
        | Some lines => add_events (roles_checked_events lines) w'
        | None => w'
        end).
Proof.
  intros E.
  assert (H : (existsb lacks_role (lines_of USER_FILE w) = true ->
               Forall (fun line => exists u, parse_user line = Some u)
                 (lines_of USER_FILE w'))
              /\ existsb lacks_role (lines_of USER_FILE w') = false).
  { destruct (user_txt w) as [lines |] eqn:Hf.
    - pose proof (verify_outcome w lines Hf) as H. rewrite E in H.
      destruct H as (w0 & T & H).
      pose proof (only_talks_keeps _ _ T) as (Ku & _).
      unfold lines_of at 1. cbn [file_of]. rewrite Hf.
      destruct (existsb lacks_role lines) eqn:Ex.
      + destruct H as (roles & Hroles & _ & ->).
        change (lines_of USER_FILE _) with (with_roles lines roles).
        pose proof (with_roles_complete lines roles Hroles) as Hc.
        split; [intros _; exact Hc |].
        clear - Hc. induction Hc as [| line l [u Hu] _ IH]; [reflexivity |].
        cbn [existsb]. now rewrite (complete_has_role line u Hu), IH.
      + subst w0. split; [discriminate |].
        unfold lines_of. cbn [file_of]. now rewrite Ku, Hf.
    - rewrite (verify_no_file w Hf) in E. inversion E; subst w'.
      unfold lines_of. cbn [file_of]. rewrite Hf. split; [discriminate | reflexivity]. }
  destruct H as [H1 H2]. split; [exact H1 |]. split; [exact H2 |].
  destruct (user_txt w') as [lines |] eqn:Hf'.
  - apply verify_nothing_to_do; [exact Hf' |].
    unfold lines_of in H2. cbn [file_of] in H2. now rewrite Hf' in H2.
  - now apply verify_no_file.
Qed.

Lemma verify_and_update_user_roles_leaves_nothing_to_do_witness :
  let w :=
    start (Some ["alice, secret1, Admin" ++ nl; nl; "bob, hunter22" ++ nl;
                 "eve, x, y, z" ++ nl])
      (Some three_tasks) ["3"; "2"] a_day in
  let w' := snd (verify_and_update_user_roles w) in
  user_txt w'
  = Some ["alice, secret1, Admin" ++ nl; "bob, hunter22, Non-Admin" ++ nl]
  /\ (existsb lacks_role (lines_of USER_FILE w) = true ->
      Forall (fun line => exists u, parse_user line = Some u) (lines_of USER_FILE w'))
  /\ existsb lacks_role (lines_of USER_FILE w') = false
  /\ verify_and_update_user_roles w'
     = (Ok tt,
        match user_txt w' with
        | Some lines => add_events (roles_checked_events lines) w'
        | None => w'
        end).
Proof.
  intros w w'. split; [vm_compute; reflexivity |].
  apply (verify_and_update_user_roles_leaves_nothing_to_do w w').
  vm_compute. reflexivity.
Defined.

(** ** Marking a task complete and resetting it *)

Lemma for_each_mark_run (id : string) (tasks : list task) (found : bool)
    (upd : list task) (w : world) :
  for_each tasks (mark_body id) (found, upd) w
  = (Ok (found || existsb (fun t => (task_id t =? id)%string) tasks,
         (upd ++ map (with_status id "Yes") tasks)%list),
     add_events (flat_map (mark_events id) tasks) w).
Proof.
  revert found upd w. induction tasks as [| t rest IH]; intros found upd w.
  - cbn. now rewrite orb_false_r, app_nil_r, add_events_nil.
  - cbn [for_each existsb map flat_map]. unfold mark_body at 1.
    unfold mark_events at 1, with_status at 1.
    destruct (task_id t =? id)%string.
    + run. rewrite IH. run. rewrite orb_true_r. reflexivity.
    + rewrite bind_ret, IH. cbn [orb app]. now rewrite <- app_assoc.
Qed.

Lemma for_each_reset_run (id : string) (tasks : list task) (found : bool)
    (upd : list task) (w : world) :
  for_each tasks (reset_body id) (found, upd) w
  = (Ok (found
         || existsb (fun t => ((task_id t =? id)%string && status_is t "yes")%bool)
              tasks,
         (upd ++ map (reset_one id) tasks)%list),
     add_events (flat_map (reset_events id) tasks) w).
Proof.
  revert found upd w. induction tasks as [| t rest IH]; intros found upd w.
  - cbn. now rewrite orb_false_r, app_nil_r, add_events_nil.
  - cbn [for_each existsb map flat_map]. unfold reset_body at 1.
    unfold reset_events at 1, reset_one at 1.
    change (PyStr.lower (PyStr.strip (complete t)) =? "yes")%string
      with (status_is t "yes").
    destruct (task_id t =? id)%string; cbn [andb].
    + destruct (status_is t "yes").
      * run. rewrite IH. run. rewrite orb_true_r. reflexivity.
      * run. rewrite IH. run. cbn [orb]. reflexivity.
    + rewrite bind_ret, IH. cbn [orb app]. now rewrite <- app_assoc.
Qed.

Lemma update_task_complete_run (w : world) (blanks : list string) (raw : string)
    (rest : list string) :
  Forall blank blanks -> PyStr.strip raw <> "" ->
  existsb (fun t => (task_id t =? PyStr.strip raw)%string) (stored_tasks w) = true ->
  update_task_complete (set_stdin (blanks ++ raw :: rest) w)
  = (Ok tt,
     set_stdin rest
       (add_events
          (Header "MARK TASK AS COMPLETE"
           :: retry_events "Enter the task ID to mark as complete: " "Task ID" blanks
           ++ Ask "Enter the task ID to mark as complete: "
           :: flat_map (mark_events (PyStr.strip raw)) (stored_tasks w)
           ++ [Wrote TASK_FILE])%list
          (set_file TASK_FILE
             (map task_line (map (with_status (PyStr.strip raw) "Yes") (stored_tasks w)))
             w))).
Proof.
  intros Hb Hraw Hex. unfold update_task_complete. run.
  rewrite bind_get_validated_input_non_empty by assumption.
  unfold try_except. run.
  rewrite (bind_ok _ (for_each_mark_run _ _ _ _ _)).
  rewrite Hex. cbn [orb app]. run. rewrite write_all_tasks_run. cbv beta iota.
  run. reflexivity.
Qed.

Lemma reset_task_incomplete_run (w : world) (blanks : list string) (raw : string)
    (rest : list string) :
  Forall blank blanks -> PyStr.strip raw <> "" ->
  existsb (fun t => ((task_id t =? PyStr.strip raw)%string && status_is t "yes")%bool)
    (stored_tasks w) = true ->
  reset_task_incomplete (set_stdin (blanks ++ raw :: rest) w)
  = (Ok tt,
     set_stdin rest
       (add_events
          (Header "RESET TASK TO INCOMPLETE"
           :: retry_events "Enter the task ID to reset to incomplete: " "Task ID" blanks
           ++ Ask "Enter the task ID to reset to incomplete: "
           :: flat_map (reset_events (PyStr.strip raw)) (stored_tasks w)
           ++ [Wrote TASK_FILE])%list
          (set_file TASK_FILE
             (map task_line (map (reset_one (PyStr.strip raw)) (stored_tasks w)))
             w))).
Proof.
  intros Hb Hraw Hex. unfold reset_task_incomplete. run.
  rewrite bind_get_validated_input_non_empty by assumption.
  unfold try_except. run.
  rewrite (bind_ok _ (for_each_reset_run _ _ _ _ _)).
  rewrite Hex. cbn [orb app negb]. run. reflexivity.
Qed.

Lemma canonical_reset_one (id : string) (t : task) :
  canonical t -> canonical (reset_one id t).
Proof.
  intros Ht. unfold reset_one.
  destruct ((task_id t =? id)%string && status_is t "yes")%bool; [| exact Ht].
  apply canonical_set_complete; trivial; reflexivity || discriminate.
Qed.

Lemma stored_after_reset (id : string) (evs : list event) (i : list string)
    (w : world) :
  stored_tasks
    (set_stdin i
       (add_events evs
          (set_file TASK_FILE (map task_line (map (reset_one id) (stored_tasks w))) w)))
  = map (reset_one id) (stored_tasks w).
Proof.
  apply stored_after_write.
  apply Forall_forall. intros t Ht. apply in_map_iff in Ht as (u & <- & Hu).
  apply canonical_reset_one.
  pose proof (stored_canonical w) as Hc. rewrite Forall_forall in Hc. now apply Hc.
Qed.

(** X10.  When a stored task has the id that is typed,
    [update_task_complete] reports the success for every stored task with
    that id, whatever its status was, and only then rewrites the task file:
    each of these tasks has the status [Yes] afterwards, every other task is
    as it was, and the lines of the file that were no tasks are gone. *)
Theorem update_task_complete_marks_every_task_with_the_id (w : world)
    (blanks : list string) (raw : string) (rest : list string) :
  Forall blank blanks ->
  PyStr.strip raw <> "" ->
  existsb (fun t => (task_id t =? PyStr.strip raw)%string) (stored_tasks w) = true ->
  let id := PyStr.strip raw in
  let marked := map (with_status id "Yes") (stored_tasks w) in
  let result := update_task_complete (set_stdin (blanks ++ raw :: rest) w) in
  fst result = Ok tt
  /\ task_txt (snd result) = Some (map task_line marked)
  /\ stored_tasks (snd result) = marked
  /\ trace (snd result)
     = (trace w
        ++ Header "MARK TASK AS COMPLETE"
        :: retry_events "Enter the task ID to mark as complete: " "Task ID" blanks
        ++ Ask "Enter the task ID to mark as complete: "
        :: flat_map (mark_events id) (stored_tasks w)
        ++ [Wrote TASK_FILE])%list.
Proof.
  intros Hb Hraw Hex id marked result. subst result.
  rewrite (update_task_complete_run w blanks raw rest Hb Hraw Hex).
  cbn [fst snd]. split; [reflexivity |]. split; [reflexivity |].
  split; [| reflexivity].
  apply stored_after_status_edit. now left.
Qed.

Lemma update_task_complete_marks_every_task_with_the_id_witness :
  let w := start (Some two_users) (Some one_complete) [] a_day in
  let result := update_task_complete (set_stdin ["2"] w) in
  fst result = Ok tt
  /\ task_txt (snd result) = task_txt w
  /\ trace (snd result)
     = [Header "MARK TASK AS COMPLETE"; Ask "Enter the task ID to mark as complete: ";
        Header "SUCCESS"; Print "  Task ID 2 ('T2') has been marked as complete!";
        Print ""; Log INFO "Task ID 2 marked as complete"; Wrote TASK_FILE].
Proof.
  intros w.
  destruct (update_task_complete_marks_every_task_with_the_id w [] "2" [])
    as (H1 & H2 & _ & H4).
  - constructor.
  - discriminate.
  - vm_compute. reflexivity.
  - cbn [app] in H1, H2, H4. split; [exact H1 |]. split.
    + rewrite H2. vm_compute. reflexivity.
    + rewrite H4. vm_compute. reflexivity.
Defined.

(** X11.  When a stored task has the id that is typed and a status that
    reads as yes, [reset_task_incomplete] sets the status of every such task
    to [No] and rewrites the task file; a task with that id whose status
    does not read as yes is reported as already incomplete and kept as it
    is, and every other task is as it was. *)
Theorem reset_task_incomplete_resets_the_complete_tasks_with_the_id (w : world)
    (blanks : list string) (raw : string) (rest : list string) :
  Forall blank blanks ->
  PyStr.strip raw <> "" ->
  existsb (fun t => ((task_id t =? PyStr.strip raw)%string && status_is t "yes")%bool)
    (stored_tasks w) = true ->
  let id := PyStr.strip raw in
  let reset := map (reset_one id) (stored_tasks w) in
  let result := reset_task_incomplete (set_stdin (blanks ++ raw :: rest) w) in
  fst result = Ok tt
  /\ task_txt (snd result) = Some (map task_line reset)
  /\ stored_tasks (snd result) = reset
  /\ trace (snd result)
     = (trace w
        ++ Header "RESET TASK TO INCOMPLETE"
        :: retry_events "Enter the task ID to reset to incomplete: " "Task ID" blanks
        ++ Ask "Enter the task ID to reset to incomplete: "
        :: flat_map (reset_events id) (stored_tasks w)
        ++ [Wrote TASK_FILE])%list.
Proof.
  intros Hb Hraw Hex id reset result. subst result.
  rewrite (reset_task_incomplete_run w blanks raw rest Hb Hraw Hex).
  cbn [fst snd]. split; [reflexivity |]. split; [reflexivity |].
  split; [| reflexivity].
  apply stored_after_reset.
Qed.

Lemma reset_task_incomplete_resets_the_complete_tasks_with_the_id_witness :
  let w := start (Some two_users) (Some one_complete) [] a_day in
  let result := reset_task_incomplete (set_stdin ["2"] w) in
  fst result = Ok tt
  /\ map complete (stored_tasks (snd result)) = ["No"; "No"]
  /\ trace (snd result)
     = [Header "RESET TASK TO INCOMPLETE";
        Ask "Enter the task ID to reset to incomplete: ";
        Header "SUCCESS"; Print "  Task ID 2 ('T2') has been reset to incomplete!";
        Print ""; Log INFO "Task ID 2 reset to incomplete"; Wrote TASK_FILE].
Proof.
  intros w.
  destruct (reset_task_incomplete_resets_the_complete_tasks_with_the_id w [] "2" [])
    as (H1 & _ & H3 & H4).
  - constructor.
  - discriminate.
  - vm_compute. reflexivity.
  - cbn [app] in H1, H3, H4. split; [exact H1 |]. split.
    + rewrite H3. vm_compute. reflexivity.
    + rewrite H4. vm_compute. reflexivity.
Defined.

Lemma reset_after_mark (id : string) (t : task) :
  (task_id t = id -> complete t = "No") ->
  reset_one id (with_status id "Yes" t) = t.
Proof.
  intros H. unfold reset_one, with_status.
  destruct (String.eqb_spec (task_id t) id) as [E | E].
  - cbn [set_complete task_id]. rewrite (proj2 (String.eqb_eq _ _) E).
    cbn. destruct t as [a b c d e f g]. cbn in *. now rewrite (H E).
  - rewrite (proj2 (String.eqb_neq _ _) E). reflexivity.
Qed.

(** X12.  Marking complete the tasks with an id whose status was [No] and
    then resetting the tasks with that id gives back the stored tasks as
    they were. *)
Theorem reset_undoes_update_task_complete (w : world) (raw1 raw2 : string)
    (rest1 rest2 : list string) :
  PyStr.strip raw1 <> "" ->
  PyStr.strip raw2 = PyStr.strip raw1 ->
  existsb (fun t => (task_id t =? PyStr.strip raw1)%string) (stored_tasks w) = true ->
  (forall t, In t (stored_tasks w) -> task_id t = PyStr.strip raw1 -> complete t = "No") ->
  let marked := update_task_complete (set_stdin (raw1 :: rest1) w) in
  let reset := reset_task_incomplete (set_stdin (raw2 :: rest2) (snd marked)) in
  fst marked = Ok tt
  /\ stored_tasks (snd marked)
     = map (with_status (PyStr.strip raw1) "Yes") (stored_tasks w)
  /\ fst reset = Ok tt
  /\ stored_tasks (snd reset) = stored_tasks w
  /\ task_txt (snd reset) = Some (map task_line (stored_tasks w)).
Proof.
  intros Hraw E2 Hex Hno marked reset. subst reset marked.
  pose proof (update_task_complete_run w [] raw1 rest1 (Forall_nil _) Hraw Hex) as M.
  cbn [app] in M. rewrite M. clear M.
  cbn [fst snd]. set (id := PyStr.strip raw1) in *.
  set (w1 := set_stdin rest1 _).
  assert (Hs1 : stored_tasks w1 = map (with_status id "Yes") (stored_tasks w))
    by (apply stored_after_status_edit; now left).
  assert (Hex1 : existsb (fun t => ((task_id t =? PyStr.strip raw2)%string
                                    && status_is t "yes")%bool)
                   (stored_tasks w1) = true).
  { rewrite Hs1, E2. fold id. apply existsb_exists in Hex as (t & Ht & Et).
    apply existsb_exists. exists (with_status id "Yes" t).
    split; [now apply in_map |].
    unfold with_status. rewrite Et. cbn [set_complete task_id]. rewrite Et.
    reflexivity. }
  pose proof (reset_task_incomplete_run w1 [] raw2 rest2 (Forall_nil _)
                ltac:(now rewrite E2) Hex1) as R.
  cbn [app] in R. rewrite R. cbn [fst snd].
  split; [reflexivity |]. split; [exact Hs1 |]. split; [reflexivity |].
  assert (Hback : map (reset_one (PyStr.strip raw2)) (stored_tasks w1) = stored_tasks w).
  { rewrite Hs1, E2, map_map. fold id.
    rewrite <- (map_id (stored_tasks w)) at 2. apply map_ext_in.
    intros t Ht. apply reset_after_mark. now apply Hno. }
  split.
  - rewrite stored_after_reset. exact Hback.
  - cbn [task_txt set_stdin add_events set_file]. now rewrite Hback.
Qed.

Lemma reset_undoes_update_task_complete_witness :
  let w := start (Some two_users) (Some three_tasks) [] a_day in
  let marked := update_task_complete (set_stdin [" 3"] w) in
  let reset := reset_task_incomplete (set_stdin ["3 "] (snd marked)) in
  map complete (stored_tasks (snd marked)) = ["No"; "No"; "Yes"]
  /\ stored_tasks (snd reset) = stored_tasks w.
Proof.
  intros w.
  destruct (reset_undoes_update_task_complete w " 3" "3 " [] [])
    as (_ & H2 & _ & H4 & _).
  - discriminate.
  - reflexivity.
  - vm_compute. reflexivity.
  - intros t Ht _.
    assert (Hw : stored_tasks w
                 = [Task "1" "alice" "T1" "D" "2030-01-01" "2025-01-01" "No";
                    Task "2" "alice" "T2" "D" "2030-01-01" "2025-01-01" "No";
                    Task "3" "bob" "T3" "D" "2020-01-01" "2025-01-01" "No"])
      by (vm_compute; reflexivity).
    rewrite Hw in Ht. destruct Ht as [<- | [<- | [<- | []]]]; reflexivity.
  - split; [| exact H4]. rewrite H2. vm_compute. reflexivity.
Defined.

(** ** The reports *)

Lemma user_entries_loop_all (users : list string) (tasks : list task)
    (d : PyDate.date) (written : list user_stats) :
  (forall t, In t tasks -> status_is t "no" = true ->
             PyDate.strptime (due_date t) <> None) ->
  user_entries_loop users tasks d written
  = ((written ++ map (user_entry tasks d) users)%list, None).
Proof.
  intros H. revert written.
  induction users as [| u rest IH]; intros written; cbn [user_entries_loop map].
  - now rewrite app_nil_r.
  - rewrite user_overdue_sum_agrees.
    + rewrite IH, <- app_assoc. reflexivity.
    + intros t Ht. apply filter_In in Ht as [Ht _]. now apply H.
Qed.

Lemma generate_reports_run (w : world) (lines : list string) :
  user_txt w = Some lines ->
  (forall t, In t (stored_tasks w) -> status_is t "no" = true ->
             PyDate.strptime (due_date t) <> None) ->
  generate_reports w
  = (Ok tt,
     add_events reports_written_events
       (set_user_overview
          (map (user_entry (stored_tasks w) (today w)) (report_users lines))
          (set_task_overview (task_counts (stored_tasks w) (today w)) w))).
Proof.
  intros Hf Hd. unfold generate_reports, try_except.
  rewrite bind_read_all_tasks, bind_now_date, bind_write_task_overview.
  rewrite (bind_read_lines USER_FILE lines) by exact Hf.
  unfold bind at 1. unfold write_user_overview.
  cbn [today set_task_overview add_events].
  rewrite (user_entries_loop_all _ _ _ [] Hd). cbn [app]. run.
  rewrite user_overview_events. run. reflexivity.
Qed.

Lemma generate_reports_no_user_file (w : world) :
  user_txt w = None ->
  generate_reports w
  = (Ok tt,
     add_events
       [WroteTaskOverview; Header "ERROR"; Print "  No task file found."; Print "";
        Log ERROR "Reports generation failed - task file not found"]
       (set_task_overview (task_counts (stored_tasks w) (today w)) w)).
Proof.
  intros Hf. unfold generate_reports, try_except.
  rewrite bind_read_all_tasks, bind_now_date, bind_write_task_overview.
  rewrite (bind_read_lines_absent USER_FILE) by exact Hf. run. reflexivity.
Qed.

Lemma overdue_loop_bound (tasks : list task) (d : PyDate.date) (acc : nat) :
  (overdue_loop tasks d acc
   <= acc + (length tasks - count_completed tasks))%nat.
Proof.
  revert acc. induction tasks as [| t rest IH]; intros acc; [cbn; lia |].
  assert (Hc : (count_completed rest <= length rest)%nat)
    by (unfold count_completed; apply filter_length_le).
  cbn [overdue_loop]. unfold count_completed in *. cbn [filter length].
  destruct (status_is t "no") eqn:En.
  - assert (Ey : status_is t "yes" = false).
    { unfold status_is in *. apply String.eqb_eq in En. rewrite En. reflexivity. }
    rewrite Ey.
    pose proof (IH acc). pose proof (IH (acc + 1)%nat).
    destruct (PyDate.strptime (due_date t)) as [due |];
      [destruct (PyDate.ltb due d) |]; lia.
  - specialize (IH acc). destruct (status_is t "yes"); cbn [length]; lia.
Qed.

(** X15.  When the user file is there and every due date of a task whose
    status reads as no is a date, [generate_reports] writes both reports and
    reports the success.  In the task overview the completed and the
    uncompleted tasks add up to the total and the overdue tasks are among the
    uncompleted ones.  The user overview has one entry for every line of
    three fields of the user file, in the order of the file, and the same
    holds of the numbers of each entry. *)
Theorem generate_reports_counts_add_up (w : world) (lines : list string) :
  user_txt w = Some lines ->
  (forall t, In t (stored_tasks w) -> status_is t "no" = true ->
             PyDate.strptime (due_date t) <> None) ->
  exists (r : task_overview) (entries : list user_stats),
    generate_reports w
    = (Ok tt,
       add_events reports_written_events
         (set_user_overview entries (set_task_overview r w)))
    /\ total_tasks r = length (stored_tasks w)
    /\ (completed_tasks r + incomplete_tasks r = total_tasks r)%nat
    /\ (overdue_tasks r <= incomplete_tasks r)%nat
    /\ map stats_user entries = report_users lines
    /\ Forall
         (fun e =>
            user_task_count e
            = length (filter (fun t => (username t =? stats_user e)%string)
                        (stored_tasks w))
            /\ (user_completed e + user_incomplete e = user_task_count e)%nat
            /\ (user_overdue e <= user_incomplete e)%nat)
         entries.
Proof.
  intros Hf Hd.
  exists (task_counts (stored_tasks w) (today w)),
    (map (user_entry (stored_tasks w) (today w)) (report_users lines)).
  split; [now apply generate_reports_run |].
  assert (Hc : forall l, (count_completed l <= length l)%nat)
    by (intros l; unfold count_completed; apply filter_length_le).
  unfold task_counts. cbn [total_tasks completed_tasks incomplete_tasks overdue_tasks].
  split; [reflexivity |].
  split; [specialize (Hc (stored_tasks w)); lia |].
  split; [apply (overdue_loop_bound _ _ 0%nat) |].
  split.
  - rewrite map_map. cbn [user_entry stats_user]. apply map_id.
  - apply Forall_forall. intros e He. apply in_map_iff in He as (u & <- & _).
    unfold user_entry.
    cbn [user_task_count user_completed user_incomplete user_overdue stats_user].
    split; [reflexivity |].
    split; [specialize (Hc (filter (fun t => (username t =? u)%string) (stored_tasks w))); lia |].
    apply (overdue_loop_bound _ _ 0%nat).
Qed.

Lemma generate_reports_counts_add_up_witness :
  let w := start (Some two_users) (Some one_complete) [] a_day in
  exists (r : task_overview) (entries : list user_stats),
    generate_reports w
    = (Ok tt,
       add_events reports_written_events
         (set_user_overview entries (set_task_overview r w)))
    /\ r = TaskOverview 2 1 1 0
    /\ entries = [UserStats "alice" 2 1 1 0; UserStats "bob" 0 0 0 0].
Proof.
  intros w.
  destruct (generate_reports_counts_add_up w two_users) as (r & entries & E & _).
  - reflexivity.
  - intros t Ht _.
    assert (Hw : stored_tasks w
                 = [Task "1" "alice" "T1" "D" "2030-01-01" "2025-01-01" "No";
                    Task "2" "alice" "T2" "D" "2030-01-01" "2025-01-01" "Yes"])
      by (vm_compute; reflexivity).
    rewrite Hw in Ht. destruct Ht as [<- | [<- | []]]; discriminate.
  - exists r, entries. split; [exact E |].
    assert (E' : generate_reports w
                 = (Ok tt,
                    add_events reports_written_events
                      (set_user_overview
                         [UserStats "alice" 2 1 1 0; UserStats "bob" 0 0 0 0]
                         (set_task_overview (TaskOverview 2 1 1 0) w))))
      by (vm_compute; reflexivity).
    rewrite E in E'. inversion E'. split; reflexivity.
Defined.

(** X16.  The message [No task file found.] of [generate_reports] is shown
    when the user file is missing, and then the task overview has been
    written already and the user overview has not.  A missing task file
    raises nothing: both reports are written, with no task in them. *)
Theorem generate_reports_blames_the_task_file_for_a_missing_user_file (w : world) :
  match user_txt w with
  | None =>
      generate_reports w
      = (Ok tt,
         add_events
           [WroteTaskOverview; Header "ERROR"; Print "  No task file found."; Print "";
            Log ERROR "Reports generation failed - task file not found"]
           (set_task_overview (task_counts (stored_tasks w) (today w)) w))
  | Some lines =>
      match task_txt w with
      | None =>
          generate_reports w
          = (Ok tt,
             add_events reports_written_events
               (set_user_overview
                  (map (fun u => UserStats u 0 0 0 0) (report_users lines))
                  (set_task_overview (TaskOverview 0 0 0 0) w)))
      | Some _ => True
      end
  end.
Proof.
  destruct (user_txt w) as [lines |] eqn:Hf.
  - destruct (task_txt w) eqn:Ht; [exact I |].
    assert (Hs : stored_tasks w = []) by (unfold stored_tasks; now rewrite Ht).
    rewrite (generate_reports_run w lines Hf) by (rewrite Hs; contradiction).
    rewrite Hs. reflexivity.
  - now apply generate_reports_no_user_file.
Qed.

(** ** The exceptions that leave an operation *)

Section RaisesOnly.

Variable allowed : exn -> bool.

Lemma raises_only_ret {A} (a : A) : raises_only allowed (ret a).
Proof. intros w. exact I. Qed.

Lemma raises_only_raise {A} (e : exn) :
  allowed e = true -> raises_only allowed (@raise A e).
Proof. intros H w. exact H. Qed.

Lemma raises_only_emit (e : event) : raises_only allowed (emit e).
Proof. intros w. exact I. Qed.

Lemma raises_only_bind {A B} (m : M A) (k : A -> M B) :
  raises_only allowed m -> (forall a, raises_only allowed (k a)) ->
  raises_only allowed (bind m k).
Proof.
  intros Hm Hk w. unfold bind. specialize (Hm w).
  destruct (m w) as [[a | e] w1]; [apply Hk | exact Hm].
Qed.

Lemma raises_only_try_except {A} (inside : exn -> bool) (m : M A)
    (h : exn -> option (M A)) :
  raises_only inside m ->
  (forall e, inside e = true ->
             match h e with
             | Some k => raises_only allowed k
             | None => allowed e = true
             end) ->
  raises_only allowed (try_except m h).
Proof.
  intros Hm Hh w. unfold try_except. specialize (Hm w).
  destruct (m w) as [[a | e] w1]; [exact I |]. cbn [fst] in Hm.
  specialize (Hh e Hm). destruct (h e) as [k |]; [apply Hh | exact Hh].
Qed.

Lemma raises_only_for_each {A St} (l : list A) (body : A -> St -> M St) (s : St) :
  (forall x s', raises_only allowed (body x s')) ->
  raises_only allowed (for_each l body s).
Proof.
  intros Hbody. revert s. induction l as [| x r IH]; intros s; cbn [for_each].
  - apply raises_only_ret.
  - apply raises_only_bind; [apply Hbody | exact IH].
Qed.

Hypothesis allowed_eof : allowed EOFError = true.

Lemma raises_only_input (prompt : string) : raises_only allowed (input prompt).
Proof. intros w. unfold input. destruct (stdin w); [exact allowed_eof | exact I]. Qed.

Lemma raises_only_while_fuel {St A} (fuel : nat) (body : St -> M (St + A)) (s : St) :
  (forall s', raises_only allowed (body s')) ->
  raises_only allowed (while_fuel fuel body s).
Proof.
  intros Hbody. revert s. induction fuel as [| k IH]; intros s; cbn [while_fuel].
  - now apply raises_only_raise.
  - apply raises_only_bind; [apply Hbody |].
    intros [s' | a]; [apply IH | apply raises_only_ret].
Qed.

Lemma raises_only_while_true {St A} (body : St -> M (St + A)) (s : St) :
  (forall s', raises_only allowed (body s')) ->
  raises_only allowed (while_true body s).
Proof. intros Hbody w. unfold while_true. now apply raises_only_while_fuel. Qed.

End RaisesOnly.

Lemma raises_only_weaken {A} (allowed allowed' : exn -> bool) (m : M A) :
  raises_only allowed m -> (forall e, allowed e = true -> allowed' e = true) ->
  raises_only allowed' m.
Proof.
  intros Hm H w. specialize (Hm w). destruct (fst (m w)); [exact I | now apply H].
Qed.

Lemma raises_only_never {A} (allowed : exn -> bool) (m : M A) :
  (forall w, exists a, fst (m w) = Ok a) -> raises_only allowed m.
Proof. intros H w. destruct (H w) as [a ->]. exact I. Qed.

Lemma raises_only_any {A} (m : M A) : raises_only any_exception m.
Proof. intros w. now destruct (fst (m w)). Qed.

Lemma raises_only_read_lines (allowed : exn -> bool) (f : datafile) :
  allowed FileNotFoundError = true -> raises_only allowed (read_lines f).
Proof. intros H w. unfold read_lines. destruct (file_of f w); [exact I | exact H]. Qed.

(** One step of a proof that a computation raises only what is allowed. *)
Ltac raises_step :=
  match goal with
  | |- raises_only _ (bind _ _) => apply raises_only_bind
  | |- raises_only _ (ret _) => apply raises_only_ret
  | |- raises_only _ (emit _) => apply raises_only_emit
  | |- raises_only _ (print_header _) => apply raises_only_emit
  | |- raises_only _ (print _) => apply raises_only_emit
  | |- raises_only _ (logging _ _) => apply raises_only_emit
  | |- raises_only _ (raise _) => apply raises_only_raise; reflexivity
  | |- raises_only _ (input _) => apply raises_only_input; reflexivity
  | |- raises_only _ (read_lines _) => apply raises_only_read_lines; reflexivity
  | |- raises_only _ (for_each _ _ _) => apply raises_only_for_each
  | |- raises_only _ (while_true _ _) => apply raises_only_while_true; [reflexivity |]
  | |- raises_only _ (if ?b then _ else _) => destruct b
  | |- raises_only _ (match ?x with _ => _ end) => destruct x
  | |- raises_only _ (let '(_, _) := ?x in _) => destruct x
  | |- forall _, _ => intros ?
  | |- raises_only _ _ => progress cbv beta zeta
  | |- raises_only _ _ => solve [auto with raises]
  end.

Ltac raises_all := repeat raises_step.

Create HintDb raises.

Lemma read_all_tasks_raises (allowed : exn -> bool) : raises_only allowed read_all_tasks.
Proof.
  apply raises_only_never. intros w. rewrite read_all_tasks_run. eexists; reflexivity.
Qed.

Lemma write_all_tasks_raises (allowed : exn -> bool) (tasks : list task) :
  raises_only allowed (write_all_tasks tasks).
Proof. intros w. exact I. Qed.

Lemma write_lines_raises (allowed : exn -> bool) (f : datafile) (c : list string) :
  raises_only allowed (write_lines f c).
Proof. intros w. exact I. Qed.

Lemma append_line_raises (allowed : exn -> bool) (f : datafile) (line : string) :
  raises_only allowed (append_line f line).
Proof. intros w. exact I. Qed.

Lemma backup_file_raises (allowed : exn -> bool) (f : datafile) :
  raises_only allowed (backup_file f).
Proof.
  apply raises_only_never. intros w. rewrite backup_file_run. eexists; reflexivity.
Qed.

Lemma now_date_raises (allowed : exn -> bool) : raises_only allowed now_date.
Proof. intros w. exact I. Qed.

Lemma user_exists_raises (allowed : exn -> bool) (name : string) :
  raises_only allowed (user_exists name).
Proof.
  apply raises_only_never. intros w. rewrite user_exists_run. eexists; reflexivity.
Qed.

Lemma get_next_task_id_raises (allowed : exn -> bool) :
  raises_only allowed get_next_task_id.
Proof.
  apply raises_only_never. intros w. rewrite get_next_task_id_run. eexists; reflexivity.
Qed.

Lemma handle_file_error_raises (allowed : exn -> bool) (operation : string) (e : exn) :
  raises_only allowed (handle_file_error operation e).
Proof. unfold handle_file_error. raises_all. Qed.

Lemma validate_due_date_raises (allowed : exn -> bool) (x : string) :
  raises_only allowed (validate_due_date x).
Proof.
  apply raises_only_never. intros w.
  destruct (validate_due_date_run x w) as (ok & msg & E & _). rewrite E. eexists; reflexivity.
Qed.

#[local] Hint Resolve read_all_tasks_raises write_all_tasks_raises write_lines_raises
  append_line_raises backup_file_raises now_date_raises user_exists_raises
  get_next_task_id_raises handle_file_error_raises validate_due_date_raises : raises.

Lemma get_validated_input_raises (prompt : string)
    (validator_func : string -> M (bool * string)) :
  (forall x, raises_only end_of_input (validator_func x)) ->
  raises_only end_of_input (get_validated_input prompt validator_func).
Proof.
  intros Hv. unfold get_validated_input, get_validated_input_round. raises_all.
Qed.

Lemma non_empty_raises (field_name x : string) :
  raises_only end_of_input (non_empty field_name x).
Proof. apply raises_only_ret. Qed.

Lemma date_format_raises (x : string) : raises_only end_of_input (date_format x).
Proof. apply raises_only_ret. Qed.

#[local] Hint Resolve non_empty_raises date_format_raises : raises.
#[local] Hint Extern 1 (raises_only end_of_input (get_validated_input _ _)) =>
  apply get_validated_input_raises; intros ? : raises.

Lemma login_user_raises : raises_only end_of_input login_user.
Proof.
  unfold login_user. raises_all.
  apply (raises_only_try_except end_of_input missing_file_or_end_of_input).
  - raises_all.
  - intros [] H; try discriminate H; cbn; [raises_all | reflexivity].
Qed.

(** What raises nothing but the end of the input raises nothing but what a
    larger set allows. *)
Lemma raises_only_more {A} (allowed : exn -> bool) (m : M A) :
  allowed EOFError = true -> raises_only end_of_input m -> raises_only allowed m.
Proof.
  intros Ha Hm. apply (raises_only_weaken end_of_input); [exact Hm |].
  intros [] H; try discriminate H. exact Ha.
Qed.

#[local] Hint Extern 5 (raises_only end_of_input_or_value_error _) =>
  apply raises_only_more; [reflexivity |] : raises.
#[local] Hint Extern 5 (raises_only end_of_input_or_recursion _) =>
  apply raises_only_more; [reflexivity |] : raises.
#[local] Hint Extern 5 (raises_only ends_of_main _) =>
  apply raises_only_more; [reflexivity |] : raises.

Lemma format_int_raises (n : Z) :
  raises_only end_of_input_or_value_error (format_int n).
Proof. unfold format_int. raises_all. Qed.

#[local] Hint Resolve format_int_raises : raises.

Lemma add_task_raises : raises_only end_of_input_or_value_error add_task.
Proof. unfold add_task, ask_task_username. raises_all. Qed.

Lemma update_task_complete_raises : raises_only end_of_input update_task_complete.
Proof.
  unfold update_task_complete. raises_all.
  apply (raises_only_try_except end_of_input end_of_input).
  - unfold mark_body. raises_all.
  - intros [] H; try discriminate H. reflexivity.
Qed.

Lemma reset_task_incomplete_raises : raises_only end_of_input reset_task_incomplete.
Proof.
  unfold reset_task_incomplete. raises_all.
  apply (raises_only_try_except end_of_input end_of_input).
  - unfold reset_body. raises_all.
  - intros [] H; try discriminate H. reflexivity.
Qed.

Lemma delete_task_raises : raises_only end_of_input delete_task.
Proof.
  unfold delete_task. raises_all.
  apply (raises_only_try_except end_of_input no_exception).
  - raises_all.
  - intros e H. discriminate H.
Qed.

Lemma user_entries_loop_value_error (users : list string) (tasks : list task)
    (d : PyDate.date) (written written' : list user_stats) (e : exn) :
  user_entries_loop users tasks d written = (written', Some e) -> e = ValueError.
Proof.
  revert written. induction users as [| u rest IH]; intros written;
    cbn [user_entries_loop]; [discriminate |].
  destruct (user_overdue_sum _ d 0) as [n | e'] eqn:E; [apply IH |].
  intros [= _ <-]. clear - E.
  revert E. generalize 0%nat.
  induction (filter (fun t => (username t =? u)%string) tasks) as [| t l IHl];
    intros acc; cbn [user_overdue_sum]; [discriminate |].
  destruct (status_is t "no"); [| apply IHl].
  destruct (PyDate.strptime (due_date t)) as [due |]; [| now intros [= <-]].
  destruct (PyDate.ltb due d); apply IHl.
Qed.

Lemma write_user_overview_raises (users : list string) (tasks : list task)
    (d : PyDate.date) :
  raises_only missing_file_or_value_error (write_user_overview users tasks d).
Proof.
  intros w. unfold write_user_overview.
  destruct (user_entries_loop users tasks d []) as [written [e |]] eqn:E; [| exact I].
  cbn. now rewrite (user_entries_loop_value_error _ _ _ _ _ _ E).
Qed.

Lemma generate_reports_raises : raises_only no_exception generate_reports.
Proof.
  unfold generate_reports.
  apply (raises_only_try_except no_exception missing_file_or_value_error).
  - pose proof write_user_overview_raises.
    assert (forall r, raises_only missing_file_or_value_error (write_task_overview r))
      by (intros r w; exact I).
    raises_all.
  - intros [] H; try discriminate H; raises_all.
Qed.

Lemma register_user_raises : raises_only end_of_input register_user.
Proof.
  unfold register_user, ask_new_username, ask_password, ask_confirmation, ask_role.
  raises_all.
  apply (raises_only_try_except end_of_input missing_file_or_end_of_input).
  - raises_all.
  - intros [] H; try discriminate H; cbn; [raises_all | reflexivity].
Qed.

Lemma verify_and_update_user_roles_raises :
  raises_only end_of_input verify_and_update_user_roles.
Proof.
  unfold verify_and_update_user_roles.
  apply (raises_only_try_except end_of_input missing_file_or_end_of_input).
  - unfold verify_body, ask_role_for. raises_all.
  - intros [] H; try discriminate H; cbn; [raises_all | reflexivity].
Qed.

Lemma display_task_raises (allowed : exn -> bool) (t : task) :
  raises_only allowed (display_task t).
Proof. unfold display_task. raises_all. Qed.

Lemma display_task_for_user_raises (allowed : exn -> bool) (t : task) :
  raises_only allowed (display_task_for_user t).
Proof. unfold display_task_for_user. raises_all. Qed.

Lemma display_info_raises (allowed : exn -> bool) (u : User) :
  raises_only allowed (display_info u).
Proof. unfold display_info. raises_all. Qed.

#[local] Hint Resolve display_task_raises display_task_for_user_raises
  display_info_raises : raises.

Lemma view_all_tasks_raises : raises_only no_exception view_all_tasks.
Proof. unfold view_all_tasks. raises_all. Qed.

Lemma view_completed_tasks_raises : raises_only no_exception view_completed_tasks.
Proof. unfold view_completed_tasks. raises_all. Qed.

Lemma view_all_users_raises : raises_only no_exception view_all_users.
Proof.
  unfold view_all_users.
  apply (raises_only_try_except no_exception missing_file).
  - raises_all.
  - intros [] H; try discriminate H; cbn; raises_all.
Qed.

Lemma get_valid_task_number_in_raises (room : nat) (user_tasks : list task) :
  raises_only end_of_input_or_recursion (get_valid_task_number_in room user_tasks).
Proof.
  induction room as [| deeper IH]; cbn [get_valid_task_number_in];
    unfold get_valid_task_number_body; raises_all.
Qed.

Lemma get_valid_task_number_raises (user_tasks : list task) :
  raises_only end_of_input_or_recursion (get_valid_task_number user_tasks).
Proof.
  intros w. unfold get_valid_task_number. apply get_valid_task_number_in_raises.
Qed.

(** The id [get_valid_task_number] returns is the id of a task of the
    list. *)
Lemma get_valid_task_number_selected (user_tasks : list task) (w w' : world)
    (selection : string) :
  get_valid_task_number user_tasks w = (Ok (Some selection), w') ->
  existsb (fun t => (task_id t =? selection)%string) user_tasks = true.
Proof.
  unfold get_valid_task_number. generalize (recursion_room w) as room.
  intros room. revert w.
  assert (Hbody : forall (again : M (option string)) (w : world),
             (forall w0, again w0 = (Ok (Some selection), w') ->
                         existsb (fun t => (task_id t =? selection)%string) user_tasks
                         = true) ->
             get_valid_task_number_body again user_tasks w = (Ok (Some selection), w') ->
             existsb (fun t => (task_id t =? selection)%string) user_tasks = true).
  { intros again w Hagain. unfold get_valid_task_number_body, bind at 1.
    destruct (input select_prompt w) as [[raw | e] w1]; [| discriminate].
    destruct (PyStr.strip raw =? "-1")%string; [discriminate |].
    destruct (PyStr.strip raw =? "")%string; [discriminate |].
    destruct (PyStr.int (PyStr.strip raw)).
    - destruct (existsb (fun t => (task_id t =? PyStr.strip raw)%string) user_tasks)
        eqn:Ex.
      + intros Heq. unfold ret in Heq. inversion Heq; subst. exact Ex.
      + rewrite bind_print. apply Hagain.
    - rewrite bind_print. apply Hagain. }
  induction room as [| deeper IH]; intros w; cbn [get_valid_task_number_in];
    apply Hbody.
  - intros w0 H. discriminate H.
  - exact IH.
Qed.

Lemma existsb_find {A} (f : A -> bool) (l : list A) :
  existsb f l = true -> exists x, find f l = Some x.
Proof.
  induction l as [| a l IH]; [discriminate |]. cbn.
  destruct (f a); [eauto | exact IH].
Qed.

Lemma toggle_status_raises (selected : task) :
  raises_only end_of_input (toggle_status selected).
Proof.
  unfold toggle_status.
  apply (raises_only_try_except end_of_input end_of_input).
  - raises_all.
  - intros [] H; try discriminate H. reflexivity.
Qed.

Lemma edit_task_raises (my_username : string) (user_tasks : list task)
    (selected : task) :
  raises_only end_of_input (edit_task my_username user_tasks selected).
Proof.
  unfold edit_task. raises_all.
  all: apply (raises_only_try_except end_of_input end_of_input);
    [raises_all | intros [] H; try discriminate H; reflexivity].
Qed.

#[local] Hint Resolve toggle_status_raises edit_task_raises : raises.

(** The task that was selected is among the tasks listed: the menu never
    fails on an id it has accepted. *)
Lemma task_menu_round_raises (my_username : string) (user_tasks : list task) :
  raises_only end_of_input_or_recursion (task_menu_round my_username user_tasks).
Proof.
  intros w. unfold task_menu_round, bind at 1.
  pose proof (get_valid_task_number_raises user_tasks w) as H.
  pose proof (get_valid_task_number_selected user_tasks w) as Hs.
  destruct (get_valid_task_number user_tasks w) as [[[selection |] | e] w1].
  - pose proof (Hs w1 selection eq_refl) as Hex.
    apply existsb_find in Hex as [selected ->]. clear H Hs.
    revert w1. change (raises_only end_of_input_or_recursion
      (print_header ("TASK OPTIONS - " ++ title selected);;
       print ("  Current Status: " ++ complete selected);;
       print "";;
       raw <- input action_prompt;;
       let action_menu := PyStr.strip raw in
       r <- (if (action_menu =? "1")%string then
               toggle_status selected;; ret (inl user_tasks)
             else if (action_menu =? "2")%string then
               user_tasks' <- edit_task my_username user_tasks selected;;
               ret (inl user_tasks')
             else if (action_menu =? "3")%string then ret (inr tt)
             else
               print "  Error: Invalid choice. Please enter 1, 2, or 3.";;
               ret (inl user_tasks));;
       match r with
       | inr _ => ret (inr tt)
       | inl user_tasks' =>
           raw' <- input "  Select another task? (y/n): ";;
           let another := PyStr.lower (PyStr.strip raw') in
           if negb (another =? "y")%string then ret (inr tt)
           else ret (inl user_tasks')
       end)).
    raises_all.
  - exact I.
  - exact H.
Qed.

#[local] Hint Resolve task_menu_round_raises : raises.

Lemma view_my_tasks_raises : raises_only end_of_input_or_recursion view_my_tasks.
Proof.
  unfold view_my_tasks. raises_all.
  apply (raises_only_try_except end_of_input_or_recursion end_of_input_or_recursion).
  - raises_all.
  - intros [] H; try discriminate H; reflexivity.
Qed.

(** ** Room for the recursion of [get_valid_task_number] *)

Lemma keeps_room_refl (w : world) : keeps_room w w.
Proof. split; [reflexivity | lia]. Qed.

Lemma keeps_room_trans (a b c : world) :
  keeps_room a b -> keeps_room b c -> keeps_room a c.
Proof. intros [H1 H2] [H3 H4]. split; [congruence | lia]. Qed.

Lemma keeps_room_emit (e : event) : respects keeps_room (emit e).
Proof. intros w. split; [reflexivity | cbn; lia]. Qed.

Lemma keeps_room_input (prompt : string) : respects keeps_room (input prompt).
Proof.
  intros w. unfold input. destruct (stdin w) eqn:E; split; cbn; rewrite ?E; cbn;
    try reflexivity; lia.
Qed.

Lemma keeps_room_write_lines (f : datafile) (c : list string) :
  respects keeps_room (write_lines f c).
Proof. intros w. destruct f; split; cbn; try reflexivity; lia. Qed.

Ltac keeps_room_frame :=
  first [ exact keeps_room_refl | exact keeps_room_trans
        | exact (fun e _ => keeps_room_emit e) | exact keeps_room_input
        | exact keeps_room_write_lines ].

Lemma room_enough_kept (w w' : world) :
  keeps_room w w' -> room_enough w -> room_enough w'.
Proof. unfold room_enough. intros [H1 H2] H. rewrite H1. lia. Qed.

Lemma raises_only_from_respects {A} (allowed : exn -> bool) (m : M A) :
  raises_only allowed m -> respects keeps_room m ->
  raises_only_from room_enough allowed m.
Proof.
  intros Hr Hk w Hw. split; [exact (room_enough_kept _ _ (Hk w) Hw) | apply Hr].
Qed.

Lemma raises_only_from_while_fuel {St A} (allowed : exn -> bool) (fuel : nat)
    (body : St -> M (St + A)) (s : St) :
  allowed EOFError = true ->
  (forall s', raises_only_from room_enough allowed (body s')) ->
  raises_only_from room_enough allowed (while_fuel fuel body s).
Proof.
  intros Ha Hbody. revert s. induction fuel as [| k IH]; intros s w Hw.
  - split; [exact Hw | exact Ha].
  - cbn [while_fuel]. unfold bind. destruct (Hbody s w Hw) as [Hk Hr].
    destruct (body s w) as [[[s' | a] | e] w1]; cbn [fst snd] in *.
    + now apply IH.
    + now split.
    + now split.
Qed.

(** With no more lines left to read than calls can be nested,
    [get_valid_task_number] ends by itself or at the end of the input. *)
Lemma get_valid_task_number_in_room (room : nat) (user_tasks : list task) (w : world) :
  (length (stdin w) <= room)%nat ->
  match fst (get_valid_task_number_in room user_tasks w) with
  | Ok _ => True
  | Raise e => end_of_input e = true
  end.
Proof.
  revert w. induction room as [| deeper IH]; intros w Hw;
    cbn [get_valid_task_number_in]; unfold get_valid_task_number_body, bind at 1;
    unfold input; destruct (stdin w) as [| raw rest] eqn:E; try reflexivity;
    cbn [length] in Hw; try lia;
    (destruct (PyStr.strip raw =? "-1")%string; [exact I |]);
    (destruct (PyStr.strip raw =? "")%string; [exact I |]);
    (destruct (PyStr.int (PyStr.strip raw));
     [destruct (existsb _ user_tasks); [exact I |] |]);
    rewrite bind_print; apply IH; cbn; lia.
Qed.

Lemma get_valid_task_number_from (user_tasks : list task) :
  raises_only_from room_enough end_of_input (get_valid_task_number user_tasks).
Proof.
  intros w Hw. split.
  - apply (room_enough_kept w); [| exact Hw].
    apply respects_get_valid_task_number; keeps_room_frame.
  - unfold get_valid_task_number. now apply get_valid_task_number_in_room.
Qed.

Lemma task_menu_round_from (my_username : string) (user_tasks : list task) :
  raises_only_from room_enough end_of_input (task_menu_round my_username user_tasks).
Proof.
  intros w Hw. split.
  - apply (room_enough_kept w); [| exact Hw].
    apply respects_task_menu_round; keeps_room_frame.
  - unfold task_menu_round, bind at 1.
    destruct (get_valid_task_number_from user_tasks w Hw) as [_ H].
    pose proof (get_valid_task_number_selected user_tasks w) as Hs.
    destruct (get_valid_task_number user_tasks w) as [[[selection |] | e] w1].
    + pose proof (Hs w1 selection eq_refl) as Hex.
      apply existsb_find in Hex as [selected ->]. clear H Hs.
      revert w1. change (raises_only end_of_input
        (print_header ("TASK OPTIONS - " ++ title selected);;
         print ("  Current Status: " ++ complete selected);;
         print "";;
         raw <- input action_prompt;;
         let action_menu := PyStr.strip raw in
         r <- (if (action_menu =? "1")%string then
                 toggle_status selected;; ret (inl user_tasks)
               else if (action_menu =? "2")%string then
                 user_tasks' <- edit_task my_username user_tasks selected;;
                 ret (inl user_tasks')
               else if (action_menu =? "3")%string then ret (inr tt)
               else
                 print "  Error: Invalid choice. Please enter 1, 2, or 3.";;
                 ret (inl user_tasks));;
         match r with
         | inr _ => ret (inr tt)
         | inl user_tasks' =>
             raw' <- input "  Select another task? (y/n): ";;
             let another := PyStr.lower (PyStr.strip raw') in
             if negb (another =? "y")%string then ret (inr tt)
             else ret (inl user_tasks')
         end)).
      raises_all.
    + exact I.
    + exact H.
Qed.

Lemma view_my_tasks_from : raises_only_from room_enough end_of_input view_my_tasks.
Proof.
  intros w Hw. split.
  - apply (room_enough_kept w); [| exact Hw].
    apply respects_view_my_tasks; keeps_room_frame.
  - unfold view_my_tasks, bind at 1.
    assert (Hg : raises_only_from room_enough end_of_input
                   (get_validated_input "Enter your username: " (non_empty "Username"))).
    { apply raises_only_from_respects.
      - apply get_validated_input_raises. intros x. apply non_empty_raises.
      - apply respects_get_validated_input; try keeps_room_frame.
        intros x. apply respects_non_empty, keeps_room_refl. }
    destruct (Hg w Hw) as [Hw1 Hr].
    destruct (get_validated_input _ _ w) as [[my_username | e] w1];
      cbn [fst snd] in *; [| exact Hr].
    unfold try_except. rewrite bind_read_all_tasks. cbv zeta.
    rewrite bind_print_header.
    destruct (length _ =? 0)%nat; [run; exact I |].
    unfold bind at 1. rewrite for_each_display. run.
    match goal with
    | |- context [while_true ?body ?s ?w2] =>
        assert (Hw2 : room_enough w2) by exact Hw1;
        destruct (raises_only_from_while_fuel end_of_input
                    (S (length (stdin w2))) body s eq_refl
                    (task_menu_round_from my_username) w2 Hw2) as [_ Hl];
        change (while_fuel (S (length (stdin w2))) body s w2)
          with (while_true body s w2) in Hl;
        destruct (while_true body s w2) as [[[] | e] w3]; cbn [fst] in Hl
    end.
    + exact I.
    + destruct e; try discriminate Hl. reflexivity.
Qed.

(** X19.  The exceptions that leave the operations.  Nothing but the end
    of the input ends [login_user], [register_user],
    [verify_and_update_user_roles], [update_task_complete],
    [reset_task_incomplete] and [delete_task] with an exception.  [add_task]
    also raises [ValueError], and only when its next id has more digits than
    [str] writes.  [view_my_tasks] also raises [RecursionError], and only
    when more lines are left to read than calls of [get_valid_task_number]
    can be nested: the task menu always finds the task whose id it has
    accepted.  [generate_reports] and the three listings raise nothing at
    all: no [ValueError] of a date that is no date leaves
    [generate_reports]. *)
Theorem exceptions_that_leave_the_operations :
  raises_only end_of_input login_user
  /\ raises_only end_of_input register_user
  /\ raises_only end_of_input verify_and_update_user_roles
  /\ raises_only end_of_input update_task_complete
  /\ raises_only end_of_input reset_task_incomplete
  /\ raises_only end_of_input delete_task
  /\ raises_only end_of_input_or_value_error add_task
  /\ (forall w : world,
        fst (add_task w) = Raise ValueError ->
        exists id : Z, get_next_task_id w = (Ok id, w) /\ PyStr.str id = None)
  /\ raises_only end_of_input_or_recursion view_my_tasks
  /\ raises_only_from room_enough end_of_input view_my_tasks
  /\ raises_only no_exception generate_reports
  /\ raises_only no_exception view_all_tasks
  /\ raises_only no_exception view_completed_tasks
  /\ raises_only no_exception view_all_users.
Proof.
  repeat apply conj.
  - apply login_user_raises.
  - apply register_user_raises.
  - apply verify_and_update_user_roles_raises.
  - apply update_task_complete_raises.
  - apply reset_task_incomplete_raises.
  - apply delete_task_raises.
  - apply add_task_raises.
  - intros w E. pose proof (add_task_outcome w) as H.
    destruct (add_task w) as [[[] | e] w']; cbn [fst] in E; [discriminate |].
    inversion E; subst. destruct H as [[He | [_ Hs]] _]; [discriminate |].
    exists (next_task_id w). split; [apply get_next_task_id_next | exact Hs].
  - apply view_my_tasks_raises.
  - apply view_my_tasks_from.
  - apply generate_reports_raises.
  - apply view_all_tasks_raises.
  - apply view_completed_tasks_raises.
  - apply view_all_users_raises.
Qed.

(** ** The listings *)

Lemma for_each_display_task (tasks : list task) (w : world) :
  for_each tasks (fun t _ => display_task t) tt w
  = (Ok tt, add_events (flat_map display_task_events tasks) w).
Proof.
  revert w. induction tasks as [| t rest IH]; intros w.
  - cbn. now rewrite add_events_nil.
  - cbn [for_each flat_map]. unfold display_task at 1. run. rewrite IH. run.
    reflexivity.
Qed.

Lemma for_each_display_info (users : list User) (w : world) :
  for_each users (fun u _ => display_info u) tt w
  = (Ok tt, add_events (flat_map display_info_events users) w).
Proof.
  revert w. induction users as [| u rest IH]; intros w.
  - cbn. now rewrite add_events_nil.
  - cbn [for_each flat_map]. unfold display_info at 1. run. rewrite IH. run.
    reflexivity.
Qed.

Lemma users_loop_records (lines : list string) (users : list User) :
  users_loop lines users = (users ++ user_records lines)%list.
Proof.
  revert users. induction lines as [| line rest IH]; intros users.
  - cbn. now rewrite app_nil_r.
  - cbn [users_loop user_records]. unfold parse_user.
    destruct (PyStr.split_comma_space (PyStr.strip line))
      as [| a [| b [| c [| d l]]]]; rewrite IH; try reflexivity.
    now rewrite <- app_assoc.
Qed.

Lemma view_all_tasks_run (w : world) :
  view_all_tasks w = (Ok tt, add_events (all_tasks_events (stored_tasks w)) w).
Proof.
  unfold view_all_tasks, all_tasks_events. rewrite bind_read_all_tasks.
  destruct (length (stored_tasks w) =? 0)%nat.
  - run. reflexivity.
  - run. rewrite (bind_ok _ (for_each_display_task _ _)). run. reflexivity.
Qed.

Lemma view_completed_tasks_run (w : world) :
  view_completed_tasks w
  = (Ok tt,
     add_events
       (completed_tasks_events (filter (fun t => status_is t "yes") (stored_tasks w)))
       w).
Proof.
  unfold view_completed_tasks, completed_tasks_events. rewrite bind_read_all_tasks.
  cbv zeta.
  destruct (length (filter (fun t => status_is t "yes") (stored_tasks w)) =? 0)%nat.
  - run. reflexivity.
  - run. rewrite (bind_ok _ (for_each_display_task _ _)). run. reflexivity.
Qed.

Lemma view_all_users_run (w : world) :
  view_all_users w
  = (Ok tt, add_events (all_users_events (user_records (lines_of USER_FILE w))) w).
Proof.
  unfold view_all_users, all_users_events, try_except, lines_of. cbn [file_of].
  destruct (user_txt w) as [lines |] eqn:Hf.
  - rewrite (bind_read_lines USER_FILE lines) by exact Hf. cbv zeta.
    rewrite users_loop_records. cbn [app].
    destruct (length (user_records lines) =? 0)%nat.
    + run. reflexivity.
    + run. rewrite (bind_ok _ (for_each_display_info _ _)). run. reflexivity.
  - rewrite (bind_read_lines_absent USER_FILE) by exact Hf.
    cbn [on_FileNotFoundError user_records length Nat.eqb]. run. reflexivity.
Qed.

(** X18.  The three listings only print.  [view_all_tasks] shows every
    stored task and their number; [view_completed_tasks] shows the stored
    tasks whose status reads as yes, which are the tasks the task overview
    counts as completed; [view_all_users] shows the name and the role of
    every record of three fields, as many as the user overview has entries,
    and takes a user file that is missing for one that holds no record. *)
Theorem listings_show_what_the_reports_count (w : world) :
  let tasks := stored_tasks w in
  let completed := filter (fun t => status_is t "yes") tasks in
  let users := user_records (lines_of USER_FILE w) in
  view_all_tasks w = (Ok tt, add_events (all_tasks_events tasks) w)
  /\ view_completed_tasks w = (Ok tt, add_events (completed_tasks_events completed) w)
  /\ view_all_users w = (Ok tt, add_events (all_users_events users) w)
  /\ length tasks = total_tasks (task_counts tasks (today w))
  /\ length completed = completed_tasks (task_counts tasks (today w))
  /\ map User_username users = report_users (lines_of USER_FILE w).
Proof.
  intros tasks completed users.
  split; [apply view_all_tasks_run |].
  split; [apply view_completed_tasks_run |].
  split; [apply view_all_users_run |].
  split; [reflexivity |]. split; [reflexivity |].
  subst users. induction (lines_of USER_FILE w) as [| line rest IH]; [reflexivity |].
  cbn [user_records report_users]. unfold parse_user.
  destruct (PyStr.split_comma_space (PyStr.strip line))
    as [| a [| b [| c [| d l]]]]; cbn [length Nat.eqb hd map]; try exact IH.
  cbn [User_username]. now rewrite IH.
Qed.

(** ** The session loop of [main] *)

Lemma bind_display_non_admin_menu {B} (raw : string) (rest : list string)
    (k : string -> M B) (w : world) :
  bind display_non_admin_menu k (set_stdin (raw :: rest) w)
  = k (PyStr.lower raw)
      (set_stdin rest (add_events [Header "USER MENU"; Ask non_admin_menu_prompt] w)).
Proof. unfold display_non_admin_menu. run. reflexivity. Qed.

Lemma bind_display_admin_menu {B} (raw : string) (rest : list string)
    (k : string -> M B) (w : world) :
  bind display_admin_menu k (set_stdin (raw :: rest) w)
  = k (PyStr.lower raw)
      (set_stdin rest (add_events [Header "ADMIN MENU"; Ask admin_menu_prompt] w)).
Proof. unfold display_admin_menu. run. reflexivity. Qed.

(** X20.  A user whose role is not [admin], in any letter case, is refused
    every action the menus mark for admins, and also the reports and the
    statistics that the menu of the other users offers: the session loop
    shows a refusal and goes round again, and neither a file nor a report
    nor a snapshot has changed.  This holds whatever [display_statistics]
    does. *)
Theorem non_admin_is_refused (display_statistics : M unit) (current_user : User)
    (raw what : string) (rest : list string) (w : world) :
  is_admin current_user = false ->
  In (PyStr.lower raw, what)
    [("r", "register new users"); ("vu", "view all users");
     ("vr", "verify and update roles"); ("dt", "delete tasks");
     ("vc", "view completed tasks");
     ("rc", "reset completed tasks to incomplete"); ("gr", "generate reports");
     ("ds", "view statistics")] ->
  session_round display_statistics current_user tt (set_stdin (raw :: rest) w)
  = (Ok (inl tt),
     set_stdin rest
       (add_events
          [Header "USER MENU"; Ask non_admin_menu_prompt;
           Print (nl ++ "  ERROR: Only Admin users can " ++ what ++ "." ++ nl)]
          w)).
Proof.
  intros Ha Hin. unfold session_round. rewrite Ha.
  rewrite bind_display_non_admin_menu.
  cbn [In] in Hin.
  destruct Hin as [E | [E | [E | [E | [E | [E | [E | [E | []]]]]]]]];
    inversion E as [[E1 E2]]; cbn [String.eqb Ascii.eqb Bool.eqb]; run;
    reflexivity.
Qed.

Lemma non_admin_is_refused_witness :
  let bob := mkUser "bob" "hunter22" "Non-Admin" in
  let w := start (Some two_users) (Some three_tasks) [] a_day in
  session_round (ret tt) bob tt (set_stdin ["DT"; "3"] w)
  = (Ok (inl tt),
     set_stdin ["3"]
       (add_events
          [Header "USER MENU"; Ask non_admin_menu_prompt;
           Print (nl ++ "  ERROR: Only Admin users can delete tasks." ++ nl)]
          w)).
Proof.
  intros bob w.
  apply (non_admin_is_refused (ret tt) bob "DT" "delete tasks" ["3"] w).
  - reflexivity.
  - vm_compute. auto 10.
Defined.

Lemma generate_reports_returns (w : world) : fst (generate_reports w) = Ok tt.
Proof.
  pose proof (generate_reports_raises w) as H.
  destruct (fst (generate_reports w)) as [[] | e]; [reflexivity | discriminate].
Qed.

(** X21.  When an admin asks for the reports, the session loop shows that
    the reports were generated after [generate_reports] has returned,
    whatever [generate_reports] has done and shown: also after the error it
    shows when the user file is missing, where no user overview was
    written. *)
Theorem admin_is_told_of_success_whatever_the_reports_did
    (display_statistics : M unit) (current_user : User) (raw : string)
    (rest : list string) (w : world) :
  is_admin current_user = true ->
  PyStr.lower raw = "gr" ->
  let asked :=
    set_stdin rest
      (add_events
         [Header "ADMIN MENU"; Ask admin_menu_prompt; Header "GENERATING REPORTS"] w) in
  let told :=
    [Print "  Reports generated successfully!"; Print "    - task_overview.txt";
     Print "    - user_overview.txt"; Print ""] in
  session_round display_statistics current_user tt (set_stdin (raw :: rest) w)
  = (Ok (inl tt), add_events told (snd (generate_reports asked)))
  /\ (user_txt w = None ->
      snd (generate_reports asked)
      = add_events
          [WroteTaskOverview; Header "ERROR"; Print "  No task file found."; Print "";
           Log ERROR "Reports generation failed - task file not found"]
          (set_task_overview (task_counts (stored_tasks w) (today w)) asked)).
Proof.
  intros Ha Hm asked told. split.
  - unfold session_round. rewrite Ha, bind_display_admin_menu, Hm.
    cbn [String.eqb Ascii.eqb Bool.eqb]. run. fold asked.
    pose proof (generate_reports_returns asked) as Hr.
    destruct (generate_reports asked) as [r w1] eqn:E. cbn [fst snd] in *. subst r.
    unfold bind at 1. rewrite E. run. reflexivity.
  - intros Hf. rewrite generate_reports_no_user_file by exact Hf. reflexivity.
Qed.

Lemma admin_is_told_of_success_whatever_the_reports_did_witness :
  let alice := mkUser "alice" "secret1" "Admin" in
  let w := start None (Some three_tasks) [] a_day in
  trace (snd (session_round (ret tt) alice tt (set_stdin ["gr"] w)))
  = [Header "ADMIN MENU"; Ask admin_menu_prompt; Header "GENERATING REPORTS";
     WroteTaskOverview; Header "ERROR"; Print "  No task file found."; Print "";
     Log ERROR "Reports generation failed - task file not found";
     Print "  Reports generated successfully!"; Print "    - task_overview.txt";
     Print "    - user_overview.txt"; Print ""].
Proof.
  intros alice w.
  destruct (admin_is_told_of_success_whatever_the_reports_did (ret tt) alice "gr" [] w)
    as [E H]; [reflexivity | reflexivity |].
  rewrite E, (H eq_refl). vm_compute. reflexivity.
Defined.

(** ** The task menu does not ask who is logged in *)

Lemma view_my_tasks_toggle (w : world) (name raw another : string)
    (rest : list string) (selected : task) (n : Z) :
  PyStr.strip name <> "" ->
  PyStr.strip raw <> "-1" ->
  PyStr.strip raw <> "" ->
  PyStr.int (PyStr.strip raw) = Some n ->
  find (fun t => (task_id t =? PyStr.strip raw)%string)
    (filter (fun t => (username t =? PyStr.strip name)%string) (stored_tasks w))
  = Some selected ->
  PyStr.lower (PyStr.strip another) <> "y" ->
  let user_tasks :=
    filter (fun t => (username t =? PyStr.strip name)%string) (stored_tasks w) in
  view_my_tasks (set_stdin (name :: raw :: "1" :: another :: rest) w)
  = (Ok tt,
     set_stdin rest
       (add_events
          (my_tasks_events (PyStr.strip name) user_tasks
           ++ toggle_round_events selected)
          (set_file TASK_FILE
             (map task_line
                (map (with_status (task_id selected) (new_status (complete selected)))
                   (stored_tasks w)))
             w))).
Proof.
  intros Hname H1 H2 Hint Hfind Hn user_tasks.
  unfold view_my_tasks.
  change (set_stdin (name :: raw :: "1" :: another :: rest) w)
    with (set_stdin ([] ++ name :: raw :: "1" :: another :: rest) w).
  rewrite bind_get_validated_input_non_empty by (first [constructor | assumption]).
  unfold try_except. run. fold user_tasks.
  assert (Hlen : (length user_tasks =? 0)%nat = false).
  { subst user_tasks.
    destruct (filter _ (stored_tasks w)); [discriminate Hfind | reflexivity]. }
  rewrite Hlen. run.
  rewrite (bind_ok _ (for_each_display _ _)). run.
  unfold while_true.
  match goal with
  | |- context [while_fuel _ _ _ (set_stdin _ ?w0)] =>
      pose proof (task_menu_round_toggle (PyStr.strip name) user_tasks raw another
                    rest w0 selected n H1 H2 Hint Hfind) as T
  end.
  rewrite (proj2 (String.eqb_neq _ _) Hn) in T.
  cbn [stdin set_stdin length].
  rewrite (while_fuel_leave _ T). unfold my_tasks_events, retry_events.
  cbn [flat_map]. run. reflexivity.
Qed.

(** X22.  [view_my_tasks] asks for a username and never looks at the user
    who is logged in: in a session of any user, admin or not, the choice
    [vm] followed by the name of a user who has tasks, the id of one of
    these tasks and the action 1 rewrites the task file with the status of
    that task changed. *)
Theorem any_session_toggles_the_task_of_any_user (display_statistics : M unit)
    (current_user : User) (menu name raw another : string) (rest : list string)
    (w : world) (selected : task) (n : Z) :
  PyStr.lower menu = "vm" ->
  PyStr.strip name <> "" ->
  PyStr.strip raw <> "-1" ->
  PyStr.strip raw <> "" ->
  PyStr.int (PyStr.strip raw) = Some n ->
  find (fun t => (task_id t =? PyStr.strip raw)%string)
    (filter (fun t => (username t =? PyStr.strip name)%string) (stored_tasks w))
  = Some selected ->
  PyStr.lower (PyStr.strip another) <> "y" ->
  let result :=
    session_round display_statistics current_user tt
      (set_stdin (menu :: name :: raw :: "1" :: another :: rest) w) in
  let toggled :=
    map (with_status (PyStr.strip raw) (new_status (complete selected)))
      (stored_tasks w) in
  fst result = Ok (inl tt)
  /\ stdin (snd result) = rest
  /\ task_txt (snd result) = Some (map task_line toggled)
  /\ stored_tasks (snd result) = toggled.
Proof.
  intros Hm Hname H1 H2 Hint Hfind Hn result toggled. subst result toggled.
  rewrite <- (find_id _ _ _ Hfind) at 1 2.
  assert (R : exists evs : list event,
             session_round display_statistics current_user tt
               (set_stdin (menu :: name :: raw :: "1" :: another :: rest) w)
             = (Ok (inl tt),
                set_stdin rest
                  (add_events evs
                     (set_file TASK_FILE
                        (map task_line
                           (map (with_status (task_id selected)
                                   (new_status (complete selected)))
                              (stored_tasks w)))
                        w)))).
  { unfold session_round.
    destruct (is_admin current_user);
      [rewrite bind_display_admin_menu | rewrite bind_display_non_admin_menu];
      rewrite Hm; cbn [String.eqb Ascii.eqb Bool.eqb]; unfold bind at 1;
      rewrite (view_my_tasks_toggle _ name raw another rest selected n)
        by assumption;
      run; eexists; reflexivity. }
  destruct R as [evs ->]. cbn [fst snd].
  split; [reflexivity |]. split; [reflexivity |]. split; [reflexivity |].
  apply stored_after_status_edit, new_status_yes_or_no.
Qed.

Lemma any_session_toggles_the_task_of_any_user_witness :
  let bob := mkUser "bob" "hunter22" "Non-Admin" in
  let w := start (Some two_users) (Some three_tasks) [] a_day in
  let result :=
    session_round (ret tt) bob tt (set_stdin ["vm"; "alice"; "2"; "1"; "n"] w) in
  fst result = Ok (inl tt)
  /\ map complete (stored_tasks w) = ["No"; "No"; "No"]
  /\ map complete (stored_tasks (snd result)) = ["No"; "Yes"; "No"].
Proof.
  intros bob w.
  destruct (any_session_toggles_the_task_of_any_user (ret tt) bob "vm" "alice" "2" "n"
              [] w (Task "2" "alice" "T2" "D" "2030-01-01" "2025-01-01" "No") 2)
    as (H1 & _ & _ & H4); try discriminate; try (vm_compute; reflexivity).
  split; [exact H1 |]. split; [vm_compute; reflexivity |].
  rewrite H4. vm_compute. reflexivity.
Defined.

(** ** What [get_validated_input] returns *)


(** ** A due date in the past *)

Lemma strptime_not_empty (s : string) (d : PyDate.date) :
  PyDate.strptime s = Some d -> validate_date_format s = (true, "").
Proof.
  intros H. unfold validate_date_format. rewrite H.
  destruct s; [discriminate H | reflexivity].
Qed.

(** X14.  The edit of the task menu checks the form of a new due date and
    not its day: it writes a due date that lies before today, which
    [validate_due_date], the check of [add_task], refuses. *)
Theorem edit_takes_a_due_date_that_add_task_refuses (my_username : string)
    (user_tasks : list task) (raw raw_date another : string) (rest : list string)
    (w : world) (selected : task) (n : Z) (d : PyDate.date) :
  PyStr.strip raw <> "-1" ->
  PyStr.strip raw <> "" ->
  PyStr.int (PyStr.strip raw) = Some n ->
  find (fun t => (task_id t =? PyStr.strip raw)%string) user_tasks = Some selected ->
  PyStr.lower (PyStr.strip (complete selected)) <> "yes" ->
  existsb (fun t => (task_id t =? task_id selected)%string) (stored_tasks w) = true ->
  PyDate.strptime (PyStr.strip raw_date) = Some d ->
  PyDate.ltb d (today w) = true ->
  let round :=
    task_menu_round my_username user_tasks
      (set_stdin (raw :: "2" :: "2" :: raw_date :: another :: rest) w) in
  validate_due_date (PyStr.strip raw_date) w
  = (Ok (false, "Due date cannot be in the past."), w)
  /\ task_txt (snd round)
     = Some (map task_line
               (map (with_edit (task_id selected) (username selected)
                       (PyStr.strip raw_date))
                  (stored_tasks w))).
Proof.
  intros H1 H2 Hint Hfind Hc Hex Hd Hpast round. subst round. split.
  - unfold validate_due_date. rewrite (strptime_not_empty _ _ Hd). cbn [negb].
    rewrite Hd. unfold bind, now_date. now rewrite Hpast.
  - rewrite (task_menu_round_edit_due_date my_username user_tasks raw raw_date another
               rest w selected n H1 H2 Hint Hfind Hc (strptime_not_empty _ _ Hd) Hex).
    reflexivity.
Qed.

Lemma edit_takes_a_due_date_that_add_task_refuses_witness :
  let w := start (Some two_users) (Some three_tasks) [] a_day in
  let user_tasks := filter (fun t => (username t =? "alice")%string) (stored_tasks w) in
  let round :=
    task_menu_round "alice" user_tasks
      (set_stdin ["1"; "2"; "2"; "1999-12-31"; "n"] w) in
  validate_due_date "1999-12-31" w = (Ok (false, "Due date cannot be in the past."), w)
  /\ task_txt (snd round)
     = Some ["1, alice, T1, D, 1999-12-31, 2025-01-01, No" ++ nl;
             "2, alice, T2, D, 2030-01-01, 2025-01-01, No" ++ nl;
             "3, bob, T3, D, 2020-01-01, 2025-01-01, No" ++ nl].
Proof.
  intros w user_tasks.
  destruct (edit_takes_a_due_date_that_add_task_refuses "alice" user_tasks "1"
              "1999-12-31" "n" [] w
              (Task "1" "alice" "T1" "D" "2030-01-01" "2025-01-01" "No") 1
              (PyDate.Date 1999 12 31))
    as [E1 E2]; try discriminate; try (vm_compute; reflexivity).
  split; [exact E1 |]. rewrite E2. vm_compute. reflexivity.
Defined.

(** ** What [delete_task] leaves *)

Lemma filter_none (A : Type) (f : A -> bool) (l : list A) :
  existsb f l = false -> filter (fun x => negb (f x)) l = l.
Proof.
  induction l as [| a l IH]; [reflexivity |]. cbn [existsb filter].
  intros H. apply orb_false_elim in H as [Ha Hl]. now rewrite Ha, IH.
Qed.

Lemma existsb_filter_out (A : Type) (f : A -> bool) (l : list A) :
  existsb f (filter (fun x => negb (f x)) l) = false.
Proof.
  induction l as [| a l IH]; [reflexivity |]. cbn [filter].
  destruct (f a) eqn:E; cbn [negb existsb]; [exact IH | now rewrite E, IH].
Qed.

Lemma delete_task_stored (w : world) (raw : string) (rest : list string) :
  fst (delete_task (set_stdin (raw :: rest) w)) = Ok tt
  /\ stdin (snd (delete_task (set_stdin (raw :: rest) w))) = rest
  /\ stored_tasks (snd (delete_task (set_stdin (raw :: rest) w)))
     = filter (fun t => negb (matches (PyStr.strip raw) t)) (stored_tasks w)
  /\ (existsb (matches (PyStr.strip raw)) (stored_tasks w) = false ->
      delete_task (set_stdin (raw :: rest) w)
      = (Ok tt,
         set_stdin rest
           (add_events
              [Header "DELETE TASK"; Ask "Enter the task ID or task title to delete: ";
               Backup TASK_FILE (backup_result TASK_FILE w); Header "ERROR";
               Print ("  Task '" ++ PyStr.strip raw ++ "' not found."); Print ""]
              (backup_world TASK_FILE w)))).
Proof.
  rewrite delete_task_run.
  destruct (delete_loop_spec (stored_tasks w) (PyStr.strip raw) false "" [])
    as [info ->].
  cbn [orb app].
  destruct (existsb (matches (PyStr.strip raw)) (stored_tasks w)) eqn:Ex;
    cbn [fst snd].
  - split; [reflexivity |]. split; [reflexivity |]. split; [| discriminate].
    rewrite stored_tasks_events. 
    change (set_file TASK_FILE ?c (set_stdin ?i ?x))
      with (set_stdin i (set_file TASK_FILE c x)).
    rewrite <- (add_events_nil (set_file _ _ _)).
    apply stored_after_write.
    apply Forall_forall. intros t Ht. apply filter_In in Ht as [Ht _].
    pose proof (stored_canonical w) as Hc. rewrite Forall_forall in Hc. now apply Hc.
  - split; [reflexivity |]. split; [reflexivity |].
    split; [| intros _; run; reflexivity].
    autorewrite with run. symmetry. now apply filter_none.
Qed.

(** X13.  [delete_task] always returns, and leaves as stored tasks exactly
    the tasks that the text typed matches neither by id nor by title, in
    their order.  A second deletion with the same text finds nothing: it
    shows that the task was not found and leaves the task file as it is. *)
Theorem delete_task_leaves_the_tasks_that_match_nothing (w : world) (raw : string)
    (rest rest' : list string) :
  let first := delete_task (set_stdin (raw :: rest) w) in
  let second := delete_task (set_stdin (raw :: rest') (snd first)) in
  fst first = Ok tt
  /\ stored_tasks (snd first)
     = filter (fun t => negb (matches (PyStr.strip raw) t)) (stored_tasks w)
  /\ fst second = Ok tt
  /\ task_txt (snd second) = task_txt (snd first)
  /\ In (Print ("  Task '" ++ PyStr.strip raw ++ "' not found.")) (trace (snd second)).
Proof.
  intros first second.
  destruct (delete_task_stored w raw rest) as (F1 & _ & F2 & _). fold first in F1, F2.
  split; [exact F1 |]. split; [exact F2 |].
  assert (Hnone : existsb (matches (PyStr.strip raw)) (stored_tasks (snd first)) = false)
    by (rewrite F2; apply existsb_filter_out).
  destruct (delete_task_stored (snd first) raw rest') as (_ & _ & _ & S).
  specialize (S Hnone). subst second. rewrite S. cbn [fst snd].
  split; [reflexivity |]. split.
  - cbn [task_txt set_stdin add_events]. apply task_txt_backup.
  - cbn [trace set_stdin add_events]. rewrite trace_backup.
    apply in_or_app. right. cbn. auto 10.
Qed.

(** ** The next id after a deletion *)

Lemma int_ids_In (tasks : list task) (id : Z) :
  In id (int_ids tasks) <-> exists t, In t tasks /\ PyStr.int (task_id t) = Some id.
Proof.
  induction tasks as [| t rest IH]; cbn [int_ids].
  - split; [contradiction | intros (t & [] & _)].
  - destruct (PyStr.int (task_id t)) as [n |] eqn:E.
    + cbn [In]. rewrite IH. split.
      * intros [<- | (u & Hu & Eu)]; [exists t; auto | exists u; auto].
      * intros (u & [<- | Hu] & Eu); [left; congruence | right; eauto].
    + rewrite IH. split.
      * intros (u & Hu & Eu). exists u; cbn; auto.
      * intros (u & [<- | Hu] & Eu); [congruence | eauto].
Qed.

(** C1 (as amended).  The id [get_next_task_id] returns is one more than the
    largest integer id among the tasks stored at that moment, so it is
    strictly greater than the integer id of every stored task, and it is 1
    when no stored task has a positive id.  Nothing is kept of the ids of
    deleted tasks: after [delete_task] the next id is again one more than
    the largest id left, so it is never greater than before; once every
    task that holds the largest id [m] has been deleted, the next id is at
    most [m], and it is [m] itself when a task with the id [m - 1] is
    left. *)
Theorem get_next_task_id_above_stored_ids (w : world) :
  exists n : Z,
    get_next_task_id w = (Ok n, w)
    /\ 1 <= n
    /\ (forall id, In id (int_ids (stored_tasks w)) -> id < n)
    /\ (n = 1 \/ In (n - 1) (int_ids (stored_tasks w)))
    /\ forall (raw : string) (rest : list string),
         let w1 := snd (delete_task (set_stdin (raw :: rest) w)) in
         exists n1 : Z,
           get_next_task_id w1 = (Ok n1, w1)
           /\ n1 <= n
           /\ ((forall t, In t (stored_tasks w) ->
                          PyStr.int (task_id t) = Some (n - 1) ->
                          matches (PyStr.strip raw) t = true) ->
               1 < n ->
               n1 <= n - 1
               /\ ((exists t, In t (stored_tasks w)
                              /\ PyStr.int (task_id t) = Some (n - 2)
                              /\ matches (PyStr.strip raw) t = false) ->
                   n1 = n - 1)).
Proof.
  destruct (get_next_task_id_stored w) as (n & Hn & H1 & Habove & Htight).
  exists n. repeat split; try assumption.
  intros raw rest w1.
  destruct (delete_task_stored w raw rest) as (_ & _ & Hstored & _).
  fold w1 in Hstored.
  destruct (get_next_task_id_stored w1) as (n1 & Hn1 & H11 & Habove1 & Htight1).
  exists n1. split; [exact Hn1 |].
  assert (Hsub : forall id, In id (int_ids (stored_tasks w1)) ->
                            exists t, In t (stored_tasks w)
                                      /\ matches (PyStr.strip raw) t = false
                                      /\ PyStr.int (task_id t) = Some id).
  { intros id Hid. apply int_ids_In in Hid as (t & Ht & Et).
    rewrite Hstored in Ht. apply filter_In in Ht as [Ht Hm].
    apply negb_true_iff in Hm. eauto. }
  assert (Hle : n1 <= n).
  { destruct Htight1 as [-> | Hin]; [exact H1 |].
    destruct (Hsub _ Hin) as (t & Ht & _ & Et).
    assert (In (n1 - 1) (int_ids (stored_tasks w))) by (apply int_ids_In; eauto).
    pose proof (Habove (n1 - 1) H). lia. }
  split; [exact Hle |].
  intros Hall Hbig.
  assert (Hlt : n1 <= n - 1).
  { destruct Htight1 as [-> | Hin]; [lia |].
    destruct (Hsub _ Hin) as (t & Ht & Hm & Et).
    destruct (Z.eq_dec (n1 - 1) (n - 1)) as [E | E]; [| lia].
    rewrite E in Et. rewrite (Hall t Ht Et) in Hm. discriminate. }
  split; [exact Hlt |].
  intros (t & Ht & Et & Hm).
  assert (Hin : In (n - 2) (int_ids (stored_tasks w1))).
  { apply int_ids_In. exists t. split; [| exact Et].
    rewrite Hstored. apply filter_In. split; [exact Ht |]. now rewrite Hm. }
  pose proof (Habove1 _ Hin). lia.
Qed.

(** With the ids 1 and 3 stored, the deletion of task 3 makes the next id
    2: an id below the one that was deleted. *)
Example next_id_after_deleting_the_largest :
  let tasks :=
    ["1, alice, T1, D, 2030-01-01, 2025-01-01, No" ++ nl;
     "3, bob, T3, D, 2020-01-01, 2025-01-01, No" ++ nl] in
  let w := start (Some two_users) (Some tasks) ["3"] a_day in
  fst (get_next_task_id w) = Ok 4
  /\ fst (get_next_task_id (snd (delete_task w))) = Ok 2.
Proof. vm_compute. split; reflexivity. Qed.

(** ** The numbers of the users add up to the numbers of the tasks *)

Lemma overdue_loop_filter (tasks : list task) (d : PyDate.date) (acc : nat) :
  overdue_loop tasks d acc = (acc + length (filter (is_overdue d) tasks))%nat.
Proof.
  revert acc. induction tasks as [| t rest IH]; intros acc; [cbn; lia |].
  cbn [overdue_loop filter]. unfold is_overdue at 1.
  destruct (status_is t "no"); cbn [andb]; [| apply IH].
  destruct (PyDate.strptime (due_date t)) as [due |]; [| apply IH].
  destruct (PyDate.ltb due d); rewrite IH; cbn [length]; lia.
Qed.

(** Tasks counted user by user are counted once each when every task
    belongs to one of the users and no user is listed twice. *)
Lemma count_by_user (p : task -> bool) (users : list string) (tasks : list task) :
  NoDup users ->
  (forall t, In t tasks -> In (username t) users) ->
  sum_of (map (fun u => length (filter p (filter (fun t => (username t =? u)%string)
                                             tasks)))
            users)
  = length (filter p tasks).
Proof.
  intros Hnd. induction tasks as [| t rest IH]; intros Hin.
  - clear. induction users as [| u us IHus]; [reflexivity |].
    cbn [map sum_of fold_right filter length Nat.add] in *. exact IHus.
  - specialize (IH (fun x Hx => Hin x (or_intror Hx))).
    assert (Hone : forall (us : list string),
               NoDup us ->
               sum_of (map (fun u => length (filter p (filter (fun t => (username t =? u)%string)
                                                        (t :: rest))))
                         us)
               = ((if p t then if existsb (String.eqb (username t)) us then 1 else 0
                   else 0)
                  + sum_of (map (fun u => length (filter p (filter (fun t => (username t =? u)%string)
                                                              rest)))
                              us))%nat).
    { clear. induction us as [| u us IHus]; intros Hnd.
      - cbn. now destruct (p t).
      - inversion Hnd as [| ? ? Hnot Hnd']; subst. cbn [map sum_of fold_right existsb].
        fold (sum_of (map (fun u => length (filter p (filter (fun t0 => (username t0 =? u)%string)
                                                        (t :: rest)))) us)).
        fold (sum_of (map (fun u => length (filter p (filter (fun t0 => (username t0 =? u)%string)
                                                        rest))) us)).
        rewrite (IHus Hnd'). cbn [filter].
        destruct (String.eqb_spec (username t) u) as [E | E].
        + assert (Hno : existsb (String.eqb (username t)) us = false).
          { apply not_true_is_false. intros Hex. apply existsb_exists in Hex as (v & Hv & Ev).
            apply String.eqb_eq in Ev. subst. now apply Hnot. }
          rewrite Hno. cbn [filter orb]. destruct (p t); cbn [length]; lia.
        + cbn [orb]. destruct (p t); lia. }
    rewrite (Hone users Hnd), IH. cbn [filter].
    assert (Hex : existsb (String.eqb (username t)) users = true).
    { apply existsb_exists. exists (username t). split; [apply Hin; now left |].
      apply String.eqb_refl. }
    rewrite Hex. destruct (p t); cbn [length]; lia.
Qed.

(** X17.  When every due date of a task whose status reads as no is a date
    (the user overview gives up on any other), no name is listed twice in
    the user file and every stored task is assigned to a listed name, the
    numbers of the user overview add up to the numbers of the task overview:
    the tasks, the completed tasks and the overdue tasks. *)
Theorem user_overview_adds_up_to_task_overview (w : world) (lines : list string) :
  user_txt w = Some lines ->
  (forall t, In t (stored_tasks w) -> status_is t "no" = true ->
             PyDate.strptime (due_date t) <> None) ->
  NoDup (report_users lines) ->
  (forall t, In t (stored_tasks w) -> In (username t) (report_users lines)) ->
  exists (r : task_overview) (entries : list user_stats),
    generate_reports w
    = (Ok tt,
       add_events reports_written_events
         (set_user_overview entries (set_task_overview r w)))
    /\ sum_of (map user_task_count entries) = total_tasks r
    /\ sum_of (map user_completed entries) = completed_tasks r
    /\ sum_of (map user_overdue entries) = overdue_tasks r.
Proof.
  intros Hf Hd Hnd Hin.
  exists (task_counts (stored_tasks w) (today w)),
    (map (user_entry (stored_tasks w) (today w)) (report_users lines)).
  split; [now apply generate_reports_run |].
  unfold task_counts. cbn [total_tasks completed_tasks overdue_tasks].
  rewrite !map_map. unfold user_entry.
  cbn [user_task_count user_completed user_overdue].
  split; [| split].
  - assert (Ht : forall l : list task, filter (fun _ => true) l = l)
      by (induction l as [| a l IHl]; [reflexivity | cbn; now rewrite IHl]).
    transitivity (length (filter (fun _ : task => true) (stored_tasks w)));
      [| now rewrite Ht].
    rewrite <- (count_by_user (fun _ => true) (report_users lines) (stored_tasks w) Hnd Hin).
    f_equal. apply map_ext. intros u. now rewrite Ht.
  - unfold count_completed.
    apply (count_by_user (fun t => status_is t "yes") _ _ Hnd Hin).
  - rewrite overdue_loop_filter. cbn [Nat.add].
    rewrite <- (count_by_user (is_overdue (today w)) _ _ Hnd Hin).
    f_equal. apply map_ext. intros u. now rewrite overdue_loop_filter.
Qed.

Lemma user_overview_adds_up_to_task_overview_witness :
  let w := start (Some two_users) (Some three_tasks) [] a_day in
  exists (r : task_overview) (entries : list user_stats),
    generate_reports w
    = (Ok tt,
       add_events reports_written_events
         (set_user_overview entries (set_task_overview r w)))
    /\ sum_of (map user_task_count entries) = total_tasks r
    /\ sum_of (map user_completed entries) = completed_tasks r
    /\ sum_of (map user_overdue entries) = overdue_tasks r.
Proof.
  intros w.
  assert (Hw : stored_tasks w
               = [Task "1" "alice" "T1" "D" "2030-01-01" "2025-01-01" "No";
                  Task "2" "alice" "T2" "D" "2030-01-01" "2025-01-01" "No";
                  Task "3" "bob" "T3" "D" "2020-01-01" "2025-01-01" "No"])
    by (vm_compute; reflexivity).
  assert (Hu : report_users two_users = ["alice"; "bob"]) by (vm_compute; reflexivity).
  apply (user_overview_adds_up_to_task_overview w two_users).
  - reflexivity.
  - intros t Ht _. rewrite Hw in Ht.
    destruct Ht as [<- | [<- | [<- | []]]]; discriminate.
  - rewrite Hu. repeat constructor; cbn; intuition discriminate.
  - intros t Ht. rewrite Hw in Ht. rewrite Hu.
    destruct Ht as [<- | [<- | [<- | []]]]; cbn; auto.
Defined.

(** ** The names [validate_username] accepts *)

Lemma word_chars_to_end_spec (s : string) :
  word_chars_to_end s = true
  <-> word_only s = true \/ exists b, s = b ++ nl /\ word_only b = true.
Proof.
  induction s as [| c r IH]; cbn [word_chars_to_end word_only].
  - split; auto.
  - destruct (is_word_char c) eqn:Ec; cbn [andb].
    + rewrite IH. split.
      * intros [H | (b & -> & Hb)]; [now left |]. right.
        exists (String c b). cbn [append word_only]. now rewrite Ec.
      * intros [H | (b & E & Hb)]; [now left |]. right.
        destruct b as [| c' b']; cbn [append] in E.
        -- inversion E; subst. discriminate Ec.
        -- inversion E; subst. cbn [word_only] in Hb.
           apply andb_prop in Hb as [_ Hb]. eauto.
    + split.
      * intros H. apply andb_prop in H as [H1 H2].
        apply Ascii.eqb_eq in H1. apply String.eqb_eq in H2. subst.
        right. exists "". split; reflexivity.
      * intros [H | (b & E & Hb)]; [discriminate |].
        destruct b as [| c' b']; cbn [append] in E.
        -- inversion E; subst. reflexivity.
        -- inversion E; subst. cbn [word_only] in Hb. rewrite Ec in Hb. discriminate.
Qed.

(** X2.  [validate_username] accepts a text exactly when it has 3 to 20
    characters and is made of letters of the English alphabet, digits and
    underscores, where the last character may also be a line feed: the [$]
    of the pattern lets a line feed at the end through.  The name
    [register_user] checks is stripped, so it holds no line feed. *)
Theorem validate_username_accepts (username : string) :
  validate_username username = (true, "")
  <-> (3 <= String.length username <= 20)%nat
      /\ (word_only username = true
          \/ exists b, username = b ++ nl /\ b <> "" /\ word_only b = true).
Proof.
  split.
  - intros H. assert (Hf : fst (validate_username username) = true) by now rewrite H.
    apply validate_username_true in Hf as (_ & Hre & Hlen). split; [exact Hlen |].
    destruct username as [| c r]; [discriminate |]. cbn [re_match_username] in Hre.
    apply andb_prop in Hre as [Hc Hr]. apply word_chars_to_end_spec in Hr.
    destruct Hr as [Hr | (b & -> & Hb)].
    + left. cbn [word_only]. now rewrite Hc, Hr.
    + right. exists (String c b). cbn [append word_only]. rewrite Hc, Hb.
      repeat split. discriminate.
  - intros [Hlen Hw]. unfold validate_username.
    destruct username as [| c r]; [cbn in Hlen; lia |].
    cbn [String.eqb].
    destruct (Nat.ltb_spec (String.length (String c r)) 3); [lia |].
    destruct (Nat.ltb_spec 20 (String.length (String c r))); [lia |].
    assert (Hre : re_match_username (String c r) = true).
    { cbn [re_match_username]. destruct Hw as [Hw | (b & E & Hne & Hb)].
      - cbn [word_only] in Hw. apply andb_prop in Hw as [Hc Hr]. rewrite Hc.
        apply word_chars_to_end_spec. now left.
      - destruct b as [| c' b']; [congruence |]. cbn [append] in E.
        inversion E; subst. cbn [word_only] in Hb.
        apply andb_prop in Hb as [Hc Hb]. rewrite Hc.
        apply word_chars_to_end_spec. right. eauto. }
    rewrite Hre. reflexivity.
Qed.

(** ** The main loop *)





Lemma not_exit_more {A} (allowed : exn -> bool) (m : M A) :
  allowed SystemExit = false -> raises_only allowed m -> raises_only not_exit m.
Proof.
  intros Ha Hm. apply (raises_only_weaken allowed); [exact Hm |].
  intros [] H; try reflexivity. congruence.
Qed.

Lemma ends_of_main_more {A} (allowed : exn -> bool) (m : M A) :
  allowed FileNotFoundError = false -> allowed TypeError = false ->
  raises_only allowed m -> raises_only ends_of_main m.
Proof.
  intros H1 H2 Hm. apply (raises_only_weaken allowed); [exact Hm |].
  intros [] H; try reflexivity; congruence.
Qed.

Section MainRaises.

Variable display_statistics : M unit.
Hypothesis display_statistics_raises : raises_only no_exception display_statistics.







End MainRaises.


